(** * segypy: reading and writing SEG-Y files

    A shallow embedding of [segypy.py] (version 0.5.1) and the properties
    of its binary header / trace codec.

    Conventions of the embedding.
    - A file on disk is modelled by its contents, a [list byte]; the
      [filename] arguments of the Python functions are therefore dropped
      ([getSegyHeader] takes the bytes that [open(filename,'rb').read()]
      returns, [writeSegy] returns the bytes left on disk after [f.close()]).
    - Python exceptions are values of [exn]; a function that can raise
      returns a [result].  [print] calls are omitted, [warnings.warn] is
      returned as a list of messages.
    - Python dictionaries are [gmap]s; the two [OrderedDict] schemas, whose
      iteration order the writer relies on, are association lists.
    - Integers are [Z]; the fixed-width encodings are written out in
      [struct_pack] / [struct_unpack].  An IEEE-754 value (float32 or
      float64) is represented by its bit pattern; the conversions between
      single and double are the C conversions, under which a NaN keeps
      its sign and payload and comes out quiet.
    - [int(a / b)] on non-negative operands below 2^53 (file sizes) is the
      truncated quotient [Z.quot].
    - Arithmetic on a numpy scalar and a Python integer is the one of
      NumPy 1.x (the result is a 64-bit integer, nothing wraps at sixteen
      bits).  The general statements on the readers and on the preparation
      of trace headers are given for the numpy type names int32, uint32,
      int16, uint16, float32 and double and for header values in the int32
      range; the ['filename'] entry that [getSegyHeader] adds to the header
      dictionary has no counterpart here. *)

From Stdlib Require Import ZArith List String Strings.Byte QArith Lia.
From Stdlib Require Import Floats.SpecFloat.
From stdpp Require Import gmap strings list fin_maps.
Import ListNotations.

Local Open Scope string_scope.
Local Open Scope list_scope.
Local Open Scope Z_scope.

(** ** Exceptions and results *)

Inductive exn : Type :=
  | KeyError
  | ValueError (msg : string)
  | TypeError (msg : string)
  | IndexError
  | StructError
  | OverflowError
  | UnicodeEncodeError.

Inductive result (A : Type) : Type :=
  | Ok (a : A)
  | Err (e : exn).

Arguments Ok {A} a.
Arguments Err {A} e.

Notation "'let!' x ':=' e 'in' k" :=
  (match e with Ok x => k | Err err => Err err end)
  (at level 10, x pattern, e at level 100, k at level 200).

Definition is_ok {A} (r : result A) : bool :=
  match r with Ok _ => true | Err _ => false end.

(** [d[k]] on a dictionary: [KeyError] when the key is absent. *)
Definition dict_get {K} `{Countable K} {V} (d : gmap K V) (k : K) : result V :=
  match d !! k with
  | Some v => Ok v
  | None => Err KeyError
  end.

(** [l[i]] on a sequence, for a non-negative index. *)
Definition seq_get {A} (l : list A) (i : Z) : result A :=
  if i <? 0 then Err IndexError
  else match l !! Z.to_nat i with
       | Some v => Ok v
       | None => Err IndexError
       end.

(** Monadic map: the first failure aborts the loop. *)
Fixpoint mapM {A B} (f : A -> result B) (l : list A) : result (list B) :=
  match l with
  | [] => Ok []
  | x :: xs =>
      let! y := f x in
      let! ys := mapM f xs in
      Ok (y :: ys)
  end.

(** [range(n)] *)
Definition py_range (n : Z) : list Z :=
  map Z.of_nat (seq 0 (Z.to_nat n)).

(** ** Bytes *)

Definition byte_to_Z (b : byte) : Z := Z.of_N (Byte.to_N b).

Definition byte_of_Z (z : Z) : byte :=
  match Byte.of_N (Z.to_N (z mod 256)) with
  | Some b => b
  | None => Byte.x00
  end.

(** Python slice [data[a:b]] (step 1), with the clamping of out-of-range
    and the wrap of negative indices. *)
Definition slice_index (len i : Z) : Z :=
  if i <? 0 then Z.max 0 (len + i) else Z.min i len.

Definition py_slice {A} (data : list A) (a b : Z) : list A :=
  let len := Z.of_nat (length data) in
  let a' := slice_index len a in
  let b' := slice_index len b in
  take (Z.to_nat (b' - a')) (drop (Z.to_nat a') data).

(** Unsigned integer of a byte string, least significant byte first. *)
Fixpoint le_uint (bs : list byte) : Z :=
  match bs with
  | [] => 0
  | b :: rest => byte_to_Z b + 256 * le_uint rest
  end.

(** The [n] low-order bytes of [v], least significant first. *)
Fixpoint le_bytes (n : nat) (v : Z) : list byte :=
  match n with
  | O => []
  | S k => byte_of_Z v :: le_bytes k (v / 256)
  end.

Inductive byteorder : Type := BigEndian | LittleEndian.

Definition uint_of_bytes (e : byteorder) (bs : list byte) : Z :=
  match e with
  | BigEndian => le_uint (rev bs)
  | LittleEndian => le_uint bs
  end.

Definition bytes_of_uint (e : byteorder) (n : nat) (v : Z) : list byte :=
  match e with
  | BigEndian => rev (le_bytes n v)
  | LittleEndian => le_bytes n v
  end.

(** Cut a byte string into consecutive items of [sz] bytes. *)
Fixpoint chunks {A} (sz : nat) (n : nat) (bs : list A) : list (list A) :=
  match n with
  | O => []
  | S k => take sz bs :: chunks sz k (drop sz bs)
  end.

(** ** IEEE-754 bit patterns and the float64 -> float32 conversion *)

(** Decode a bit pattern with [ebits] exponent bits and [prec - 1]
    fraction bits. *)
Definition ieee_decode (prec ebits : Z) (bits : Z) : spec_float :=
  let fbits := prec - 1 in
  let frac := Z.land bits (Z.ones fbits) in
  let ex := Z.land (Z.shiftr bits fbits) (Z.ones ebits) in
  let sg := Z.testbit bits (fbits + ebits) in
  let bias := Z.ones (ebits - 1) in
  if ex =? 0 then
    match frac with
    | Zpos m => S754_finite sg m (1 - bias - fbits)
    | _ => S754_zero sg
    end
  else if ex =? Z.ones ebits then
    if frac =? 0 then S754_infinity sg else S754_nan
  else
    match frac + Z.shiftl 1 fbits with
    | Zpos m => S754_finite sg m (ex - bias - fbits)
    | _ => S754_nan
    end.

(** Encode a float of the format; a NaN becomes the quiet NaN. *)
Definition ieee_encode (prec ebits : Z) (x : spec_float) : Z :=
  let fbits := prec - 1 in
  let bias := Z.ones (ebits - 1) in
  let sign (s : bool) := if s then Z.shiftl 1 (fbits + ebits) else 0 in
  let field ex frac :=
    Z.lor (Z.shiftl (Z.land ex (Z.ones ebits)) fbits)
          (Z.land frac (Z.ones fbits)) in
  match x with
  | S754_zero s => sign s
  | S754_infinity s => Z.lor (sign s) (field (Z.ones ebits) 0)
  | S754_nan => field (Z.ones ebits) (Z.shiftl 1 (fbits - 1))
  | S754_finite s m e =>
      if Zpos m <? Z.shiftl 1 fbits
      then Z.lor (sign s) (field 0 (Zpos m))
      else Z.lor (sign s) (field (e + bias + fbits) (Zpos m))
  end.

(** Round a float to the format [(prec, emax)], nearest-even. *)
Definition ieee_round (prec emax : Z) (x : spec_float) : spec_float :=
  match x with
  | S754_finite s m e =>
      binary_normalize prec emax (if s then Zneg m else Zpos m) e s
  | _ => x
  end.

Definition is_finite (x : spec_float) : bool :=
  match x with
  | S754_zero _ | S754_finite _ _ _ => true
  | _ => false
  end.

(** NaN bit patterns: all exponent bits set and a non-zero fraction,
    that is, magnitude bits above those of the infinity. *)
Definition f32_is_nan (bits : Z) : bool := 0x7F800000 <? bits mod 2 ^ 31.
Definition f64_is_nan (bits : Z) : bool := 0x7FF0000000000000 <? bits mod 2 ^ 63.

(** The C conversion [(float) d] on bit patterns.  A NaN keeps its sign
    and the leading 22 bits of its payload and comes out quiet. *)
Definition f64_to_f32 (bits : Z) : Z :=
  if f64_is_nan bits then
    (bits / 2 ^ 63) mod 2 * 2 ^ 31 + 0x7FC00000 + (bits / 2 ^ 29) mod 2 ^ 22
  else ieee_encode 24 8 (ieee_round 24 128 (ieee_decode 53 11 bits)).

(** The C conversion [(double) f] on bit patterns: exact, and a NaN keeps
    its sign and payload and comes out quiet. *)
Definition f32_to_f64 (bits : Z) : Z :=
  if f32_is_nan bits then
    (bits / 2 ^ 31) mod 2 * 2 ^ 63 + 0x7FF8000000000000
    + (bits mod 2 ^ 22) * 2 ^ 29
  else ieee_encode 53 11 (ieee_decode 24 8 bits).

(** A single that passes through a Python float (a C double) and back
    into a single, as the items of [struct.unpack('f')] stored in a
    float32 array and as a numpy float32 handed to [struct.pack('f')]:
    every value comes back as it is, but a signalling NaN (magnitude bits
    between those of the infinity and of the quiet NaN) has its quiet
    bit, bit 22, set. *)
Definition f32_signalling (bits : Z) : bool :=
  (0x7F800000 <? bits mod 2 ^ 31) && (bits mod 2 ^ 31 <? 0x7FC00000).

Definition f32_quiet (bits : Z) : Z :=
  if f32_signalling bits then bits + 2 ^ 22 else bits.

(** [struct.pack('f', d)] raises [OverflowError] when a finite double
    rounds to an infinite single. *)
Definition f64_overflows_f32 (bits : Z) : bool :=
  let d := ieee_decode 53 11 bits in
  is_finite d && negb (is_finite (ieee_round 24 128 d)).

(** ** The [struct] module *)

(** Values that flow through [struct.pack] / [struct.unpack] and the numpy
    arrays of the program: integers, IEEE singles and doubles (by bit
    pattern) and a one-byte [bytes] object (format [c]). *)
Inductive value : Type :=
  | VInt (z : Z)
  | VF32 (bits : Z)
  | VF64 (bits : Z)
  | VChar (b : byte).

(** Format characters of [dtype2ctype]. *)
Inductive ctype : Type := c_l | c_L | c_h | c_H | c_f | c_d | c_c | c_B.

(** Standard sizes (a byte-order prefix is always present). *)
Definition calcsize (c : ctype) : Z :=
  match c with
  | c_l | c_L | c_f => 4
  | c_h | c_H => 2
  | c_d => 8
  | c_c | c_B => 1
  end.

(** A format string [endian + ...]: byte order, one repeated format
    character and its repeat count.  [fmt_ok = false] is a malformed
    string (a negative repeat count written with [str]). *)
Record cformat : Type := mkFormat {
  fmt_order : byteorder;
  fmt_code : ctype;
  fmt_count : Z;
  fmt_ok : bool
}.

(** [endian + ctype * number]: string repetition, empty for [number <= 0]. *)
Definition fmt_repeat (e : byteorder) (c : ctype) (number : Z) : cformat :=
  mkFormat e c (Z.max 0 number) true.

(** [endian + str(ns) + ctype] *)
Definition fmt_counted (e : byteorder) (ns : Z) (c : ctype) : cformat :=
  mkFormat e c ns (0 <=? ns).

Definition pack_int (e : byteorder) (size : nat) (lo hi : Z) (v : value)
  : result (list byte) :=
  match v with
  | VInt z =>
      if (lo <=? z) && (z <=? hi)
      then Ok (bytes_of_uint e size (z mod 2 ^ (8 * Z.of_nat size)))
      else Err StructError
  | _ => Err StructError
  end.

(** [float(z)], and its conversion to single precision. *)
Definition f64_of_Z (z : Z) : spec_float := binary_normalize 53 1024 z 0 false.
Definition f32_of_Z (z : Z) : spec_float := ieee_round 24 128 (f64_of_Z z).

(** [struct.pack] of one value.  Format [f] converts its argument to a
    C double first ([float(v)]) and the double to a single. *)
Definition pack_one (e : byteorder) (c : ctype) (v : value) : result (list byte) :=
  match c with
  | c_l => pack_int e 4 (- 2 ^ 31) (2 ^ 31 - 1) v
  | c_L => pack_int e 4 0 (2 ^ 32 - 1) v
  | c_h => pack_int e 2 (- 2 ^ 15) (2 ^ 15 - 1) v
  | c_H => pack_int e 2 0 (2 ^ 16 - 1) v
  | c_B => pack_int e 1 0 255 v
  | c_f =>
      match v with
      | VF32 b => Ok (bytes_of_uint e 4 (f32_quiet b))
      | VF64 b =>
          if f64_overflows_f32 b then Err OverflowError
          else Ok (bytes_of_uint e 4 (f64_to_f32 b))
      | VInt z =>
          if is_finite (f32_of_Z z)
          then Ok (bytes_of_uint e 4 (ieee_encode 24 8 (f32_of_Z z)))
          else Err OverflowError
      | _ => Err StructError
      end
  | c_d =>
      match v with
      | VF32 b => Ok (bytes_of_uint e 8 (f32_to_f64 b))
      | VF64 b => Ok (bytes_of_uint e 8 b)
      | VInt z =>
          if is_finite (f64_of_Z z)
          then Ok (bytes_of_uint e 8 (ieee_encode 53 11 (f64_of_Z z)))
          else Err OverflowError
      | _ => Err StructError
      end
  | c_c =>
      match v with
      | VChar b => Ok [b]
      | _ => Err StructError
      end
  end.

(** Two's complement reading of an unsigned [bits]-bit number. *)
Definition to_signed (bits : Z) (u : Z) : Z :=
  if u <? 2 ^ (bits - 1) then u else u - 2 ^ bits.

(** [struct.unpack] of one item, as it is stored in an array of the
    same type.  Format [f] returns a Python float, the single widened to
    a double; the array holds it as a single again. *)
Definition unpack_one (e : byteorder) (c : ctype) (bs : list byte) : value :=
  match c with
  | c_l => VInt (to_signed 32 (uint_of_bytes e bs))
  | c_L => VInt (uint_of_bytes e bs)
  | c_h => VInt (to_signed 16 (uint_of_bytes e bs))
  | c_H => VInt (uint_of_bytes e bs)
  | c_B => VInt (uint_of_bytes e bs)
  | c_f => VF32 (f32_quiet (uint_of_bytes e bs))
  | c_d => VF64 (uint_of_bytes e bs)
  | c_c => VChar (match bs with b :: _ => b | [] => Byte.x00 end)
  end.

(** [struct.pack(fmt, *values)] *)
Definition struct_pack (fmt : cformat) (values : list value) : result (list byte) :=
  if negb (fmt_ok fmt) then Err StructError
  else if negb (Z.of_nat (length values) =? fmt_count fmt) then Err StructError
  else
    let! items := mapM (pack_one (fmt_order fmt) (fmt_code fmt)) values in
    Ok (concat items).

(** [struct.unpack(fmt, buffer)]: the buffer must have exactly the size
    of the format. *)
Definition struct_unpack (fmt : cformat) (buffer : list byte) : result (list value) :=
  if negb (fmt_ok fmt) then Err StructError
  else if negb (Z.of_nat (length buffer) =? fmt_count fmt * calcsize (fmt_code fmt))
  then Err StructError
  else
    Ok (map (unpack_one (fmt_order fmt) (fmt_code fmt))
            (chunks (Z.to_nat (calcsize (fmt_code fmt)))
                    (Z.to_nat (fmt_count fmt)) buffer)).

(** ** Module constants and tables *)

Definition endian : byteorder := BigEndian.

(** Table for data type to character size *)
Definition dtype2csize : gmap string Z :=
  list_to_map
    [("int32", 4); ("uint32", 4); ("int16", 2); ("uint16", 2);
     ("float32", 4); ("double", 8); ("char", 1); ("uchar", 1)].

(** Table for data type to character type *)
Definition dtype2ctype : gmap string ctype :=
  list_to_map
    [("int32", c_l); ("uint32", c_L); ("int16", c_h); ("uint16", c_H);
     ("float32", c_f); ("double", c_d); ("char", c_c); ("uchar", c_B)].

Definition bytes_STFH : Z := 3200.
Definition bytes_SBFH : Z := 400.
Definition bytes_SFH : Z := 3600.
Definition bytes_STH : Z := 240.

(** 100 million samples per block for unpack *)
Definition nspb : Z := 100000000.

(** A field descriptor: ["pos"], ["type"], and the optional ["n"] and
    ["def"] entries.  The per-revision ["descr"] tables of the trace header
    fields are documentation only (no function reads them) and are left
    out; those of [DataSampleFormat] are the three tables below. *)
Record field : Type := mkField {
  f_pos : Z;
  f_type : string;
  f_n : option Z;
  f_def : option Z
}.

Definition schema : Type := list (string * field).

(** [d[key]] on an ordered dictionary. *)
Fixpoint schema_get (d : schema) (key : string) : result field :=
  match d with
  | [] => Err KeyError
  | (k, f) :: rest => if String.eqb k key then Ok f else schema_get rest key
  end.

(** SEGY binary file header *)
Definition SH_def : schema :=
  [
    ("Job", mkField 3200 "int32" None (Some 0));
    ("Line", mkField 3204 "int32" None (Some 0));
    ("Reel", mkField 3208 "int32" None (Some 0));
    ("DataTracePerEnsemble", mkField 3212 "int16" None (Some 0));
    ("AuxiliaryTracePerEnsemble", mkField 3214 "int16" None (Some 0));
    ("dt", mkField 3216 "uint16" None (Some 1000));
    ("dtOrig", mkField 3218 "uint16" None (Some 0));
    ("ns", mkField 3220 "uint16" None (Some 0));
    ("nsOrig", mkField 3222 "uint16" None (Some 0));
    ("DataSampleFormat", mkField 3224 "int16" None (Some 5));
    ("EnsembleFold", mkField 3226 "int16" None (Some 0));
    ("TraceSorting", mkField 3228 "int16" None (Some 0));
    ("VerticalSumCode", mkField 3230 "int16" None (Some 0));
    ("SweepFrequencyEnd", mkField 3234 "int16" None (Some 0));
    ("SweepLength", mkField 3236 "int16" None (Some 0));
    ("SweepType", mkField 3238 "int16" None (Some 0));
    ("SweepChannel", mkField 3240 "int16" None (Some 0));
    ("SweepTaperlengthStart", mkField 3242 "int16" None (Some 0));
    ("SweepTaperLengthEnd", mkField 3244 "int16" None (Some 0));
    ("TaperType", mkField 3246 "int16" None (Some 0));
    ("CorrelatedDataTraces", mkField 3248 "int16" None (Some 0));
    ("BinaryGain", mkField 3250 "int16" None (Some 0));
    ("AmplitudeRecoveryMethod", mkField 3252 "int16" None (Some 0));
    ("MeasurementSystem", mkField 3254 "int16" None (Some 0));
    ("ImpulseSignalPolarity", mkField 3256 "int16" None (Some 0));
    ("VibratoryPolarityCode", mkField 3258 "int16" None (Some 0));
    ("Unassigned1", mkField 3260 "int16" (Some 120) (Some 0));
    ("SegyFormatRevisionNumber", mkField 3500 "uint16" None (Some 100));
    ("FixedLengthTraceFlag", mkField 3502 "uint16" None (Some 0));
    ("NumberOfExtTextualHeaders", mkField 3504 "uint16" None (Some 0));
    ("Unassigned2", mkField 3506 "int16" (Some 47) (Some 0))
  ].

(** [SH_def["DataSampleFormat"]["descr"]] *)
Definition DataSampleFormat_descr : gmap Z (gmap Z string) :=
  list_to_map
    [(0, list_to_map
           [(1, "IBM Float"); (2, "32 bit Integer"); (3, "16 bit Integer");
            (8, "8 bit Integer")]);
     (1, list_to_map
           [(1, "4-byte IBM floating point");
            (2, "4-byte, two's complement integer");
            (3, "2-byte, two's complement integer");
            (4, "4-byte, fixed-point with gain (obsolete)");
            (5, "4-byte IEEE floating point");
            (8, "1-byte Integer")])].

(** [SH_def["DataSampleFormat"]["bps"]] *)
Definition DataSampleFormat_bps : gmap Z (gmap Z Z) :=
  list_to_map
    [(0, list_to_map [(1, 4); (2, 4); (3, 2); (8, 1)]);
     (1, list_to_map [(1, 4); (2, 4); (3, 2); (5, 4); (8, 1)])].

(** [SH_def["DataSampleFormat"]["datatype"]] *)
Definition DataSampleFormat_datatype : gmap Z (gmap Z string) :=
  list_to_map
    [(0, list_to_map [(1, "ibm"); (2, "int32"); (3, "int16"); (8, "uchar")]);
     (1, list_to_map
           [(1, "ibm"); (2, "int32"); (3, "int16"); (5, "float32");
            (8, "uchar")])].

(** SEGY trace header *)
Definition STH_def : schema :=
  [
    ("TraceSequenceLine", mkField 0 "int32" None None);
    ("TraceSequenceFile", mkField 4 "int32" None None);
    ("FieldRecord", mkField 8 "int32" None None);
    ("TraceNumber", mkField 12 "int32" None None);
    ("EnergySourcePoint", mkField 16 "int32" None None);
    ("cdp", mkField 20 "int32" None None);
    ("cdpTrace", mkField 24 "int32" None None);
    ("TraceIdenitifactionCode", mkField 28 "uint16" None None);
    ("NSummedTraces", mkField 30 "int16" None None);
    ("NStackedTraces", mkField 32 "int16" None None);
    ("DataUse", mkField 34 "int16" None None);
    ("offset", mkField 36 "int32" None None);
    ("ReceiverGroupElevation", mkField 40 "int32" None None);
    ("SourceSurfaceElevation", mkField 44 "int32" None None);
    ("SourceDepth", mkField 48 "int32" None None);
    ("ReceiverDatumElevation", mkField 52 "int32" None None);
    ("SourceDatumElevation", mkField 56 "int32" None None);
    ("SourceWaterDepth", mkField 60 "int32" None None);
    ("GroupWaterDepth", mkField 64 "int32" None None);
    ("ElevationScalar", mkField 68 "int16" None None);
    ("SourceGroupScalar", mkField 70 "int16" None None);
    ("SourceX", mkField 72 "int32" None None);
    ("SourceY", mkField 76 "int32" None None);
    ("GroupX", mkField 80 "int32" None None);
    ("GroupY", mkField 84 "int32" None None);
    ("CoordinateUnits", mkField 88 "int16" None None);
    ("WeatheringVelocity", mkField 90 "int16" None None);
    ("SubWeatheringVelocity", mkField 92 "int16" None None);
    ("SourceUpholeTime", mkField 94 "int16" None None);
    ("GroupUpholeTime", mkField 96 "int16" None None);
    ("SourceStaticCorrection", mkField 98 "int16" None None);
    ("GroupStaticCorrection", mkField 100 "int16" None None);
    ("TotalStaticApplied", mkField 102 "int16" None None);
    ("LagTimeA", mkField 104 "int16" None None);
    ("LagTimeB", mkField 106 "int16" None None);
    ("DelayRecordingTime", mkField 108 "int16" None None);
    ("MuteTimeStart", mkField 110 "int16" None None);
    ("MuteTimeEND", mkField 112 "int16" None None);
    ("ns", mkField 114 "uint16" None None);
    ("dt", mkField 116 "uint16" None None);
    ("GainType", mkField 119 "int16" None None);
    ("InstrumentGainConstant", mkField 120 "int16" None None);
    ("InstrumentInitialGain", mkField 122 "int16" None None);
    ("Correlated", mkField 124 "int16" None None);
    ("SweepFrequenceStart", mkField 126 "int16" None None);
    ("SweepFrequenceEnd", mkField 128 "int16" None None);
    ("SweepLength", mkField 130 "int16" None None);
    ("SweepType", mkField 132 "int16" None None);
    ("SweepTraceTaperLengthStart", mkField 134 "int16" None None);
    ("SweepTraceTaperLengthEnd", mkField 136 "int16" None None);
    ("TaperType", mkField 138 "int16" None None);
    ("AliasFilterFrequency", mkField 140 "int16" None None);
    ("AliasFilterSlope", mkField 142 "int16" None None);
    ("NotchFilterFrequency", mkField 144 "int16" None None);
    ("NotchFilterSlope", mkField 146 "int16" None None);
    ("LowCutFrequency", mkField 148 "int16" None None);
    ("HighCutFrequency", mkField 150 "int16" None None);
    ("LowCutSlope", mkField 152 "int16" None None);
    ("HighCutSlope", mkField 154 "int16" None None);
    ("YearDataRecorded", mkField 156 "int16" None None);
    ("DayOfYear", mkField 158 "int16" None None);
    ("HourOfDay", mkField 160 "int16" None None);
    ("MinuteOfHour", mkField 162 "int16" None None);
    ("SecondOfMinute", mkField 164 "int16" None None);
    ("TimeBaseCode", mkField 166 "int16" None None);
    ("TraceWeightningFactor", mkField 168 "int16" None None);
    ("GeophoneGroupNumberRoll1", mkField 170 "int16" None None);
    ("GeophoneGroupNumberFirstTraceOrigField", mkField 172 "int16" None None);
    ("GeophoneGroupNumberLastTraceOrigField", mkField 174 "int16" None None);
    ("GapSize", mkField 176 "int16" None None);
    ("OverTravel", mkField 178 "int16" None None);
    ("cdpX", mkField 180 "int32" None None);
    ("cdpY", mkField 184 "int32" None None);
    ("Inline3D", mkField 188 "int32" None None);
    ("Crossline3D", mkField 192 "int32" None None);
    ("ShotPoint", mkField 192 "int32" None None);
    ("ShotPointScalar", mkField 200 "int16" None None);
    ("TraceValueMeasurementUnit", mkField 202 "int16" None None);
    ("TransductionConstantMantissa", mkField 204 "int32" None None);
    ("TransductionConstantPower", mkField 208 "int16" None None);
    ("TransductionUnit", mkField 210 "int16" None None);
    ("TraceIdentifier", mkField 212 "int16" None None);
    ("ScalarTraceHeader", mkField 214 "int16" None None);
    ("SourceType", mkField 216 "int16" None None);
    ("SourceEnergyDirectionMantissa", mkField 218 "int32" None None);
    ("SourceEnergyDirectionExponent", mkField 222 "int16" None None);
    ("SourceMeasurementMantissa", mkField 224 "int32" None None);
    ("SourceMeasurementExponent", mkField 228 "int16" None None);
    ("SourceMeasurementUnit", mkField 230 "int16" None None);
    ("UnassignedInt1", mkField 232 "int32" None None);
    ("UnassignedInt2", mkField 236 "int32" None None)
  ].

(** [table[revno][dsf]] *)
Definition table_get {V} (t : gmap Z (gmap Z V)) (revno dsf : Z) : result V :=
  let! row := dict_get t revno in
  dict_get row dsf.

(** ** numpy arrays *)

(** The result of [getValue]: a numpy scalar ([Value[0]]) or a 1-D array. *)
Inductive pyobj : Type :=
  | Scalar (v : value)
  | Array (vs : list value).

(** A 2-D array: element type name, shape and rows.  Element types are
    named as numpy prints them (["int32"], ["float64"], ...), except for
    the arrays [getValue] builds, which carry the [dtype] string they were
    created with. *)
Record ndarray : Type := mkArray {
  dtype : string;
  shape : Z * Z;
  rows : list (list value)
}.

(** Storing a Python integer into an array of the given element type
    (C conversion, wrapping). *)
Definition np_store (dt : string) (v : Z) : value :=
  if String.eqb dt "int32" then VInt (to_signed 32 (v mod 2 ^ 32))
  else if String.eqb dt "uint32" then VInt (v mod 2 ^ 32)
  else if String.eqb dt "int16" then VInt (to_signed 16 (v mod 2 ^ 16))
  else if String.eqb dt "uint16" then VInt (v mod 2 ^ 16)
  else if String.eqb dt "int8" then VInt (to_signed 8 (v mod 2 ^ 8))
  else if String.eqb dt "uchar" then VInt (v mod 2 ^ 8)
  else if String.eqb dt "float32" then VF32 (ieee_encode 24 8 (f32_of_Z v))
  else if String.eqb dt "double" then VF64 (ieee_encode 53 11 (f64_of_Z v))
  else VInt v.

(** [x == 0] on an array element. *)
Definition value_is_zero (v : value) : bool :=
  match v with
  | VInt z => z =? 0
  | VF32 b => (b =? 0) || (b =? 2 ^ 31)
  | VF64 b => (b =? 0) || (b =? 2 ^ 63)
  | VChar _ => false
  end.

(** [Data.astype('float32')] on one element. *)
Definition astype_float32 (v : value) : value :=
  match v with
  | VF64 b => VF32 (f64_to_f32 b)
  | VInt z => VF32 (ieee_encode 24 8 (f32_of_Z z))
  | _ => v
  end.

Definition ndarray_astype_float32 (Data : ndarray) : ndarray :=
  mkArray "float32" (shape Data) (map (map astype_float32) (rows Data)).

(** [np.reshape(Data, (r, c))] of a flat sequence. *)
Definition np_reshape (dt : string) (flat : list value) (r c : Z) : result ndarray :=
  if (r <? 0) || (c <? 0) then Err (ValueError "negative dimensions not allowed")
  else if negb (Z.of_nat (length flat) =? r * c)
  then Err (ValueError "cannot reshape array")
  else Ok (mkArray dt (r, c) (chunks (Z.to_nat c) (Z.to_nat r) flat)).

(** [Data[:, a:b]] *)
Definition ndarray_cols (Data : ndarray) (a b : Z) : ndarray :=
  let c := snd (shape Data) in
  mkArray (dtype Data)
          (fst (shape Data), slice_index c b - slice_index c a)
          (map (fun row => py_slice row a b) (rows Data)).

(** [Data[:, i]] for [0 <= i] *)
Definition ndarray_col (Data : ndarray) (i : Z) : result (list value) :=
  if (i <? 0) || (snd (shape Data) <=? i) then Err IndexError
  else mapM (fun row => seq_get row i) (rows Data).

(** The shape is the shape of the rows. *)
Definition ndarray_wf (Data : ndarray) : Prop :=
  0 <= fst (shape Data) /\ 0 <= snd (shape Data) /\
  Z.of_nat (length (rows Data)) = fst (shape Data) /\
  Forall (fun row => Z.of_nat (length row) = snd (shape Data)) (rows Data).

(** ** Reading scalars and vectors: [getValue], [ibm2ieee] *)

(** [16**k] on a Python int: an int for [k >= 0], the float
    [16.0**k] otherwise; both exact powers of two. *)
Definition pow16 (k : Z) : Q := Qpower (inject_Z 16) k.

(** [ibm_float == 0] compares a [bytes] object with an [int]: never equal. *)
Definition bytes_eq_int (b : list byte) (n : Z) : bool := false.

(** Convert float IBM to IEEE.  Every operation of the Python body is
    exact on doubles (a 24-bit integer scaled by powers of two), so the
    returned float is given by its rational value. *)
Definition ibm2ieee (ibm_float : list byte) : result Q :=
  let dividend := inject_Z (16 ^ 6) in
  if bytes_eq_int ibm_float 0 then Ok 0%Q
  else
    let! items := struct_unpack (fmt_repeat BigEndian c_B 4) ibm_float in
    match items with
    | [VInt istic; VInt a; VInt b; VInt c] =>
        let '(sign, istic) :=
          if 128 <=? istic then ((-1)%Q, istic - 128) else (1%Q, istic) in
        let mant :=
          (inject_Z (Z.shiftl a 16) + inject_Z (Z.shiftl b 8) + inject_Z c)%Q in
        let ieee_float := (sign * pow16 (istic - 64) * (mant / dividend))%Q in
        Ok ieee_float
    | _ => Err StructError
    end.

(** Storing the float computed by [ibm2ieee] into a float32 array:
    rounding of a dyadic rational to single precision. *)
Definition f32_of_dyadic (q : Q) : Z :=
  ieee_encode 24 8
    (binary_normalize 24 128 (Qnum q) (- Z.log2 (Zpos (Qden q))) false).

(** [np.dtype(name)] for the type names this module uses: numpy has no
    type named ['char'], ['uchar'] or ['ibm'], and [np.empty] and
    [np.zeros] raise [TypeError] for them before they look at the
    shape. *)
Definition np_dtype_known (dt : string) : bool :=
  negb (String.eqb dt "char" || String.eqb dt "uchar" || String.eqb dt "ibm").

Definition np_dtype_error (dt : string) : exn :=
  TypeError (String.append "data type '" (String.append dt "' not understood")).

(** One iteration of the block loop of [getValue]. *)
Definition getValue_block (data : list byte) (index : Z) (ct : ctype)
    (csize : Z) (endian : byteorder) (number nblock : Z)
    (Value : list value) (i : Z) : result (list value) :=
  let ns := if i =? nblock - 1 then number mod nspb else nspb in
  let si1 := nspb * i in
  let si2 := si1 + ns in
  let bi1 := index + si1 * csize in
  let bi2 := bi1 + ns * csize in
  let cformat := fmt_repeat endian ct ns in
  let! items := struct_unpack cformat (py_slice data bi1 bi2) in
  (* Value[si1:si2] = items; the slice always lies inside Value *)
  Ok (take (Z.to_nat si1) Value ++ items ++ drop (Z.to_nat si2) Value).

Fixpoint getValue_blocks (data : list byte) (index : Z) (ct : ctype)
    (csize : Z) (endian : byteorder) (number nblock : Z)
    (Value : list value) (blocks : list Z) : result (list value) :=
  match blocks with
  | [] => Ok Value
  | i :: rest =>
      let! Value' := getValue_block data index ct csize endian number nblock Value i in
      getValue_blocks data index ct csize endian number nblock Value' rest
  end.

Definition getValue (data : list byte) (index : Z) (dt : string)
    (endian : byteorder) (number : Z) : result pyobj :=
  let! Value :=
    if String.eqb dt "ibm" then
      if number <? 0 then Err (ValueError "negative dimensions are not allowed")
      else
        mapM (fun i =>
                let index_ibm := i * 4 + index in
                let! x := ibm2ieee (py_slice data index_ibm (index_ibm + 4)) in
                Ok (VF32 (f32_of_dyadic x)))
             (py_range number)
    else
      let! ct := dict_get dtype2ctype dt in
      let! csize := dict_get dtype2csize dt in
      (* Value = np.empty(number, dtype=dtype) *)
      if negb (np_dtype_known dt) then Err (np_dtype_error dt)
      else if number <? 0 then Err (ValueError "negative dimensions are not allowed")
      else
        let Value := replicate (Z.to_nat number) (VInt 0) in
        let nblock := Z.quot number nspb + 1 in
        getValue_blocks data index ct csize endian number nblock Value
                        (py_range nblock)
  in
  if number =? 1 then
    let! v := seq_get Value 0 in Ok (Scalar v)
  else Ok (Array Value).

Definition packValue (v : value) (dt : string) (endian : byteorder)
    (number : Z) : result (list byte) :=
  let! ct := dict_get dtype2ctype dt in
  let cformat := fmt_repeat endian ct number in
  struct_pack cformat [v].

(** ** Revision number and bytes per sample *)

(** The binary file header as a dictionary.  All fields of [SH_def] have
    integer types, so the stored values are integers. *)
Definition getRevisionNumber (SH : gmap string Z) : result Z :=
  let! revno := dict_get SH "SegyFormatRevisionNumber" in
  if revno =? 0 then Ok 1
  else if revno =? 100 then Ok 1
  else if revno =? 1 then Ok 1
  else if revno =? 256 then Ok 1
  else Err (ValueError "Unknown revno number:").

Definition getBytePerSample (SH : gmap string Z) : result Z :=
  let! revno := getRevisionNumber SH in
  let! dsf := dict_get SH "DataSampleFormat" in
  table_get DataSampleFormat_bps revno dsf.

(** ** Preparing headers for writing *)

(** Get default Segy header values. *)
Definition getDefaultSegyHeader : gmap string Z :=
  fold_left
    (fun SH '(key, keyDict) =>
       let val := match f_def keyDict with
                  | Some d => d
                  | None => 0 (* If no default value, set zero. *)
                  end in
       <[key := val]> SH)
    SH_def ∅.

(** Get data sample format from array data type.  The first component
    is the list of warnings issued.  The [astype] result is bound to the
    local name [Data] only: the caller's array is untouched. *)
Definition getDSF_fromDataType (Data : ndarray) : list string * result Z :=
  let '(warned, Data) :=
    if String.eqb (dtype Data) "float64"
    then (["Cast data type float64 to float32."], ndarray_astype_float32 Data)
    else ([], Data) in
  (warned,
   if String.eqb (dtype Data) "int32" then Ok 2
   else if String.eqb (dtype Data) "int16" then Ok 3
   else if String.eqb (dtype Data) "float32" then Ok 5
   else if String.eqb (dtype Data) "int8" then Ok 8
   else Err (TypeError "Cannot handle data type:")).

(** Set Segy file header values ([dt], [ntraces] and [ns] are integers
    here, so [int(...)] is the identity). *)
Definition setSegyHeaders (SH : gmap string Z) (ntraces ns dt dsf : option Z)
  : gmap string Z :=
  let SH := match ntraces with Some v => <["ntraces" := v]> SH | None => SH end in
  let SH := match ns with Some v => <["ns" := v]> SH | None => SH end in
  let SH := match dt with Some v => <["dt" := v]> SH | None => SH end in
  let SH := match dsf with Some v => <["DataSampleFormat" := v]> SH | None => SH end in
  SH.

(** [STH[key][a] = v] on a dictionary of int32 arrays. *)
Definition sth_set (STH : gmap string (list value)) (key : string) (a : Z) (v : Z)
  : result (gmap string (list value)) :=
  let! arr := dict_get STH key in
  if (a <? 0) || (Z.of_nat (length arr) <=? a) then Err IndexError
  else Ok (<[key := <[Z.to_nat a := np_store "int32" v]> arr]> STH).

Fixpoint sth_defaults (STH : gmap string (list value)) (ns dt : Z) (todo : list Z)
  : result (gmap string (list value)) :=
  match todo with
  | [] => Ok STH
  | a :: rest =>
      let! STH := sth_set STH "TraceSequenceLine" a (a + 1) in
      let! STH := sth_set STH "TraceSequenceFile" a (a + 1) in
      let! STH := sth_set STH "FieldRecord" a 1000 in
      let! STH := sth_set STH "TraceNumber" a (a + 1) in
      let! STH := sth_set STH "ns" a ns in
      let! STH := sth_set STH "dt" a dt in
      sth_defaults STH ns dt rest
  end.

(** [for a in range(ntraces): STH[key][a] = mySTH[key][a]] *)
Fixpoint sth_copy (STH : gmap string (list value)) (key : string)
    (src : list Z) (todo : list Z) : result (gmap string (list value)) :=
  match todo with
  | [] => Ok STH
  | a :: rest =>
      let! v := seq_get src a in
      let! STH := sth_set STH key a v in
      sth_copy STH key src rest
  end.

Fixpoint sth_overrides (STH : gmap string (list value))
    (mySTH : list (string * list Z)) (ntraces : Z)
  : result (gmap string (list value)) :=
  match mySTH with
  | [] => Ok STH
  | (key, src) :: rest =>
      let! STH := sth_copy STH key src (py_range ntraces) in
      sth_overrides STH rest ntraces
  end.

(** Set Segy trace header values. *)
Definition setSegyTraceHeaders (mySTH : option (list (string * list Z)))
    (ntraces ns dt : Z) : result (gmap string (list value)) :=
  if ntraces <? 0 then Err (ValueError "negative dimensions are not allowed") (* np.zeros *)
  else
    let STH : gmap string (list value) :=
      fold_left
        (fun STH '(key, _) => <[key := replicate (Z.to_nat ntraces) (VInt 0)]> STH)
        STH_def ∅ in
    let! STH := sth_defaults STH ns dt (py_range ntraces) in
    (* Overwrite using user-supplied header values *)
    match mySTH with
    | Some mySTH => sth_overrides STH mySTH ntraces
    | None => Ok STH
    end.

(** ** Reading *)

Definition as_int (o : pyobj) : result Z :=
  match o with
  | Scalar (VInt z) => Ok z
  | _ => Err (TypeError "header value is not an integer")
  end.

Fixpoint getSegyHeader_fields (data : list byte) (SH : gmap string Z)
    (fields : schema) : result (gmap string Z) :=
  match fields with
  | [] => Ok SH
  | (key, d) :: rest =>
      let pos := f_pos d in
      let fmt := f_type d in
      let! o := getValue data pos fmt endian 1 in
      let! v := as_int o in
      getSegyHeader_fields data (<[key := v]> SH) rest
  end.

(** Read Segy binary file headers. *)
Definition getSegyHeader (data : list byte) : result (gmap string Z * list byte) :=
  let! SH := getSegyHeader_fields data ∅ SH_def in
  let! bps := getBytePerSample SH in
  let! ns := dict_get SH "ns" in
  let traceByteSize := bytes_STH + ns * bps in
  let filesize := Z.of_nat (length data) in
  let ntraces := Z.quot (filesize - bytes_SFH) traceByteSize in
  Ok (<["ntraces" := ntraces]> SH, data).

Fixpoint getSegyTraceHeader_all (data : list byte) (traceByteSize TH_pos : Z)
    (TH_format : string) (TH_value : list value) (todo : list Z)
  : result (list value) :=
  match todo with
  | [] => Ok TH_value
  | itrace :: rest =>
      let pos := bytes_SFH + traceByteSize * itrace + TH_pos in
      let! o := getValue data pos TH_format endian 1 in
      match o with
      | Scalar v =>
          getSegyTraceHeader_all data traceByteSize TH_pos TH_format
            (<[Z.to_nat itrace := v]> TH_value) rest
      | Array _ => Err (ValueError "setting an array element with a sequence.")
      end
  end.

(** Get the value for a trace header [TH_name]. *)
Definition getSegyTraceHeader (SH : gmap string Z) (data : list byte)
    (TH_name : string) (TH_dict : option schema) (itrace : Z) : result pyobj :=
  let! d :=
    match TH_dict with
    | None => schema_get STH_def TH_name
    | Some TH_dict => schema_get TH_dict TH_name
    end in
  let TH_pos := f_pos d in
  let TH_format := f_type d in
  let! ntraces := dict_get SH "ntraces" in
  let! ns := dict_get SH "ns" in
  let! bps := getBytePerSample SH in
  let traceByteSize := bytes_STH + ns * bps in
  let! TH_value :=
    if itrace =? 0 then (* get all traces *)
      (* TH_value = np.zeros(ntraces, dtype=TH_format) *)
      if negb (np_dtype_known TH_format) then Err (np_dtype_error TH_format)
      else if ntraces <? 0
      then Err (ValueError "negative dimensions are not allowed")
      else
        let TH_value := replicate (Z.to_nat ntraces) (np_store TH_format 0) in
        let! TH_value :=
          getSegyTraceHeader_all data traceByteSize TH_pos TH_format TH_value
                                 (py_range ntraces) in
        Ok (Array TH_value)
    else (* get one trace *)
      let pos := bytes_SFH + traceByteSize * (itrace - 1) + TH_pos in
      getValue data pos TH_format endian 1
  in
  (* If dt in STH is zero, read from SBFH. *)
  if String.eqb TH_name "dt" then
    match TH_value with
    | Array vs =>
        let! first := seq_get vs 0 in
        if value_is_zero first then
          let! dt := dict_get SH "dt" in
          Ok (Array (map (fun _ => np_store TH_format dt) vs))
        else Ok TH_value
    | Scalar _ => Err IndexError (* invalid index to scalar variable *)
    end
  else Ok TH_value.

Fixpoint getSegyTraceHeaders_loop (SH : gmap string Z) (data : list byte)
    (TH_read : schema) (itrace : Z) (acc : gmap string pyobj) (keys : schema)
  : result (gmap string pyobj) :=
  match keys with
  | [] => Ok acc
  | (key, _) :: rest =>
      let! TH_value := getSegyTraceHeader SH data key (Some TH_read) itrace in
      getSegyTraceHeaders_loop SH data TH_read itrace (<[key := TH_value]> acc) rest
  end.

(** Get the value for trace headers in [TH_dict]. *)
Definition getSegyTraceHeaders (SH : gmap string Z) (data : list byte)
    (TH_dict : option schema) (itrace : Z) : result (gmap string pyobj) :=
  let TH_read := match TH_dict with None => STH_def | Some d => d end in
  getSegyTraceHeaders_loop SH data TH_read itrace ∅ TH_read.

Definition pyobj_items (o : pyobj) : list value :=
  match o with
  | Scalar v => [v]
  | Array vs => vs
  end.

(** [Data[Data > 128] -= 256] on one element. *)
Definition fix_int8 (v : value) : value :=
  match v with
  | VInt z => if 128 <? z then VInt (z - 256) else VInt z
  | _ => v
  end.

(** Read Segy file: returns [(Data, SH, SegyTraceHeaders)], without
    [Data] when [TH_only]. *)
Definition readSegy (data : list byte) (TH_dict : option schema) (TH_only : bool)
  : result (option ndarray * gmap string Z * gmap string pyobj) :=
  let! (SH, data) := getSegyHeader data in
  let! SegyTraceHeaders := getSegyTraceHeaders SH data TH_dict 0 in
  if TH_only then Ok (None, SH, SegyTraceHeaders)
  else
    let! bps := getBytePerSample SH in
    let ndummy_samples := Z.quot bytes_STH bps in
    let index := bytes_SFH in
    let filesize := Z.of_nat (length data) in
    let nd := Z.quot (filesize - bytes_SFH) bps in
    let! revno := getRevisionNumber SH in
    let! dsf := dict_get SH "DataSampleFormat" in
    let! DataDescr := table_get DataSampleFormat_descr revno dsf in
    let! dt := table_get DataSampleFormat_datatype revno dsf in
    let! Data := getValue data index dt endian nd in
    let! ntraces := dict_get SH "ntraces" in
    let! ns := dict_get SH "ns" in
    let nsDummyTrace := ns + ndummy_samples in
    let dt_arr := if String.eqb dt "ibm" then "float32" else dt in
    let! Data := np_reshape dt_arr (pyobj_items Data) ntraces nsDummyTrace in
    (* Strip off header dummy data *)
    let Data := ndarray_cols Data ndummy_samples nsDummyTrace in
    (* Deal with 8-bit integer *)
    let Data :=
      if dsf =? 8
      then mkArray (dtype Data) (shape Data) (map (map fix_int8) (rows Data))
      else Data in
    Ok (Some Data, SH, SegyTraceHeaders).

(** Read one trace: [(SegyTraceHeaders, SegyTraceData)]. *)
Definition readSegyTrace (data : list byte) (TH_dict : option schema) (itrace : Z)
  : result (gmap string pyobj * pyobj) :=
  let! (SH, data) := getSegyHeader data in
  let! SegyTraceHeaders := getSegyTraceHeaders SH data TH_dict itrace in
  let! bps := getBytePerSample SH in
  let! ns := dict_get SH "ns" in
  let bytesTrace := bytes_STH + ns * bps in
  let index := bytes_SFH + (itrace - 1) * bytesTrace + bytes_STH in
  let! revno := getRevisionNumber SH in
  let! dsf := dict_get SH "DataSampleFormat" in
  let! dt := table_get DataSampleFormat_datatype revno dsf in
  let! SegyTraceData := getValue data index dt endian ns in
  Ok (SegyTraceHeaders, SegyTraceData).

(** ** Writing *)

(** A file opened for writing: its contents and the stream position. *)
Record file : Type := mkFile {
  contents : list byte;
  fpos : Z
}.

Definition f_open_wb : file := mkFile [] 0.

Definition f_seek (f : file) (index : Z) : file :=
  mkFile (contents f) index.

(** [f.write(bs)]: overwrite at the position; a position past the end
    leaves a gap of zero bytes. *)
Definition f_write (f : file) (bs : list byte) : file :=
  match bs with
  | [] => f
  | _ =>
      let p := Z.to_nat (fpos f) in
      let c := contents f in
      mkFile (take p c ++ replicate (p - length c)%nat Byte.x00 ++ bs
                ++ drop (p + length bs)%nat c)
             (fpos f + Z.of_nat (length bs))
  end.

(** [STFH.encode('ascii')] *)
Definition encode_ascii (s : string) : result (list byte) :=
  let bs := list_byte_of_string s in
  if forallb (fun b => byte_to_Z b <? 128) bs then Ok bs
  else Err UnicodeEncodeError.

(** The binary file header block: every field of [SH_def] packed in
    declaration order. *)
Fixpoint pack_SH (SH : gmap string Z) (fields : schema) : result (list byte) :=
  match fields with
  | [] => Ok []
  | (key, d) :: rest =>
      let dt := f_type d in
      let! v := dict_get SH key in
      let! bytesObject := packValue (VInt v) dt endian 1 in
      let! tail := pack_SH SH rest in
      Ok (bytesObject ++ tail)
  end.

(** The trace header block of trace [itrace]. *)
Fixpoint pack_STH (STH : gmap string (list value)) (itrace : Z) (fields : schema)
  : result (list byte) :=
  match fields with
  | [] => Ok []
  | (key, d) :: rest =>
      let dt := f_type d in
      let! arr := dict_get STH key in
      let! v := seq_get arr itrace in
      let! bytesObject := packValue v dt endian 1 in
      let! tail := pack_STH STH itrace rest in
      Ok (bytesObject ++ tail)
  end.

(** The loop over traces; [index] is the byte offset of the next trace. *)
Fixpoint write_traces (f : file) (Data : ndarray)
    (STH : gmap string (list value)) (ns : Z) (ct : ctype)
    (traceByteSize : Z) (index : Z) (todo : list Z) : result file :=
  match todo with
  | [] => Ok f
  | itrace :: rest =>
      let! header := pack_STH STH itrace STH_def in
      let! aray1d := ndarray_col Data itrace in
      let cformat := fmt_counted endian ns ct in
      let! aray1dPack := struct_pack cformat aray1d in
      let TraceByteArray := header ++ aray1dPack in
      (* Write to file once per trace *)
      let f := f_write (f_seek f index) TraceByteArray in
      write_traces f Data STH ns ct traceByteSize (index + traceByteSize) rest
  end.

(** Write Segy file to disk: the bytes of the file after [f.close()]. *)
Definition writeSegyStructure (Data : ndarray) (STFH : string)
    (SH : gmap string Z) (STH : gmap string (list value)) : result (list byte) :=
  let f := f_open_wb in
  (* Write textual file header *)
  let! text := encode_ascii STFH in
  let f := f_write f text in
  (* Variables used from the input SH *)
  let! revno := getRevisionNumber SH in
  let! dsf := dict_get SH "DataSampleFormat" in
  let! ntraces := dict_get SH "ntraces" in
  let! ns := dict_get SH "ns" in
  let! DataDescr := table_get DataSampleFormat_descr revno dsf in
  (* Write binary file header *)
  let! SH_ByteArray := pack_SH SH SH_def in
  let index := bytes_STFH in
  let f := f_write (f_seek f index) SH_ByteArray in
  let index := index + bytes_SBFH in
  let! dt := table_get DataSampleFormat_datatype revno dsf in
  let! ct := dict_get dtype2ctype dt in
  let! bps := table_get DataSampleFormat_bps revno dsf in
  let traceByteSize := bytes_STH + ns * bps in
  let! f := write_traces f Data STH ns ct traceByteSize index (py_range ntraces) in
  Ok (contents f).

(** Write Segy file to disk.  [Data] is [ns] by [ntraces]. *)
Definition writeSegy (Data : ndarray) (dt : Z) (STFH : string)
    (mySTH : option (list (string * list Z))) : list string * result (list byte) :=
  let '(ns, ntraces) := shape Data in
  (* Prepare the Segy binary file header *)
  let SH := getDefaultSegyHeader in
  let '(warned, dsf) := getDSF_fromDataType Data in
  (warned,
   let! dsf := dsf in
   let SH := setSegyHeaders SH (Some ntraces) (Some ns) (Some dt) (Some dsf) in
   (* Prepare the Segy trace header *)
   let! STH := setSegyTraceHeaders mySTH ntraces ns dt in
   writeSegyStructure Data STFH SH STH).

(** ** Specification-side definitions *)

(** The [number] consecutive items of format [ct] that start at byte
    [index] of [data]. *)
Definition items_at (data : list byte) (index : Z) (e : byteorder) (ct : ctype)
    (number : Z) : list value :=
  map (unpack_one e ct)
      (chunks (Z.to_nat (calcsize ct)) (Z.to_nat number)
              (drop (Z.to_nat index) data)).

(** The single item of format [ct] at byte [index]. *)
Definition item_at (data : list byte) (index : Z) (e : byteorder) (ct : ctype)
  : value :=
  unpack_one e ct (take (Z.to_nat (calcsize ct)) (drop (Z.to_nat index) data)).

Definition int_value (v : value) : Z :=
  match v with
  | VInt z => z
  | _ => 0
  end.

(** Format character and size of a field, through the two tables. *)
Definition field_ctype (d : field) : ctype :=
  match dtype2ctype !! f_type d with
  | Some ct => ct
  | None => c_l
  end.

(** The value of field [d] decoded at its declared offset from [base]. *)
Definition field_at (data : list byte) (base : Z) (d : field) : value :=
  item_at data (base + f_pos d) endian (field_ctype d).

(** A dictionary with one entry per field of a schema. *)
Definition schema_map {V} (g : field -> V) (fields : schema) (init : gmap string V)
  : gmap string V :=
  fold_left (fun m '(key, d) => <[key := g d]> m) fields init.

(** The binary file header decoded field by field at the declared offsets. *)
Definition decoded_SH (data : list byte) : gmap string Z :=
  schema_map (fun d => int_value (field_at data 0 d)) SH_def ∅.

(** All fields of a schema have an integer type, one that numpy knows
    under the name the tables use, and lie within [limit] bytes. *)
Definition is_int_ctype (ct : ctype) : bool :=
  match ct with
  | c_l | c_L | c_h | c_H => true
  | _ => false
  end.

Definition field_within (limit : Z) (d : field) : bool :=
  match dtype2ctype !! f_type d with
  | Some ct => is_int_ctype ct && (0 <=? f_pos d) && (f_pos d + calcsize ct <=? limit)
  | None => false
  end.

Definition schema_within (limit : Z) (fields : schema) : bool :=
  forallb (fun kd => field_within limit (snd kd)) fields.

(** The value of trace-header field [d] of trace [j] (0-based), decoded
    at byte [3600 + j * traceByteSize + pos]. *)
Definition trace_field (data : list byte) (traceByteSize : Z) (d : field) (j : Z)
  : value :=
  VInt (int_value (field_at data (bytes_SFH + traceByteSize * j) d)).

(** Every key of the schema resolves to a field inside the trace header. *)
Definition schema_closed (s : schema) : bool :=
  forallb (fun kd =>
             match schema_get s (fst kd) with
             | Ok d => field_within bytes_STH d
             | Err _ => false
             end) s.

(** The format character of the samples of data sample format [dsf], as
    the writer and the reader look it up (revision 1). *)
Definition sample_ctype (dsf : Z) : result ctype :=
  let! dt := table_get DataSampleFormat_datatype 1 dsf in
  dict_get dtype2ctype dt.

(** The samples of trace [j] (0-based) of a file with traces of
    [traceByteSize] bytes: [ns] items after the 240 header bytes. *)
Definition trace_samples (data : list byte) (traceByteSize : Z) (ct : ctype)
    (ns : Z) (j : Z) : list value :=
  items_at data (bytes_SFH + traceByteSize * j + bytes_STH) endian ct ns.

(** [v] can be packed with format character [ct] (range and kind). *)
Definition value_fits (ct : ctype) (v : value) : bool :=
  is_ok (pack_one endian ct v).

(** What unpacking the packed bytes of [v] returns: the value itself (a
    single that is a signalling NaN comes back quiet), and the
    single-precision conversion of a double packed with [f]. *)
Definition repacked (ct : ctype) (v : value) : value :=
  match ct, v with
  | c_f, VF64 _ => astype_float32 v
  | c_f, VF32 b => VF32 (f32_quiet b)
  | _, _ => v
  end.

(** Element typing of numpy arrays. *)
Definition dtype_has (dt : string) (v : value) : Prop :=
  match v with
  | VInt z =>
      (dt = "int32" /\ - 2 ^ 31 <= z < 2 ^ 31) \/
      (dt = "int16" /\ - 2 ^ 15 <= z < 2 ^ 15) \/
      (dt = "int8" /\ - 2 ^ 7 <= z < 2 ^ 7) \/
      (dt = "uint8" /\ 0 <= z < 2 ^ 8)
  | VF32 b => dt = "float32" /\ 0 <= b < 2 ^ 32
  | VF64 b => dt = "float64" /\ 0 <= b < 2 ^ 64
  | VChar _ => False
  end.

Definition ndarray_typed (Data : ndarray) : Prop :=
  Forall (Forall (dtype_has (dtype Data))) (rows Data).

(** Total size of the fields of a schema when packed one after another. *)
Definition schema_size (fields : schema) : Z :=
  fold_right (fun kd acc => calcsize (field_ctype (snd kd)) + acc) 0 fields.

(** The packed header of trace [j], and [[]] when it cannot be packed. *)
Definition header_of (STH : gmap string (list value)) (j : Z) : list byte :=
  match pack_STH STH j STH_def with
  | Ok h => h
  | Err _ => []
  end.

(** One iteration of the trace loop of [writeSegyStructure]: the bytes
    written for trace [itrace]. *)
Definition trace_block (Data : ndarray) (STH : gmap string (list value))
    (ns : Z) (ct : ctype) (itrace : Z) : result (list byte) :=
  let! header := pack_STH STH itrace STH_def in
  let! aray1d := ndarray_col Data itrace in
  let! aray1dPack := struct_pack (fmt_counted endian ns ct) aray1d in
  Ok (header ++ aray1dPack).

(** Column [j] of a well-shaped array. *)
Definition column (Data : ndarray) (j : Z) : list value :=
  map (fun row => match row !! Z.to_nat j with Some v => v | None => VInt 0 end)
      (rows Data).

(** The transposed rows: one row per column of [Data]. *)
Definition transpose_rows (Data : ndarray) : list (list value) :=
  map (column Data) (py_range (snd (shape Data))).

(** The values that survive packing with [ct] and unpacking. *)
Definition roundtrips (ct : ctype) (v : value) : Prop :=
  match ct, v with
  | c_f, VF32 b => 0 <= b < 2 ^ 32
  | c_f, VF64 _ => True
  | c_f, _ | c_d, _ | c_c, _ => False
  | _, _ => True
  end.

(** A field of the file header whose value can be packed. *)
Definition sh_packable (SH : gmap string Z) (kd : string * field) : bool :=
  match SH !! fst kd, dtype2ctype !! f_type (snd kd) with
  | Some v, Some ct => is_ok (pack_one endian ct (VInt v))
  | _, _ => false
  end.

(** Every array of the trace header dictionary has [nt] entries that
    can be packed with the type of its field. *)
Definition sth_packable (STH : gmap string (list value)) (nt : Z) : Prop :=
  forall key d, In (key, d) STH_def ->
    exists arr ct,
      STH !! key = Some arr /\ Z.of_nat (length arr) = nt /\
      dtype2ctype !! f_type d = Some ct /\
      Forall (fun v => is_ok (pack_one endian ct v) = true) arr.

(** Format characters that take any int32 value, and those that take
    every value between 0 and 65535. *)
Definition any_int32 (ct : ctype) : bool :=
  match ct with c_l => true | _ => false end.

Definition int32_or_uint16 (ct : ctype) : bool :=
  match ct with c_l | c_H => true | _ => false end.

(** The fields named [key] all have a type accepted by [allowed]. *)
Definition key_types (key : string) (allowed : ctype -> bool) (s : schema) : bool :=
  forallb (fun kd =>
             if String.eqb (fst kd) key
             then match dtype2ctype !! f_type (snd kd) with
                  | Some ct => allowed ct
                  | None => false
                  end
             else true) s.

(** The bytes of one packed value, and [[]] when it cannot be packed. *)
Definition packed (ct : ctype) (v : value) : list byte :=
  match pack_one endian ct v with
  | Ok bs => bs
  | Err _ => []
  end.

(** Every element of the array can be packed with [ct] and survives
    the round trip. *)
Definition ndarray_fits (ct : ctype) (Data : ndarray) : Prop :=
  Forall (Forall (fun v => value_fits ct v = true /\ roundtrips ct v)) (rows Data).

(** The bytes written for trace [j]. *)
Definition written_block (Data : ndarray) (STH : gmap string (list value))
    (ct : ctype) (j : Z) : list byte :=
  header_of STH j ++ concat (map (packed ct) (column Data j)).

(** The data sample format and the format character that [writeSegy]
    uses for an array of element type [dt]. *)
Definition dtype_format (dt : string) : option (Z * ctype) :=
  if String.eqb dt "float64" then Some (5, c_f)
  else if String.eqb dt "int32" then Some (2, c_l)
  else if String.eqb dt "int16" then Some (3, c_h)
  else if String.eqb dt "float32" then Some (5, c_f)
  else if String.eqb dt "int8" then Some (8, c_B)
  else None.

(** The layout of the file that [writeSegy] leaves on disk: the text,
    zero bytes up to 3200, the packed binary header [H] (68 bytes), zero
    bytes up to 3600 and the trace blocks. *)
Definition written_file (text H : list byte) (blocks : list (list byte)) : list byte :=
  text ++ replicate (3200 - length text) Byte.x00 ++ H
       ++ replicate 332 Byte.x00 ++ concat blocks.

(** What [writeSegy] can encode beyond the element typing: no negative
    8-bit sample, no double beyond the single-precision range. *)
Definition encodable (Data : ndarray) : Prop :=
  Forall (Forall (fun v =>
                    match v with
                    | VInt z => dtype Data = "int8" -> 0 <= z
                    | VF64 b => f64_overflows_f32 b = false
                    | _ => True
                    end)) (rows Data).

(** A double that is a signalling NaN: magnitude bits between those of
    the infinity and of the quiet NaN. *)
Definition f64_signalling (bits : Z) : bool :=
  (0x7FF0000000000000 <? bits mod 2 ^ 63) && (bits mod 2 ^ 63 <? 0x7FF8000000000000).

(** No element of the array is a signalling NaN. *)
Definition quiet_value (v : value) : Prop :=
  match v with
  | VF32 b => f32_signalling b = false
  | VF64 b => f64_signalling b = false
  | _ => True
  end.

Definition no_signalling_nan (Data : ndarray) : Prop :=
  Forall (Forall quiet_value) (rows Data).

(** [float32(grid)] for a float64 grid, the grid itself otherwise. *)
Definition as_written (Data : ndarray) : ndarray :=
  if String.eqb (dtype Data) "float64" then ndarray_astype_float32 Data else Data.

(** [decode(encode(grid, dt, header))]: the array that [readSegy] returns
    for the file that [writeSegy] wrote. *)
Definition roundtrip_grid (Data : ndarray) (dt : Z) (STFH : string) : result ndarray :=
  let! f := snd (writeSegy Data dt STFH None) in
  let! (D, _, _) := readSegy f None false in
  match D with
  | Some G => Ok G
  | None => Err KeyError
  end.

(** The value decoded at byte [pos] with the type of field [d]. *)
Definition decode_field (data : list byte) (pos : Z) (d : field) : value :=
  VInt (int_value (item_at data pos endian (field_ctype d))).

(** The legacy float formula of the format description:
    [sign * 16^(exponent - 64) * (mantissa / 16^6)], with the sign in the
    high bit of the first byte, the exponent in its low seven bits and a
    24-bit mantissa in the other three bytes. *)
Definition ibm_value (s a b c : byte) : Q :=
  let sign := if Z.testbit (byte_to_Z s) 7 then (-1)%Q else 1%Q in
  let exponent := Z.land (byte_to_Z s) 127 in
  let mantissa := byte_to_Z a * 2 ^ 16 + byte_to_Z b * 2 ^ 8 + byte_to_Z c in
  (sign * Qpower (inject_Z 16) (exponent - 64)
   * (inject_Z mantissa / inject_Z (16 ^ 6)))%Q.

(** ** Sample inputs *)

(** Two int32 samples, one trace. *)
Definition grid_i32_2x1 : ndarray :=
  mkArray "int32" (2, 1) [[VInt 7]; [VInt (-3)]].

Definition written (r : list string * result (list byte)) : list byte :=
  match snd r with
  | Ok f => f
  | Err _ => []
  end.

(** The file written for [grid_i32_2x1] (3848 bytes). *)
Definition file_i32_2x1 : list byte := written (writeSegy grid_i32_2x1 1000 "" None).

(** The same file followed by four more bytes. *)
Definition file_trailing : list byte := file_i32_2x1 ++ replicate 4 Byte.x00.

(** A file whose trace header has [dt = 0] and whose file header has
    [dt = 1000]. *)
Definition file_dt0 : list byte :=
  written (writeSegy grid_i32_2x1 1000 "" (Some [("dt", [0])])).

(** An 8-bit file with the sample bytes 200 and 50. *)
Definition grid_i8_2x1 : ndarray :=
  mkArray "int8" (2, 1) [[VInt 100]; [VInt 50]].

Definition file_i8_200_50 : list byte :=
  <[3840%nat := Byte.xc8]> (written (writeSegy grid_i8_2x1 1000 "" None)).

Definition grid_u8_1x1 : ndarray := mkArray "uint8" (1, 1) [[VInt 200]].

Definition grid_i8_negative : ndarray := mkArray "int8" (1, 1) [[VInt (-56)]].

(** A double-precision array holding 0.1. *)
Definition grid_f64_1x1 : ndarray :=
  mkArray "float64" (1, 1) [[VF64 0x3FB999999999999A]].

(** Projections of the results of the read functions. *)
Definition read_grid (r : result (option ndarray * gmap string Z * gmap string pyobj))
  : result (option ndarray) :=
  let! (D, _, _) := r in Ok D.

Definition read_header (r : result (option ndarray * gmap string Z * gmap string pyobj))
    (key : string) : result (option Z) :=
  let! (_, SH, _) := r in Ok (SH !! key).

Definition read_trace_header
    (r : result (option ndarray * gmap string Z * gmap string pyobj))
    (key : string) : result (option pyobj) :=
  let! (_, _, TH) := r in Ok (TH !! key).

Definition header_entry (r : result (gmap string Z * list byte)) (key : string)
  : result (option Z) :=
  let! (SH, _) := r in Ok (SH !! key).

(** [getSegyTraceHeader] on the header dictionary read from [data]. *)
Definition readField (data : list byte) (TH_name : string) (itrace : Z)
  : result pyobj :=
  let! (SH, data) := getSegyHeader data in
  getSegyTraceHeader SH data TH_name None itrace.

(** The header dictionary of [file_dt0] as [getSegyHeader] returns it. *)
Definition SH_dt0 : gmap string Z :=
  <["ntraces" := 1]> (decoded_SH file_dt0).

(** ** Further specification-side definitions *)

(** The type names of [dtype2ctype] under which numpy creates arrays of
    the same item size ([np.empty(number, dtype=dtype)]). *)
Definition array_dtypes : list string :=
  ["int32"; "uint32"; "int16"; "uint16"; "float32"; "double"].

(** The integer type names and their ranges of values. *)
Definition int_bounds (dt : string) : option (Z * Z) :=
  if String.eqb dt "int32" then Some (- 2 ^ 31, 2 ^ 31 - 1)
  else if String.eqb dt "uint32" then Some (0, 2 ^ 32 - 1)
  else if String.eqb dt "int16" then Some (- 2 ^ 15, 2 ^ 15 - 1)
  else if String.eqb dt "uint16" then Some (0, 2 ^ 16 - 1)
  else None.

(** The entries of the binary file header that the readers use, decoded
    at their declared offsets. *)
Definition file_dt (data : list byte) : Z := int_value (item_at data 3216 endian c_H).
Definition file_ns (data : list byte) : Z := int_value (item_at data 3220 endian c_H).
Definition file_dsf (data : list byte) : Z := int_value (item_at data 3224 endian c_h).
Definition file_revno (data : list byte) : Z := int_value (item_at data 3500 endian c_H).

(** The format codes with a bytes-per-sample entry (revision 1). *)
Definition format_codes : list Z := [1; 2; 3; 5; 8].

(** The schema that a read consults: [STH_def] unless a dictionary is given. *)
Definition TH_schema (TH_dict : option schema) : schema :=
  match TH_dict with
  | None => STH_def
  | Some s => s
  end.

(** The array of the values of field [d], named [key], over the [nt]
    traces of a buffer: the values decoded at byte
    [3600 + j * tbs + pos], and the file-level [dtv] repeated when the
    field is [dt] and its first decoded value is zero. *)
Definition trace_column (data : list byte) (tbs nt dtv : Z) (key : string) (d : field)
  : pyobj :=
  Array (if String.eqb key "dt" && value_is_zero (trace_field data tbs d 0)
         then map (fun _ => np_store (f_type d) dtv) (py_range nt)
         else map (trace_field data tbs d) (py_range nt)).

(** A dictionary with the entry [val key] for every key of a schema. *)
Definition keyed {V} (val : string -> V) (keys : schema) (init : gmap string V)
  : gmap string V :=
  fold_left (fun acc kd => <[fst kd := val (fst kd)]> acc) keys init.

(** The field that a key of a schema resolves to. *)
Definition schema_field (s : schema) (key : string) : field :=
  match schema_get s key with
  | Ok d => d
  | Err _ => mkField 0 "int32" None None
  end.

Definition has_key (s : schema) (key : string) : bool :=
  is_ok (schema_get s key).

(** A trace header dictionary that can be read: every key resolves to a
    field inside the 240 header bytes, of an integer type that numpy
    knows under the same name. *)
Definition TH_readable (s : schema) : bool :=
  schema_closed s &&
  forallb (fun kd => existsb (String.eqb (f_type (snd kd))) array_dtypes) s.

(** The first 3600 bytes of [file_i32_2x1]: the file header, no trace. *)
Definition file_header_only : list byte := take 3600 file_i32_2x1.

(** A dictionary that reads the field [ns] of the trace header only. *)
Definition TH_ns_only : schema := [("ns", mkField 114 "uint16" None None)].

(** The default value of the trace header entry [key] of trace [a]
    (0-based), as the first loop of [setSegyTraceHeaders] stores it. *)
Definition default_cell (ns dt : Z) (key : string) (a : Z) : Z :=
  if String.eqb key "TraceSequenceLine" then a + 1
  else if String.eqb key "TraceSequenceFile" then a + 1
  else if String.eqb key "FieldRecord" then 1000
  else if String.eqb key "TraceNumber" then a + 1
  else if String.eqb key "ns" then ns
  else if String.eqb key "dt" then dt
  else 0.

(** A trace header dictionary described cell by cell: one array of [nt]
    entries for every key of [STH_def], and no other key. *)
Definition sth_holds (STH : gmap string (list value)) (nt : Z)
    (cell : string -> Z -> value) : Prop :=
  forall key,
    STH !! key = if has_key STH_def key
                 then Some (map (cell key) (py_range nt))
                 else None.

(** One cell changed. *)
Definition upd (cell : string -> Z -> value) (key : string) (a : Z) (v : value)
  : string -> Z -> value :=
  fun k i => if String.eqb k key && (i =? a) then v else cell k i.

(** The cells after the default loop has handled the traces below [k]. *)
Definition default_cells (ns dt k : Z) : string -> Z -> value :=
  fun key i => if i <? k then np_store "int32" (default_cell ns dt key i) else VInt 0.

(** The user-supplied value for trace [i] (0-based). *)
Definition src_at (src : list Z) (i : Z) : Z :=
  match src !! Z.to_nat i with
  | Some v => v
  | None => 0
  end.

(** The cells after the traces below [k] of [key] have been overwritten
    with the values of [src]. *)
Definition copied_cells (cell : string -> Z -> value) (key : string)
    (src : list Z) (k : Z) : string -> Z -> value :=
  fun key' i =>
    if String.eqb key' key && (i <? k) then np_store "int32" (src_at src i)
    else cell key' i.

(** The cells after a sequence of user-supplied arrays has been copied,
    in order. *)
Fixpoint overridden_cells (cell : string -> Z -> value)
    (mySTH : list (string * list Z)) (nt : Z) : string -> Z -> value :=
  match mySTH with
  | [] => cell
  | (key, src) :: rest => overridden_cells (copied_cells cell key src nt) rest nt
  end.

(** The user-supplied array of a key, when there is one. *)
Fixpoint supplied (mySTH : list (string * list Z)) (key : string) : option (list Z) :=
  match mySTH with
  | [] => None
  | (k, src) :: rest => if String.eqb k key then Some src else supplied rest key
  end.

(** The entry for trace [a] that [setSegyTraceHeaders] prepares: the
    user-supplied value, and the default without one. *)
Definition prepared_cell (mySTH : list (string * list Z)) (ns dt : Z)
    (key : string) (a : Z) : Z :=
  match supplied mySTH key with
  | Some src => src_at src a
  | None => default_cell ns dt key a
  end.

(** Every user-supplied key is a key of [STH_def] and its array has at
    least [nt] values, all of 32 bits. *)
Definition supplied_ok (mySTH : list (string * list Z)) (nt : Z) : Prop :=
  Forall (fun kv =>
            has_key STH_def (fst kv) = true /\
            nt <= Z.of_nat (length (snd kv)) /\
            Forall (fun v => - 2 ^ 31 <= v < 2 ^ 31) (snd kv)) mySTH.

(** The entries of the optional dictionary of user-supplied values. *)
Definition user_entries (mySTH : option (list (string * list Z)))
  : list (string * list Z) :=
  match mySTH with
  | Some m => m
  | None => []
  end.

(** Two user-supplied trace numbers, for a grid of two traces. *)
Definition mySTH_numbers : list (string * list Z) := [("TraceNumber", [7; 9])].

(** The value [v] can be packed into the trace header field [key]. *)
Definition cell_fits (key : string) (v : Z) : bool :=
  match schema_get STH_def key with
  | Ok d => is_ok (pack_one endian (field_ctype d) (VInt v))
  | Err _ => false
  end.

(** The user-supplied values can be placed and packed: known keys,
    arrays of at least [nt] values, every value in the range of its
    field. *)
Definition supplied_fits (mySTH : list (string * list Z)) (nt : Z) : Prop :=
  Forall (fun kv =>
            has_key STH_def (fst kv) = true /\
            nt <= Z.of_nat (length (snd kv)) /\
            Forall (fun v => cell_fits (fst kv) v = true) (snd kv)) mySTH.

(** The byte offset of the first field named [key] when the fields of a
    schema are packed one after another from offset [o]. *)
Fixpoint field_offset (s : schema) (key : string) (o : Z) : option Z :=
  match s with
  | [] => None
  | (k, d) :: rest =>
      if String.eqb k key then Some o
      else field_offset rest key (o + calcsize (field_ctype d))
  end.

(** The trace header fields that the writer puts at their declared
    offset. *)
Definition aligned (key : string) : bool :=
  match schema_get STH_def key, field_offset STH_def key 0 with
  | Ok d, Some o => f_pos d =? o
  | _, _ => false
  end.

(** One int16 sample in each of two traces. *)
Definition grid_i16_1x2 : ndarray := mkArray "int16" (1, 2) [[VInt 5; VInt (-6)]].

(** A grid of two samples per trace and no trace. *)
Definition grid_i16_2x0 : ndarray := mkArray "int16" (2, 0) [[]; []].

(** The float32 item that the IBM branch of [getValue] stores for the
    four bytes at [pos]. *)
Definition ibm_item (data : list byte) (pos : Z) : value :=
  match ibm2ieee (take 4 (drop (Z.to_nat pos) data)) with
  | Ok q => VF32 (f32_of_dyadic q)
  | Err _ => VF32 0
  end.

(** The four bytes at [pos] are an IBM zero with the sign bit set.  The
    code computes [-1.0 * 16**k * 0.0] for them, the float [-0.0], whose
    sign the rational value of [ibm2ieee] does not carry. *)
Definition ibm_negative_zero (data : list byte) (pos : Z) : bool :=
  match take 4 (drop (Z.to_nat pos) data) with
  | [s; a; b; c] =>
      Z.testbit (byte_to_Z s) 7 && (byte_to_Z a =? 0) && (byte_to_Z b =? 0)
      && (byte_to_Z c =? 0)
  | _ => false
  end.

(** The value that [setSegyHeaders] is given for a key, if any. *)
Definition header_override (ntraces ns dt dsf : option Z) (key : string)
  : option Z :=
  if String.eqb key "DataSampleFormat" then dsf
  else if String.eqb key "dt" then dt
  else if String.eqb key "ns" then ns
  else if String.eqb key "ntraces" then ntraces
  else None.

(** The default of a field of the binary header, zero when it has none. *)
Definition field_default (d : field) : Z :=
  match f_def d with
  | Some v => v
  | None => 0
  end.

(** * Properties *)

(** ** Bytes and fixed-width integers *)

Lemma byte_to_Z_range (b : byte) : 0 <= byte_to_Z b < 256.
Proof.
  unfold byte_to_Z. pose proof (Byte.to_N_bounded b). lia.
Qed.

Lemma byte_of_to_Z (b : byte) : byte_of_Z (byte_to_Z b) = b.
Proof.
  unfold byte_of_Z. pose proof (byte_to_Z_range b) as Hb.
  rewrite Z.mod_small by lia. unfold byte_to_Z.
  rewrite N2Z.id, Byte.of_to_N. reflexivity.
Qed.

Lemma byte_to_of_Z (z : Z) : byte_to_Z (byte_of_Z z) = z mod 256.
Proof.
  unfold byte_of_Z.
  pose proof (Z.mod_pos_bound z 256 ltac:(lia)) as Hm.
  destruct (Byte.of_N (Z.to_N (z mod 256))) as [b|] eqn:E.
  - apply Byte.to_of_N in E. unfold byte_to_Z. rewrite E. lia.
  - apply Byte.of_N_None_iff in E. lia.
Qed.

Lemma length_le_bytes (n : nat) (v : Z) : length (le_bytes n v) = n.
Proof. revert v. induction n; intros v; simpl; auto. Qed.

Lemma le_uint_range (bs : list byte) : 0 <= le_uint bs < 256 ^ Z.of_nat (length bs).
Proof.
  induction bs as [|b bs IH].
  - simpl. lia.
  - cbn [le_uint length]. rewrite Nat2Z.inj_succ, Z.pow_succ_r by lia.
    pose proof (byte_to_Z_range b). lia.
Qed.

Lemma le_uint_bytes (n : nat) (v : Z) :
  le_uint (le_bytes n v) = v mod 256 ^ Z.of_nat n.
Proof.
  revert v. induction n as [|n IH]; intros v.
  - simpl. rewrite Z.mod_1_r. reflexivity.
  - cbn [le_bytes le_uint]. rewrite IH, byte_to_of_Z.
    rewrite Nat2Z.inj_succ, Z.pow_succ_r by lia.
    rewrite Z.rem_mul_r by lia. lia.
Qed.

Lemma le_bytes_uint (bs : list byte) : le_bytes (length bs) (le_uint bs) = bs.
Proof.
  induction bs as [|b bs IH]; [reflexivity|].
  cbn [length le_bytes le_uint].
  pose proof (byte_to_Z_range b) as Hb.
  f_equal.
  - rewrite <- (byte_of_to_Z b) at 2. unfold byte_of_Z.
    replace ((byte_to_Z b + 256 * le_uint bs) mod 256) with (byte_to_Z b mod 256);
      [reflexivity|].
    replace (byte_to_Z b + 256 * le_uint bs) with (byte_to_Z b + le_uint bs * 256) by lia.
    rewrite Z.mod_add by lia. reflexivity.
  - replace ((byte_to_Z b + 256 * le_uint bs) / 256) with (le_uint bs); [exact IH|].
    replace (byte_to_Z b + 256 * le_uint bs) with (byte_to_Z b + le_uint bs * 256) by lia.
    rewrite Z.div_add by lia.
    rewrite (Z.div_small (byte_to_Z b)) by lia. lia.
Qed.

Lemma length_bytes_of_uint (e : byteorder) (n : nat) (v : Z) :
  length (bytes_of_uint e n v) = n.
Proof.
  destruct e; simpl; [rewrite length_rev|]; apply length_le_bytes.
Qed.

Lemma uint_of_bytes_range (e : byteorder) (bs : list byte) :
  0 <= uint_of_bytes e bs < 256 ^ Z.of_nat (length bs).
Proof.
  destruct e; simpl.
  - rewrite <- (length_rev bs). apply le_uint_range.
  - apply le_uint_range.
Qed.

(** Packing then unpacking an unsigned integer of [n] bytes. *)
Lemma uint_of_bytes_of_uint (e : byteorder) (n : nat) (v : Z) :
  0 <= v < 256 ^ Z.of_nat n ->
  uint_of_bytes e (bytes_of_uint e n v) = v.
Proof.
  intros Hv. destruct e; simpl.
  - rewrite rev_involutive, le_uint_bytes. apply Z.mod_small; lia.
  - rewrite le_uint_bytes. apply Z.mod_small; lia.
Qed.

(** Unpacking then packing a byte string. *)
Lemma bytes_of_uint_of_bytes (e : byteorder) (bs : list byte) :
  bytes_of_uint e (length bs) (uint_of_bytes e bs) = bs.
Proof.
  destruct e; simpl.
  - rewrite <- (length_rev bs), le_bytes_uint. apply rev_involutive.
  - apply le_bytes_uint.
Qed.

Lemma to_signed_wrap (bits v : Z) :
  0 < bits -> - 2 ^ (bits - 1) <= v < 2 ^ (bits - 1) ->
  to_signed bits (v mod 2 ^ bits) = v.
Proof.
  intros Hb Hv. unfold to_signed.
  assert (H2 : 2 ^ bits = 2 * 2 ^ (bits - 1)).
  { replace bits with (Z.succ (bits - 1)) at 1 by lia.
    rewrite Z.pow_succ_r by lia. reflexivity. }
  destruct (Z.ltb_spec (v mod 2 ^ bits) (2 ^ (bits - 1))) as [Hlt|Hge].
  - destruct (Z.lt_ge_cases v 0) as [Hneg|Hpos].
    + rewrite <- (Z.mod_add v 1) in Hlt by lia.
      rewrite Z.mod_small in Hlt by lia. lia.
    + apply Z.mod_small. lia.
  - destruct (Z.lt_ge_cases v 0) as [Hneg|Hpos].
    + rewrite <- (Z.mod_add v 1) by lia. rewrite Z.mod_small by lia. lia.
    + rewrite Z.mod_small in Hge by lia. lia.
Qed.

(** ** Slices and chunks *)

Lemma py_slice_take_drop {A} (data : list A) (a b : Z) :
  0 <= a <= b -> b <= Z.of_nat (length data) ->
  py_slice data a b = take (Z.to_nat (b - a)) (drop (Z.to_nat a) data).
Proof.
  intros Ha Hb. unfold py_slice, slice_index.
  destruct (Z.ltb_spec a 0); [lia|]. destruct (Z.ltb_spec b 0); [lia|].
  rewrite !Z.min_l by lia. reflexivity.
Qed.

Lemma length_py_slice {A} (data : list A) (a b : Z) :
  0 <= a <= b -> b <= Z.of_nat (length data) ->
  Z.of_nat (length (py_slice data a b)) = b - a.
Proof.
  intros Ha Hb. rewrite py_slice_take_drop by assumption.
  rewrite length_take, length_drop. lia.
Qed.

Lemma length_chunks {A} (sz n : nat) (bs : list A) : length (chunks sz n bs) = n.
Proof. revert bs. induction n; intros bs; simpl; auto. Qed.

Lemma chunks_app {A} (sz n m : nat) (xs ys : list A) :
  length xs = (n * sz)%nat ->
  chunks sz (n + m) (xs ++ ys) = chunks sz n xs ++ chunks sz m ys.
Proof.
  revert xs. induction n as [|n IH]; intros xs Hlen.
  - simpl in *. destruct xs; [reflexivity|discriminate].
  - cbn [chunks Nat.add app]. simpl in Hlen.
    rewrite (take_app_le xs ys sz), (drop_app_le xs ys sz) by nia.
    rewrite IH; [reflexivity|]. rewrite length_drop. lia.
Qed.

Lemma chunks_take {A} (sz n : nat) (bs : list A) :
  chunks sz n (take (n * sz) bs) = chunks sz n bs.
Proof.
  revert bs. induction n as [|n IH]; intros bs; [reflexivity|].
  cbn [chunks]. f_equal.
  - rewrite take_take. f_equal. simpl. lia.
  - rewrite <- (IH (drop sz bs)). f_equal.
    rewrite take_drop_commute. reflexivity.
Qed.

Lemma drop_chunks {A} (sz n a : nat) (bs : list A) :
  drop a (chunks sz n bs) = chunks sz (n - a) (drop (a * sz) bs).
Proof.
  revert n bs. induction a as [|a IH]; intros n bs.
  - simpl. rewrite Nat.sub_0_r. reflexivity.
  - destruct n as [|n]; [reflexivity|].
    cbn [chunks drop]. rewrite IH, drop_drop. reflexivity.
Qed.

Lemma take_chunks {A} (sz n c : nat) (bs : list A) :
  (c <= n)%nat -> take c (chunks sz n bs) = chunks sz c bs.
Proof.
  revert n bs. induction c as [|c IH]; intros n bs Hc; [reflexivity|].
  destruct n as [|n]; [lia|]. cbn [chunks take]. rewrite IH by lia. reflexivity.
Qed.

Lemma concat_chunks {A} (sz n : nat) (bs : list A) :
  length bs = (n * sz)%nat -> concat (chunks sz n bs) = bs.
Proof.
  revert bs. induction n as [|n IH]; intros bs Hlen.
  - destruct bs; [reflexivity|discriminate].
  - cbn [chunks concat]. rewrite IH.
    + apply take_drop.
    + rewrite length_drop. simpl in Hlen. lia.
Qed.

Lemma chunks_concat {A} (sz : nat) (items : list (list A)) :
  Forall (fun it => length it = sz) items ->
  chunks sz (length items) (concat items) = items.
Proof.
  induction 1 as [|it items Hit _ IH]; [reflexivity|].
  cbn [length chunks concat]. rewrite take_app_length', drop_app_length' by auto.
  rewrite IH. reflexivity.
Qed.

Lemma length_concat_uniform {A} (sz : nat) (items : list (list A)) :
  Forall (fun it => length it = sz) items ->
  length (concat items) = (length items * sz)%nat.
Proof.
  induction 1 as [|it items Hit _ IH]; [reflexivity|].
  cbn [concat length]. rewrite length_app, IH, Hit. lia.
Qed.

(** ** The result monad *)

Lemma mapM_ok {A B} (f : A -> result B) (g : A -> B) (l : list A) :
  Forall (fun x => f x = Ok (g x)) l -> mapM f l = Ok (map g l).
Proof.
  induction 1 as [|x l Hx _ IH]; [reflexivity|].
  simpl. rewrite Hx, IH. reflexivity.
Qed.

Lemma mapM_length {A B} (f : A -> result B) (l : list A) (r : list B) :
  mapM f l = Ok r -> length r = length l.
Proof.
  revert r. induction l as [|x l IH]; intros r; simpl.
  - intros [= <-]. reflexivity.
  - destruct (f x); [|discriminate]. destruct (mapM f l); [|discriminate].
    intros [= <-]. simpl. f_equal. apply IH. reflexivity.
Qed.

Lemma mapM_err {A B} (f : A -> result B) (l : list A) (e : exn) :
  Forall (fun x => f x = Err e \/ exists y, f x = Ok y) l ->
  Exists (fun x => f x = Err e) l ->
  mapM f l = Err e.
Proof.
  induction 1 as [|x l Hx _ IH]; intros Hex.
  - inversion Hex.
  - simpl. destruct Hx as [Hx|[y Hy]].
    + rewrite Hx. reflexivity.
    + rewrite Hy. inversion Hex as [? ? Hbad|? ? Hex']; subst.
      * congruence.
      * rewrite IH by assumption. reflexivity.
Qed.

Lemma length_py_range (n : Z) : length (py_range n) = Z.to_nat n.
Proof. unfold py_range. rewrite length_map, length_seq. reflexivity. Qed.

Lemma py_range_succ (n : Z) :
  0 <= n -> py_range (n + 1) = py_range n ++ [n].
Proof.
  intros Hn. unfold py_range.
  replace (Z.to_nat (n + 1)) with (S (Z.to_nat n)) by lia.
  rewrite seq_S, map_app. simpl. rewrite Z2Nat.id by lia. reflexivity.
Qed.

Lemma elem_of_py_range (n i : Z) : In i (py_range n) <-> 0 <= i < n.
Proof.
  unfold py_range. rewrite in_map_iff. split.
  - intros (k & <- & Hk). apply in_seq in Hk. lia.
  - intros Hi. exists (Z.to_nat i). split; [lia|]. apply in_seq. lia.
Qed.

(** ** Sanity checks of the runtime model *)

Example f64_to_f32_tenth : f64_to_f32 0x3FB999999999999A = 0x3DCCCCCD.
Proof. vm_compute. reflexivity. Qed.

Example f64_1e39_overflows :
  f64_overflows_f32 0x4807820D39A7D59A = true /\
  f64_to_f32 0x4807820D39A7D59A = 0x7F800000.
Proof. vm_compute. split; reflexivity. Qed.

Example f64_to_f32_nan :
  f64_to_f32 0x7FF0000000000001 = 0x7FC00000 /\
  f64_to_f32 0xFFF8000020000000 = 0xFFC00001 /\
  f64_overflows_f32 0x7FF0000000000001 = false.
Proof. vm_compute. repeat split; reflexivity. Qed.

Example pack_float32_signalling :
  pack_one BigEndian c_f (VF32 0x7F800001)
  = Ok [Byte.x7f; Byte.xc0; Byte.x00; Byte.x01] /\
  unpack_one BigEndian c_f [Byte.x7f; Byte.x80; Byte.x00; Byte.x01] = VF32 0x7FC00001 /\
  unpack_one BigEndian c_f [Byte.x7f; Byte.x80; Byte.x00; Byte.x00] = VF32 0x7F800000.
Proof. vm_compute. repeat split; reflexivity. Qed.

Example pack_uint16_1000 :
  struct_pack (fmt_repeat BigEndian c_H 1) [VInt 1000] = Ok [Byte.x03; Byte.xe8].
Proof. reflexivity. Qed.

Example unpack_int16_neg :
  struct_unpack (fmt_repeat BigEndian c_h 2) [Byte.xff; Byte.xfe; Byte.x00; Byte.x07]
  = Ok [VInt (-2); VInt 7].
Proof. reflexivity. Qed.

Example pack_uchar_negative :
  struct_pack (fmt_counted BigEndian 1 c_B) [VInt (-1)] = Err StructError.
Proof. reflexivity. Qed.

(** ** Unpacking a vector: [struct_unpack] and the block loop of [getValue] *)

Lemma calcsize_pos (ct : ctype) : 0 < calcsize ct.
Proof. destruct ct; reflexivity. Qed.

Lemma length_items_at data index e ct number :
  length (items_at data index e ct number) = Z.to_nat number.
Proof. unfold items_at. rewrite length_map, length_chunks. reflexivity. Qed.

Lemma items_at_1 data index e ct :
  items_at data index e ct 1 = [item_at data index e ct].
Proof. reflexivity. Qed.

(** A slice of the byte string unpacks to a slice of the items. *)
Lemma struct_unpack_slice data index e ct (a cnt N : Z) :
  0 <= index -> 0 <= a -> 0 <= cnt -> a + cnt <= N ->
  index + N * calcsize ct <= Z.of_nat (length data) ->
  let sz := calcsize ct in
  struct_unpack (fmt_repeat e ct cnt)
                (py_slice data (index + a * sz) (index + a * sz + cnt * sz))
  = Ok (take (Z.to_nat cnt) (drop (Z.to_nat a) (items_at data index e ct N))).
Proof.
  intros Hi Ha Hc HN Hlen sz. pose proof (calcsize_pos ct) as Hsz. fold sz in Hsz, Hlen.
  assert (Hend : index + a * sz + cnt * sz <= Z.of_nat (length data)) by nia.
  unfold struct_unpack. cbn [fmt_ok fmt_repeat negb fmt_count fmt_code fmt_order].
  rewrite Z.max_r by lia. fold sz.
  rewrite length_py_slice by nia.
  replace (index + a * sz + cnt * sz - (index + a * sz)) with (cnt * sz) by lia.
  rewrite Z.eqb_refl. cbn [negb]. f_equal.
  rewrite py_slice_take_drop by nia.
  replace (index + a * sz + cnt * sz - (index + a * sz)) with (cnt * sz) by lia.
  unfold items_at. fold sz.
  rewrite skipn_map, firstn_map. f_equal.
  rewrite drop_chunks, take_chunks by lia.
  rewrite drop_drop.
  replace (Z.to_nat (cnt * sz)) with (Z.to_nat cnt * Z.to_nat sz)%nat by nia.
  rewrite chunks_take. do 2 f_equal. nia.
Qed.

(** Writing the next block of items after a correct prefix extends the
    correct prefix. *)
Lemma splice_prefix {A} (V vs : list A) (a c : nat) :
  length V = length vs -> (a + c <= length vs)%nat ->
  take a V = take a vs ->
  let V' := take a V ++ take c (drop a vs) ++ drop (a + c) V in
  length V' = length vs /\ take (a + c) V' = take (a + c) vs.
Proof.
  intros HV Hac Hpre V'. subst V'. rewrite Hpre.
  rewrite app_assoc, take_take_drop. split.
  - rewrite length_app, length_take, length_drop. lia.
  - rewrite take_app_le by (rewrite length_take; lia).
    apply take_idemp.
Qed.

Lemma nspb_pos : 0 < nspb.
Proof. reflexivity. Qed.

(** The block loop, started at block [j] over a correct prefix, ends
    with all the items. *)
Lemma getValue_blocks_ok data index e ct (N : Z) :
  0 <= index -> 0 <= N ->
  index + N * calcsize ct <= Z.of_nat (length data) ->
  let nblock := Z.quot N nspb + 1 in
  let vs := items_at data index e ct N in
  forall (k : nat) (j : Z) (V : list value),
    j = nblock - Z.of_nat k -> 0 <= j ->
    length V = length vs ->
    take (Z.to_nat (nspb * j)) V = take (Z.to_nat (nspb * j)) vs ->
    getValue_blocks data index ct (calcsize ct) e N nblock V
                    (map Z.of_nat (seq (Z.to_nat j) k)) = Ok vs.
Proof.
  intros Hi HN Hlen nblock vs.
  pose proof nspb_pos as HB.
  assert (Hq : Z.quot N nspb = N / nspb) by (apply Z.quot_div_nonneg; lia).
  assert (Hdm : N = nspb * (N / nspb) + N mod nspb) by (apply Z.div_mod; lia).
  pose proof (Z.mod_pos_bound N nspb HB) as Hm.
  assert (Hd0 : 0 <= N / nspb) by (apply Z.div_pos; lia).
  assert (Hvs : length vs = Z.to_nat N) by apply length_items_at.
  induction k as [|k IH]; intros j V Hj Hj0 HV Hpre.
  - simpl. f_equal.
    rewrite <- (take_ge V (Z.to_nat (nspb * j))), Hpre by (subst nblock; nia).
    apply take_ge. subst nblock. nia.
  - cbn [seq map getValue_blocks]. rewrite Z2Nat.id by lia.
    unfold getValue_block.
    set (ns := if j =? nblock - 1 then N mod nspb else nspb).
    assert (Hns : 0 <= ns /\ nspb * j + ns <= N /\
                  (j = nblock - 1 -> nspb * j + ns = N)).
    { subst ns. destruct (Z.eqb_spec j (nblock - 1)); subst nblock; nia. }
    destruct Hns as (Hns0 & Hns1 & Hns2).
    replace (nspb * j * calcsize ct) with (nspb * j * calcsize ct) by lia.
    rewrite (struct_unpack_slice data index e ct (nspb * j) ns N) by nia.
    fold vs.
    destruct (splice_prefix V vs (Z.to_nat (nspb * j)) (Z.to_nat ns))
      as [HV' Hpre']; [assumption|lia|assumption|].
    replace (Z.to_nat (nspb * j + ns))
      with (Z.to_nat (nspb * j) + Z.to_nat ns)%nat by lia.
    replace (Z.to_nat j + 1)%nat with (Z.to_nat (j + 1)) by lia.
    replace (S (Z.to_nat j)) with (Z.to_nat (j + 1)) by lia.
    apply IH; [lia|lia|assumption|].
    destruct (Z.eq_dec j (nblock - 1)) as [Hlast|Hmid].
    + (* last block: the whole array is correct *)
      specialize (Hns2 Hlast).
      replace (Z.to_nat (nspb * j) + Z.to_nat ns)%nat with (length vs) in Hpre', HV' |- * by lia.
      rewrite take_ge in Hpre' by lia.
      rewrite (take_ge vs (length vs)) in Hpre' by lia.
      rewrite Hpre'. reflexivity.
    + assert (ns = nspb) as Hfull.
      { subst ns. destruct (Z.eqb_spec j (nblock - 1)); [contradiction|reflexivity]. }
      replace (Z.to_nat (nspb * (j + 1)))
        with (Z.to_nat (nspb * j) + Z.to_nat ns)%nat by (rewrite Hfull; lia).
      exact Hpre'.
Qed.

Lemma dtype_tables_agree (dt : string) (ct : ctype) :
  dtype2ctype !! dt = Some ct ->
  dtype2csize !! dt = Some (calcsize ct) /\ dt <> "ibm".
Proof.
  intros H. apply elem_of_list_to_map_2 in H.
  repeat (apply elem_of_cons in H as [[= -> ->]|H]; [split; [reflexivity|discriminate]|]).
  apply elem_of_nil in H. contradiction.
Qed.

(** The integer type names of the tables are numpy type names. *)
Lemma int_ctype_known (dt : string) (ct : ctype) :
  dtype2ctype !! dt = Some ct -> is_int_ctype ct = true ->
  np_dtype_known dt = true.
Proof.
  intros H. apply elem_of_list_to_map_2 in H.
  repeat (apply elem_of_cons in H as [[= -> ->]|H];
          [intros Hi; first [reflexivity | discriminate Hi]|]).
  apply elem_of_nil in H. contradiction.
Qed.

(** [getValue] on a buffer that holds the requested items. *)
Lemma getValue_ok data index dt e ct (N : Z) :
  dtype2ctype !! dt = Some ct -> np_dtype_known dt = true ->
  0 <= index -> 0 <= N ->
  index + N * calcsize ct <= Z.of_nat (length data) ->
  getValue data index dt e N =
    Ok (if N =? 1 then Scalar (item_at data index e ct)
        else Array (items_at data index e ct N)).
Proof.
  intros Hct Hknown Hi HN Hlen.
  destruct (dtype_tables_agree dt ct Hct) as [Hsz Hibm].
  unfold getValue.
  destruct (String.eqb_spec dt "ibm") as [|_]; [contradiction|].
  unfold dict_get. rewrite Hct, Hsz, Hknown. cbn [negb].
  destruct (Z.ltb_spec N 0) as [|_]; [lia|].
  unfold py_range.
  pose proof nspb_pos as HB.
  assert (Hq0 : 0 <= Z.quot N nspb) by (apply Z.quot_pos; lia).
  pose proof (getValue_blocks_ok data index e ct N Hi HN Hlen
                (Z.to_nat (Z.quot N nspb + 1)) 0
                (replicate (Z.to_nat N) (VInt 0))) as Hloop.
  cbn zeta in Hloop. change (Z.to_nat 0) with 0%nat in Hloop.
  rewrite Hloop.
  - destruct (Z.eqb_spec N 1) as [->|_]; reflexivity.
  - lia.
  - lia.
  - rewrite length_replicate, length_items_at. reflexivity.
  - rewrite Z.mul_0_r. reflexivity.
Qed.

(** ** Reading the binary file header *)

Lemma unpack_one_int e ct bs :
  is_int_ctype ct = true -> unpack_one e ct bs = VInt (int_value (unpack_one e ct bs)).
Proof. destruct ct; intros H; try discriminate; reflexivity. Qed.

Lemma field_within_spec limit d :
  field_within limit d = true ->
  dtype2ctype !! f_type d = Some (field_ctype d) /\
  is_int_ctype (field_ctype d) = true /\
  0 <= f_pos d /\ f_pos d + calcsize (field_ctype d) <= limit.
Proof.
  unfold field_within, field_ctype.
  destruct (dtype2ctype !! f_type d) as [ct|]; [|discriminate].
  intros H. apply andb_prop in H as [H H3]. apply andb_prop in H as [H1 H2].
  repeat split; auto; lia.
Qed.

Lemma field_within_known limit d :
  field_within limit d = true -> np_dtype_known (f_type d) = true.
Proof.
  intros Hw. apply field_within_spec in Hw as (Hct & Hint & _).
  exact (int_ctype_known _ _ Hct Hint).
Qed.

(** Reading one field of a header block that lies inside the buffer. *)
Lemma getValue_field data base limit d :
  field_within limit d = true -> 0 <= base ->
  base + limit <= Z.of_nat (length data) ->
  getValue data (base + f_pos d) (f_type d) endian 1
  = Ok (Scalar (VInt (int_value (field_at data base d)))).
Proof.
  intros Hw Hb Hlen. apply field_within_spec in Hw as (Hct & Hint & Hp & Hsz).
  rewrite (getValue_ok _ _ _ _ (field_ctype d))
    by (eauto using int_ctype_known; lia).
  cbn [Z.eqb Pos.eqb]. unfold field_at, item_at.
  rewrite <- unpack_one_int by assumption. reflexivity.
Qed.

Lemma getSegyHeader_fields_ok data (fields : schema) (SH : gmap string Z) :
  schema_within (Z.of_nat (length data)) fields = true ->
  getSegyHeader_fields data SH fields
  = Ok (schema_map (fun d => int_value (field_at data 0 d)) fields SH).
Proof.
  revert SH. induction fields as [|[key d] fields IH]; intros SH Hw; [reflexivity|].
  cbn [schema_within forallb snd] in Hw. apply andb_prop in Hw as [Hd Hw].
  cbn [getSegyHeader_fields].
  pose proof (getValue_field data 0 _ d Hd ltac:(lia) ltac:(lia)) as Hv.
  rewrite Z.add_0_l in Hv. rewrite Hv. cbn [as_int].
  rewrite IH by assumption. reflexivity.
Qed.

Lemma schema_within_mono (l1 l2 : Z) (fields : schema) :
  l1 <= l2 -> schema_within l1 fields = true -> schema_within l2 fields = true.
Proof.
  intros Hl. unfold schema_within. rewrite !forallb_forall.
  intros H x Hx. specialize (H x Hx). unfold field_within in *.
  destruct (dtype2ctype !! f_type (snd x)); [|discriminate].
  apply andb_prop in H as [H H3]. apply andb_prop in H as [H1 H2].
  rewrite H1, H2. simpl. apply Z.leb_le. apply Z.leb_le in H3. lia.
Qed.

(** The last field of [SH_def] ends at byte 3508. *)
Lemma SH_def_within : schema_within 3508 SH_def = true.
Proof. vm_compute. reflexivity. Qed.

(** Every field of [STH_def] lies inside the 240 bytes of a trace header. *)
Lemma STH_def_within : schema_within bytes_STH STH_def = true.
Proof. vm_compute. reflexivity. Qed.

Section SH_lookup.
Context {V : Type} (g : field -> V).

Lemma SH_lookup_ns :
  schema_map g SH_def ∅ !! "ns" = Some (g (mkField 3220 "uint16" None (Some 0))).
Proof. reflexivity. Qed.

Lemma SH_lookup_dt :
  schema_map g SH_def ∅ !! "dt" = Some (g (mkField 3216 "uint16" None (Some 1000))).
Proof. reflexivity. Qed.

Lemma SH_lookup_dsf :
  schema_map g SH_def ∅ !! "DataSampleFormat"
  = Some (g (mkField 3224 "int16" None (Some 5))).
Proof. reflexivity. Qed.

Lemma SH_lookup_revno :
  schema_map g SH_def ∅ !! "SegyFormatRevisionNumber"
  = Some (g (mkField 3500 "uint16" None (Some 100))).
Proof. reflexivity. Qed.

Lemma SH_lookup_ntraces : schema_map g SH_def ∅ !! "ntraces" = None.
Proof. reflexivity. Qed.
End SH_lookup.

(** The integer of 16 bits, unsigned, at byte [pos]. *)
Lemma uint16_at_range data pos :
  0 <= int_value (item_at data pos endian c_H) < 65536.
Proof.
  unfold item_at. cbn [unpack_one int_value].
  set (bs := take (Z.to_nat (calcsize c_H)) (drop (Z.to_nat pos) data)).
  pose proof (uint_of_bytes_range endian bs) as H.
  assert (Hl : (length bs <= 2)%nat).
  { subst bs. rewrite length_take. change (Z.to_nat (calcsize c_H)) with 2%nat. lia. }
  assert (256 ^ Z.of_nat (length bs) <= 256 ^ 2) by (apply Z.pow_le_mono_r; lia).
  change (256 ^ 2) with 65536 in *. lia.
Qed.

Lemma getSegyHeader_ok data :
  3508 <= Z.of_nat (length data) ->
  getSegyHeader data =
    (let SH := decoded_SH data in
     let! bps := getBytePerSample SH in
     let! ns := dict_get SH "ns" in
     Ok (<["ntraces" := Z.quot (Z.of_nat (length data) - bytes_SFH)
                               (bytes_STH + ns * bps)]> SH, data)).
Proof.
  intros Hlen. unfold getSegyHeader.
  rewrite getSegyHeader_fields_ok; [reflexivity|].
  eapply schema_within_mono; [eassumption|apply SH_def_within].
Qed.

(** The accepted (revision, format) pairs and their table entries. *)
Lemma getBytePerSample_cases (SH : gmap string Z) (bps : Z) :
  getBytePerSample SH = Ok bps ->
  getRevisionNumber SH = Ok 1 /\
  exists dsf, SH !! "DataSampleFormat" = Some dsf /\
    ((dsf = 1 /\ bps = 4) \/ (dsf = 2 /\ bps = 4) \/ (dsf = 3 /\ bps = 2) \/
     (dsf = 5 /\ bps = 4) \/ (dsf = 8 /\ bps = 1)).
Proof.
  unfold getBytePerSample.
  destruct (getRevisionNumber SH) as [revno|] eqn:Hrev; [|discriminate].
  assert (revno = 1) as ->.
  { unfold getRevisionNumber in Hrev.
    destruct (dict_get SH "SegyFormatRevisionNumber"); [|discriminate].
    repeat (destruct (_ =? _); [congruence|]). discriminate. }
  unfold dict_get at 1.
  destruct (SH !! "DataSampleFormat") as [dsf|]; [|discriminate].
  intros H. split; [reflexivity|]. exists dsf. split; [reflexivity|].
  unfold table_get in H.
  change (dict_get DataSampleFormat_bps 1)
    with (Ok (list_to_map [(1, 4); (2, 4); (3, 2); (5, 4); (8, 1)] : gmap Z Z)) in H.
  unfold dict_get in H.
  destruct (_ !! dsf) as [b|] eqn:Hb; [|discriminate].
  injection H as ->. apply elem_of_list_to_map_2 in Hb.
  repeat (apply elem_of_cons in Hb as [[= -> ->]|Hb]; [tauto|]).
  apply elem_of_nil in Hb. contradiction.
Qed.

(** ** Reading trace headers *)

Lemma getSegyTraceHeader_all_app data tbs pos fmt V l1 l2 :
  getSegyTraceHeader_all data tbs pos fmt V (l1 ++ l2) =
    (let! V' := getSegyTraceHeader_all data tbs pos fmt V l1 in
     getSegyTraceHeader_all data tbs pos fmt V' l2).
Proof.
  revert V. induction l1 as [|i l1 IH]; intros V; simpl.
  - destruct (getSegyTraceHeader_all _ _ _ _ V l2); reflexivity.
  - destruct (getValue _ _ _ _ _) as [[v|vs]|]; try reflexivity. apply IH.
Qed.

Lemma trace_in_buffer (len nt tbs j : Z) :
  bytes_STH <= tbs -> 0 <= j < nt -> bytes_SFH + nt * tbs <= len ->
  0 <= bytes_SFH + tbs * j /\ bytes_SFH + tbs * j + bytes_STH <= len.
Proof. unfold bytes_STH, bytes_SFH. intros. nia. Qed.

(** The loop over all traces fills the array with the decoded values. *)
Lemma getSegyTraceHeader_all_ok data tbs d (nt : Z) :
  field_within bytes_STH d = true ->
  bytes_STH <= tbs -> 0 <= nt ->
  bytes_SFH + nt * tbs <= Z.of_nat (length data) ->
  forall (n : nat) (V : list value),
    (n <= Z.to_nat nt)%nat -> (n <= length V)%nat ->
    getSegyTraceHeader_all data tbs (f_pos d) (f_type d) V (py_range (Z.of_nat n))
    = Ok (map (trace_field data tbs d) (py_range (Z.of_nat n)) ++ drop n V).
Proof.
  intros Hw Htbs Hnt Hlen. induction n as [|n IH]; intros V Hn HV.
  - reflexivity.
  - rewrite Nat2Z.inj_succ, <- Z.add_1_r, py_range_succ by lia.
    rewrite getSegyTraceHeader_all_app, IH by lia. cbn [getSegyTraceHeader_all].
    destruct (trace_in_buffer (Z.of_nat (length data)) nt tbs (Z.of_nat n))
      as [Hb0 Hb1]; [assumption|lia|assumption|].
    rewrite (getValue_field data _ bytes_STH d) by assumption.
    rewrite Nat2Z.id, map_app, <- app_assoc. f_equal. cbn [map app].
    assert (Hl : length (map (trace_field data tbs d) (py_range (Z.of_nat n))) = n).
    { rewrite length_map, length_py_range. lia. }
    rewrite <- Hl at 1. rewrite <- (Nat.add_0_r (length _)), insert_app_r.
    f_equal. destruct (drop n V) as [|x rest] eqn:HD.
    + apply (f_equal length) in HD. rewrite length_drop in HD. simpl in HD. lia.
    + cbn. f_equal. change (S n) with (1 + n)%nat. rewrite Nat.add_comm, <- drop_drop, HD.
      reflexivity.
Qed.

Lemma traceByteSize_ge (SH : gmap string Z) (ns bps : Z) :
  getBytePerSample SH = Ok bps -> 0 <= ns -> bytes_STH <= bytes_STH + ns * bps.
Proof.
  intros Hbps Hns.
  destruct (getBytePerSample_cases SH bps Hbps) as (_ & dsf & _ & Hc). nia.
Qed.

Section TraceHeader.
Variables (SH : gmap string Z) (data : list byte).
Variables (nt ns bps : Z).
Hypothesis Hnt : SH !! "ntraces" = Some nt.
Hypothesis Hns : SH !! "ns" = Some ns.
Hypothesis Hbps : getBytePerSample SH = Ok bps.
Hypothesis Hnt0 : 0 <= nt.
Hypothesis Hns0 : 0 <= ns.
Hypothesis Hlen : bytes_SFH + nt * (bytes_STH + ns * bps) <= Z.of_nat (length data).

Let tbs := bytes_STH + ns * bps.

Lemma tbs_ge : bytes_STH <= tbs.
Proof using Hbps Hns0. subst tbs. eapply traceByteSize_ge; eassumption. Qed.

Variables (TH_dict : option schema) (TH_name : string) (d : field).
Hypothesis Hd :
  schema_get (match TH_dict with None => STH_def | Some s => s end) TH_name = Ok d.
Hypothesis Hw : field_within bytes_STH d = true.

(** All traces, any field but [dt]. *)
Lemma getSegyTraceHeader_all_traces :
  TH_name <> "dt" ->
  getSegyTraceHeader SH data TH_name TH_dict 0
  = Ok (Array (map (trace_field data tbs d) (py_range nt))).
Proof using All.
  intros Hname. unfold getSegyTraceHeader.
  replace (match TH_dict with
           | Some TH_dict0 => schema_get TH_dict0 TH_name
           | None => schema_get STH_def TH_name
           end) with (Ok d : result field) by (destruct TH_dict; auto).
  unfold dict_get. rewrite Hnt, Hns, Hbps. cbn [Z.eqb].
  rewrite (field_within_known _ _ Hw). cbn [negb].
  destruct (Z.ltb_spec nt 0) as [|_]; [lia|].
  pose proof (getSegyTraceHeader_all_ok data tbs d nt Hw tbs_ge Hnt0 Hlen
                (Z.to_nat nt) (replicate (Z.to_nat nt) (np_store (f_type d) 0))
                ltac:(lia) ltac:(rewrite length_replicate; lia)) as Hall.
  rewrite Z2Nat.id in Hall by lia. fold tbs. rewrite Hall.
  rewrite drop_ge, app_nil_r by (rewrite length_replicate; lia).
  destruct (String.eqb_spec TH_name "dt"); [contradiction|reflexivity].
Qed.

(** One trace, any field but [dt]. *)
Lemma getSegyTraceHeader_one_trace (i : Z) :
  TH_name <> "dt" -> 1 <= i <= nt ->
  getSegyTraceHeader SH data TH_name TH_dict i
  = Ok (Scalar (trace_field data tbs d (i - 1))).
Proof using All.
  intros Hname Hi. unfold getSegyTraceHeader.
  replace (match TH_dict with
           | Some TH_dict0 => schema_get TH_dict0 TH_name
           | None => schema_get STH_def TH_name
           end) with (Ok d : result field) by (destruct TH_dict; auto).
  unfold dict_get. rewrite Hnt, Hns, Hbps.
  destruct (Z.eqb_spec i 0) as [|_]; [lia|]. fold tbs.
  destruct (trace_in_buffer (Z.of_nat (length data)) nt tbs (i - 1))
    as [Hb0 Hb1]; [apply tbs_ge|lia|assumption|].
  rewrite (getValue_field data _ bytes_STH d) by assumption.
  destruct (String.eqb_spec TH_name "dt"); [contradiction|reflexivity].
Qed.

(** All traces, field [dt]: the fallback on the file-level [dt]. *)
Lemma getSegyTraceHeader_dt_all (dtv : Z) :
  TH_name = "dt" -> 1 <= nt -> SH !! "dt" = Some dtv ->
  getSegyTraceHeader SH data TH_name TH_dict 0
  = Ok (Array (if value_is_zero (trace_field data tbs d 0)
               then map (fun _ => np_store (f_type d) dtv) (py_range nt)
               else map (trace_field data tbs d) (py_range nt))).
Proof using All.
  intros Hname Hnt1 Hdt. unfold getSegyTraceHeader.
  replace (match TH_dict with
           | Some TH_dict0 => schema_get TH_dict0 TH_name
           | None => schema_get STH_def TH_name
           end) with (Ok d : result field) by (destruct TH_dict; auto).
  unfold dict_get. rewrite Hnt, Hns, Hbps, Hdt. cbn [Z.eqb].
  rewrite (field_within_known _ _ Hw). cbn [negb].
  destruct (Z.ltb_spec nt 0) as [|_]; [lia|].
  pose proof (getSegyTraceHeader_all_ok data tbs d nt Hw tbs_ge Hnt0 Hlen
                (Z.to_nat nt) (replicate (Z.to_nat nt) (np_store (f_type d) 0))
                ltac:(lia) ltac:(rewrite length_replicate; lia)) as Hall.
  rewrite Z2Nat.id in Hall by lia. fold tbs. rewrite Hall.
  rewrite drop_ge, app_nil_r by (rewrite length_replicate; lia).
  subst TH_name. cbn [String.eqb Ascii.eqb Bool.eqb].
  assert (Hr : py_range nt = 0 :: map Z.of_nat (seq 1 (Z.to_nat nt - 1))).
  { unfold py_range. replace (Z.to_nat nt) with (S (Z.to_nat nt - 1)) at 1 by lia.
    reflexivity. }
  assert (Hfirst : seq_get (map (trace_field data tbs d) (py_range nt)) 0
                   = Ok (trace_field data tbs d 0)) by (rewrite Hr; reflexivity).
  rewrite Hfirst.
  destruct (value_is_zero (trace_field data tbs d 0)); [|reflexivity].
  rewrite map_map. reflexivity.
Qed.

(** One trace, field [dt]: the fallback test indexes a scalar. *)
Lemma getSegyTraceHeader_dt_one (i : Z) :
  TH_name = "dt" -> 1 <= i <= nt ->
  getSegyTraceHeader SH data TH_name TH_dict i = Err IndexError.
Proof using All.
  intros Hname Hi. unfold getSegyTraceHeader.
  replace (match TH_dict with
           | Some TH_dict0 => schema_get TH_dict0 TH_name
           | None => schema_get STH_def TH_name
           end) with (Ok d : result field) by (destruct TH_dict; auto).
  unfold dict_get. rewrite Hnt, Hns, Hbps.
  destruct (Z.eqb_spec i 0) as [|_]; [lia|]. fold tbs.
  destruct (trace_in_buffer (Z.of_nat (length data)) nt tbs (i - 1))
    as [Hb0 Hb1]; [apply tbs_ge|lia|assumption|].
  rewrite (getValue_field data _ bytes_STH d) by assumption.
  subst TH_name. reflexivity.
Qed.
End TraceHeader.

(** ** Reading the samples *)

Lemma chunks_seq {A} (sz n : nat) (L : list A) :
  chunks sz n L = map (fun j => take sz (drop (j * sz) L)) (seq 0 n).
Proof.
  revert L. induction n as [|n IH]; intros L; [reflexivity|].
  cbn [chunks seq map]. f_equal. rewrite IH, <- seq_shift, map_map.
  apply map_ext. intros j. rewrite drop_drop. reflexivity.
Qed.

(** A run of items inside a longer run. *)
Lemma items_at_sub data index e ct (a m N : Z) :
  0 <= index -> 0 <= a -> 0 <= m -> a + m <= N ->
  take (Z.to_nat m) (drop (Z.to_nat a) (items_at data index e ct N))
  = items_at data (index + a * calcsize ct) e ct m.
Proof.
  intros Hi Ha Hm HN. pose proof (calcsize_pos ct) as Hsz.
  unfold items_at. rewrite skipn_map, firstn_map. f_equal.
  rewrite drop_chunks, take_chunks by lia. rewrite drop_drop. do 2 f_equal. nia.
Qed.

Lemma getBytePerSample_insert_ntraces (SH : gmap string Z) (nt : Z) :
  getBytePerSample (<["ntraces" := nt]> SH) = getBytePerSample SH.
Proof.
  unfold getBytePerSample, getRevisionNumber, dict_get.
  rewrite !lookup_insert_ne by discriminate. reflexivity.
Qed.

(** Every key of [STH_def] resolves to a field inside the trace header. *)
Lemma STH_def_closed : schema_closed STH_def = true.
Proof. vm_compute. reflexivity. Qed.

Lemma getSegyTraceHeaders_loop_ok SH data (nt ns bps dtv : Z) (TH_read keys : schema) :
  SH !! "ntraces" = Some nt -> SH !! "ns" = Some ns ->
  getBytePerSample SH = Ok bps -> SH !! "dt" = Some dtv ->
  1 <= nt -> 0 <= ns ->
  bytes_SFH + nt * (bytes_STH + ns * bps) <= Z.of_nat (length data) ->
  Forall (fun kd => exists d, schema_get TH_read (fst kd) = Ok d /\
                              field_within bytes_STH d = true) keys ->
  forall acc, exists TH,
    getSegyTraceHeaders_loop SH data TH_read 0 acc keys = Ok TH.
Proof.
  intros Hnt Hns Hbps Hdt Hnt1 Hns0 Hlen Hkeys.
  induction Hkeys as [|[key d0] keys (d & Hd & Hw) _ IH]; intros acc.
  - eexists. reflexivity.
  - cbn [getSegyTraceHeaders_loop]. cbn [fst] in Hd.
    destruct (String.eqb_spec key "dt") as [Hk|Hk].
    + rewrite (getSegyTraceHeader_dt_all SH data nt ns bps Hnt Hns Hbps
                 ltac:(lia) Hns0 Hlen (Some TH_read) key d Hd Hw dtv Hk Hnt1 Hdt).
      apply IH.
    + rewrite (getSegyTraceHeader_all_traces SH data nt ns bps Hnt Hns Hbps
                 ltac:(lia) Hns0 Hlen (Some TH_read) key d Hd Hw Hk).
      apply IH.
Qed.

(** The headers-only decode of a buffer that holds [nt >= 1] traces. *)
Lemma getSegyTraceHeaders_ok SH data (nt ns bps dtv : Z) :
  SH !! "ntraces" = Some nt -> SH !! "ns" = Some ns ->
  getBytePerSample SH = Ok bps -> SH !! "dt" = Some dtv ->
  1 <= nt -> 0 <= ns ->
  bytes_SFH + nt * (bytes_STH + ns * bps) <= Z.of_nat (length data) ->
  exists TH, getSegyTraceHeaders SH data None 0 = Ok TH.
Proof.
  intros. unfold getSegyTraceHeaders.
  eapply getSegyTraceHeaders_loop_ok; eauto.
  pose proof STH_def_closed as Hc. unfold schema_closed in Hc.
  rewrite forallb_forall in Hc. apply List.Forall_forall. intros kd Hin.
  specialize (Hc kd Hin). destruct (schema_get STH_def (fst kd)) as [d|]; [|discriminate].
  eauto.
Qed.

(** The sample formats that can be read and written with [struct]. *)
Lemma sample_ctype_cases (dsf bps : Z) (ct : ctype) :
  sample_ctype dsf = Ok ct ->
  ((dsf = 1 /\ bps = 4) \/ (dsf = 2 /\ bps = 4) \/ (dsf = 3 /\ bps = 2) \/
   (dsf = 5 /\ bps = 4) \/ (dsf = 8 /\ bps = 1)) ->
  (dsf = 2 /\ bps = 4 /\ ct = c_l) \/ (dsf = 3 /\ bps = 2 /\ ct = c_h) \/
  (dsf = 5 /\ bps = 4 /\ ct = c_f) \/ (dsf = 8 /\ bps = 1 /\ ct = c_B).
Proof.
  intros Hct [[-> ->]|[[-> ->]|[[-> ->]|[[-> ->]|[-> ->]]]]];
    vm_compute in Hct; try discriminate; injection Hct as <-; tauto.
Qed.

Lemma format_facts (dsf bps : Z) (ct : ctype) :
  sample_ctype dsf = Ok ct ->
  ((dsf = 1 /\ bps = 4) \/ (dsf = 2 /\ bps = 4) \/ (dsf = 3 /\ bps = 2) \/
   (dsf = 5 /\ bps = 4) \/ (dsf = 8 /\ bps = 1)) ->
  exists name descr,
    table_get DataSampleFormat_descr 1 dsf = Ok descr /\
    table_get DataSampleFormat_datatype 1 dsf = Ok name /\
    table_get DataSampleFormat_bps 1 dsf = Ok bps /\
    dtype2ctype !! name = Some ct /\
    String.eqb name "ibm" = false /\
    calcsize ct = bps /\
    Z.quot bytes_STH bps * bps = bytes_STH /\ 60 <= Z.quot bytes_STH bps.
Proof.
  intros Hct Hc.
  destruct (sample_ctype_cases dsf bps ct Hct Hc)
    as [(-> & -> & ->)|[(-> & -> & ->)|[(-> & -> & ->)|(-> & -> & ->)]]];
    do 2 eexists; repeat split; try reflexivity; discriminate.
Qed.

(** The sample types other than that of format code 8 are numpy types. *)
Lemma format_known (dsf bps : Z) (ct : ctype) (name : string) :
  sample_ctype dsf = Ok ct ->
  ((dsf = 1 /\ bps = 4) \/ (dsf = 2 /\ bps = 4) \/ (dsf = 3 /\ bps = 2) \/
   (dsf = 5 /\ bps = 4) \/ (dsf = 8 /\ bps = 1)) ->
  table_get DataSampleFormat_datatype 1 dsf = Ok name ->
  (dsf <> 8 -> np_dtype_known name = true) /\
  (dsf = 8 -> name = "uchar").
Proof.
  intros Hct Hc Hname.
  destruct (sample_ctype_cases dsf bps ct Hct Hc)
    as [(-> & _)|[(-> & _)|[(-> & _)|(-> & _)]]];
    vm_compute in Hname; injection Hname as <-;
    (split; [intros H8; first [reflexivity | contradiction]
            |intros H8; first [reflexivity | discriminate H8]]).
Qed.

(** [np.empty] rejects the type name of format code 8. *)
Lemma getValue_uchar (data : list byte) (index : Z) (e : byteorder) (number : Z) :
  getValue data index "uchar" e number = Err (np_dtype_error "uchar").
Proof. reflexivity. Qed.

Section ReadSamples.
Variables (data : list byte) (bps ns dsf nt r : Z) (ct : ctype).
Hypothesis Hbps : getBytePerSample (decoded_SH data) = Ok bps.
Hypothesis Hdsf : decoded_SH data !! "DataSampleFormat" = Some dsf.
Hypothesis Hns : decoded_SH data !! "ns" = Some ns.
Hypothesis Hct : sample_ctype dsf = Ok ct.
Hypothesis Hnt : 1 <= nt.
Hypothesis Hr : 0 <= r < bps.
Hypothesis Hlen :
  Z.of_nat (length data) = bytes_SFH + nt * (bytes_STH + ns * bps) + r.

Let tbs := bytes_STH + ns * bps.

Lemma read_ns_nonneg : 0 <= ns.
Proof using All.
  unfold decoded_SH in Hns. rewrite SH_lookup_ns in Hns. injection Hns as <-.
  apply uint16_at_range.
Qed.

Lemma read_dsf_cases :
  (dsf = 1 /\ bps = 4) \/ (dsf = 2 /\ bps = 4) \/ (dsf = 3 /\ bps = 2) \/
  (dsf = 5 /\ bps = 4) \/ (dsf = 8 /\ bps = 1).
Proof using All.
  destruct (getBytePerSample_cases _ _ Hbps) as (_ & dsf' & Hd' & Hc).
  rewrite Hdsf in Hd'. injection Hd' as <-. exact Hc.
Qed.

(** The trace count derived from the buffer length. *)
Lemma read_ntraces :
  Z.quot (Z.of_nat (length data) - bytes_SFH) (bytes_STH + ns * bps) = nt.
Proof using All.
  pose proof read_ns_nonneg as Hns0. pose proof read_dsf_cases as Hc.
  rewrite Hlen. fold tbs.
  assert (H1 : 0 <= ns * bps) by nia.
  assert (Htbs : 240 <= tbs) by (unfold tbs, bytes_STH; lia).
  assert (H2 : 0 <= nt * tbs) by nia.
  assert (H3 : bps <= tbs) by (unfold tbs, bytes_STH; lia).
  rewrite Z.quot_div_nonneg by lia.
  symmetry. apply (Z.div_unique _ _ nt r); lia.
Qed.

(** The number of items of the flat decode. *)
Lemma read_nd :
  Z.quot (Z.of_nat (length data) - bytes_SFH) bps
  = nt * (ns + Z.quot bytes_STH bps).
Proof using All.
  pose proof read_ns_nonneg as Hns0.
  destruct (format_facts dsf bps ct Hct read_dsf_cases)
    as (name & descr & _ & _ & _ & _ & _ & _ & Hq & Hq0).
  rewrite Hlen.
  assert (H1 : 0 <= ns * bps) by nia.
  assert (H2 : 0 <= nt * (bytes_STH + ns * bps)) by (unfold bytes_STH; nia).
  rewrite Z.quot_div_nonneg by lia.
  symmetry. apply (Z.div_unique _ _ _ r); [left; lia|].
  set (q := Z.quot bytes_STH bps) in *. rewrite <- Hq. ring.
Qed.

(** Row [j] of the reshaped and stripped array is the sample block of
    trace [j]. *)
Lemma read_row (j : nat) :
  (j < Z.to_nat nt)%nat ->
  let q := Z.quot bytes_STH bps in
  let nd := nt * (ns + q) in
  py_slice
    (take (Z.to_nat (ns + q))
          (drop (j * Z.to_nat (ns + q)) (items_at data bytes_SFH endian ct nd)))
    q (ns + q)
  = trace_samples data tbs ct ns (Z.of_nat j).
Proof using All.
  intros Hj q nd. pose proof read_ns_nonneg as Hns0.
  destruct (format_facts dsf bps ct Hct read_dsf_cases)
    as (name & descr & _ & _ & _ & _ & _ & Hsz & Hq & Hq0).
  fold q in Hq, Hq0. clearbody q. subst nd.
  assert (Hrow : take (Z.to_nat (ns + q))
                   (drop (j * Z.to_nat (ns + q))
                         (items_at data bytes_SFH endian ct (nt * (ns + q))))
                 = items_at data (bytes_SFH + (Z.of_nat j * (ns + q)) * calcsize ct)
                            endian ct (ns + q)).
  { rewrite <- items_at_sub with (N := nt * (ns + q)) by (unfold bytes_SFH; nia).
    do 2 f_equal. nia. }
  rewrite Hrow.
  rewrite py_slice_take_drop by (rewrite ?length_items_at; lia).
  replace (ns + q - q) with ns by lia.
  assert (Hoff : 0 <= Z.of_nat j * (ns + q) * calcsize ct).
  { rewrite Hsz. apply Z.mul_nonneg_nonneg; [apply Z.mul_nonneg_nonneg|]; lia. }
  rewrite items_at_sub by (unfold bytes_SFH; lia).
  unfold trace_samples. f_equal. rewrite Hsz. unfold tbs. rewrite <- Hq. ring.
Qed.

(** The full decode of a buffer made of the file header, [nt] whole
    traces and fewer than [bps] trailing bytes. *)
Lemma readSegy_samples :
  (dsf <> 8 ->
   exists name TH,
     table_get DataSampleFormat_datatype 1 dsf = Ok name /\
     readSegy data None false
     = Ok (Some (mkArray name (nt, ns)
                   (map (trace_samples data tbs ct ns) (py_range nt))),
           <["ntraces" := nt]> (decoded_SH data), TH)) /\
  (dsf = 8 -> readSegy data None false = Err (np_dtype_error "uchar")).
Proof using All.
  pose proof read_ns_nonneg as Hns0. pose proof read_dsf_cases as Hc.
  destruct (format_facts dsf bps ct Hct Hc)
    as (name & descr & Hdescr & Hname & Hbpst & Hctype & Hibm & Hsz & Hq & Hq0).
  destruct (getBytePerSample_cases _ _ Hbps) as (Hrev & _).
  set (SH := <["ntraces" := nt]> (decoded_SH data)).
  assert (HSHnt : SH !! "ntraces" = Some nt) by apply lookup_insert_eq.
  assert (HSHns : SH !! "ns" = Some ns)
    by (unfold SH; rewrite lookup_insert_ne by discriminate; exact Hns).
  assert (HSHdsf : SH !! "DataSampleFormat" = Some dsf)
    by (unfold SH; rewrite lookup_insert_ne by discriminate; exact Hdsf).
  assert (HSHbps : getBytePerSample SH = Ok bps)
    by (unfold SH; rewrite getBytePerSample_insert_ntraces; exact Hbps).
  assert (HSHrev : getRevisionNumber SH = Ok 1).
  { unfold SH, getRevisionNumber, dict_get in *.
    rewrite lookup_insert_ne by discriminate. exact Hrev. }
  assert (HSHdt : exists dtv, SH !! "dt" = Some dtv).
  { unfold SH, decoded_SH. rewrite lookup_insert_ne by discriminate.
    rewrite SH_lookup_dt. eexists. reflexivity. }
  destruct HSHdt as [dtv HSHdt].
  assert (Hbuf : bytes_SFH + nt * (bytes_STH + ns * bps) <= Z.of_nat (length data))
    by lia.
  destruct (getSegyTraceHeaders_ok SH data nt ns bps dtv HSHnt HSHns HSHbps HSHdt
              Hnt Hns0 Hbuf) as [TH HTH].
  destruct (format_known dsf bps ct name Hct Hc Hname) as [Hknown Huchar].
  split.
  2:{ intros H8. rewrite (Huchar H8) in *. unfold readSegy.
      rewrite getSegyHeader_ok by (unfold bytes_SFH, bytes_STH in *; nia).
      cbn zeta. rewrite Hbps. unfold dict_get at 1. rewrite Hns.
      rewrite read_ntraces. fold SH. rewrite HTH, HSHbps, HSHrev.
      unfold dict_get. rewrite HSHdsf, Hdescr, Hname.
      rewrite getValue_uchar. reflexivity. }
  intros H8. specialize (Hknown H8).
  exists name, TH. split; [exact Hname|].
  unfold readSegy.
  rewrite getSegyHeader_ok by (unfold bytes_SFH, bytes_STH in *; nia).
  cbn zeta. rewrite Hbps. unfold dict_get at 1. rewrite Hns.
  rewrite read_ntraces. fold SH. rewrite HTH, HSHbps, HSHrev.
  unfold dict_get. rewrite HSHdsf, Hdescr, Hname, HSHnt, HSHns.
  rewrite read_nd. set (q := Z.quot bytes_STH bps) in *.
  pose proof read_row as Hrowq. cbn zeta in Hrowq. fold q in Hrowq. clearbody q.
  assert (Hfit : bytes_SFH + nt * (ns + q) * calcsize ct <= Z.of_nat (length data)).
  { rewrite Hsz.
    replace (nt * (ns + q) * bps) with (nt * (bytes_STH + ns * bps))
      by (rewrite <- Hq; ring).
    lia. }
  assert (Hnd0 : 1 <= nt * (ns + q) /\ nt * (ns + q) <> 1) by nia.
  rewrite (getValue_ok data bytes_SFH name endian ct (nt * (ns + q)));
    [|assumption|assumption|unfold bytes_SFH; lia|lia|assumption].
  assert (Hnd1 : (nt * (ns + q) =? 1) = false) by (apply Z.eqb_neq; lia).
  rewrite Hnd1, Hibm. cbn [pyobj_items].
  unfold np_reshape.
  destruct (Z.ltb_spec nt 0) as [|_]; [lia|].
  destruct (Z.ltb_spec (ns + q) 0) as [|_]; [lia|]. cbn [orb].
  rewrite length_items_at, Z2Nat.id, Z.eqb_refl by nia. cbn [negb].
  do 2 f_equal. f_equal.
  unfold ndarray_cols. cbn [dtype shape rows fst snd]. unfold slice_index.
  destruct (Z.ltb_spec (ns + q) 0) as [|_]; [lia|].
  destruct (Z.ltb_spec q 0) as [|_]; [lia|].
  rewrite !Z.min_l by lia. replace (ns + q - q) with ns by lia.
  assert (Hrows :
    map (fun row => py_slice row q (ns + q))
        (chunks (Z.to_nat (ns + q)) (Z.to_nat nt)
                (items_at data bytes_SFH endian ct (nt * (ns + q))))
    = map (trace_samples data tbs ct ns) (py_range nt)).
  { rewrite chunks_seq, map_map. unfold py_range. rewrite map_map.
    apply map_ext_in. intros j Hj. apply in_seq in Hj.
    apply Hrowq. lia. }
  rewrite Hrows.
  destruct (Z.eqb_spec dsf 8) as [|_]; [contradiction|]. reflexivity.
Qed.
End ReadSamples.

(** ** Packing *)

Lemma lor_bound (a b n : Z) :
  0 <= n -> 0 <= a < 2 ^ n -> 0 <= b < 2 ^ n -> 0 <= Z.lor a b < 2 ^ n.
Proof.
  intros Hn Ha Hb. split; [apply Z.lor_nonneg; lia|].
  destruct (Z.eq_dec (Z.lor a b) 0) as [->|Hz]; [lia|].
  assert (0 < Z.lor a b) by (pose proof (proj2 (Z.lor_nonneg a b)); lia).
  assert (0 < n).
  { destruct (Z.eq_dec n 0) as [->|]; [|lia]. exfalso. apply Hz.
    change (2 ^ 0) with 1 in *. replace a with 0 by lia. replace b with 0 by lia.
    reflexivity. }
  apply Z.log2_lt_pow2; [lia|]. rewrite Z.log2_lor by lia.
  apply Z.max_lub_lt.
  - destruct (Z.eq_dec a 0) as [->|]; [simpl; lia|]. apply Z.log2_lt_pow2; lia.
  - destruct (Z.eq_dec b 0) as [->|]; [simpl; lia|]. apply Z.log2_lt_pow2; lia.
Qed.

(** A single-precision bit pattern has 32 bits. *)
Lemma ieee_encode_f32_range (x : spec_float) : 0 <= ieee_encode 24 8 x < 2 ^ 32.
Proof.
  assert (Hfield : forall ex frac,
             0 <= Z.lor (Z.shiftl (Z.land ex (Z.ones 8)) 23) (Z.land frac (Z.ones 23))
             < 2 ^ 31).
  { intros ex frac. apply lor_bound; [lia| |].
    - rewrite Z.shiftl_mul_pow2 by lia. rewrite Z.land_ones by lia.
      pose proof (Z.mod_pos_bound ex (2 ^ 8) ltac:(lia)) as Hm.
      change (2 ^ 8) with 256 in *. change (2 ^ 23) with 8388608.
      change (2 ^ 31) with 2147483648. lia.
    - rewrite Z.land_ones by lia.
      pose proof (Z.mod_pos_bound frac (2 ^ 23) ltac:(lia)) as Hm.
      change (2 ^ 23) with 8388608 in *. change (2 ^ 31) with 2147483648. lia. }
  assert (Hsign : forall s : bool, 0 <= (if s then Z.shiftl 1 31 else 0) < 2 ^ 32)
    by (intros []; change (Z.shiftl 1 31) with 2147483648;
        change (2 ^ 32) with 4294967296; lia).
  assert (Hall : forall (s : bool) ex frac,
             0 <= Z.lor (if s then Z.shiftl 1 31 else 0)
                        (Z.lor (Z.shiftl (Z.land ex (Z.ones 8)) 23)
                               (Z.land frac (Z.ones 23))) < 2 ^ 32).
  { intros s ex frac. apply lor_bound; [lia|apply Hsign|].
    pose proof (Hfield ex frac) as Hf.
    change (2 ^ 31) with 2147483648 in Hf. change (2 ^ 32) with 4294967296. lia. }
  unfold ieee_encode.
  change (24 - 1) with 23. change (23 + 8) with 31.
  destruct x as [s|s| |s m e].
  - apply Hsign.
  - apply Hall.
  - pose proof (Hfield (Z.ones 8) (Z.shiftl 1 (23 - 1))) as Hf.
    change (2 ^ 31) with 2147483648 in Hf. change (2 ^ 32) with 4294967296. lia.
  - destruct (_ <? _); apply Hall.
Qed.

(** Disjoint bit fields add up. *)
Lemma lor_shift_add (a b n : Z) :
  0 <= n -> 0 <= b < 2 ^ n -> Z.lor (a * 2 ^ n) b = a * 2 ^ n + b.
Proof.
  intros Hn Hb. rewrite <- Z.add_lor_land.
  assert (Z.land (a * 2 ^ n) b = 0) as ->; [|lia].
  apply Z.bits_inj'. intros m Hm. rewrite Z.land_spec, Z.bits_0.
  destruct (Z.lt_ge_cases m n) as [Hlt|Hge].
  - rewrite Z.mul_pow2_bits_low by lia. reflexivity.
  - rewrite <- (Z.mod_small b (2 ^ n)) by lia.
    rewrite Z.mod_pow2_bits_high by lia. apply andb_false_r.
Qed.

(** The bit pattern of a single as a sum of its sign, exponent and
    fraction fields. *)
Lemma f32_fields (s : bool) (ex frac : Z) :
  Z.lor (if s then Z.shiftl 1 31 else 0)
        (Z.lor (Z.shiftl (Z.land ex (Z.ones 8)) 23) (Z.land frac (Z.ones 23)))
  = (if s then 2 ^ 31 else 0) + (ex mod 2 ^ 8) * 2 ^ 23 + frac mod 2 ^ 23.
Proof.
  rewrite !Z.land_ones, (Z.shiftl_mul_pow2 _ 23) by lia.
  pose proof (Z.mod_pos_bound ex (2 ^ 8) ltac:(lia)) as He.
  pose proof (Z.mod_pos_bound frac (2 ^ 23) ltac:(lia)) as Hf.
  rewrite (lor_shift_add _ _ 23) by lia.
  destruct s.
  - change (Z.shiftl 1 31) with (1 * 2 ^ 31).
    rewrite (lor_shift_add 1 _ 31); [lia|lia|].
    change (2 ^ 8) with 256 in *. change (2 ^ 23) with 8388608 in *.
    change (2 ^ 31) with 2147483648. lia.
  - rewrite Z.lor_0_l. lia.
Qed.

Lemma shr_fexp_emin (prec emax m e : Z) (l : location) :
  emin prec emax <= snd (shr_fexp prec emax m e l).
Proof.
  unfold shr_fexp, shr, fexp.
  destruct (Z.max (Zdigits2 m + e - prec) (emin prec emax) - e) eqn:Hn; cbn [snd]; lia.
Qed.

Lemma binary_round_aux_exp (prec emax : Z) (sx : bool) (mx ex : Z) (lx : location)
    (s : bool) (m : positive) (e : Z) :
  binary_round_aux prec emax sx mx ex lx = S754_finite s m e ->
  emin prec emax <= e <= emax - prec.
Proof.
  unfold binary_round_aux.
  destruct (shr_fexp prec emax mx ex lx) as [mrs' e'].
  pose proof (shr_fexp_emin prec emax
                (round_nearest_even (shr_m mrs') (loc_of_shr_record mrs')) e'
                loc_Exact) as Hmin.
  destruct (shr_fexp prec emax _ e' loc_Exact) as [mrs'' e''].
  cbn [snd] in Hmin.
  destruct (shr_m mrs''); try discriminate.
  destruct (Z.leb_spec e'' (emax - prec)); [|discriminate].
  intros [= _ _ <-]. lia.
Qed.

Lemma ieee_round_exp (prec emax : Z) (x : spec_float) (s : bool) (m : positive) (e : Z) :
  ieee_round prec emax x = S754_finite s m e ->
  (exists s0 m0 e0, x = S754_finite s0 m0 e0) /\
  emin prec emax <= e <= emax - prec.
Proof.
  destruct x as [s0|s0| |s0 m0 e0]; try discriminate.
  cbn [ieee_round]. intros H. split; [eauto|].
  unfold binary_normalize, binary_round in H.
  destruct s0;
    destruct (shl_align m0 e0 _) as [mz ez];
    exact (binary_round_aux_exp _ _ _ _ _ _ _ _ _ H).
Qed.

Lemma magnitude_of_fields (s : bool) (mag : Z) :
  0 <= mag < 2 ^ 31 -> ((if s then 2 ^ 31 else 0) + mag) mod 2 ^ 31 = mag.
Proof.
  intros Hm. destruct s.
  - rewrite Z.add_comm, <- (Z.mul_1_l (2 ^ 31)), Z.mod_add by lia.
    apply Z.mod_small. exact Hm.
  - apply Z.mod_small. exact Hm.
Qed.

(** The fields of an encoded single. *)
Lemma encode_single_fields (x : spec_float) :
  exists (s : bool) (ex frac : Z),
    ieee_encode 24 8 x
    = (if s then 2 ^ 31 else 0) + (ex mod 2 ^ 8) * 2 ^ 23 + frac mod 2 ^ 23 /\
    match x with
    | S754_zero _ => ex = 0 /\ frac = 0
    | S754_infinity _ => ex = 255 /\ frac = 0
    | S754_nan => ex = 255 /\ frac = 2 ^ 22
    | S754_finite _ m e => ex = 0 \/ ex = e + 150
    end.
Proof.
  unfold ieee_encode. change (24 - 1) with 23. change (23 + 8) with 31.
  change (23 - 1) with 22. change (Z.ones (8 - 1)) with 127.
  destruct x as [s|s| |s m e].
  - exists s, 0, 0. split; [|split; reflexivity].
    destruct s; reflexivity.
  - exists s, 255, 0. split; [|split; reflexivity].
    change (Z.ones 8) with 255 at 1. rewrite <- (f32_fields s 255 0). reflexivity.
  - exists false, 255, (2 ^ 22). split; [|split; reflexivity]. reflexivity.
  - destruct (Z.pos m <? Z.shiftl 1 23).
    + exists s, 0, (Z.pos m). split; [apply f32_fields|left; reflexivity].
    + exists s, (e + 127 + 23), (Z.pos m). split; [apply f32_fields|right; lia].
Qed.

(** A rounded single is never a signalling NaN. *)
Lemma f32_quiet_encode_round (x : spec_float) :
  f32_quiet (ieee_encode 24 8 (ieee_round 24 128 x))
  = ieee_encode 24 8 (ieee_round 24 128 x).
Proof.
  destruct (encode_single_fields (ieee_round 24 128 x)) as (s & ex & frac & Hv & Hx).
  pose proof (Z.mod_pos_bound ex (2 ^ 8) ltac:(lia)) as He.
  pose proof (Z.mod_pos_bound frac (2 ^ 23) ltac:(lia)) as Hf.
  change (2 ^ 8) with 256 in *. change (2 ^ 23) with 8388608 in *.
  unfold f32_quiet, f32_signalling. rewrite Hv. rewrite <- Z.add_assoc.
  rewrite magnitude_of_fields by (change (2 ^ 31) with 2147483648; lia).
  assert (Hcase : ex mod 256 * 8388608 + frac mod 8388608 <= 0x7F800000 \/
                  0x7FC00000 <= ex mod 256 * 8388608 + frac mod 8388608).
  { destruct (ieee_round 24 128 x) as [s0|s0| |s0 m e] eqn:Hr.
    - destruct Hx as [-> ->]. left. rewrite !Z.mod_0_l by lia. lia.
    - destruct Hx as [-> ->]. left. rewrite Z.mod_0_l, (Z.mod_small 255) by lia. lia.
    - destruct Hx as [-> ->]. right.
      rewrite (Z.mod_small 255), (Z.mod_small (2 ^ 22)) by lia. lia.
    - apply ieee_round_exp in Hr as [_ Hr]. unfold emin in Hr.
      destruct Hx as [->| ->]; left.
      + rewrite Z.mod_0_l by lia. lia.
      + rewrite Z.mod_small by lia. lia. }
  destruct (Z.ltb_spec 0x7F800000 (ex mod 256 * 8388608 + frac mod 8388608));
    [|reflexivity].
  destruct (Z.ltb_spec (ex mod 256 * 8388608 + frac mod 8388608) 0x7FC00000);
    [lia|reflexivity].
Qed.

Lemma f32_quiet_range (b : Z) : 0 <= b < 2 ^ 32 -> 0 <= f32_quiet b < 2 ^ 32.
Proof.
  intros Hb. unfold f32_quiet, f32_signalling.
  destruct (Z.ltb_spec 0x7F800000 (b mod 2 ^ 31)); [|exact Hb].
  destruct (Z.ltb_spec (b mod 2 ^ 31) 0x7FC00000); [|exact Hb]. cbn [andb].
  pose proof (Z.div_mod b (2 ^ 31) ltac:(lia)) as Hd.
  assert (0 <= b / 2 ^ 31 < 2).
  { split; [apply Z.div_pos; lia|apply Z.div_lt_upper_bound; lia]. }
  change (2 ^ 31) with 2147483648 in *. change (2 ^ 32) with 4294967296 in *.
  change (2 ^ 22) with 4194304. lia.
Qed.

Lemma f32_quiet_idem (b : Z) : f32_quiet (f32_quiet b) = f32_quiet b.
Proof.
  assert (Hq : forall c,
             (0x7F800000 <? c mod 2 ^ 31) && (c mod 2 ^ 31 <? 0x7FC00000) = false ->
             f32_quiet c = c).
  { intros c Hc. unfold f32_quiet, f32_signalling. rewrite Hc. reflexivity. }
  destruct ((0x7F800000 <? b mod 2 ^ 31) && (b mod 2 ^ 31 <? 0x7FC00000)) eqn:Hc.
  - assert (f32_quiet b = b + 2 ^ 22) as ->
      by (unfold f32_quiet, f32_signalling; rewrite Hc; reflexivity).
    apply Hq. apply andb_prop in Hc as [Hlo Hhi].
    apply Z.ltb_lt in Hlo, Hhi.
    assert (Hm : (b + 2 ^ 22) mod 2 ^ 31 = b mod 2 ^ 31 + 2 ^ 22).
    { pose proof (Z.div_mod b (2 ^ 31) ltac:(lia)) as Hd.
      symmetry. apply (Z.mod_unique _ _ (b / 2 ^ 31)); [left|].
      - change (2 ^ 31) with 2147483648 in *. change (2 ^ 22) with 4194304. lia.
      - lia. }
    rewrite Hm. apply andb_false_intro2. apply Z.ltb_ge.
    change (2 ^ 22) with 4194304. lia.
  - rewrite (Hq b Hc). exact (Hq b Hc).
Qed.

Lemma f64_to_f32_range (b : Z) : 0 <= f64_to_f32 b < 2 ^ 32.
Proof.
  unfold f64_to_f32. destruct (f64_is_nan b); [|apply ieee_encode_f32_range].
  pose proof (Z.mod_pos_bound (b / 2 ^ 63) 2 ltac:(lia)).
  pose proof (Z.mod_pos_bound (b / 2 ^ 29) (2 ^ 22) ltac:(lia)).
  change (2 ^ 22) with 4194304 in *. change (2 ^ 31) with 2147483648.
  change (2 ^ 32) with 4294967296. lia.
Qed.

(** The conversion of a double never gives a signalling NaN. *)
Lemma f64_to_f32_quiet (b : Z) : f32_quiet (f64_to_f32 b) = f64_to_f32 b.
Proof.
  unfold f64_to_f32. destruct (f64_is_nan b); [|apply f32_quiet_encode_round].
  pose proof (Z.mod_pos_bound (b / 2 ^ 63) 2 ltac:(lia)) as Hs.
  pose proof (Z.mod_pos_bound (b / 2 ^ 29) (2 ^ 22) ltac:(lia)) as Hp.
  unfold f32_quiet, f32_signalling.
  assert (Hm : ((b / 2 ^ 63) mod 2 * 2 ^ 31 + 0x7FC00000 + (b / 2 ^ 29) mod 2 ^ 22)
               mod 2 ^ 31 = 0x7FC00000 + (b / 2 ^ 29) mod 2 ^ 22).
  { symmetry. apply (Z.mod_unique _ _ ((b / 2 ^ 63) mod 2)); [left|].
    - change (2 ^ 22) with 4194304 in *. change (2 ^ 31) with 2147483648. lia.
    - lia. }
  rewrite Hm.
  destruct (Z.ltb_spec (0x7FC00000 + (b / 2 ^ 29) mod 2 ^ 22) 0x7FC00000); [lia|].
  rewrite andb_false_r. reflexivity.
Qed.

Section Packing.
Local Opaque f64_overflows_f32 f64_to_f32 f32_to_f64 f32_quiet is_finite f32_of_Z
f64_of_Z ieee_encode ieee_decode.

Lemma pack_int_length e size lo hi v bs :
pack_int e size lo hi v = Ok bs -> length bs = size.
Proof.
unfold pack_int. destruct v as [z| | |]; try (intros H; discriminate H).
destruct (_ && _); intros H; [|discriminate H].
injection H as <-. apply length_bytes_of_uint.
Qed.

Lemma pack_one_length e ct v bs :
pack_one e ct v = Ok bs -> Z.of_nat (length bs) = calcsize ct.
Proof.
destruct ct; cbn [pack_one calcsize];
  try (intros H; apply pack_int_length in H; rewrite H; reflexivity).
- destruct v as [z|b|b|c]; try (intros H; discriminate H).
  + destruct (is_finite _); intros H; [|discriminate H].
    injection H as <-. rewrite length_bytes_of_uint. reflexivity.
  + intros H. injection H as <-. rewrite length_bytes_of_uint. reflexivity.
  + destruct (f64_overflows_f32 b); intros H; [discriminate H|].
    injection H as <-. rewrite length_bytes_of_uint. reflexivity.
- destruct v as [z|b|b|c]; try (intros H; discriminate H).
  + destruct (is_finite _); intros H; [|discriminate H].
    injection H as <-. rewrite length_bytes_of_uint. reflexivity.
  + intros H. injection H as <-. rewrite length_bytes_of_uint. reflexivity.
  + intros H. injection H as <-. rewrite length_bytes_of_uint. reflexivity.
- destruct v as [z|b|b|c]; try (intros H; discriminate H).
  intros H. injection H as <-. reflexivity.
Qed.

Lemma pack_int_unpack e (size : nat) lo hi v bs :
pack_int e size lo hi v = Ok bs ->
exists z, v = VInt z /\ lo <= z <= hi /\
          uint_of_bytes e bs = z mod 2 ^ (8 * Z.of_nat size).
Proof.
unfold pack_int. destruct v as [z| | |]; try (intros H; discriminate H).
destruct (_ && _) eqn:Hr; intros H; [|discriminate H].
injection H as <-. apply andb_prop in Hr as [H1 H2]. apply Z.leb_le in H1, H2.
exists z. repeat split; try assumption.
apply uint_of_bytes_of_uint.
replace (256 ^ Z.of_nat size) with (2 ^ (8 * Z.of_nat size))
  by (rewrite Z.pow_mul_r by lia; reflexivity).
apply Z.mod_pos_bound. apply Z.pow_pos_nonneg; lia.
Qed.

(** Unpacking what was packed: integers and singles come back
  unchanged (a signalling NaN quiet), a double packed as a single comes
  back converted. *)
Lemma unpack_pack_one e ct v bs :
pack_one e ct v = Ok bs -> roundtrips ct v ->
unpack_one e ct bs = repacked ct v.
Proof.
destruct ct; cbn [pack_one unpack_one];
  try (intros H _; apply pack_int_unpack in H as (z & -> & Hz & ->);
       cbn [repacked]; f_equal;
       first [apply to_signed_wrap; lia | apply Z.mod_small; lia]).
- destruct v as [z|b|b|c]; cbn [roundtrips repacked]; try contradiction.
  + intros H Hb. injection H as <-.
    rewrite uint_of_bytes_of_uint
      by (change (256 ^ Z.of_nat 4) with (2 ^ 32); apply f32_quiet_range; lia).
    rewrite f32_quiet_idem. reflexivity.
  + destruct (f64_overflows_f32 b); intros H _; [discriminate H|].
    injection H as <-. cbn [astype_float32].
    rewrite uint_of_bytes_of_uint
      by (change (256 ^ Z.of_nat 4) with (2 ^ 32); apply f64_to_f32_range).
    rewrite f64_to_f32_quiet. reflexivity.
- intros _ [].
- intros _ H. destruct v; destruct H.
Qed.
End Packing.

(** Packing a column: all items fit. *)
Lemma struct_pack_ok e ct (n : Z) (col : list value) :
  Z.of_nat (length col) = n ->
  Forall (fun v => is_ok (pack_one e ct v) = true) col ->
  exists items,
    struct_pack (fmt_counted e n ct) col = Ok (concat items) /\
    Forall2 (fun v bs => pack_one e ct v = Ok bs) col items.
Proof.
  intros Hn Hfit. unfold struct_pack.
  cbn [fmt_ok fmt_counted fmt_count fmt_order fmt_code].
  destruct (Z.leb_spec 0 n) as [_|]; [|lia]. cbn [negb].
  rewrite Hn, Z.eqb_refl. cbn [negb]. clear Hn.
  induction Hfit as [|v col Hv _ IH].
  - exists []. split; [reflexivity|constructor].
  - destruct IH as (items & Hitems & Hall). cbn [mapM].
    destruct (pack_one e ct v) as [bs|] eqn:Hbs; [|discriminate].
    destruct (mapM (pack_one e ct) col) as [its|]; [|discriminate].
    injection Hitems as Hitems.
    exists (bs :: items). split.
    + cbn [concat]. rewrite Hitems. reflexivity.
    + constructor; assumption.
Qed.

(** Unpacking a packed column. *)
Lemma unpack_packed_column e ct (col : list value) (items : list (list byte)) rest :
  Forall2 (fun v bs => pack_one e ct v = Ok bs) col items ->
  Forall (roundtrips ct) col ->
  map (unpack_one e ct)
      (chunks (Z.to_nat (calcsize ct)) (length col) (concat items ++ rest))
  = map (repacked ct) col.
Proof.
  intros Hall. revert rest. induction Hall as [|v bs col items Hv _ IH]; intros rest Hk.
  - reflexivity.
  - inversion Hk as [|? ? Hkv Hkc]; subst.
    cbn [length chunks concat map].
    pose proof (pack_one_length _ _ _ _ Hv) as Hl.
    rewrite <- app_assoc.
    rewrite take_app_length', drop_app_length' by lia.
    rewrite (unpack_pack_one _ _ _ _ Hv Hkv), IH by assumption. reflexivity.
Qed.

Lemma Forall2_length_concat e ct (col : list value) (items : list (list byte)) :
  Forall2 (fun v bs => pack_one e ct v = Ok bs) col items ->
  Z.of_nat (length (concat items)) = Z.of_nat (length col) * calcsize ct.
Proof.
  induction 1 as [|v bs col items Hv _ IH]; [reflexivity|].
  cbn [concat length]. rewrite length_app, Nat2Z.inj_add, IH.
  rewrite (pack_one_length _ _ _ _ Hv). lia.
Qed.

(** ** Packing the headers *)

Lemma packValue_1 v dt e :
  packValue v dt e 1 =
    match dict_get dtype2ctype dt with
    | Ok ct => pack_one e ct v
    | Err x => Err x
    end.
Proof.
  unfold packValue. destruct (dict_get dtype2ctype dt) as [ct|]; [|reflexivity].
  unfold struct_pack. cbn [fmt_ok fmt_repeat fmt_count fmt_order fmt_code negb length mapM].
  change (Z.of_nat 1 =? Z.max 0 1) with true. cbn [negb].
  destruct (pack_one e ct v); [|reflexivity].
  cbn [concat]. rewrite app_nil_r. reflexivity.
Qed.

Lemma pack_SH_app SH (f1 f2 : schema) :
  pack_SH SH (f1 ++ f2) =
    (let! a := pack_SH SH f1 in
     let! b := pack_SH SH f2 in
     Ok (a ++ b)).
Proof.
  induction f1 as [|[key d] f1 IH]; cbn [app pack_SH].
  - destruct (pack_SH SH f2); reflexivity.
  - destruct (dict_get SH key); [|reflexivity].
    destruct (packValue _ _ _ _); [|reflexivity].
    rewrite IH. destruct (pack_SH SH f1); [|reflexivity].
    destruct (pack_SH SH f2); [|reflexivity].
    rewrite app_assoc. reflexivity.
Qed.

(** A group of fields with packable values packs to a block of the
    size of the group. *)
Lemma pack_SH_ok SH (fields : schema) :
  forallb (sh_packable SH) fields = true ->
  exists bs, pack_SH SH fields = Ok bs /\
             Z.of_nat (length bs) = schema_size fields.
Proof.
  induction fields as [|[key d] fields IH]; intros Hall.
  - exists []. split; reflexivity.
  - cbn [forallb] in Hall. apply andb_prop in Hall as [Hkd Hall].
    destruct (IH Hall) as (tail & Htail & Hlen).
    unfold sh_packable in Hkd. cbn [fst snd] in Hkd.
    destruct (SH !! key) as [v|] eqn:Hv; [|discriminate].
    destruct (dtype2ctype !! f_type d) as [ct|] eqn:Hct; [|discriminate].
    destruct (pack_one endian ct (VInt v)) as [bs|] eqn:Hbs; [|discriminate].
    exists (bs ++ tail). cbn [pack_SH]. unfold dict_get at 1. rewrite Hv.
    rewrite packValue_1. unfold dict_get. rewrite Hct, Hbs, Htail.
    split; [reflexivity|].
    rewrite length_app, Nat2Z.inj_add, Hlen, (pack_one_length _ _ _ _ Hbs).
    cbn [schema_size fold_right snd]. unfold field_ctype. rewrite Hct. reflexivity.
Qed.

(** The header dictionary that [writeSegy] prepares. *)
Lemma written_SH_lookups (nt ns dt dsf : Z) :
  let SH := setSegyHeaders getDefaultSegyHeader (Some nt) (Some ns) (Some dt) (Some dsf) in
  SH !! "ntraces" = Some nt /\ SH !! "ns" = Some ns /\ SH !! "dt" = Some dt /\
  SH !! "DataSampleFormat" = Some dsf /\
  SH !! "SegyFormatRevisionNumber" = Some 100.
Proof. repeat split; reflexivity. Qed.

(** The fields of [SH_def] around the three that [writeSegy] sets. *)
Lemma SH_def_split :
  SH_def =
    take 5 SH_def ++ [("dt", mkField 3216 "uint16" None (Some 1000))]
    ++ [("dtOrig", mkField 3218 "uint16" None (Some 0))]
    ++ [("ns", mkField 3220 "uint16" None (Some 0))]
    ++ [("nsOrig", mkField 3222 "uint16" None (Some 0))]
    ++ [("DataSampleFormat", mkField 3224 "int16" None (Some 5))]
    ++ drop 10 SH_def.
Proof. reflexivity. Qed.

Lemma pack_SH_single SH key d v ct :
  SH !! key = Some v -> dtype2ctype !! f_type d = Some ct ->
  pack_SH SH [(key, d)] =
    (let! bs := pack_one endian ct (VInt v) in Ok (bs ++ [])).
Proof.
  intros Hv Hct. cbn [pack_SH]. unfold dict_get at 1. rewrite Hv, packValue_1.
  unfold dict_get. rewrite Hct. reflexivity.
Qed.

(** The binary header block that [writeSegy] produces: 68 bytes, with
    [dt], [ns] and the format code at offsets 16, 20 and 24. *)
Lemma pack_SH_written (nt ns dt dsf : Z) :
  0 <= ns <= 65535 -> 0 <= dt <= 65535 -> - 32768 <= dsf <= 32767 ->
  let SH := setSegyHeaders getDefaultSegyHeader (Some nt) (Some ns) (Some dt) (Some dsf) in
  exists H1 H2 H3 H4,
    pack_SH SH SH_def
    = Ok (H1 ++ bytes_of_uint endian 2 dt ++ H2 ++ bytes_of_uint endian 2 ns ++ H3
             ++ bytes_of_uint endian 2 (dsf mod 2 ^ 16) ++ H4) /\
    length H1 = 16%nat /\ length H2 = 2%nat /\ length H3 = 2%nat /\
    length H4 = 42%nat.
Proof.
  intros Hns Hdt Hdsf SH.
  destruct (pack_SH_ok SH (take 5 SH_def)) as (H1 & HP1 & HL1);
    [vm_compute; reflexivity|].
  destruct (pack_SH_ok SH [("dtOrig", mkField 3218 "uint16" None (Some 0))])
    as (H2 & HP2 & HL2); [vm_compute; reflexivity|].
  destruct (pack_SH_ok SH [("nsOrig", mkField 3222 "uint16" None (Some 0))])
    as (H3 & HP3 & HL3); [vm_compute; reflexivity|].
  destruct (pack_SH_ok SH (drop 10 SH_def)) as (H4 & HP4 & HL4);
    [vm_compute; reflexivity|].
  exists H1, H2, H3, H4.
  change (schema_size _) with 16 in HL1. change (schema_size _) with 2 in HL2.
  change (schema_size _) with 2 in HL3. change (schema_size _) with 42 in HL4.
  split; [|lia].
  rewrite SH_def_split. rewrite !pack_SH_app. rewrite HP1, HP2, HP3, HP4.
  rewrite (pack_SH_single SH "dt" _ dt c_H) by reflexivity.
  rewrite (pack_SH_single SH "ns" _ ns c_H) by reflexivity.
  rewrite (pack_SH_single SH "DataSampleFormat" _ dsf c_h) by reflexivity.
  cbn [pack_one pack_int].
  destruct (Z.leb_spec 0 dt); [|lia]. destruct (Z.leb_spec dt (2 ^ 16 - 1)); [|lia].
  destruct (Z.leb_spec 0 ns); [|lia]. destruct (Z.leb_spec ns (2 ^ 16 - 1)); [|lia].
  destruct (Z.leb_spec (- 2 ^ 15) dsf); [|lia].
  destruct (Z.leb_spec dsf (2 ^ 15 - 1)); [|lia].
  cbn [andb]. rewrite !app_nil_r.
  change (8 * Z.of_nat 2) with 16.
  rewrite (Z.mod_small dt), (Z.mod_small ns) by lia.
  reflexivity.
Qed.

(** ** The trace header dictionary prepared by [setSegyTraceHeaders] *)

Lemma schema_ctype_int (limit : Z) (s : schema) key d :
  schema_within limit s = true -> In (key, d) s ->
  exists ct, dtype2ctype !! f_type d = Some ct /\ is_int_ctype ct = true.
Proof.
  intros Hs Hin. unfold schema_within in Hs. rewrite forallb_forall in Hs.
  specialize (Hs _ Hin). cbn [snd] in Hs.
  apply field_within_spec in Hs as (Hct & Hint & _). eauto.
Qed.

Lemma pack_zero_ok ct : is_int_ctype ct = true -> is_ok (pack_one endian ct (VInt 0)) = true.
Proof. destruct ct; intros H; try discriminate H; reflexivity. Qed.

Lemma init_STH_lookup {V} (c : V) (fields : schema) (init : gmap string V) key d :
  In (key, d) fields ->
  fold_left (fun STH '(key, _) => <[key := c]> STH) fields init !! key = Some c.
Proof.
  revert init. induction fields as [|[k f] fields IH] using rev_ind; intros init Hin.
  - inversion Hin.
  - rewrite fold_left_app. cbn [fold_left]. apply in_app_or in Hin as [Hin|Hin].
    + destruct (decide (k = key)) as [->|Hne].
      * apply lookup_insert_eq.
      * rewrite lookup_insert_ne by assumption. apply IH. assumption.
    + destruct Hin as [[= -> ->]|[]]. apply lookup_insert_eq.
Qed.

Lemma sth_packable_init (nt : Z) :
  0 <= nt ->
  sth_packable
    (fold_left (fun STH '(key, _) => <[key := replicate (Z.to_nat nt) (VInt 0)]> STH)
               STH_def ∅) nt.
Proof.
  intros Hnt key d Hin.
  destruct (schema_ctype_int _ _ _ _ STH_def_within Hin) as (ct & Hct & Hint).
  exists (replicate (Z.to_nat nt) (VInt 0)), ct. repeat split.
  - apply (init_STH_lookup _ STH_def ∅ key d Hin).
  - rewrite length_replicate. lia.
  - exact Hct.
  - apply Forall_forall. intros v Hv. apply elem_of_replicate in Hv as [-> _].
    apply pack_zero_ok. exact Hint.
Qed.

Lemma key_types_spec key allowed (s : schema) d ct :
  key_types key allowed s = true -> In (key, d) s ->
  dtype2ctype !! f_type d = Some ct -> allowed ct = true.
Proof.
  unfold key_types. rewrite forallb_forall. intros Hall Hin Hct.
  specialize (Hall _ Hin). cbn [fst snd] in Hall.
  rewrite String.eqb_refl, Hct in Hall. exact Hall.
Qed.

(** [STH[key][a] = v] keeps the dictionary packable when the stored
    value fits every field named [key]. *)
Lemma sth_set_packable STH (nt : Z) key (a v : Z) (allowed : ctype -> bool) d0 :
  sth_packable STH nt -> 0 <= a < nt ->
  In (key, d0) STH_def ->
  key_types key allowed STH_def = true ->
  (forall ct, allowed ct = true ->
              is_ok (pack_one endian ct (np_store "int32" v)) = true) ->
  exists STH', sth_set STH key a v = Ok STH' /\ sth_packable STH' nt.
Proof.
  intros Hinv Ha Hin0 Hty Hfit.
  destruct (Hinv key d0 Hin0) as (arr0 & ct0 & Harr0 & Hlen0 & _ & _).
  unfold sth_set, dict_get. rewrite Harr0.
  destruct (Z.ltb_spec a 0); [lia|].
  destruct (Z.leb_spec (Z.of_nat (length arr0)) a); [lia|]. cbn [orb].
  eexists. split; [reflexivity|].
  intros k d Hin. destruct (decide (key = k)) as [<-|Hne].
  - destruct (Hinv key d Hin) as (arr & ct & Harr & Hlen & Hct & Hall).
    rewrite Harr0 in Harr. injection Harr as <-.
    exists (<[Z.to_nat a := np_store "int32" v]> arr0), ct. repeat split.
    + apply lookup_insert_eq.
    + rewrite length_insert. exact Hlen.
    + exact Hct.
    + apply Forall_insert; [exact Hall|].
      apply Hfit. eapply key_types_spec; eassumption.
  - destruct (Hinv k d Hin) as (arr & ct & Harr & Hlen & Hct & Hall).
    exists arr, ct. rewrite lookup_insert_ne by assumption. auto.
Qed.

Lemma np_store_int32_small (v : Z) :
  - 2 ^ 31 <= v < 2 ^ 31 -> np_store "int32" v = VInt v.
Proof.
  intros Hv. unfold np_store. cbn [String.eqb Ascii.eqb Bool.eqb].
  rewrite to_signed_wrap by lia. reflexivity.
Qed.

Lemma fits_int32 (v : Z) ct :
  any_int32 ct = true -> is_ok (pack_one endian ct (np_store "int32" v)) = true.
Proof.
  destruct ct; intros H; try discriminate H.
  unfold np_store. cbn [String.eqb Ascii.eqb Bool.eqb pack_one pack_int].
  pose proof (Z.mod_pos_bound v (2 ^ 32) ltac:(lia)) as Hm.
  unfold to_signed.
  destruct (Z.ltb_spec (v mod 2 ^ 32) (2 ^ (32 - 1))) as [Hlt|Hge];
    change (2 ^ (32 - 1)) with (2 ^ 31) in *; change (2 ^ 32) with (2 * 2 ^ 31) in *.
  - destruct (Z.leb_spec (- 2 ^ 31) (v mod (2 * 2 ^ 31))); [|lia].
    destruct (Z.leb_spec (v mod (2 * 2 ^ 31)) (2 ^ 31 - 1)); [|lia]. reflexivity.
  - destruct (Z.leb_spec (- 2 ^ 31) (v mod (2 * 2 ^ 31) - 2 * 2 ^ 31)); [|lia].
    destruct (Z.leb_spec (v mod (2 * 2 ^ 31) - 2 * 2 ^ 31) (2 ^ 31 - 1)); [|lia].
    reflexivity.
Qed.

Lemma fits_uint16 (v : Z) ct :
  0 <= v <= 65535 -> int32_or_uint16 ct = true ->
  is_ok (pack_one endian ct (np_store "int32" v)) = true.
Proof.
  intros Hv Hct. rewrite np_store_int32_small by lia.
  destruct ct; try discriminate Hct; cbn [pack_one pack_int].
  - destruct (Z.leb_spec (- 2 ^ 31) v); [|lia].
    destruct (Z.leb_spec v (2 ^ 31 - 1)); [|lia]. reflexivity.
  - destruct (Z.leb_spec 0 v); [|lia].
    destruct (Z.leb_spec v (2 ^ 16 - 1)); [|lia]. reflexivity.
Qed.

Lemma STH_def_has_defaults :
  In ("TraceSequenceLine", mkField 0 "int32" None None) STH_def /\
  In ("TraceSequenceFile", mkField 4 "int32" None None) STH_def /\
  In ("FieldRecord", mkField 8 "int32" None None) STH_def /\
  In ("TraceNumber", mkField 12 "int32" None None) STH_def /\
  In ("ns", mkField 114 "uint16" None None) STH_def /\
  In ("dt", mkField 116 "uint16" None None) STH_def.
Proof.
  repeat split; apply list_elem_of_In, list_elem_of_lookup.
  - exists 0%nat. reflexivity.
  - exists 1%nat. reflexivity.
  - exists 2%nat. reflexivity.
  - exists 3%nat. reflexivity.
  - exists 38%nat. reflexivity.
  - exists 39%nat. reflexivity.
Qed.

(** The default values keep the dictionary packable. *)
Lemma sth_defaults_packable (nt ns dt : Z) (todo : list Z) :
  0 <= ns <= 65535 -> 0 <= dt <= 65535 ->
  Forall (fun a => 0 <= a < nt) todo ->
  forall STH, sth_packable STH nt ->
    exists STH', sth_defaults STH ns dt todo = Ok STH' /\ sth_packable STH' nt.
Proof.
  intros Hns Hdt Htodo.
  destruct STH_def_has_defaults as (I1 & I2 & I3 & I4 & I5 & I6).
  induction Htodo as [|a todo Ha _ IH]; intros STH Hinv.
  - exists STH. split; [reflexivity|assumption].
  - cbn [sth_defaults].
    destruct (sth_set_packable STH nt "TraceSequenceLine" a (a + 1) any_int32 _
                Hinv Ha I1 eq_refl (fun ct => fits_int32 _ ct)) as (S1 & -> & Hinv1).
    destruct (sth_set_packable S1 nt "TraceSequenceFile" a (a + 1) any_int32 _
                Hinv1 Ha I2 eq_refl (fun ct => fits_int32 _ ct)) as (S2 & -> & Hinv2).
    destruct (sth_set_packable S2 nt "FieldRecord" a 1000 any_int32 _
                Hinv2 Ha I3 eq_refl (fun ct => fits_int32 _ ct)) as (S3 & -> & Hinv3).
    destruct (sth_set_packable S3 nt "TraceNumber" a (a + 1) any_int32 _
                Hinv3 Ha I4 eq_refl (fun ct => fits_int32 _ ct)) as (S4 & -> & Hinv4).
    destruct (sth_set_packable S4 nt "ns" a ns int32_or_uint16 _
                Hinv4 Ha I5 eq_refl (fun ct => fits_uint16 _ ct Hns)) as (S5 & -> & Hinv5).
    destruct (sth_set_packable S5 nt "dt" a dt int32_or_uint16 _
                Hinv5 Ha I6 eq_refl (fun ct => fits_uint16 _ ct Hdt)) as (S6 & -> & Hinv6).
    apply IH. exact Hinv6.
Qed.

Lemma setSegyTraceHeaders_packable (nt ns dt : Z) :
  0 <= nt -> 0 <= ns <= 65535 -> 0 <= dt <= 65535 ->
  exists STH, setSegyTraceHeaders None nt ns dt = Ok STH /\ sth_packable STH nt.
Proof.
  intros Hnt Hns Hdt. unfold setSegyTraceHeaders.
  destruct (Z.ltb_spec nt 0); [lia|].
  destruct (sth_defaults_packable nt ns dt (py_range nt) Hns Hdt) with
    (STH := fold_left
              (fun STH '(key, _) => <[key := replicate (Z.to_nat nt) (VInt 0)]> STH)
              STH_def (∅ : gmap string (list value)))
    as (STH & HS & Hinv).
  - apply List.Forall_forall. intros a Ha. apply elem_of_py_range in Ha. exact Ha.
  - apply sth_packable_init. exact Hnt.
  - rewrite HS. exists STH. split; [reflexivity|exact Hinv].
Qed.

(** The header of every trace packs to 240 bytes. *)
Lemma pack_STH_fields STH (nt j : Z) (fields : schema) :
  (forall key d, In (key, d) fields ->
     exists arr ct,
       STH !! key = Some arr /\ Z.of_nat (length arr) = nt /\
       dtype2ctype !! f_type d = Some ct /\
       Forall (fun v => is_ok (pack_one endian ct v) = true) arr) ->
  0 <= j < nt ->
  exists h, pack_STH STH j fields = Ok h /\
            Z.of_nat (length h) = schema_size fields.
Proof.
  intros Hinv Hj. induction fields as [|[key d] fields IH].
  - exists []. split; reflexivity.
  - destruct IH as (tail & Htail & Hlen).
    { intros k0 d0 Hin. apply Hinv. right. exact Hin. }
    destruct (Hinv key d (or_introl eq_refl)) as (arr & ct & Harr & Hlarr & Hct & Hall).
    cbn [pack_STH]. unfold dict_get at 1. rewrite Harr.
    unfold seq_get. destruct (Z.ltb_spec j 0); [lia|].
    destruct (arr !! Z.to_nat j) as [v|] eqn:Hv.
    2:{ apply lookup_ge_None in Hv. lia. }
    rewrite packValue_1. unfold dict_get. rewrite Hct.
    rewrite List.Forall_forall in Hall.
    assert (Hfit : is_ok (pack_one endian ct v) = true).
    { apply Hall. apply list_elem_of_In. eapply list_elem_of_lookup_2. exact Hv. }
    destruct (pack_one endian ct v) as [bs|] eqn:Hbs; [|discriminate].
    rewrite Htail. exists (bs ++ tail). split; [reflexivity|].
    rewrite length_app, Nat2Z.inj_add, Hlen, (pack_one_length _ _ _ _ Hbs).
    cbn [schema_size fold_right snd]. unfold field_ctype. rewrite Hct. reflexivity.
Qed.

Lemma pack_STH_ok STH (nt j : Z) :
  sth_packable STH nt -> 0 <= j < nt ->
  pack_STH STH j STH_def = Ok (header_of STH j) /\
  Z.of_nat (length (header_of STH j)) = bytes_STH.
Proof.
  intros Hinv Hj.
  destruct (pack_STH_fields STH nt j STH_def Hinv Hj) as (h & Hh & Hlen).
  unfold header_of. rewrite Hh. split; [reflexivity|]. rewrite Hlen. reflexivity.
Qed.

(** ** The file written by [writeSegyStructure] *)

Lemma f_write_append (f : file) (bs : list byte) :
  bs <> [] -> 0 <= fpos f -> Z.of_nat (length (contents f)) <= fpos f ->
  contents (f_write f bs)
  = contents f ++ replicate (Z.to_nat (fpos f) - length (contents f)) Byte.x00 ++ bs.
Proof.
  intros Hbs Hp Hlen. unfold f_write. destruct bs as [|b bs]; [contradiction|].
  cbn [contents]. rewrite take_ge by lia. rewrite drop_ge by lia.
  rewrite app_nil_r. reflexivity.
Qed.

Lemma write_traces_cons f Data STH ns ct tbs index j rest :
  write_traces f Data STH ns ct tbs index (j :: rest) =
    (let! b := trace_block Data STH ns ct j in
     write_traces (f_write (f_seek f index) b) Data STH ns ct tbs (index + tbs) rest).
Proof.
  cbn [write_traces]. unfold trace_block.
  destruct (pack_STH STH j STH_def); [|reflexivity].
  destruct (ndarray_col Data j); [|reflexivity].
  destruct (struct_pack _ _); reflexivity.
Qed.

(** The trace loop appends the blocks after a gap of zero bytes. *)
Lemma write_traces_ok Data STH ns ct (tbs : Z) (todo : list Z) :
  0 < tbs ->
  forall (blocks : list (list byte)) (f : file) (index : Z),
    mapM (trace_block Data STH ns ct) todo = Ok blocks ->
    Forall (fun b => Z.of_nat (length b) = tbs) blocks ->
    Z.of_nat (length (contents f)) <= index ->
    exists f',
      write_traces f Data STH ns ct tbs index todo = Ok f' /\
      contents f'
      = contents f
        ++ match todo with
           | [] => []
           | _ => replicate (Z.to_nat index - length (contents f)) Byte.x00
           end
        ++ concat blocks.
Proof.
  intros Htbs. induction todo as [|j todo IH]; intros blocks f index Hm Hall Hlen.
  - injection Hm as <-. exists f. split; [reflexivity|].
    cbn [concat]. rewrite !app_nil_r. reflexivity.
  - cbn [mapM] in Hm.
    destruct (trace_block Data STH ns ct j) as [b|] eqn:Hb; [|discriminate].
    destruct (mapM _ todo) as [bs|] eqn:Hbs; [|discriminate].
    injection Hm as <-. inversion Hall as [|? ? Hlb Hall']; subst.
    rewrite write_traces_cons, Hb.
    assert (Hne : b <> []) by (intros ->; simpl in Htbs; lia).
    pose proof (f_write_append (f_seek f index) b Hne) as Hw.
    cbn [f_seek fpos contents] in Hw. specialize (Hw ltac:(lia) Hlen).
    destruct (IH bs (f_write (f_seek f index) b) (index + Z.of_nat (length b)) eq_refl Hall')
      as (f' & Hf' & Hc').
    { rewrite Hw, !length_app, length_replicate. lia. }
    exists f'. split; [exact Hf'|]. rewrite Hc', Hw.
    cbn [concat]. rewrite <- !app_assoc. do 3 f_equal.
    destruct todo; [reflexivity|].
    replace (Z.to_nat (index + Z.of_nat (length b)) - _)%nat with 0%nat;
      [reflexivity|].
    rewrite !length_app, length_replicate. lia.
Qed.

(** ** Columns of a well-shaped array *)

Lemma ndarray_col_ok (Data : ndarray) (j : Z) :
  ndarray_wf Data -> 0 <= j < snd (shape Data) ->
  ndarray_col Data j = Ok (column Data j) /\
  Z.of_nat (length (column Data j)) = fst (shape Data).
Proof.
  intros (_ & _ & Hrows & Hall) Hj. unfold ndarray_col, column.
  destruct (Z.ltb_spec j 0); [lia|].
  destruct (Z.leb_spec (snd (shape Data)) j); [lia|]. cbn [orb].
  split; [|rewrite length_map; exact Hrows].
  apply mapM_ok. apply List.Forall_forall. intros row Hrow.
  rewrite List.Forall_forall in Hall. specialize (Hall row Hrow).
  unfold seq_get. destruct (Z.ltb_spec j 0); [lia|].
  destruct (row !! Z.to_nat j) as [v|] eqn:Hv; [reflexivity|].
  apply lookup_ge_None in Hv. lia.
Qed.

Lemma column_Forall (P : value -> Prop) (Data : ndarray) (j : Z) :
  ndarray_wf Data -> 0 <= j < snd (shape Data) ->
  Forall (Forall P) (rows Data) -> Forall P (column Data j).
Proof.
  intros (_ & _ & _ & Hall) Hj HP. unfold column.
  apply List.Forall_forall. intros v Hv. apply in_map_iff in Hv as (row & <- & Hrow).
  rewrite List.Forall_forall in Hall, HP. specialize (Hall row Hrow).
  specialize (HP row Hrow).
  destruct (row !! Z.to_nat j) as [v|] eqn:Hv.
  - rewrite List.Forall_forall in HP. apply HP, list_elem_of_In.
    eapply list_elem_of_lookup_2. exact Hv.
  - apply lookup_ge_None in Hv. lia.
Qed.

Lemma mapM_pack_packed ct (col : list value) :
  Forall (fun v => value_fits ct v = true) col ->
  mapM (pack_one endian ct) col = Ok (map (packed ct) col) /\
  Forall2 (fun v bs => pack_one endian ct v = Ok bs) col (map (packed ct) col).
Proof.
  induction 1 as [|v col Hv _ [IH1 IH2]]; [split; [reflexivity|constructor]|].
  assert (Hp : pack_one endian ct v = Ok (packed ct v)).
  { unfold packed, value_fits in *.
    destruct (pack_one endian ct v); [reflexivity|discriminate]. }
  split.
  - cbn [mapM map]. rewrite Hp, IH1. reflexivity.
  - cbn [map]. constructor; assumption.
Qed.

Lemma struct_pack_packed ct (n : Z) (col : list value) :
  Z.of_nat (length col) = n ->
  Forall (fun v => value_fits ct v = true) col ->
  struct_pack (fmt_counted endian n ct) col = Ok (concat (map (packed ct) col)) /\
  Forall2 (fun v bs => pack_one endian ct v = Ok bs) col (map (packed ct) col).
Proof.
  intros Hn Hfit. destruct (mapM_pack_packed ct col Hfit) as [Hm HF2].
  split; [|exact HF2].
  unfold struct_pack. cbn [fmt_ok fmt_counted fmt_count fmt_order fmt_code].
  destruct (Z.leb_spec 0 n) as [_|]; [|lia]. cbn [negb].
  rewrite Hn, Z.eqb_refl. cbn [negb]. rewrite Hm. reflexivity.
Qed.

Section Written.
Variables (Data : ndarray) (STH : gmap string (list value)) (ct : ctype).
Let ns := fst (shape Data).
Let nt := snd (shape Data).
Hypothesis Hwf : ndarray_wf Data.
Hypothesis Hfits : ndarray_fits ct Data.
Hypothesis Hsth : sth_packable STH nt.

Let tbs := bytes_STH + ns * calcsize ct.

Lemma trace_block_ok (j : Z) :
  0 <= j < nt ->
  trace_block Data STH ns ct j = Ok (written_block Data STH ct j) /\
  Z.of_nat (length (written_block Data STH ct j)) = tbs.
Proof using All.
  intros Hj. unfold trace_block, written_block.
  destruct (pack_STH_ok STH nt j Hsth Hj) as [-> Hlh].
  destruct (ndarray_col_ok Data j Hwf Hj) as [-> Hlc].
  assert (Hfit : Forall (fun v => value_fits ct v = true) (column Data j)).
  { eapply Forall_impl; [apply (column_Forall _ Data j Hwf Hj Hfits)|].
    intros v [H _]. exact H. }
  destruct (struct_pack_packed ct ns (column Data j) Hlc Hfit) as [-> HF2].
  split; [reflexivity|].
  rewrite length_app, Nat2Z.inj_add, Hlh, (Forall2_length_concat _ _ _ _ HF2), Hlc.
  reflexivity.
Qed.

Lemma trace_blocks_ok :
  mapM (trace_block Data STH ns ct) (py_range nt)
  = Ok (map (written_block Data STH ct) (py_range nt)) /\
  Forall (fun b => Z.of_nat (length b) = tbs)
         (map (written_block Data STH ct) (py_range nt)).
Proof using All.
  split.
  - apply mapM_ok. apply List.Forall_forall. intros j Hj.
    apply elem_of_py_range in Hj. apply trace_block_ok. exact Hj.
  - apply List.Forall_forall. intros b Hb. apply in_map_iff in Hb as (j & <- & Hj).
    apply elem_of_py_range in Hj. apply trace_block_ok. exact Hj.
Qed.
End Written.

(** ** Reading back the written file *)

Lemma item_at_located (pre bs post : list byte) (pos : Z) e ct :
  Z.of_nat (length pre) = pos -> Z.of_nat (length bs) = calcsize ct ->
  item_at (pre ++ bs ++ post) pos e ct = unpack_one e ct bs.
Proof.
  intros Hpre Hbs. unfold item_at.
  rewrite drop_app_length' by lia. rewrite take_app_length' by lia. reflexivity.
Qed.

Lemma drop_concat_uniform {A} (n j : nat) (L : list (list A)) :
  Forall (fun b => length b = n) L ->
  drop (j * n) (concat L) = concat (drop j L).
Proof.
  intros HL. revert j. induction HL as [|b L Hb _ IH]; intros j.
  - rewrite drop_nil. cbn [concat]. apply drop_nil.
  - destruct j as [|j]; [reflexivity|].
    cbn [concat drop]. replace (S j * n)%nat with (length b + j * n)%nat by lia.
    rewrite <- drop_drop, drop_app_length. apply IH.
Qed.

Lemma drop_map_py_range {A} (f : Z -> A) (nt : Z) (j : nat) :
  (j < Z.to_nat nt)%nat ->
  drop j (map f (py_range nt))
  = f (Z.of_nat j) :: drop (S j) (map f (py_range nt)).
Proof.
  intros Hj. unfold py_range. rewrite !map_map.
  assert (Hl : map (fun x => f (Z.of_nat x)) (seq 0 (Z.to_nat nt)) !! j
               = Some (f (Z.of_nat j))).
  { change (map ?g ?l) with (g <$> l). rewrite list_lookup_fmap, lookup_seq_lt by lia.
    reflexivity. }
  rewrite (drop_S _ _ _ Hl). reflexivity.
Qed.

Section ReadWritten.
Variables (Data : ndarray) (STH : gmap string (list value)) (ct : ctype).
Variables (text H1 H2 H3 H4 : list byte) (dt dsf : Z).
Let ns := fst (shape Data).
Let nt := snd (shape Data).
Let tbs := bytes_STH + ns * calcsize ct.
Let Hdr := H1 ++ bytes_of_uint endian 2 dt ++ H2 ++ bytes_of_uint endian 2 ns ++ H3
              ++ bytes_of_uint endian 2 (dsf mod 2 ^ 16) ++ H4.
Let blocks := map (written_block Data STH ct) (py_range nt).
Let file := written_file text Hdr blocks.

Hypothesis Hwf : ndarray_wf Data.
Hypothesis Hfits : ndarray_fits ct Data.
Hypothesis Hsth : sth_packable STH nt.
Hypothesis Htext : (length text <= 3200)%nat.
Hypothesis HL1 : length H1 = 16%nat.
Hypothesis HL2 : length H2 = 2%nat.
Hypothesis HL3 : length H3 = 2%nat.
Hypothesis HL4 : length H4 = 42%nat.
Hypothesis Hns : 0 <= ns <= 65535.
Hypothesis Hdt : 0 <= dt <= 65535.
Hypothesis Hdsf : - 32768 <= dsf <= 32767.

Lemma blocks_uniform : Forall (fun b => Z.of_nat (length b) = tbs) blocks.
Proof using All. apply trace_blocks_ok; assumption. Qed.

Lemma length_blocks : Z.of_nat (length (concat blocks)) = nt * tbs.
Proof using All.
  pose proof blocks_uniform as Hu.
  assert (Htbs : 0 <= tbs).
  { unfold tbs, bytes_STH. pose proof (calcsize_pos ct). nia. }
  rewrite (length_concat_uniform (Z.to_nat tbs)).
  - unfold blocks. rewrite length_map, length_py_range.
    destruct Hwf as (_ & H0 & _). fold nt in H0. nia.
  - eapply Forall_impl; [exact Hu|]. intros b Hb. cbn beta in Hb. lia.
Qed.

Lemma length_Hdr : length Hdr = 68%nat.
Proof using All.
  unfold Hdr. rewrite !length_app, !length_bytes_of_uint. lia.
Qed.

Lemma length_written_file :
  Z.of_nat (length file) = bytes_SFH + nt * tbs.
Proof using All.
  unfold file, written_file.
  rewrite !length_app, !length_replicate, length_Hdr.
  rewrite !Nat2Z.inj_add, length_blocks. unfold bytes_SFH. lia.
Qed.

(** The bytes at offset 3216 + k of the file, for the three fields set
    by the writer, and the zero bytes at offset 3500. *)
Lemma written_dt : item_at file 3216 endian c_H = VInt dt.
Proof using All.
  unfold file, written_file, Hdr.
  replace (text ++ _) with
    ((text ++ replicate (3200 - length text) Byte.x00 ++ H1)
       ++ bytes_of_uint endian 2 dt
       ++ (H2 ++ bytes_of_uint endian 2 ns ++ H3
             ++ bytes_of_uint endian 2 (dsf mod 2 ^ 16) ++ H4)
       ++ replicate 332 Byte.x00 ++ concat blocks)
    by (rewrite <- !app_assoc; reflexivity).
  rewrite app_assoc. rewrite <- (app_assoc _ (bytes_of_uint endian 2 dt)).
  rewrite item_at_located.
  - cbn [unpack_one]. rewrite uint_of_bytes_of_uint; [reflexivity|].
    change (256 ^ Z.of_nat 2) with 65536. lia.
  - rewrite !length_app, length_replicate. lia.
  - rewrite length_bytes_of_uint. reflexivity.
Qed.

Lemma written_ns : item_at file 3220 endian c_H = VInt ns.
Proof using All.
  unfold file, written_file, Hdr.
  replace (text ++ _) with
    ((text ++ replicate (3200 - length text) Byte.x00 ++ H1
           ++ bytes_of_uint endian 2 dt ++ H2)
       ++ bytes_of_uint endian 2 ns
       ++ (H3 ++ bytes_of_uint endian 2 (dsf mod 2 ^ 16) ++ H4
             ++ replicate 332 Byte.x00 ++ concat blocks))
    by (rewrite <- !app_assoc; reflexivity).
  rewrite item_at_located.
  - cbn [unpack_one]. rewrite uint_of_bytes_of_uint; [reflexivity|].
    change (256 ^ Z.of_nat 2) with 65536. lia.
  - rewrite !length_app, length_replicate, length_bytes_of_uint. lia.
  - rewrite length_bytes_of_uint. reflexivity.
Qed.

Lemma written_dsf : item_at file 3224 endian c_h = VInt dsf.
Proof using All.
  unfold file, written_file, Hdr.
  replace (text ++ _) with
    ((text ++ replicate (3200 - length text) Byte.x00 ++ H1
           ++ bytes_of_uint endian 2 dt ++ H2 ++ bytes_of_uint endian 2 ns ++ H3)
       ++ bytes_of_uint endian 2 (dsf mod 2 ^ 16)
       ++ (H4 ++ replicate 332 Byte.x00 ++ concat blocks))
    by (rewrite <- !app_assoc; reflexivity).
  rewrite item_at_located.
  - cbn [unpack_one]. rewrite uint_of_bytes_of_uint.
    + f_equal. apply to_signed_wrap; lia.
    + change (256 ^ Z.of_nat 2) with (2 ^ 16). apply Z.mod_pos_bound. lia.
  - rewrite !length_app, length_replicate, !length_bytes_of_uint. lia.
  - rewrite length_bytes_of_uint. reflexivity.
Qed.

Lemma written_revno : item_at file 3500 endian c_H = VInt 0.
Proof using All.
  unfold file, written_file.
  change (replicate 332 Byte.x00)
    with (replicate 232 Byte.x00 ++ replicate 2 Byte.x00 ++ replicate 98 Byte.x00).
  replace (text ++ _) with
    ((text ++ replicate (3200 - length text) Byte.x00 ++ Hdr ++ replicate 232 Byte.x00)
       ++ replicate 2 Byte.x00
       ++ (replicate 98 Byte.x00 ++ concat blocks))
    by (rewrite <- !app_assoc; reflexivity).
  rewrite item_at_located.
  - reflexivity.
  - rewrite !length_app, !length_replicate, length_Hdr. lia.
  - reflexivity.
Qed.

(** The samples of trace [j] read back from the file. *)
Lemma written_samples (j : Z) :
  0 <= j < nt ->
  trace_samples file tbs ct ns j = map (repacked ct) (column Data j).
Proof using All.
  intros Hj. pose proof blocks_uniform as Hu.
  pose proof (calcsize_pos ct) as Hsz.
  assert (Htbs : bytes_STH <= tbs) by (unfold tbs, bytes_STH; nia).
  unfold bytes_STH in Htbs.
  destruct (ndarray_col_ok Data j Hwf Hj) as [_ Hlc]. fold ns in Hlc.
  assert (Hfit : Forall (fun v => value_fits ct v = true) (column Data j)).
  { eapply Forall_impl; [apply (column_Forall _ Data j Hwf Hj Hfits)|].
    intros v [Hv _]. exact Hv. }
  assert (Hrt : Forall (roundtrips ct) (column Data j)).
  { eapply Forall_impl; [apply (column_Forall _ Data j Hwf Hj Hfits)|].
    intros v [_ Hv]. exact Hv. }
  destruct (mapM_pack_packed ct (column Data j) Hfit) as [_ HF2].
  destruct (pack_STH_ok STH nt j Hsth Hj) as [_ Hlh].
  unfold trace_samples, items_at.
  assert (Hdrop :
    drop (Z.to_nat (bytes_SFH + tbs * j + bytes_STH)) file
    = concat (map (packed ct) (column Data j))
        ++ concat (drop (S (Z.to_nat j)) blocks)).
  { unfold file, written_file.
    replace (text ++ _) with
      ((text ++ replicate (3200 - length text) Byte.x00 ++ Hdr
             ++ replicate 332 Byte.x00) ++ concat blocks)
      by (rewrite <- !app_assoc; reflexivity).
    replace (Z.to_nat (bytes_SFH + tbs * j + bytes_STH))
      with (3600 + (Z.to_nat j * Z.to_nat tbs + 240))%nat
      by (unfold bytes_SFH, bytes_STH; nia).
    rewrite <- drop_drop. rewrite drop_app_length'
      by (rewrite !length_app, !length_replicate, length_Hdr; lia).
    rewrite <- drop_drop. rewrite (drop_concat_uniform (Z.to_nat tbs)).
    2:{ eapply Forall_impl; [exact Hu|]. intros b Hb. cbn beta in Hb. lia. }
    unfold blocks. rewrite drop_map_py_range by lia. rewrite Z2Nat.id by lia.
    cbn [concat]. unfold written_block at 1. rewrite <- app_assoc.
    rewrite drop_app_length' by (unfold bytes_STH in Hlh; lia).
    reflexivity. }
  rewrite Hdrop.
  replace (Z.to_nat ns) with (length (column Data j)) by lia.
  apply unpack_packed_column; assumption.
Qed.
End ReadWritten.

(** ** From the array to the file *)

Lemma dtype_format_cases (dt : string) (dsf : Z) (ct : ctype) :
  dtype_format dt = Some (dsf, ct) ->
  (dt = "float64" /\ dsf = 5 /\ ct = c_f) \/ (dt = "int32" /\ dsf = 2 /\ ct = c_l) \/
  (dt = "int16" /\ dsf = 3 /\ ct = c_h) \/ (dt = "float32" /\ dsf = 5 /\ ct = c_f) \/
  (dt = "int8" /\ dsf = 8 /\ ct = c_B).
Proof.
  unfold dtype_format.
  destruct (String.eqb_spec dt "float64") as [->|_]; [intros [= <- <-]; tauto|].
  destruct (String.eqb_spec dt "int32") as [->|_]; [intros [= <- <-]; tauto|].
  destruct (String.eqb_spec dt "int16") as [->|_]; [intros [= <- <-]; tauto|].
  destruct (String.eqb_spec dt "float32") as [->|_]; [intros [= <- <-]; tauto|].
  destruct (String.eqb_spec dt "int8") as [->|_]; [intros [= <- <-]; tauto|].
  intros H; discriminate H.
Qed.

Lemma getDSF_fromDataType_ok (Data : ndarray) (dsf : Z) (ct : ctype) :
  dtype_format (dtype Data) = Some (dsf, ct) ->
  snd (getDSF_fromDataType Data) = Ok dsf.
Proof.
  intros Hf. unfold getDSF_fromDataType. destruct Data as [dt sh rs].
  cbn [dtype] in *.
  destruct (dtype_format_cases _ _ _ Hf)
    as [(-> & -> & ->)|[(-> & -> & ->)|[(-> & -> & ->)|[(-> & -> & ->)|(-> & -> & ->)]]]];
    reflexivity.
Qed.

Lemma dtype_format_sample_ctype (dt : string) (dsf : Z) (ct : ctype) :
  dtype_format dt = Some (dsf, ct) ->
  sample_ctype dsf = Ok ct /\
  ((dsf = 1 /\ calcsize ct = 4) \/ (dsf = 2 /\ calcsize ct = 4) \/
   (dsf = 3 /\ calcsize ct = 2) \/ (dsf = 5 /\ calcsize ct = 4) \/
   (dsf = 8 /\ calcsize ct = 1)).
Proof.
  intros Hf.
  destruct (dtype_format_cases _ _ _ Hf)
    as [(_ & -> & ->)|[(_ & -> & ->)|[(_ & -> & ->)|[(_ & -> & ->)|(_ & -> & ->)]]]];
    (split; [reflexivity|tauto]).
Qed.

Lemma f_write_open (text : list byte) : contents (f_write f_open_wb text) = text.
Proof.
  destruct text as [|b text]; [reflexivity|].
  unfold f_write, f_open_wb. cbn [contents fpos]. rewrite drop_nil, app_nil_r.
  reflexivity.
Qed.

Lemma py_range_pos_cons (nt : Z) : 1 <= nt -> exists rest, py_range nt = 0 :: rest.
Proof.
  intros Hnt. unfold py_range. replace (Z.to_nat nt) with (S (Z.to_nat nt - 1)) by lia.
  eexists. reflexivity.
Qed.

(** The file that [writeSegy] writes for an array that fits its format. *)
Lemma writeSegy_file (Data : ndarray) (dt : Z) (STFH : string) (dsf : Z) (ct : ctype)
    (text : list byte) :
  ndarray_wf Data -> ndarray_fits ct Data ->
  dtype_format (dtype Data) = Some (dsf, ct) ->
  1 <= snd (shape Data) -> fst (shape Data) <= 65535 -> 0 <= dt <= 65535 ->
  encode_ascii STFH = Ok text -> (length text <= 3200)%nat ->
  exists STH H1 H2 H3 H4,
    snd (writeSegy Data dt STFH None)
    = Ok (written_file text
            (H1 ++ bytes_of_uint endian 2 dt ++ H2
                ++ bytes_of_uint endian 2 (fst (shape Data)) ++ H3
                ++ bytes_of_uint endian 2 (dsf mod 2 ^ 16) ++ H4)
            (map (written_block Data STH ct) (py_range (snd (shape Data))))) /\
    sth_packable STH (snd (shape Data)) /\
    length H1 = 16%nat /\ length H2 = 2%nat /\ length H3 = 2%nat /\
    length H4 = 42%nat.
Proof.
  intros Hwf Hfits Hfmt Hnt Hns Hdt Htext Hlen.
  pose proof Hwf as (Hns0 & _ & _ & _).
  destruct (dtype_format_sample_ctype _ _ _ Hfmt) as [Hct Hcases].
  destruct (format_facts dsf (calcsize ct) ct Hct Hcases)
    as (name & descr & Hdescr & Hname & Hbpst & Hctype & _ & _ & _ & _).
  assert (Hdsf : - 32768 <= dsf <= 32767) by lia.
  destruct (setSegyTraceHeaders_packable (snd (shape Data)) (fst (shape Data)) dt)
    as (STH & HSTH & Hsth); [lia|lia|lia|].
  destruct (pack_SH_written (snd (shape Data)) (fst (shape Data)) dt dsf
              ltac:(lia) Hdt Hdsf) as (H1 & H2 & H3 & H4 & HH & HL1 & HL2 & HL3 & HL4).
  exists STH, H1, H2, H3, H4. split; [|tauto].
  cbn zeta in HH.
  destruct (written_SH_lookups (snd (shape Data)) (fst (shape Data)) dt dsf)
    as (Knt & Kns & Kdt & Kdsf & Krev).
  unfold writeSegy. destruct (shape Data) as [ns nt] eqn:Hshape. cbn [fst snd] in *.
  pose proof (getDSF_fromDataType_ok Data dsf ct Hfmt) as HDSF.
  destruct (getDSF_fromDataType Data) as [warned r]. cbn [snd] in HDSF |- *. subst r.
  rewrite HSTH.
  set (SH := setSegyHeaders getDefaultSegyHeader (Some nt) (Some ns) (Some dt) (Some dsf)) in *.
  unfold writeSegyStructure. rewrite Htext.
  unfold getRevisionNumber, dict_get. rewrite Krev, Kdsf, Knt, Kns.
  cbn [Z.eqb Pos.eqb]. rewrite Hdescr, HH, Hname, Hctype, Hbpst.
  set (Hdr := H1 ++ _) in *.
  assert (HlH : length Hdr = 68%nat).
  { unfold Hdr. rewrite !length_app, !length_bytes_of_uint. lia. }
  set (f2 := f_write (f_seek (f_write f_open_wb text) bytes_STFH) Hdr).
  assert (Hf2 : contents f2 = text ++ replicate (3200 - length text) Byte.x00 ++ Hdr).
  { unfold f2. rewrite f_write_append.
    - cbn [f_seek contents fpos]. rewrite f_write_open. reflexivity.
    - intros E. rewrite E in HlH. discriminate HlH.
    - cbn [f_seek fpos]. unfold bytes_STFH. lia.
    - cbn [f_seek contents fpos]. rewrite f_write_open. unfold bytes_STFH. lia. }
  assert (Hshape' : snd (shape Data) = nt /\ fst (shape Data) = ns)
    by (rewrite Hshape; split; reflexivity).
  destruct Hshape' as [Es En].
  pose proof (trace_blocks_ok Data STH ct Hwf Hfits) as Hblocks.
  rewrite Es, En in Hblocks. specialize (Hblocks Hsth). destruct Hblocks as [Hm Hu].
  destruct (write_traces_ok Data STH ns ct (bytes_STH + ns * calcsize ct) (py_range nt))
    with (blocks := map (written_block Data STH ct) (py_range nt)) (f := f2)
         (index := bytes_STFH + bytes_SBFH)
    as (f' & Hf' & Hc').
  - pose proof (calcsize_pos ct). unfold bytes_STH. nia.
  - exact Hm.
  - exact Hu.
  - rewrite Hf2, !length_app, length_replicate, HlH.
    unfold bytes_STFH, bytes_SBFH. lia.
  - rewrite Hf'. f_equal. rewrite Hc', Hf2.
    destruct (py_range_pos_cons nt Hnt) as [rest ->].
    unfold written_file. rewrite <- !app_assoc. do 3 f_equal.
    rewrite !length_app, length_replicate, HlH.
    replace (Z.to_nat (bytes_STFH + bytes_SBFH)
             - (length text + (3200 - length text + 68)))%nat with 332%nat
      by (unfold bytes_STFH, bytes_SBFH; lia).
    reflexivity.
Qed.

(** ** Typed arrays fit their format *)

Section Typed.
Local Opaque f64_overflows_f32 f64_to_f32 is_finite f32_of_Z f64_of_Z
ieee_encode ieee_decode.

Lemma typed_value_fits (dt : string) (dsf : Z) (ct : ctype) (v : value) :
dtype_format dt = Some (dsf, ct) -> dtype_has dt v ->
match v with
| VInt z => dt = "int8" -> 0 <= z
| VF64 b => f64_overflows_f32 b = false
| _ => True
end ->
value_fits ct v = true /\ roundtrips ct v /\
(quiet_value v ->
 repacked ct v = (if String.eqb dt "float64" then astype_float32 v else v)).
Proof.
intros Hf Hty Henc. unfold value_fits.
destruct (dtype_format_cases _ _ _ Hf)
  as [(-> & -> & ->)|[(-> & -> & ->)|[(-> & -> & ->)|[(-> & -> & ->)|(-> & -> & ->)]]]];
  destruct v as [z|b|b|c]; cbn [dtype_has] in Hty;
  try (destruct Hty as [[E _]|[[E _]|[[E _]|[E _]]]]; discriminate E);
  try (destruct Hty as [E _]; discriminate E);
  try contradiction.
- (* float64 *)
  cbn [pack_one roundtrips repacked Z.eqb Pos.eqb String.eqb Ascii.eqb Bool.eqb].
  rewrite Henc. repeat split; reflexivity.
- (* int32 *)
  destruct Hty as [[_ Hz]|[[E _]|[[E _]|[E _]]]]; try discriminate E.
  cbn [pack_one pack_int roundtrips repacked].
  destruct (Z.leb_spec (- 2 ^ 31) z); [|lia].
  destruct (Z.leb_spec z (2 ^ 31 - 1)); [|lia]. repeat split; reflexivity.
- (* int16 *)
  destruct Hty as [[E _]|[[_ Hz]|[[E _]|[E _]]]]; try discriminate E.
  cbn [pack_one pack_int roundtrips repacked].
  destruct (Z.leb_spec (- 2 ^ 15) z); [|lia].
  destruct (Z.leb_spec z (2 ^ 15 - 1)); [|lia]. repeat split; reflexivity.
- (* float32 *)
  destruct Hty as [_ Hb].
  cbn [pack_one roundtrips repacked quiet_value].
  repeat split; try reflexivity; try lia.
  intros Hq. unfold f32_quiet. rewrite Hq. reflexivity.
- (* int8 *)
  destruct Hty as [[E _]|[[E _]|[[_ Hz]|[E _]]]]; try discriminate E.
  specialize (Henc eq_refl).
  cbn [pack_one pack_int roundtrips repacked].
  destruct (Z.leb_spec 0 z); [|lia].
  destruct (Z.leb_spec z 255); [|lia]. repeat split; reflexivity.
Qed.
End Typed.

Lemma Forall2_rows (P Q : value -> Prop) (R : value -> Prop) (rs : list (list value)) :
  (forall v, P v -> Q v -> R v) ->
  Forall (Forall P) rs -> Forall (Forall Q) rs -> Forall (Forall R) rs.
Proof.
  intros HPQ HP HQ. induction HP as [|row rs Hrow _ IH]; [constructor|].
  inversion HQ as [|? ? Hrow' HQ']; subst. constructor; [|apply IH; assumption].
  clear IH HQ HQ'. induction Hrow as [|v row Hv _ IH]; [constructor|].
  inversion Hrow' as [|? ? Hv' Hrow'']; subst. constructor; auto.
Qed.

Lemma typed_fits (Data : ndarray) (dsf : Z) (ct : ctype) :
  dtype_format (dtype Data) = Some (dsf, ct) ->
  ndarray_typed Data -> encodable Data ->
  ndarray_fits ct Data /\
  Forall (Forall (fun v =>
            quiet_value v ->
            repacked ct v
            = (if String.eqb (dtype Data) "float64" then astype_float32 v else v)))
         (rows Data).
Proof.
  intros Hf Hty Henc. split.
  - eapply Forall2_rows; [|exact Hty|exact Henc].
    intros v H1 H2. cbn beta in *.
    destruct (typed_value_fits _ _ _ v Hf H1 H2) as (A & B & _). auto.
  - eapply Forall2_rows; [|exact Hty|exact Henc].
    intros v H1 H2. cbn beta in *.
    destruct (typed_value_fits _ _ _ v Hf H1 H2) as (_ & _ & C). exact C.
Qed.

Lemma column_map (f : value -> value) (Data : ndarray) (dt : string) (j : Z) :
  ndarray_wf Data -> 0 <= j < snd (shape Data) ->
  column (mkArray dt (shape Data) (map (map f) (rows Data))) j
  = map f (column Data j).
Proof.
  intros (_ & _ & _ & Hall) Hj. unfold column. cbn [rows].
  rewrite !map_map. apply map_ext_in. intros row Hrow.
  rewrite List.Forall_forall in Hall. specialize (Hall row Hrow).
  change (map f row) with (f <$> row). rewrite list_lookup_fmap.
  destruct (row !! Z.to_nat j) as [v|] eqn:Hv; [reflexivity|].
  apply lookup_ge_None in Hv. lia.
Qed.

(** The rows of the transpose of [as_written Data]. *)
Lemma transpose_as_written (Data : ndarray) :
  ndarray_wf Data ->
  transpose_rows (as_written Data)
  = map (fun j => map (fun v => if String.eqb (dtype Data) "float64"
                                then astype_float32 v else v)
                      (column Data j))
        (py_range (snd (shape Data))).
Proof.
  intros Hwf. unfold transpose_rows, as_written.
  destruct (String.eqb (dtype Data) "float64").
  - unfold ndarray_astype_float32. cbn [shape].
    apply map_ext_in. intros j Hj. apply elem_of_py_range in Hj.
    apply column_map; assumption.
  - apply map_ext. intros j. symmetry. apply map_id.
Qed.

Lemma length_list_byte_of_string (s : string) :
  length (list_byte_of_string s) = String.length s.
Proof. induction s as [|c s IH]; [reflexivity|]. cbn. f_equal. exact IH. Qed.

(** ** Revision numbers *)

Lemma getRevisionNumber_known (SH : gmap string Z) (raw : Z) :
  SH !! "SegyFormatRevisionNumber" = Some raw ->
  In raw [0; 100; 1; 256] -> getRevisionNumber SH = Ok 1.
Proof.
  intros Hraw Hin. unfold getRevisionNumber, dict_get. rewrite Hraw.
  destruct Hin as [<-|[<-|[<-|[<-|[]]]]]; reflexivity.
Qed.

Lemma getRevisionNumber_unknown (SH : gmap string Z) (raw : Z) :
  SH !! "SegyFormatRevisionNumber" = Some raw ->
  ~ In raw [0; 100; 1; 256] ->
  getRevisionNumber SH = Err (ValueError "Unknown revno number:").
Proof.
  intros Hraw Hnot. unfold getRevisionNumber, dict_get. rewrite Hraw.
  cbn [In] in Hnot.
  destruct (Z.eqb_spec raw 0); [exfalso; apply Hnot; auto 6|].
  destruct (Z.eqb_spec raw 100); [exfalso; apply Hnot; auto 6|].
  destruct (Z.eqb_spec raw 1); [exfalso; apply Hnot; auto 6|].
  destruct (Z.eqb_spec raw 256); [exfalso; apply Hnot; auto 6|].
  reflexivity.
Qed.

(** C2.  The resolver maps the raw revision codes 0, 100, 1 and 256 to 1
    and raises [ValueError("Unknown revno number:")] on every other raw
    value; with such a value the write path ([writeSegyStructure], for an
    ASCII textual header) and the read paths ([getSegyHeader], [readSegy],
    [readSegyTrace], for a buffer that holds the file header fields) fail
    with that error. *)
Theorem revision_normalization (SH : gmap string Z) (raw : Z)
    (Hraw : SH !! "SegyFormatRevisionNumber" = Some raw) :
  (In raw [0; 100; 1; 256] -> getRevisionNumber SH = Ok 1) /\
  (~ In raw [0; 100; 1; 256] ->
     getRevisionNumber SH = Err (ValueError "Unknown revno number:") /\
     (forall Data STFH STH,
        is_ok (encode_ascii STFH) = true ->
        writeSegyStructure Data STFH SH STH
        = Err (ValueError "Unknown revno number:")) /\
     (forall data TH_dict TH_only itrace,
        3508 <= Z.of_nat (length data) -> decoded_SH data = SH ->
        getSegyHeader data = Err (ValueError "Unknown revno number:") /\
        readSegy data TH_dict TH_only = Err (ValueError "Unknown revno number:") /\
        readSegyTrace data TH_dict itrace
        = Err (ValueError "Unknown revno number:"))).
Proof.
  split; [apply getRevisionNumber_known; exact Hraw|].
  intros Hnot. pose proof (getRevisionNumber_unknown SH raw Hraw Hnot) as Hrev.
  split; [exact Hrev|]. split.
  - intros Data STFH STH Hascii. unfold writeSegyStructure.
    destruct (encode_ascii STFH); [|discriminate Hascii]. rewrite Hrev. reflexivity.
  - intros data TH_dict TH_only itrace Hlen HSH.
    assert (Hhdr : getSegyHeader data = Err (ValueError "Unknown revno number:")).
    { rewrite getSegyHeader_ok by assumption. cbn zeta. rewrite HSH.
      unfold getBytePerSample. rewrite Hrev. reflexivity. }
    unfold readSegy, readSegyTrace. rewrite Hhdr. auto.
Qed.

Lemma revision_normalization_witness :
  getRevisionNumber (<["SegyFormatRevisionNumber" := 256]> (∅ : gmap string Z)) = Ok 1 /\
  getRevisionNumber getDefaultSegyHeader = Ok 1 /\
  getRevisionNumber (<["SegyFormatRevisionNumber" := 2]> (∅ : gmap string Z))
  = Err (ValueError "Unknown revno number:").
Proof.
  assert (H256 : (<["SegyFormatRevisionNumber" := 256]> (∅ : gmap string Z))
                   !! "SegyFormatRevisionNumber" = Some 256)
    by (vm_compute; reflexivity).
  assert (H100 : getDefaultSegyHeader !! "SegyFormatRevisionNumber" = Some 100)
    by (vm_compute; reflexivity).
  assert (H2 : (<["SegyFormatRevisionNumber" := 2]> (∅ : gmap string Z))
                 !! "SegyFormatRevisionNumber" = Some 2)
    by (vm_compute; reflexivity).
  split; [|split].
  - apply (revision_normalization _ 256 H256). simpl. auto.
  - apply (revision_normalization _ 100 H100). simpl. auto.
  - apply (revision_normalization _ 2 H2).
    intros [H|[H|[H|[H|[]]]]]; discriminate H.
Defined.

(** ** The legacy float decoder *)

Lemma ibm_sign_exponent (s : byte) :
  (if 128 <=? byte_to_Z s then ((-1)%Q, byte_to_Z s - 128) else (1%Q, byte_to_Z s))
  = (if Z.testbit (byte_to_Z s) 7 then (-1)%Q else 1%Q, Z.land (byte_to_Z s) 127).
Proof. destruct s; reflexivity. Qed.

Lemma ibm2ieee_value (s a b c : byte) :
  exists q, ibm2ieee [s; a; b; c] = Ok q /\ (q == ibm_value s a b c)%Q.
Proof.
  unfold ibm2ieee, bytes_eq_int, struct_unpack.
  cbn [fmt_ok fmt_repeat fmt_count fmt_code fmt_order negb length calcsize].
  change (Z.of_nat 4 =? Z.max 0 4 * 1) with true. cbn [negb].
  change (Z.to_nat 1) with 1%nat. change (Z.to_nat (Z.max 0 4)) with 4%nat.
  cbn [chunks map take drop unpack_one uint_of_bytes rev app le_uint].
  rewrite !Z.mul_0_r, !Z.add_0_r.
  rewrite (ibm_sign_exponent s). cbn iota.
  eexists. split; [reflexivity|]. unfold ibm_value, pow16. cbn zeta.
  rewrite !Z.shiftl_mul_pow2 by lia. rewrite !inject_Z_plus. reflexivity.
Qed.

(** C6.  [ibm2ieee] maps the bytes 00 00 00 00 to 0.0 and the bytes
    C2 64 00 00 to -100.0, and on every four bytes it returns
    [sign * 16^(exponent - 64) * (mantissa / 16^6)]. *)
Theorem ibm2ieee_decodes :
  (exists q, ibm2ieee [Byte.x00; Byte.x00; Byte.x00; Byte.x00] = Ok q /\ (q == 0)%Q) /\
  (exists q, ibm2ieee [Byte.xc2; Byte.x64; Byte.x00; Byte.x00] = Ok q /\
             (q == inject_Z (-100))%Q) /\
  (forall s a b c : byte,
     exists q, ibm2ieee [s; a; b; c] = Ok q /\ (q == ibm_value s a b c)%Q).
Proof.
  split; [|split].
  - eexists. split; [reflexivity|]. reflexivity.
  - eexists. split; [reflexivity|]. reflexivity.
  - exact ibm2ieee_value.
Qed.

(** ** Element types accepted for writing *)

(** C8 as stated fails: a uint8 grid is rejected, an int8 grid accepted. *)
Lemma getDSF_rejects_uint8 :
  In (dtype grid_u8_1x1) ["int32"; "int16"; "float32"; "uint8"; "float64"] /\
  getDSF_fromDataType grid_u8_1x1 = ([], Err (TypeError "Cannot handle data type:")) /\
  snd (writeSegy grid_u8_1x1 1000 "" None) = Err (TypeError "Cannot handle data type:") /\
  getDSF_fromDataType grid_i8_2x1 = ([], Ok 8).
Proof.
  split; [|repeat split; reflexivity].
  right; right; right; left; reflexivity.
Qed.

(** C8, amended.  [getDSF_fromDataType] returns a format code exactly
    for the element types int32, int16, float32, int8 and float64 (codes 2,
    3, 5, 8 and 5), warns exactly for float64, and raises
    [TypeError("Cannot handle data type:")] for every other element type,
    which makes [writeSegy] fail with that error. *)
Theorem getDSF_fromDataType_supported (Data : ndarray) :
  (In (dtype Data) ["int32"; "int16"; "float32"; "int8"; "float64"] <->
   exists dsf, snd (getDSF_fromDataType Data) = Ok dsf) /\
  (~ In (dtype Data) ["int32"; "int16"; "float32"; "int8"; "float64"] ->
   getDSF_fromDataType Data = ([], Err (TypeError "Cannot handle data type:")) /\
   forall dt STFH mySTH,
     snd (writeSegy Data dt STFH mySTH) = Err (TypeError "Cannot handle data type:")) /\
  (fst (getDSF_fromDataType Data) =
     if String.eqb (dtype Data) "float64"
     then ["Cast data type float64 to float32."] else []) /\
  snd (getDSF_fromDataType Data) =
    (if String.eqb (dtype Data) "float64" then Ok 5
     else if String.eqb (dtype Data) "int32" then Ok 2
     else if String.eqb (dtype Data) "int16" then Ok 3
     else if String.eqb (dtype Data) "float32" then Ok 5
     else if String.eqb (dtype Data) "int8" then Ok 8
     else Err (TypeError "Cannot handle data type:")).
Proof.
  destruct Data as [dt sh rs].
  assert (Hcode : snd (getDSF_fromDataType (mkArray dt sh rs)) =
    (if String.eqb dt "float64" then Ok 5
     else if String.eqb dt "int32" then Ok 2
     else if String.eqb dt "int16" then Ok 3
     else if String.eqb dt "float32" then Ok 5
     else if String.eqb dt "int8" then Ok 8
     else Err (TypeError "Cannot handle data type:"))).
  { unfold getDSF_fromDataType. cbn [dtype].
    destruct (String.eqb_spec dt "float64") as [->|_]; reflexivity. }
  assert (Hwarn : fst (getDSF_fromDataType (mkArray dt sh rs)) =
    if String.eqb dt "float64" then ["Cast data type float64 to float32."] else []).
  { unfold getDSF_fromDataType. cbn [dtype].
    destruct (String.eqb dt "float64"); reflexivity. }
  cbn [dtype] in *. repeat split.
  - intros Hin. rewrite Hcode.
    destruct Hin as [<-|[<-|[<-|[<-|[<-|[]]]]]]; eexists; reflexivity.
  - intros [dsf Hdsf]. rewrite Hcode in Hdsf. cbn [In].
    destruct (String.eqb_spec dt "float64"); [subst; auto 10|].
    destruct (String.eqb_spec dt "int32"); [subst; auto 10|].
    destruct (String.eqb_spec dt "int16"); [subst; auto 10|].
    destruct (String.eqb_spec dt "float32"); [subst; auto 10|].
    destruct (String.eqb_spec dt "int8"); [subst; auto 10|]. discriminate Hdsf.
  - cbn [In] in H. rewrite (surjective_pairing (getDSF_fromDataType _)).
    rewrite Hcode, Hwarn.
    destruct (String.eqb_spec dt "float64"); [subst; exfalso; auto 10|].
    destruct (String.eqb_spec dt "int32"); [subst; exfalso; auto 10|].
    destruct (String.eqb_spec dt "int16"); [subst; exfalso; auto 10|].
    destruct (String.eqb_spec dt "float32"); [subst; exfalso; auto 10|].
    destruct (String.eqb_spec dt "int8"); [subst; exfalso; auto 10|]. reflexivity.
  - intros dt0 STFH mySTH. unfold writeSegy. cbn [shape]. destruct sh as [ns nt].
    rewrite (surjective_pairing (getDSF_fromDataType _)). cbn [snd].
    rewrite Hcode. cbn [In] in H.
    destruct (String.eqb_spec dt "float64"); [subst; exfalso; auto 10|].
    destruct (String.eqb_spec dt "int32"); [subst; exfalso; auto 10|].
    destruct (String.eqb_spec dt "int16"); [subst; exfalso; auto 10|].
    destruct (String.eqb_spec dt "float32"); [subst; exfalso; auto 10|].
    destruct (String.eqb_spec dt "int8"); [subst; exfalso; auto 10|]. reflexivity.
  - exact Hwarn.
  - exact Hcode.
Qed.

(** ** Trace count and trailing bytes *)

(** The trace count that [getSegyHeader] derives. *)
Lemma getSegyHeader_ntraces (data : list byte) (bps ns : Z) :
  3600 <= Z.of_nat (length data) ->
  getBytePerSample (decoded_SH data) = Ok bps ->
  decoded_SH data !! "ns" = Some ns ->
  exists SH,
    getSegyHeader data = Ok (SH, data) /\
    SH !! "ntraces" = Some ((Z.of_nat (length data) - 3600) / (240 + ns * bps)).
Proof.
  intros Hlen Hbps Hns.
  rewrite getSegyHeader_ok by lia. cbn zeta. rewrite Hbps. unfold dict_get. rewrite Hns.
  eexists. split; [reflexivity|]. rewrite lookup_insert_eq. f_equal.
  assert (Hns0 : 0 <= ns).
  { unfold decoded_SH in Hns. rewrite SH_lookup_ns in Hns. injection Hns as <-.
    apply uint16_at_range. }
  destruct (getBytePerSample_cases _ _ Hbps) as (_ & dsf & _ & Hc).
  unfold bytes_SFH, bytes_STH. apply Z.quot_div_nonneg; nia.
Qed.

(** C3.  The trace count is [floor((len(buffer) - 3600) / traceByteSize)]
    for every buffer of at least 3600 bytes with a known revision and
    format code.  On the 3852-byte buffer [file_trailing] (one trace of
    248 bytes and four trailing bytes) the count is 1 and the headers-only
    decode succeeds, but the full decode raises
    [ValueError("cannot reshape array")]: the flat decode has 63 items,
    the reshape wants 1 x 62. *)
Theorem trailing_bytes_break_reshape :
  (forall (data : list byte) (bps ns : Z),
     3600 <= Z.of_nat (length data) ->
     getBytePerSample (decoded_SH data) = Ok bps ->
     decoded_SH data !! "ns" = Some ns ->
     exists SH,
       getSegyHeader data = Ok (SH, data) /\
       SH !! "ntraces" = Some ((Z.of_nat (length data) - 3600) / (240 + ns * bps))) /\
  Z.of_nat (length file_trailing) = 3852 /\
  header_entry (getSegyHeader file_trailing) "ns" = Ok (Some 2) /\
  getBytePerSample (decoded_SH file_trailing) = Ok 4 /\
  header_entry (getSegyHeader file_trailing) "ntraces"
  = Ok (Some ((3852 - 3600) / (240 + 2 * 4))) /\
  read_grid (readSegy file_trailing None true) = Ok None /\
  read_trace_header (readSegy file_trailing None true) "ns" = Ok (Some (Array [VInt 2])) /\
  readSegy file_trailing None false = Err (ValueError "cannot reshape array") /\
  read_grid (readSegy file_i32_2x1 None false)
  = Ok (Some (mkArray "int32" (1, 2) [[VInt 7; VInt (-3)]])).
Proof.
  split; [exact getSegyHeader_ntraces|].
  repeat split; vm_compute; reflexivity.
Qed.

(** ** The layout of the written binary header *)

(** C9.  For the int32 grid [grid_i32_2x1] the written binary header is
    the 68 bytes [3200, 3268), followed by zero bytes up to 3600: the
    format code is at offset 3224, but the revision number 100 of the
    header dictionary lands at offset 3260 (declared for [Unassigned1])
    and the bytes at its declared offset 3500 are zero, so reading the
    file back gives revision 0 and [Unassigned1 = 100]. *)
Theorem written_header_is_68_bytes :
  snd (writeSegy grid_i32_2x1 1000 "" None) = Ok file_i32_2x1 /\
  pack_SH (setSegyHeaders getDefaultSegyHeader (Some 1) (Some 2) (Some 1000) (Some 2))
          SH_def = Ok (py_slice file_i32_2x1 3200 3268) /\
  setSegyHeaders getDefaultSegyHeader (Some 1) (Some 2) (Some 1000) (Some 2)
    !! "SegyFormatRevisionNumber" = Some 100 /\
  py_slice file_i32_2x1 3224 3226 = [Byte.x00; Byte.x02] /\
  py_slice file_i32_2x1 3260 3262 = [Byte.x00; Byte.x64] /\
  py_slice file_i32_2x1 3268 3600 = replicate 332 Byte.x00 /\
  py_slice file_i32_2x1 3500 3502 = [Byte.x00; Byte.x00] /\
  decoded_SH file_i32_2x1 !! "SegyFormatRevisionNumber" = Some 0 /\
  decoded_SH file_i32_2x1 !! "Unassigned1" = Some 100 /\
  decoded_SH file_i32_2x1 !! "DataSampleFormat" = Some 2 /\
  header_entry (getSegyHeader file_i32_2x1) "SegyFormatRevisionNumber" = Ok (Some 0).
Proof. repeat split; vm_compute; reflexivity. Qed.

(** ** 8-bit samples *)

Lemma struct_pack_uchar_negative (n z : Z) (col : list value) :
  z < 0 -> In (VInt z) col ->
  struct_pack (fmt_counted endian n c_B) col = Err StructError.
Proof.
  intros Hz Hin. unfold struct_pack.
  cbn [fmt_ok fmt_counted fmt_count fmt_order fmt_code].
  destruct (0 <=? n); [|reflexivity]. cbn [negb].
  destruct (Z.of_nat (length col) =? n); [|reflexivity]. cbn [negb].
  rewrite (mapM_err (pack_one endian c_B) col StructError); [reflexivity| |].
  - apply List.Forall_forall. intros v _. cbn [pack_one]. unfold pack_int.
    destruct v; auto. destruct (_ && _); eauto.
  - apply List.Exists_exists. exists (VInt z). split; [exact Hin|].
    cbn [pack_one pack_int]. destruct (Z.leb_spec 0 z); [lia|]. reflexivity.
Qed.

(** C7.  The reader has the recovery step of the claim: every sample
    of a format code 8 grid that is greater than 128 becomes
    [value - 256] and the others stay (200 gives -56, 50 gives 50, 128
    stays 128).  No read reaches it: the type name of format code 8 is
    ['uchar'], [getValue] creates its array with
    [np.empty(number, dtype='uchar')], numpy has no type of that name, and
    [readSegy] raises [TypeError] on every buffer of format code 8 that
    holds a trace.  On [file_i8_200_50], whose two sample bytes are 200
    and 50, it raises where the claim promises -56 and 50; the
    headers-only read of the same file succeeds.  The writer has no
    inverse step either: a negative sample is handed to the unsigned
    byte format and rejected. *)
Theorem format8_decode_raises :
  (forall z, fix_int8 (VInt z) = VInt (if 128 <? z then z - 256 else z)) /\
  fix_int8 (VInt 200) = VInt (-56) /\ fix_int8 (VInt 50) = VInt 50 /\
  table_get DataSampleFormat_datatype 1 8 = Ok "uchar" /\
  (forall data index e number,
     getValue data index "uchar" e number
     = Err (TypeError "data type 'uchar' not understood")) /\
  Z.of_nat (length file_i8_200_50) = 3842 /\
  decoded_SH file_i8_200_50 !! "DataSampleFormat" = Some 8 /\
  py_slice file_i8_200_50 3840 3842 = [Byte.xc8; Byte.x32] /\
  readSegy file_i8_200_50 None false
  = Err (TypeError "data type 'uchar' not understood") /\
  read_grid (readSegy file_i8_200_50 None true) = Ok None /\
  (forall (data : list byte) (ns nt : Z),
     getBytePerSample (decoded_SH data) = Ok 1 ->
     decoded_SH data !! "DataSampleFormat" = Some 8 ->
     decoded_SH data !! "ns" = Some ns ->
     1 <= nt ->
     Z.of_nat (length data) = bytes_SFH + nt * (bytes_STH + ns * 1) ->
     readSegy data None false
     = Err (TypeError "data type 'uchar' not understood")) /\
  (forall (n z : Z) (col : list value),
     z < 0 -> In (VInt z) col ->
     struct_pack (fmt_counted endian n c_B) col = Err StructError) /\
  snd (writeSegy grid_i8_negative 1000 "" None) = Err StructError.
Proof.
  split; [intros z; cbn [fix_int8]; destruct (128 <? z); reflexivity|].
  split; [reflexivity|]. split; [reflexivity|]. split; [reflexivity|].
  split; [exact getValue_uchar|].
  split; [vm_compute; reflexivity|]. split; [vm_compute; reflexivity|].
  split; [vm_compute; reflexivity|]. split; [vm_compute; reflexivity|].
  split; [vm_compute; reflexivity|].
  split; [|split].
  - intros data ns nt Hbps Hdsf Hns Hnt Hlen.
    rewrite <- (Z.add_0_r (bytes_SFH + _)) in Hlen.
    exact (proj2 (readSegy_samples data 1 ns 8 nt 0 c_B Hbps Hdsf Hns eq_refl Hnt
                    ltac:(lia) Hlen) eq_refl).
  - exact struct_pack_uchar_negative.
  - vm_compute. reflexivity.
Qed.

(** ** Reading a trace header field *)

Lemma schema_get_In (s : schema) (key : string) (d : field) :
  schema_get s key = Ok d -> In (key, d) s.
Proof.
  induction s as [|[k f] s IH]; [discriminate|].
  cbn [schema_get]. destruct (String.eqb_spec k key) as [->|_].
  - intros [= ->]. left. reflexivity.
  - intros H. right. apply IH. exact H.
Qed.

Lemma STH_def_field_within (name : string) (d : field) :
  schema_get STH_def name = Ok d -> field_within bytes_STH d = true.
Proof.
  intros H. apply schema_get_In in H.
  pose proof STH_def_within as Hw. unfold schema_within in Hw.
  rewrite forallb_forall in Hw. apply (Hw _ H).
Qed.

Lemma trace_field_decode (data : list byte) (tbs : Z) (d : field) (j : Z) :
  trace_field data tbs d j = decode_field data (3600 + j * tbs + f_pos d) d.
Proof.
  unfold trace_field, decode_field, field_at, bytes_SFH. do 3 f_equal. lia.
Qed.

(** C4.  When the [dt] field of all traces is read (at least one trace
    in the buffer), the result has one value per trace: if the value
    decoded for the first trace is 0, every value is the file-level [dt];
    otherwise the values are those decoded at byte
    [3600 + j * traceByteSize + 116] of each trace [j]. *)
Theorem dt_fallback (SH : gmap string Z) (data : list byte) (nt ns bps dtv : Z)
    (Hnt : SH !! "ntraces" = Some nt) (Hns : SH !! "ns" = Some ns)
    (Hbps : getBytePerSample SH = Ok bps) (Hdt : SH !! "dt" = Some dtv)
    (Hnt1 : 1 <= nt) (Hns0 : 0 <= ns) (Hdtv : 0 <= dtv < 65536)
    (Hlen : 3600 + nt * (240 + ns * bps) <= Z.of_nat (length data)) :
  let d := mkField 116 "uint16" None None in
  let decoded :=
    map (fun j => decode_field data (3600 + j * (240 + ns * bps) + 116) d)
        (py_range nt) in
  exists vs,
    getSegyTraceHeader SH data "dt" None 0 = Ok (Array vs) /\
    Z.of_nat (length vs) = nt /\
    (decode_field data (3600 + 116) d = VInt 0 -> Forall (eq (VInt dtv)) vs) /\
    (decode_field data (3600 + 116) d <> VInt 0 -> vs = decoded).
Proof.
  intros d decoded.
  pose proof (getSegyTraceHeader_dt_all SH data nt ns bps Hnt Hns Hbps ltac:(lia) Hns0
                Hlen None "dt" d eq_refl eq_refl dtv eq_refl Hnt1 Hdt) as Hread.
  assert (Hdec : map (trace_field data (bytes_STH + ns * bps) d) (py_range nt) = decoded).
  { apply map_ext. intros j. apply trace_field_decode. }
  assert (Hfirst : trace_field data (bytes_STH + ns * bps) d 0
                   = decode_field data (3600 + 116) d).
  { rewrite trace_field_decode. reflexivity. }
  rewrite Hdec, Hfirst in Hread.
  assert (Hstore : np_store (f_type d) dtv = VInt dtv).
  { unfold np_store. cbn [f_type d String.eqb Ascii.eqb Bool.eqb].
    rewrite Z.mod_small by (change (2 ^ 16) with 65536; lia). reflexivity. }
  rewrite Hstore in Hread.
  eexists. split; [exact Hread|].
  unfold decode_field in *.
  set (x := int_value (item_at data (3600 + 116) endian (field_ctype d))) in *.
  cbn [value_is_zero]. destruct (x =? 0) eqn:Hz.
  - split; [rewrite length_map, length_py_range; lia|]. split.
    + intros _. apply List.Forall_forall. intros v Hv.
      apply in_map_iff in Hv as (j & <- & _). reflexivity.
    + intros Hne. apply Z.eqb_eq in Hz. exfalso. apply Hne. f_equal. exact Hz.
  - split; [unfold decoded; rewrite length_map, length_py_range; lia|]. split.
    + intros [= H0]. apply Z.eqb_neq in Hz. contradiction.
    + intros _. reflexivity.
Qed.

Lemma dt_fallback_witness :
  exists vs,
    getSegyTraceHeader SH_dt0 file_dt0 "dt" None 0 = Ok (Array vs) /\
    Z.of_nat (length vs) = 1 /\
    (decode_field file_dt0 (3600 + 116) (mkField 116 "uint16" None None) = VInt 0 ->
     Forall (eq (VInt 1000)) vs) /\
    (decode_field file_dt0 (3600 + 116) (mkField 116 "uint16" None None) <> VInt 0 ->
     vs = map (fun j => decode_field file_dt0 (3600 + j * (240 + 2 * 4) + 116)
                          (mkField 116 "uint16" None None)) (py_range 1)).
Proof.
  assert (Hnt : SH_dt0 !! "ntraces" = Some 1) by (vm_compute; reflexivity).
  assert (Hns : SH_dt0 !! "ns" = Some 2) by (vm_compute; reflexivity).
  assert (Hbps : getBytePerSample SH_dt0 = Ok 4) by (vm_compute; reflexivity).
  assert (Hdt : SH_dt0 !! "dt" = Some 1000) by (vm_compute; reflexivity).
  assert (Hlen : 3600 + 1 * (240 + 2 * 4) <= Z.of_nat (length file_dt0))
    by (vm_compute; discriminate).
  exact (dt_fallback SH_dt0 file_dt0 1 2 4 1000 Hnt Hns Hbps Hdt
           ltac:(lia) ltac:(lia) ltac:(lia) Hlen).
Defined.

(** C5 as stated fails on [file_dt0] (one trace, trace-level [dt] 0,
    file-level [dt] 1000): reading field [dt] of all traces returns 1000,
    not the 0 decoded at byte 3600 + 116, and reading it for trace 1
    raises [IndexError]; field [ns] is returned as decoded. *)
Lemma readField_dt_differs :
  header_entry (getSegyHeader file_dt0) "ntraces" = Ok (Some 1) /\
  schema_get STH_def "dt" = Ok (mkField 116 "uint16" None None) /\
  decode_field file_dt0 (3600 + 0 * 248 + 116) (mkField 116 "uint16" None None) = VInt 0 /\
  readField file_dt0 "dt" 0 = Ok (Array [VInt 1000]) /\
  readField file_dt0 "dt" 1 = Err IndexError /\
  readField file_dt0 "ns" 1 = Ok (Scalar (VInt 2)) /\
  readField file_dt0 "ns" 0 = Ok (Array [VInt 2]).
Proof. repeat split; vm_compute; reflexivity. Qed.

(** C5, amended.  For every field of the trace-header schema other
    than [dt]: reading it with a 1-based trace index [i] returns the value
    decoded at byte [3600 + (i - 1) * traceByteSize + pos], and reading it
    with index 0 returns the sequence, of length [ntraces], of the values
    decoded at byte [3600 + j * traceByteSize + pos] of each trace [j].
    For [dt] and index 0 (at least one trace) the sequence is the decoded
    one unless the first decoded value is 0, in which case it is the
    file-level [dt] repeated. *)
Theorem readField_positions (SH : gmap string Z) (data : list byte)
    (nt ns bps : Z) (name : string) (d : field)
    (Hnt : SH !! "ntraces" = Some nt) (Hns : SH !! "ns" = Some ns)
    (Hbps : getBytePerSample SH = Ok bps)
    (Hnt0 : 0 <= nt) (Hns0 : 0 <= ns)
    (Hlen : 3600 + nt * (240 + ns * bps) <= Z.of_nat (length data))
    (Hd : schema_get STH_def name = Ok d) :
  let tbs := 240 + ns * bps in
  let decoded := map (fun j => decode_field data (3600 + j * tbs + f_pos d) d)
                     (py_range nt) in
  Z.of_nat (length decoded) = nt /\
  (name <> "dt" ->
   (forall i, 1 <= i <= nt ->
      getSegyTraceHeader SH data name None i
      = Ok (Scalar (decode_field data (3600 + (i - 1) * tbs + f_pos d) d))) /\
   getSegyTraceHeader SH data name None 0 = Ok (Array decoded)) /\
  (name = "dt" -> 1 <= nt ->
   forall dtv, SH !! "dt" = Some dtv -> 0 <= dtv < 65536 ->
     getSegyTraceHeader SH data name None 0
     = Ok (Array (if value_is_zero (decode_field data (3600 + f_pos d) d)
                  then map (fun _ => VInt dtv) (py_range nt)
                  else decoded))).
Proof.
  intros tbs decoded.
  pose proof (STH_def_field_within name d Hd) as Hw.
  assert (Hdec : map (trace_field data (bytes_STH + ns * bps) d) (py_range nt) = decoded).
  { apply map_ext. intros j. apply trace_field_decode. }
  split; [unfold decoded; rewrite length_map, length_py_range; lia|]. split.
  - intros Hname. split.
    + intros i Hi.
      rewrite (getSegyTraceHeader_one_trace SH data nt ns bps Hnt Hns Hbps Hnt0 Hns0
                 Hlen None name d Hd Hw i Hname Hi).
      rewrite trace_field_decode. reflexivity.
    + rewrite (getSegyTraceHeader_all_traces SH data nt ns bps Hnt Hns Hbps Hnt0 Hns0
                 Hlen None name d Hd Hw Hname).
      rewrite Hdec. reflexivity.
  - intros Hname Hnt1 dtv Hdt Hdtv.
    rewrite (getSegyTraceHeader_dt_all SH data nt ns bps Hnt Hns Hbps Hnt0 Hns0
               Hlen None name d Hd Hw dtv Hname Hnt1 Hdt).
    rewrite Hdec, trace_field_decode.
    replace (3600 + 0 * (bytes_STH + ns * bps) + f_pos d) with (3600 + f_pos d) by lia.
    subst name. injection Hd as <-.
    unfold np_store. cbn [f_type String.eqb Ascii.eqb Bool.eqb].
    rewrite Z.mod_small by (change (2 ^ 16) with 65536; lia). reflexivity.
Qed.

Lemma readField_positions_witness :
  let d := mkField 114 "uint16" None None in
  Z.of_nat (length (map (fun j => decode_field file_dt0 (3600 + j * (240 + 2 * 4) + 114) d)
                        (py_range 1))) = 1 /\
  getSegyTraceHeader SH_dt0 file_dt0 "ns" None 1
  = Ok (Scalar (decode_field file_dt0 (3600 + (1 - 1) * (240 + 2 * 4) + 114) d)) /\
  getSegyTraceHeader SH_dt0 file_dt0 "ns" None 0
  = Ok (Array (map (fun j => decode_field file_dt0 (3600 + j * (240 + 2 * 4) + 114) d)
                   (py_range 1))).
Proof.
  assert (Hnt : SH_dt0 !! "ntraces" = Some 1) by (vm_compute; reflexivity).
  assert (Hns : SH_dt0 !! "ns" = Some 2) by (vm_compute; reflexivity).
  assert (Hbps : getBytePerSample SH_dt0 = Ok 4) by (vm_compute; reflexivity).
  assert (Hlen : 3600 + 1 * (240 + 2 * 4) <= Z.of_nat (length file_dt0))
    by (vm_compute; discriminate).
  assert (Hd : schema_get STH_def "ns" = Ok (mkField 114 "uint16" None None))
    by reflexivity.
  pose proof (readField_positions SH_dt0 file_dt0 1 2 4 "ns" _ Hnt Hns Hbps
                ltac:(lia) ltac:(lia) Hlen Hd) as (H1 & H2 & _).
  assert (Hne : "ns" <> "dt") by discriminate.
  destruct (H2 Hne) as [Hone Hall].
  intros d. split; [exact H1|]. split; [apply Hone; lia|exact Hall].
Defined.

(** ** Negative 8-bit samples cannot be written *)

Lemma write_traces_fails f Data STH ns ct tbs (todo : list Z) :
  forall index,
    Exists (fun j => exists e, trace_block Data STH ns ct j = Err e) todo ->
    exists e, write_traces f Data STH ns ct tbs index todo = Err e.
Proof.
  revert f. induction todo as [|j todo IH]; intros f index Hex.
  - inversion Hex.
  - rewrite write_traces_cons.
    destruct (trace_block Data STH ns ct j) as [b|e] eqn:Hb; [|eauto].
    inversion Hex as [? ? [e He]|? ? Hex']; subst; [congruence|].
    apply IH. exact Hex'.
Qed.

(** When every block is written or rejected with the same error, and one
    is rejected, the loop ends with that error. *)
Lemma write_traces_fails_with f Data STH ns ct tbs (todo : list Z) (e : exn) :
  forall index,
    Forall (fun j => trace_block Data STH ns ct j = Err e \/
                     exists b, trace_block Data STH ns ct j = Ok b) todo ->
    Exists (fun j => trace_block Data STH ns ct j = Err e) todo ->
    write_traces f Data STH ns ct tbs index todo = Err e.
Proof.
  revert f. induction todo as [|j todo IH]; intros f index Hall Hex.
  - inversion Hex.
  - rewrite write_traces_cons. inversion Hall as [|? ? Hj Hall']; subst.
    destruct Hj as [Hj|[b Hb]]; [rewrite Hj; reflexivity|].
    rewrite Hb. inversion Hex as [? ? He|? ? Hex']; subst; [congruence|].
    apply IH; assumption.
Qed.

Lemma column_contains (Data : ndarray) (row : list value) (j : nat) (v : value) :
  In row (rows Data) -> row !! j = Some v -> In v (column Data (Z.of_nat j)).
Proof.
  intros Hrow Hv. unfold column. apply in_map_iff. exists row.
  rewrite Nat2Z.id, Hv. auto.
Qed.

Section NegativeInt8.
Variables (Data : ndarray) (row : list value) (j : nat) (z : Z).
Hypothesis Hwf : ndarray_wf Data.
Hypothesis Hrow : In row (rows Data).
Hypothesis Hv : row !! j = Some (VInt z).
Hypothesis Hz : z < 0.

Lemma negative_column_in_range : 0 <= Z.of_nat j < snd (shape Data).
Proof using Hwf Hrow Hv.
  destruct Hwf as (_ & _ & _ & Hall). rewrite List.Forall_forall in Hall.
  specialize (Hall row Hrow). apply lookup_lt_Some in Hv. lia.
Qed.

Lemma trace_block_negative STH ns :
  exists e, trace_block Data STH ns c_B (Z.of_nat j) = Err e.
Proof using All.
  unfold trace_block. destruct (pack_STH STH (Z.of_nat j) STH_def); [|eauto].
  destruct (ndarray_col_ok Data (Z.of_nat j) Hwf negative_column_in_range) as [-> _].
  rewrite (struct_pack_uchar_negative ns z) by
    (try assumption; eapply column_contains; eassumption).
  eauto.
Qed.

Lemma trace_block_negative_struct STH ns :
  sth_packable STH (snd (shape Data)) ->
  trace_block Data STH ns c_B (Z.of_nat j) = Err StructError.
Proof using All.
  intros Hsth. unfold trace_block.
  destruct (pack_STH_ok STH _ _ Hsth negative_column_in_range) as [-> _].
  destruct (ndarray_col_ok Data (Z.of_nat j) Hwf negative_column_in_range) as [-> _].
  rewrite (struct_pack_uchar_negative ns z) by
    (try assumption; eapply column_contains; eassumption).
  reflexivity.
Qed.
End NegativeInt8.

Lemma struct_pack_uchar_cases (n : Z) (col : list value) :
  struct_pack (fmt_counted endian n c_B) col = Err StructError \/
  exists bs, struct_pack (fmt_counted endian n c_B) col = Ok bs.
Proof.
  unfold struct_pack. cbn [fmt_ok fmt_counted fmt_count fmt_order fmt_code].
  destruct (0 <=? n); [|auto]. cbn [negb].
  destruct (Z.of_nat (length col) =? n); [|auto]. cbn [negb].
  assert (H : mapM (pack_one endian c_B) col = Err StructError \/
              exists items, mapM (pack_one endian c_B) col = Ok items).
  { induction col as [|v col IH]; [right; eexists; reflexivity|].
    cbn [mapM pack_one]. unfold pack_int.
    destruct v; auto. destruct (_ && _); auto.
    destruct IH as [->|[items ->]]; eauto. }
  destruct H as [->|[items ->]]; eauto.
Qed.

Lemma trace_block_uchar_cases Data STH ns (nt j : Z) :
  ndarray_wf Data -> sth_packable STH nt -> nt = snd (shape Data) -> 0 <= j < nt ->
  trace_block Data STH ns c_B j = Err StructError \/
  exists b, trace_block Data STH ns c_B j = Ok b.
Proof.
  intros Hwf Hsth -> Hj. unfold trace_block.
  destruct (pack_STH_ok STH _ _ Hsth Hj) as [-> _].
  destruct (ndarray_col_ok Data j Hwf Hj) as [-> _].
  destruct (struct_pack_uchar_cases ns (column Data j)) as [->|[bs ->]]; eauto.
Qed.

(** C10.  An int8 grid that holds a negative sample cannot be written:
    [writeSegy] raises an exception for every sample interval, textual
    header and header override.  The samples of format code 8 are packed
    with the unsigned byte format [B], which rejects the negative value;
    when the headers themselves can be written (ASCII text, sample count
    and interval within 16 bits, no override) the exception is the
    [struct.error] of that packing. *)
Theorem negative_int8_not_writable (Data : ndarray) (row : list value) (j : nat) (z : Z)
    (Hwf : ndarray_wf Data) (Hdtype : dtype Data = "int8")
    (Hrow : In row (rows Data)) (Hv : row !! j = Some (VInt z)) (Hz : z < 0) :
  (forall dt STFH mySTH, exists e, snd (writeSegy Data dt STFH mySTH) = Err e) /\
  (sample_ctype 8 = Ok c_B /\
   forall ns, struct_pack (fmt_counted endian ns c_B) (column Data (Z.of_nat j))
              = Err StructError) /\
  (forall dt STFH,
     is_ok (encode_ascii STFH) = true -> fst (shape Data) <= 65535 ->
     0 <= dt <= 65535 ->
     snd (writeSegy Data dt STFH None) = Err StructError).
Proof.
  pose proof (negative_column_in_range Data row j z Hwf Hrow Hv) as Hj.
  assert (Hfmt : dtype_format (dtype Data) = Some (8, c_B)) by (rewrite Hdtype; reflexivity).
  pose proof (getDSF_fromDataType_ok Data 8 c_B Hfmt) as HDSF.
  split; [|split].
  - intros dt STFH mySTH. unfold writeSegy.
    destruct (shape Data) as [ns nt] eqn:Hshape. cbn [snd] in Hj.
    destruct (getDSF_fromDataType Data) as [warned r]. cbn [snd] in HDSF |- *. subst r.
    destruct (setSegyTraceHeaders mySTH nt ns dt) as [STH|]; [|eauto].
    unfold writeSegyStructure.
    destruct (encode_ascii STFH); [|eauto].
    destruct (getRevisionNumber _) as [revno|] eqn:Hrev; [|eauto].
    assert (revno = 1) as ->.
    { unfold getRevisionNumber in Hrev.
      destruct (dict_get _ "SegyFormatRevisionNumber"); [|discriminate].
      repeat (destruct (_ =? _); [congruence|]). discriminate. }
    destruct (written_SH_lookups nt ns dt 8) as (Knt & Kns & Kdt & Kdsf & Krev).
    unfold dict_get. rewrite Kdsf, Knt, Kns.
    change (table_get DataSampleFormat_descr 1 8) with (Ok "1-byte Integer" : result string).
    cbn iota. destruct (pack_SH _ SH_def); [|eauto].
    change (table_get DataSampleFormat_datatype 1 8) with (Ok "uchar" : result string).
    cbn iota. change (dtype2ctype !! "uchar") with (Some c_B). cbn iota.
    change (table_get DataSampleFormat_bps 1 8) with (Ok 1 : result Z). cbn iota.
    match goal with
    | |- exists e, match write_traces ?f ?D ?S ?n ?c ?t ?i ?l with _ => _ end = _ =>
        destruct (write_traces_fails f D S n c t l i) as [e He]
    end.
    + apply List.Exists_exists. exists (Z.of_nat j). split.
      * apply elem_of_py_range. exact Hj.
      * eapply trace_block_negative; eassumption.
    + rewrite He. eauto.
  - split; [reflexivity|]. intros ns.
    apply (struct_pack_uchar_negative ns z); [exact Hz|].
    eapply column_contains; eassumption.
  - intros dt STFH Hascii Hns Hdt. unfold writeSegy.
    pose proof Hwf as (Hns0 & Hnt0 & _).
    destruct (shape Data) as [ns nt] eqn:Hshape. cbn [fst snd] in *.
    destruct (getDSF_fromDataType Data) as [warned r]. cbn [snd] in HDSF |- *. subst r.
    destruct (setSegyTraceHeaders_packable nt ns dt Hnt0 ltac:(lia) Hdt)
      as (STH & -> & Hsth).
    unfold writeSegyStructure.
    destruct (encode_ascii STFH); [|discriminate Hascii].
    destruct (written_SH_lookups nt ns dt 8) as (Knt & Kns & Kdt & Kdsf & Krev).
    unfold getRevisionNumber, dict_get. rewrite Krev, Kdsf, Knt, Kns.
    cbn [Z.eqb Pos.eqb].
    change (table_get DataSampleFormat_descr 1 8) with (Ok "1-byte Integer" : result string).
    cbn iota.
    destruct (pack_SH_written nt ns dt 8 ltac:(lia) Hdt ltac:(lia))
      as (H1 & H2 & H3 & H4 & HH & _).
    cbn zeta in HH. rewrite HH.
    change (table_get DataSampleFormat_datatype 1 8) with (Ok "uchar" : result string).
    cbn iota. change (dtype2ctype !! "uchar") with (Some c_B). cbn iota.
    change (table_get DataSampleFormat_bps 1 8) with (Ok 1 : result Z). cbn iota.
    rewrite (write_traces_fails_with _ Data STH ns c_B _ (py_range nt) StructError);
      [reflexivity| |].
    + apply List.Forall_forall. intros i Hi. apply elem_of_py_range in Hi.
      apply (trace_block_uchar_cases Data STH ns nt i Hwf Hsth);
        [rewrite Hshape; reflexivity|exact Hi].
    + apply List.Exists_exists. exists (Z.of_nat j). split.
      * apply elem_of_py_range. exact Hj.
      * apply (trace_block_negative_struct Data row j z Hwf Hrow Hv Hz STH ns).
        rewrite Hshape. exact Hsth.
Qed.

Lemma negative_int8_not_writable_witness :
  (exists e, snd (writeSegy grid_i8_negative 1000 "" None) = Err e) /\
  struct_pack (fmt_counted endian 1 c_B) (column grid_i8_negative 0) = Err StructError /\
  snd (writeSegy grid_i8_negative 1000 "" None) = Err StructError.
Proof.
  assert (Hwf : ndarray_wf grid_i8_negative).
  { repeat split; try (vm_compute; discriminate). repeat constructor. }
  assert (Hrow : In [VInt (-56)] (rows grid_i8_negative)) by (left; reflexivity).
  assert (Hv : [VInt (-56)] !! 0%nat = Some (VInt (-56))) by reflexivity.
  pose proof (negative_int8_not_writable grid_i8_negative [VInt (-56)] 0 (-56)
                Hwf eq_refl Hrow Hv ltac:(lia)) as (Hall & (_ & Hpack) & Hstruct).
  split; [apply Hall|]. split; [apply Hpack|].
  apply Hstruct; [reflexivity|vm_compute; discriminate|lia].
Defined.

(** ** The round trip *)

Lemma field_at_item (data : list byte) (pos : Z) (ty : string) (ct : ctype) n dflt :
  dtype2ctype !! ty = Some ct ->
  field_at data 0 (mkField pos ty n dflt) = item_at data pos endian ct.
Proof.
  intros Hct. unfold field_at, field_ctype. cbn [f_pos f_type]. rewrite Hct.
  reflexivity.
Qed.

Lemma roundtrip_format (Data : ndarray) :
  In (dtype Data) ["int32"; "int16"; "float32"; "int8"; "float64"] ->
  exists dsf ct, dtype_format (dtype Data) = Some (dsf, ct).
Proof.
  intros [<-|[<-|[<-|[<-|[<-|[]]]]]]; do 2 eexists; reflexivity.
Qed.

Section RoundTrip.
Variables (Data : ndarray) (dt : Z) (STFH : string).
Hypothesis Hwf : ndarray_wf Data.
Hypothesis Htyped : ndarray_typed Data.
Hypothesis Henc : encodable Data.
Hypothesis Hdtype : In (dtype Data) ["int32"; "int16"; "float32"; "float64"].
Hypothesis Hquiet : no_signalling_nan Data.
Hypothesis Hnt : 1 <= snd (shape Data).
Hypothesis Hns : fst (shape Data) <= 65535.
Hypothesis Hdt : 0 <= dt <= 65535.
Hypothesis Hascii : is_ok (encode_ascii STFH) = true.
Hypothesis Hlen : (String.length STFH <= 3200)%nat.

Lemma roundtrip_table :
  exists dsf ct,
    dtype_format (dtype Data) = Some (dsf, ct) /\ dsf <> 8 /\
    table_get DataSampleFormat_datatype 1 dsf = Ok (dtype (as_written Data)).
Proof using Hdtype.
  unfold as_written.
  destruct Hdtype as [E|[E|[E|[E|[]]]]]; rewrite <- E;
    cbn [String.eqb Ascii.eqb Bool.eqb]; do 2 eexists;
    (split; [reflexivity|split; [discriminate|]]);
    cbn [ndarray_astype_float32 dtype]; rewrite <- ?E; reflexivity.
Qed.

Lemma roundtrip_text :
  exists text, encode_ascii STFH = Ok text /\ (length text <= 3200)%nat.
Proof using Hascii Hlen.
  unfold encode_ascii in *. destruct (forallb _ _); [|discriminate Hascii].
  eexists. split; [reflexivity|]. rewrite length_list_byte_of_string. exact Hlen.
Qed.

Lemma roundtrip_holds :
  roundtrip_grid Data dt STFH
  = Ok (mkArray (dtype (as_written Data)) (snd (shape Data), fst (shape Data))
                (transpose_rows (as_written Data))).
Proof using All.
  destruct roundtrip_table as (dsf & ct & Hfmt & Hdsf8 & Htable).
  destruct roundtrip_text as (text & Htext & Hltext).
  destruct (typed_fits Data dsf ct Hfmt Htyped Henc) as [Hfits Hpost].
  pose proof Hwf as (Hns0 & _ & _ & _).
  destruct (dtype_format_sample_ctype _ _ _ Hfmt) as [Hct Hcases].
  destruct (format_facts dsf (calcsize ct) ct Hct Hcases)
    as (name0 & descr & _ & _ & Hbpst & _ & _ & _ & _ & _).
  assert (Hdsf : - 32768 <= dsf <= 32767) by lia.
  destruct (writeSegy_file Data dt STFH dsf ct text Hwf Hfits Hfmt Hnt Hns Hdt
              Htext Hltext)
    as (STH & H1 & H2 & H3 & H4 & Hfile & Hsth & HL1 & HL2 & HL3 & HL4).
  set (file := written_file _ _ _) in Hfile.
  assert (Hrange : 0 <= fst (shape Data) <= 65535) by lia.
  pose proof (written_ns Data STH ct text H1 H2 H3 H4 dt dsf Hwf Hfits Hsth Hltext
                HL1 HL2 HL3 HL4 Hrange Hdt Hdsf) as Wns.
  pose proof (written_dsf Data STH ct text H1 H2 H3 H4 dt dsf Hwf Hfits Hsth Hltext
                HL1 HL2 HL3 HL4 Hrange Hdt Hdsf) as Wdsf.
  pose proof (written_revno Data STH ct text H1 H2 H3 H4 dt dsf Hwf Hfits Hsth Hltext
                HL1 HL2 HL3 HL4 Hrange Hdt Hdsf) as Wrev.
  pose proof (length_written_file Data STH ct text H1 H2 H3 H4 dt dsf Hwf Hfits Hsth
                Hltext HL1 HL2 HL3 HL4 Hrange Hdt Hdsf) as Wlen.
  pose proof (written_samples Data STH ct text H1 H2 H3 H4 dt dsf Hwf Hfits Hsth
                Hltext HL1 HL2 HL3 HL4 Hrange Hdt Hdsf) as Wsamples.
  cbn zeta in Wns, Wdsf, Wrev, Wlen, Wsamples. fold file in Wns, Wdsf, Wrev, Wlen, Wsamples.
  assert (Kns : decoded_SH file !! "ns" = Some (fst (shape Data))).
  { unfold decoded_SH. rewrite SH_lookup_ns.
    rewrite (field_at_item file 3220 "uint16" c_H) by reflexivity.
    rewrite Wns. reflexivity. }
  assert (Kdsf : decoded_SH file !! "DataSampleFormat" = Some dsf).
  { unfold decoded_SH. rewrite SH_lookup_dsf.
    rewrite (field_at_item file 3224 "int16" c_h) by reflexivity.
    rewrite Wdsf. reflexivity. }
  assert (Krev : decoded_SH file !! "SegyFormatRevisionNumber" = Some 0).
  { unfold decoded_SH. rewrite SH_lookup_revno.
    rewrite (field_at_item file 3500 "uint16" c_H) by reflexivity.
    rewrite Wrev. reflexivity. }
  assert (Kbps : getBytePerSample (decoded_SH file) = Ok (calcsize ct)).
  { unfold getBytePerSample, getRevisionNumber, dict_get. rewrite Krev, Kdsf.
    cbn [Z.eqb]. exact Hbpst. }
  assert (Klen : Z.of_nat (length file)
                 = bytes_SFH + snd (shape Data)
                               * (bytes_STH + fst (shape Data) * calcsize ct) + 0)
    by (rewrite Wlen; lia).
  destruct (proj1 (readSegy_samples file (calcsize ct) (fst (shape Data)) dsf
                     (snd (shape Data)) 0 ct Kbps Kdsf Kns Hct Hnt
                     ltac:(pose proof (calcsize_pos ct); lia) Klen) Hdsf8)
    as (name & TH & Hname & Hread).
  rewrite Htable in Hname. injection Hname as <-.
  unfold roundtrip_grid. rewrite Hfile, Hread. do 2 f_equal.
  rewrite transpose_as_written by assumption.
  apply map_ext_in. intros j Hj. apply elem_of_py_range in Hj.
  rewrite Wsamples by exact Hj.
  pose proof (column_Forall _ Data j Hwf Hj Hpost) as Hcol.
  pose proof (column_Forall _ Data j Hwf Hj Hquiet) as Hq.
  rewrite List.Forall_forall in Hcol, Hq. apply map_ext_in. intros v Hv.
  apply (Hcol v Hv). apply (Hq v Hv).
Qed.
End RoundTrip.

(** C1 as stated fails: for the int32 grid with two samples and one
    trace the decoded grid has shape (1, 2), not (2, 1). *)
Lemma roundtrip_is_transposed :
  roundtrip_grid grid_i32_2x1 1000 ""
  = Ok (mkArray "int32" (1, 2) [[VInt 7; VInt (-3)]]) /\
  mkArray "int32" (1, 2) [[VInt 7; VInt (-3)]] <> grid_i32_2x1 /\
  shape grid_i32_2x1 = (2, 1) /\ rows grid_i32_2x1 = [[VInt 7]; [VInt (-3)]].
Proof.
  split; [vm_compute; reflexivity|]. split; [|split; reflexivity].
  intros H. discriminate H.
Qed.

(** C1, amended.  [writeSegy] takes the grid as samples x traces and
    [readSegy] returns traces x samples.  For every well-shaped grid of
    element type int32, int16, float32 or float64, with at least one
    trace and fewer than 2^31, at most 65535 samples per trace, no double
    beyond the single-precision range and no sample that is a signalling
    NaN, written with a sample interval between 0 and 65535 and an ASCII
    textual header of at most 3200 characters, decoding the written file
    returns the transpose of the grid with its element type, exactly; for
    a float64 grid it returns the transpose of the grid converted to
    float32, of element type float32. *)
Theorem writeSegy_readSegy_transposes (Data : ndarray) (dt : Z) (STFH : string)
    (Hwf : ndarray_wf Data) (Htyped : ndarray_typed Data) (Henc : encodable Data)
    (Hdtype : In (dtype Data) ["int32"; "int16"; "float32"; "float64"])
    (Hquiet : no_signalling_nan Data)
    (Hnt : 1 <= snd (shape Data) < 2 ^ 31) (Hns : fst (shape Data) <= 65535)
    (Hdt : 0 <= dt <= 65535)
    (Hascii : is_ok (encode_ascii STFH) = true)
    (Hlen : (String.length STFH <= 3200)%nat) :
  roundtrip_grid Data dt STFH
  = Ok (mkArray (dtype (as_written Data)) (snd (shape Data), fst (shape Data))
                (transpose_rows (as_written Data))) /\
  dtype (as_written Data)
  = (if String.eqb (dtype Data) "float64" then "float32" else dtype Data).
Proof.
  split; [apply roundtrip_holds; try assumption; apply Hnt|].
  unfold as_written. destruct (String.eqb (dtype Data) "float64"); reflexivity.
Qed.

Lemma writeSegy_readSegy_transposes_witness :
  roundtrip_grid grid_f64_1x1 1000 "SEG-Y"
  = Ok (mkArray "float32" (1, 1) [[VF32 0x3DCCCCCD]]).
Proof.
  assert (Hwf : ndarray_wf grid_f64_1x1).
  { repeat split; try (vm_compute; discriminate). repeat constructor. }
  assert (Htyped : ndarray_typed grid_f64_1x1).
  { repeat constructor; try (vm_compute; congruence). }
  assert (Henc : encodable grid_f64_1x1).
  { repeat constructor; try (vm_compute; reflexivity). }
  assert (Hdtype : In (dtype grid_f64_1x1) ["int32"; "int16"; "float32"; "float64"])
    by (do 3 right; left; reflexivity).
  assert (Hquiet : no_signalling_nan grid_f64_1x1)
    by (repeat constructor; vm_compute; reflexivity).
  assert (Hnt : 1 <= snd (shape grid_f64_1x1) < 2 ^ 31)
    by (split; [vm_compute; discriminate|vm_compute; reflexivity]).
  assert (Hns : fst (shape grid_f64_1x1) <= 65535) by (vm_compute; discriminate).
  assert (Hlen : (String.length "SEG-Y" <= 3200)%nat) by (cbn; lia).
  exact (proj1 (writeSegy_readSegy_transposes grid_f64_1x1 1000 "SEG-Y" Hwf Htyped
                  Henc Hdtype Hquiet Hnt Hns ltac:(lia) eq_refl Hlen)).
Defined.

(** * Further properties of the codec *)

(** ** Single values: [packValue] and [getValue] *)

Lemma array_dtypes_ctype (dt : string) :
  In dt array_dtypes -> exists ct, dtype2ctype !! dt = Some ct.
Proof.
  unfold array_dtypes. cbn [In].
  intros [<-|[<-|[<-|[<-|[<-|[<-|[]]]]]]]; eexists; reflexivity.
Qed.

Lemma array_dtypes_known (dt : string) :
  In dt array_dtypes -> np_dtype_known dt = true.
Proof.
  unfold array_dtypes. cbn [In].
  intros [<-|[<-|[<-|[<-|[<-|[<-|[]]]]]]]; reflexivity.
Qed.

(** A slice that starts inside or after the buffer and ends after it. *)
Lemma length_py_slice_short {A} (data : list A) (a b : Z) :
  0 <= a -> Z.of_nat (length data) < b ->
  Z.of_nat (length (py_slice data a b)) = Z.max 0 (Z.of_nat (length data) - a).
Proof.
  intros Ha Hb. unfold py_slice, slice_index.
  destruct (Z.ltb_spec a 0) as [|_]; [lia|].
  destruct (Z.ltb_spec b 0) as [|_]; [lia|].
  rewrite length_take, length_drop. lia.
Qed.

Lemma getValue_one_block data index dt e ct (number : Z) :
  dtype2ctype !! dt = Some ct -> np_dtype_known dt = true ->
  0 <= number < nspb ->
  getValue data index dt e number =
    (let! Value :=
       (let! items := struct_unpack (fmt_repeat e ct number)
                        (py_slice data index (index + number * calcsize ct)) in
        Ok (items ++ drop (Z.to_nat number) (replicate (Z.to_nat number) (VInt 0)))) in
     if number =? 1 then let! v := seq_get Value 0 in Ok (Scalar v)
     else Ok (Array Value)).
Proof.
  intros Hct Hknown Hn.
  destruct (dtype_tables_agree dt ct Hct) as [Hsz Hibm].
  unfold getValue.
  destruct (String.eqb_spec dt "ibm") as [|_]; [contradiction|].
  unfold dict_get. rewrite Hct, Hsz, Hknown. cbn [negb].
  destruct (Z.ltb_spec number 0) as [|_]; [lia|].
  rewrite Z.quot_small by lia. change (py_range (0 + 1)) with [0].
  cbn [getValue_blocks]. unfold getValue_block.
  change (0 =? 0 + 1 - 1) with true. cbn iota.
  rewrite Z.mod_small by lia.
  rewrite Z.mul_0_r, Z.mul_0_l, Z.add_0_r, Z.add_0_l.
  change (Z.to_nat 0) with 0%nat. rewrite take_0.
  destruct (struct_unpack _ _); reflexivity.
Qed.

Lemma int_bounds_cases (dt : string) (lo hi : Z) :
  int_bounds dt = Some (lo, hi) ->
  (dt = "int32" /\ lo = - 2 ^ 31 /\ hi = 2 ^ 31 - 1) \/
  (dt = "uint32" /\ lo = 0 /\ hi = 2 ^ 32 - 1) \/
  (dt = "int16" /\ lo = - 2 ^ 15 /\ hi = 2 ^ 15 - 1) \/
  (dt = "uint16" /\ lo = 0 /\ hi = 2 ^ 16 - 1).
Proof.
  unfold int_bounds.
  destruct (String.eqb_spec dt "int32"); [intros [= <- <-]; auto|].
  destruct (String.eqb_spec dt "uint32"); [intros [= <- <-]; auto|].
  destruct (String.eqb_spec dt "int16"); [intros [= <- <-]; auto 6|].
  destruct (String.eqb_spec dt "uint16"); [intros [= <- <-]; auto 6|].
  discriminate.
Qed.

(** The k-th of the items read from [index] is the item at
    [index + k * size]. *)
Lemma items_at_lookup data index e ct (number : Z) (k : nat) :
  0 <= index -> (k < Z.to_nat number)%nat ->
  items_at data index e ct number !! k
  = Some (item_at data (index + Z.of_nat k * calcsize ct) e ct).
Proof.
  intros Hi Hk. unfold items_at, item_at.
  rewrite chunks_seq, map_map, list_lookup_fmap, lookup_seq_lt by lia.
  cbn [fmap option_fmap option_map Nat.add]. rewrite drop_drop.
  pose proof (calcsize_pos ct).
  do 4 f_equal. nia.
Qed.

(** A float32 item goes through a Python float: the signalling NaN
    7F800001 is returned as the quiet NaN 7FC00001, a quiet NaN and every
    other single as they are. *)
Example getValue_float32_nan :
  getValue [Byte.x7f; Byte.x80; Byte.x00; Byte.x01] 0 "float32" BigEndian 1
  = Ok (Scalar (VF32 0x7FC00001)) /\
  getValue [Byte.xff; Byte.xc0; Byte.x00; Byte.x05] 0 "float32" BigEndian 1
  = Ok (Scalar (VF32 0xFFC00005)) /\
  getValue [Byte.x3d; Byte.xcc; Byte.xcc; Byte.xcd] 0 "float32" BigEndian 1
  = Ok (Scalar (VF32 0x3DCCCCCD)).
Proof. repeat split; vm_compute; reflexivity. Qed.

(** X1.  Within the buffer [getValue] returns the items decoded at
    [index], [index + size], [index + 2 * size], ...: a scalar when
    [number] is 1 and an array of [number] items otherwise, whatever the
    number of 100-million-sample blocks the loop takes.  The item of a
    float32 read is the single of the four bytes after its way through a
    Python float ([item_at] decodes with [unpack_one]): a signalling NaN
    comes back quiet. *)
Theorem getValue_reads_items (data : list byte) (index : Z) (dt : string)
    (e : byteorder) (ct : ctype) (number : Z)
    (Hdt : In dt array_dtypes) (Hct : dtype2ctype !! dt = Some ct)
    (Hindex : 0 <= index) (Hnumber : 0 <= number)
    (Hlen : index + number * calcsize ct <= Z.of_nat (length data)) :
  exists items,
    getValue data index dt e number
    = Ok (if number =? 1 then Scalar (item_at data index e ct) else Array items) /\
    length items = Z.to_nat number /\
    forall k, (k < Z.to_nat number)%nat ->
      items !! k = Some (item_at data (index + Z.of_nat k * calcsize ct) e ct).
Proof.
  exists (items_at data index e ct number). split; [|split].
  - apply getValue_ok; try assumption. apply array_dtypes_known. exact Hdt.
  - apply length_items_at.
  - intros k Hk. apply items_at_lookup; assumption.
Qed.

Lemma getValue_reads_items_witness :
  exists items,
    getValue [Byte.x00; Byte.x01; Byte.xff; Byte.xfe; Byte.x07] 0 "int16" BigEndian 2
    = Ok (Array items) /\ items = [VInt 1; VInt (-2)].
Proof.
  destruct (getValue_reads_items
              [Byte.x00; Byte.x01; Byte.xff; Byte.xfe; Byte.x07] 0 "int16"
              BigEndian c_h 2) as (items & Hget & Hlen & Hitems).
  - unfold array_dtypes. cbn [In]. auto.
  - reflexivity.
  - lia.
  - lia.
  - cbn. lia.
  - exists items. split; [exact Hget|].
    pose proof (Hitems 0%nat ltac:(cbn; lia)) as H0.
    pose proof (Hitems 1%nat ltac:(cbn; lia)) as H1.
    destruct items as [|a [|b [|c rest]]]; try discriminate Hlen.
    vm_compute in H0, H1. congruence.
Defined.

(** X2.  Error and edge behaviour of [getValue]: a type name that is
    neither ["ibm"] nor a key of [dtype2ctype] is a [KeyError]; a negative
    [number] is numpy's [ValueError]; [number = 0] returns the empty array
    whatever the index; and a request for 1 to 99999999 items that ends
    past the end of the buffer is a [struct.error]. *)
Theorem getValue_edge_cases (data : list byte) (index : Z) (dt : string)
    (e : byteorder) :
  (dt <> "ibm" -> dtype2ctype !! dt = None ->
   forall number, getValue data index dt e number = Err KeyError) /\
  (In dt array_dtypes ->
   (forall number, number < 0 ->
      getValue data index dt e number
      = Err (ValueError "negative dimensions are not allowed")) /\
   getValue data index dt e 0 = Ok (Array []) /\
   (forall number ct,
      dtype2ctype !! dt = Some ct -> 0 <= index -> 1 <= number < nspb ->
      Z.of_nat (length data) < index + number * calcsize ct ->
      getValue data index dt e number = Err StructError)).
Proof.
  split.
  - intros Hibm Hnone number. unfold getValue.
    destruct (String.eqb_spec dt "ibm") as [|_]; [contradiction|].
    unfold dict_get. rewrite Hnone. reflexivity.
  - intros Hdt. destruct (array_dtypes_ctype dt Hdt) as [ct Hct].
    destruct (dtype_tables_agree dt ct Hct) as [Hsz Hibm].
    split; [|split].
    + intros number Hneg. unfold getValue.
      destruct (String.eqb_spec dt "ibm") as [|_]; [contradiction|].
      unfold dict_get. rewrite Hct, Hsz, (array_dtypes_known dt Hdt). cbn [negb].
      destruct (Z.ltb_spec number 0) as [_|]; [reflexivity|lia].
    + rewrite (getValue_one_block data index dt e ct 0 Hct
                 (array_dtypes_known dt Hdt))
        by (pose proof nspb_pos; lia).
      unfold struct_unpack, fmt_repeat. cbn [fmt_ok fmt_count fmt_code fmt_order negb].
      rewrite Z.mul_0_l, Z.add_0_r.
      assert (Hempty : py_slice data index index = []).
      { unfold py_slice. rewrite Z.sub_diag. apply take_0. }
      rewrite Hempty. reflexivity.
    + intros number ct' Hct' Hi Hn Hshort.
      assert (ct' = ct) as -> by congruence.
      rewrite (getValue_one_block data index dt e ct number Hct
                 (array_dtypes_known dt Hdt)) by lia.
      unfold struct_unpack, fmt_repeat. cbn [fmt_ok fmt_count fmt_code fmt_order negb].
      pose proof (calcsize_pos ct) as Hsz0.
      rewrite (length_py_slice_short data index (index + number * calcsize ct))
        by lia.
      destruct (Z.eqb_spec (Z.max 0 (Z.of_nat (length data) - index))
                           (Z.max 0 number * calcsize ct)) as [Heq|_];
        [nia|reflexivity].
Qed.

Lemma pack_one_int_bounds (dt : string) (lo hi z : Z) (e : byteorder) :
  int_bounds dt = Some (lo, hi) ->
  exists ct (size : nat),
    dtype2ctype !! dt = Some ct /\ calcsize ct = Z.of_nat size /\
    is_int_ctype ct = true /\ roundtrips ct (VInt z) /\
    pack_one e ct (VInt z) = pack_int e size lo hi (VInt z).
Proof.
  intros Hb.
  destruct (int_bounds_cases dt lo hi Hb)
    as [(-> & -> & ->)|[(-> & -> & ->)|[(-> & -> & ->)|(-> & -> & ->)]]].
  - exists c_l, 4%nat. repeat split.
  - exists c_L, 4%nat. repeat split.
  - exists c_h, 2%nat. repeat split.
  - exists c_H, 2%nat. repeat split.
Qed.

(** X3.  [packValue] packs exactly the integers of the range of an
    integer type, into as many bytes as [dtype2csize] gives, and raises
    [struct.error] on every other integer.  [getValue] decodes the bytes
    back to the integer at any offset of any buffer that holds them. *)
Theorem packValue_getValue_roundtrip (dt : string) (lo hi z : Z) (e : byteorder)
    (Hdt : int_bounds dt = Some (lo, hi)) :
  (lo <= z <= hi ->
   exists bs,
     packValue (VInt z) dt e 1 = Ok bs /\
     dtype2csize !! dt = Some (Z.of_nat (length bs)) /\
     forall pre post,
       getValue (pre ++ bs ++ post) (Z.of_nat (length pre)) dt e 1
       = Ok (Scalar (VInt z))) /\
  (~ lo <= z <= hi -> packValue (VInt z) dt e 1 = Err StructError).
Proof.
  destruct (pack_one_int_bounds dt lo hi z e Hdt)
    as (ct & size & Hct & Hsize & Hint & Hrt & Hpack).
  destruct (dtype_tables_agree dt ct Hct) as [Hsz _].
  rewrite packValue_1. unfold dict_get. rewrite Hct, Hpack.
  split.
  - intros Hin.
    destruct (pack_int e size lo hi (VInt z)) as [bs|err] eqn:Hbs.
    + pose proof (pack_one_length e ct (VInt z) bs Hpack) as Hlen.
      exists bs. split; [reflexivity|]. split; [rewrite Hsz, Hlen; reflexivity|].
      intros pre post.
      rewrite (getValue_ok _ _ dt e ct 1 Hct (int_ctype_known dt ct Hct Hint))
        by (rewrite ?length_app; lia).
      cbn [Z.eqb Pos.eqb]. do 2 f_equal.
      rewrite (item_at_located pre bs post _ e ct eq_refl Hlen).
      rewrite (unpack_pack_one e ct (VInt z) bs Hpack Hrt).
      destruct ct; reflexivity.
    + exfalso. unfold pack_int in Hbs.
      destruct (Z.leb_spec lo z); [|lia].
      destruct (Z.leb_spec z hi); [|lia].
      discriminate Hbs.
  - intros Hout. unfold pack_int.
    destruct (Z.leb_spec lo z); [|reflexivity].
    destruct (Z.leb_spec z hi); [|reflexivity].
    lia.
Qed.

Lemma packValue_getValue_roundtrip_witness :
  (exists bs,
     packValue (VInt (-2)) "int16" BigEndian 1 = Ok bs /\
     dtype2csize !! "int16" = Some (Z.of_nat (length bs)) /\
     forall pre post,
       getValue (pre ++ bs ++ post) (Z.of_nat (length pre)) "int16" BigEndian 1
       = Ok (Scalar (VInt (-2)))) /\
  packValue (VInt 70000) "uint16" BigEndian 1 = Err StructError.
Proof.
  split.
  - apply (packValue_getValue_roundtrip "int16" (- 2 ^ 15) (2 ^ 15 - 1) (-2)
             BigEndian eq_refl). lia.
  - apply (packValue_getValue_roundtrip "uint16" 0 (2 ^ 16 - 1) 70000
             BigEndian eq_refl). lia.
Defined.

(** X4.  [packValue] packs one value only: the [number] argument
    repeats the format character but a single value is passed to
    [struct.pack], so every [number] other than 1 raises [struct.error];
    an unknown type name is a [KeyError]. *)
Theorem packValue_single_value_only (v : value) (dt : string) (e : byteorder)
    (number : Z) :
  (dtype2ctype !! dt = None -> packValue v dt e number = Err KeyError) /\
  (forall ct, dtype2ctype !! dt = Some ct ->
     (number <> 1 -> packValue v dt e number = Err StructError) /\
     packValue v dt e 1 = pack_one e ct v).
Proof.
  split.
  - intros Hnone. unfold packValue, dict_get. rewrite Hnone. reflexivity.
  - intros ct Hct. split.
    + intros Hn. unfold packValue, dict_get. rewrite Hct.
      unfold struct_pack, fmt_repeat.
      cbn [fmt_ok fmt_count fmt_code fmt_order negb length].
      destruct (Z.eqb_spec (Z.of_nat 1) (Z.max 0 number)) as [Heq|_];
        [lia|reflexivity].
    + rewrite packValue_1. unfold dict_get. rewrite Hct. reflexivity.
Qed.

(** ** Outcomes of [getSegyHeader] *)

Lemma decoded_SH_entries (data : list byte) :
  decoded_SH data !! "dt" = Some (file_dt data) /\
  decoded_SH data !! "ns" = Some (file_ns data) /\
  decoded_SH data !! "DataSampleFormat" = Some (file_dsf data) /\
  decoded_SH data !! "SegyFormatRevisionNumber" = Some (file_revno data) /\
  decoded_SH data !! "ntraces" = None.
Proof.
  unfold decoded_SH.
  rewrite SH_lookup_dt, SH_lookup_ns, SH_lookup_dsf, SH_lookup_revno, SH_lookup_ntraces.
  repeat split.
Qed.

Lemma file_ns_range (data : list byte) : 0 <= file_ns data < 65536.
Proof. apply uint16_at_range. Qed.

Lemma file_dt_range (data : list byte) : 0 <= file_dt data < 65536.
Proof. apply uint16_at_range. Qed.

(** The bytes-per-sample table of revision 1. *)
Lemma table_bps_cases (dsf : Z) :
  (In dsf format_codes /\
   exists bps, table_get DataSampleFormat_bps 1 dsf = Ok bps /\ 1 <= bps <= 4) \/
  (~ In dsf format_codes /\ table_get DataSampleFormat_bps 1 dsf = Err KeyError).
Proof.
  unfold table_get.
  change (dict_get DataSampleFormat_bps 1)
    with (Ok (<[1 := 4]> (<[2 := 4]> (<[3 := 2]> (<[5 := 4]> (<[8 := 1]> ∅))))
              : gmap Z Z)).
  unfold dict_get, format_codes. cbn [In].
  destruct (Z.eq_dec dsf 1) as [->|H1];
    [left; split; [auto|exists 4; split; [reflexivity|lia]]|].
  rewrite lookup_insert_ne by congruence.
  destruct (Z.eq_dec dsf 2) as [->|H2];
    [left; split; [auto|exists 4; split; [reflexivity|lia]]|].
  rewrite lookup_insert_ne by congruence.
  destruct (Z.eq_dec dsf 3) as [->|H3];
    [left; split; [auto|exists 2; split; [reflexivity|lia]]|].
  rewrite lookup_insert_ne by congruence.
  destruct (Z.eq_dec dsf 5) as [->|H5];
    [left; split; [auto 6|exists 4; split; [reflexivity|lia]]|].
  rewrite lookup_insert_ne by congruence.
  destruct (Z.eq_dec dsf 8) as [->|H8];
    [left; split; [auto 6|exists 1; split; [reflexivity|lia]]|].
  rewrite lookup_insert_ne by congruence.
  right. split; [intuition congruence|reflexivity].
Qed.

Lemma field_within_tight (limit : Z) (d : field) :
  field_within limit d = true ->
  field_within (f_pos d + calcsize (field_ctype d)) d = true.
Proof.
  intros Hw. pose proof (field_within_spec limit d Hw) as (Hct & Hint & Hp & _).
  unfold field_within. rewrite Hct, Hint. cbn [andb].
  apply andb_true_intro. split; [apply Z.leb_le; lia|apply Z.leb_le; lia].
Qed.

(** A header field that ends past the end of the buffer. *)
Lemma getValue_field_short data limit d :
  field_within limit d = true ->
  Z.of_nat (length data) < f_pos d + calcsize (field_ctype d) ->
  getValue data (f_pos d) (f_type d) endian 1 = Err StructError.
Proof.
  intros Hw Hshort.
  pose proof (field_within_spec limit d Hw) as (Hct & Hint & Hp & _).
  rewrite (getValue_one_block data (f_pos d) (f_type d) endian _ 1 Hct
             (int_ctype_known _ _ Hct Hint))
    by (unfold nspb; lia).
  unfold struct_unpack, fmt_repeat. cbn [fmt_ok fmt_count fmt_code fmt_order negb].
  rewrite length_py_slice_short by lia.
  pose proof (calcsize_pos (field_ctype d)).
  destruct (Z.eqb_spec (Z.max 0 (Z.of_nat (length data) - f_pos d))
                       (Z.max 0 1 * calcsize (field_ctype d))) as [Heq|_];
    [lia|reflexivity].
Qed.

Lemma getSegyHeader_fields_short data limit (fields : schema) :
  schema_within limit fields = true ->
  Exists (fun kd => Z.of_nat (length data)
                    < f_pos (snd kd) + calcsize (field_ctype (snd kd))) fields ->
  forall SH, getSegyHeader_fields data SH fields = Err StructError.
Proof.
  induction fields as [|[key d] fields IH]; intros Hw Hex SH.
  - inversion Hex.
  - cbn [schema_within forallb snd] in Hw. apply andb_prop in Hw as [Hd Hw].
    cbn [getSegyHeader_fields].
    destruct (Z.lt_ge_cases (Z.of_nat (length data))
                (f_pos d + calcsize (field_ctype d))) as [Hshort|Hfits].
    + rewrite (getValue_field_short data limit d Hd Hshort). reflexivity.
    + pose proof (getValue_field data 0 _ d (field_within_tight limit d Hd)
                    ltac:(lia) ltac:(lia)) as Hv.
      rewrite Z.add_0_l in Hv. rewrite Hv. cbn [as_int].
      apply IH; [exact Hw|].
      inversion Hex as [? ? Hhd|? ? Htl]; subst; [cbn [snd] in Hhd; lia|exact Htl].
Qed.

Lemma getBytePerSample_decoded (data : list byte) :
  getBytePerSample (decoded_SH data) =
    (if negb (existsb (Z.eqb (file_revno data)) [0; 100; 1; 256])
     then Err (ValueError "Unknown revno number:")
     else table_get DataSampleFormat_bps 1 (file_dsf data)).
Proof.
  destruct (decoded_SH_entries data) as (_ & _ & Hdsf & Hrev & _).
  unfold getBytePerSample, getRevisionNumber, dict_get. rewrite Hrev, Hdsf.
  cbn [existsb].
  destruct (file_revno data =? 0); [reflexivity|].
  destruct (file_revno data =? 100); [reflexivity|].
  destruct (file_revno data =? 1); [reflexivity|].
  destruct (file_revno data =? 256); reflexivity.
Qed.

Lemma existsb_eqb_In (x : Z) (l : list Z) : existsb (Z.eqb x) l = true <-> In x l.
Proof.
  rewrite existsb_exists. split.
  - intros (y & Hy & Heq). apply Z.eqb_eq in Heq. subst. exact Hy.
  - intros H. exists x. split; [exact H|apply Z.eqb_refl].
Qed.

(** The header dictionary of a buffer with a known revision and format
    code: the decoded fields and the trace count. *)
Lemma getSegyHeader_known (data : list byte) (bps : Z) :
  3508 <= Z.of_nat (length data) ->
  In (file_revno data) [0; 100; 1; 256] ->
  table_get DataSampleFormat_bps 1 (file_dsf data) = Ok bps ->
  getBytePerSample (decoded_SH data) = Ok bps /\
  getSegyHeader data
  = Ok (<["ntraces" := Z.quot (Z.of_nat (length data) - bytes_SFH)
                              (bytes_STH + file_ns data * bps)]> (decoded_SH data),
        data).
Proof.
  intros Hlen Hrev Hbps.
  assert (Hb : getBytePerSample (decoded_SH data) = Ok bps).
  { rewrite getBytePerSample_decoded.
    apply existsb_eqb_In in Hrev. rewrite Hrev. exact Hbps. }
  split; [exact Hb|].
  rewrite getSegyHeader_ok by assumption. cbn zeta. rewrite Hb.
  destruct (decoded_SH_entries data) as (_ & Hns & _).
  unfold dict_get. rewrite Hns. reflexivity.
Qed.

Lemma schema_get_absent (s : schema) (key : string) :
  ~ In key (map fst s) -> schema_get s key = Err KeyError.
Proof.
  induction s as [|[k f] s IH]; intros Hnot; [reflexivity|].
  cbn [schema_get]. destruct (String.eqb_spec k key) as [->|_].
  - exfalso. apply Hnot. left. reflexivity.
  - apply IH. intros Hin. apply Hnot. right. exact Hin.
Qed.

(** A dictionary built from a schema with distinct keys, looked up. *)
Lemma schema_map_lookup {V} (g : field -> V) (s : schema) (init : gmap string V)
    (key : string) :
  NoDup (map fst s) ->
  schema_map g s init !! key
  = match schema_get s key with
    | Ok d => Some (g d)
    | Err _ => init !! key
    end.
Proof.
  unfold schema_map. revert init.
  induction s as [|[k d] s IH]; intros init Hnd; [reflexivity|].
  cbn [map fst] in Hnd. apply NoDup_cons in Hnd as [Hk Hnd].
  cbn [fold_left schema_get]. rewrite IH by assumption.
  destruct (String.eqb_spec k key) as [->|Hne].
  - rewrite schema_get_absent, lookup_insert_eq; [reflexivity|].
    intros Hin. apply Hk. apply list_elem_of_In. exact Hin.
  - destruct (schema_get s key); [reflexivity|]. apply lookup_insert_ne. exact Hne.
Qed.

Lemma SH_def_keys_distinct : NoDup (map fst SH_def).
Proof. apply (bool_decide_unpack _). vm_compute. exact I. Qed.

(** Every field of the binary header, decoded at its declared offset. *)
Lemma decoded_SH_lookup (data : list byte) (key : string) :
  decoded_SH data !! key
  = match schema_get SH_def key with
    | Ok d => Some (int_value (item_at data (f_pos d) endian (field_ctype d)))
    | Err _ => None
    end.
Proof.
  unfold decoded_SH. rewrite schema_map_lookup by apply SH_def_keys_distinct.
  destruct (schema_get SH_def key); reflexivity.
Qed.

(** X5.  The outcome of [getSegyHeader] on every buffer.  A buffer of
    fewer than 3508 bytes (the end of the last header field) is a
    [struct.error]; otherwise an unknown revision number is the
    [ValueError], a format code without a bytes-per-sample entry (4, for
    one) is a [KeyError], and every other buffer gives every field of
    [SH_def] decoded at its declared offset and a trace count that is
    never negative and whose traces lie inside the buffer. *)
Theorem getSegyHeader_outcome (data : list byte) :
  (Z.of_nat (length data) < 3508 -> getSegyHeader data = Err StructError) /\
  (3508 <= Z.of_nat (length data) ->
   (~ In (file_revno data) [0; 100; 1; 256] ->
    getSegyHeader data = Err (ValueError "Unknown revno number:")) /\
   (In (file_revno data) [0; 100; 1; 256] ->
    (~ In (file_dsf data) format_codes -> getSegyHeader data = Err KeyError) /\
    (In (file_dsf data) format_codes ->
     exists SH bps nt,
       getSegyHeader data = Ok (SH, data) /\
       table_get DataSampleFormat_bps 1 (file_dsf data) = Ok bps /\
       SH !! "ntraces" = Some nt /\
       (forall key d, schema_get SH_def key = Ok d ->
          SH !! key
          = Some (int_value (item_at data (f_pos d) endian (field_ctype d)))) /\
       0 <= nt /\
       (1 <= nt ->
        bytes_SFH + nt * (bytes_STH + file_ns data * bps) <= Z.of_nat (length data)) /\
       Z.of_nat (length data)
       < bytes_SFH + (nt + 1) * (bytes_STH + file_ns data * bps)))).
Proof.
  split.
  - intros Hshort. unfold getSegyHeader.
    rewrite (getSegyHeader_fields_short data 3508 SH_def SH_def_within); [reflexivity|].
    apply List.Exists_exists.
    exists ("Unassigned2", mkField 3506 "int16" (Some 47) (Some 0)).
    split; [vm_compute; auto 40|].
    cbn [snd f_pos]. change (calcsize (field_ctype _)) with 2. lia.
  - intros Hlen. split.
    + intros Hrev. rewrite getSegyHeader_ok by assumption. cbn zeta.
      rewrite getBytePerSample_decoded.
      destruct (existsb (Z.eqb (file_revno data)) [0; 100; 1; 256]) eqn:Hex;
        [apply existsb_eqb_In in Hex; contradiction|reflexivity].
    + intros Hrev. split.
      * intros Hdsf. rewrite getSegyHeader_ok by assumption. cbn zeta.
        rewrite getBytePerSample_decoded.
        apply existsb_eqb_In in Hrev. rewrite Hrev. cbn [negb].
        destruct (table_bps_cases (file_dsf data)) as [[Hin _]|[_ ->]];
          [contradiction|reflexivity].
      * intros Hdsf.
        destruct (table_bps_cases (file_dsf data))
          as [(_ & bps & Hbps & Hrange)|[Hnot _]]; [|contradiction].
        destruct (getSegyHeader_known data bps Hlen Hrev Hbps) as [_ Hget].
        pose proof (file_ns_range data) as Hns.
        set (tbs := bytes_STH + file_ns data * bps) in *.
        assert (Htbs : 240 <= tbs) by (subst tbs; unfold bytes_STH; nia).
        set (nt := Z.quot (Z.of_nat (length data) - bytes_SFH) tbs) in *.
        exists (<["ntraces" := nt]> (decoded_SH data)), bps, nt.
        split; [exact Hget|]. split; [exact Hbps|].
        split; [apply lookup_insert_eq|].
        split.
        { intros key d Hd.
          assert (Hne : "ntraces" <> key).
          { intros <-. vm_compute in Hd. discriminate Hd. }
          rewrite lookup_insert_ne by exact Hne.
          rewrite decoded_SH_lookup, Hd. reflexivity. }
        unfold bytes_SFH in *.
        destruct (Z.lt_ge_cases (Z.of_nat (length data)) 3600) as [Hsmall|Hbig].
        -- assert (Hnt : nt = 0).
           { subst nt. rewrite <- (Z.opp_involutive (Z.of_nat (length data) - 3600)).
             rewrite Z.quot_opp_l by lia. rewrite Z.quot_small by lia. reflexivity. }
           rewrite Hnt. split; [lia|]. split; [lia|]. lia.
        -- assert (Hq : nt = (Z.of_nat (length data) - 3600) / tbs)
             by (subst nt; apply Z.quot_div_nonneg; lia).
           pose proof (Z.div_mod (Z.of_nat (length data) - 3600) tbs ltac:(lia)) as Hdm.
           pose proof (Z.mod_pos_bound (Z.of_nat (length data) - 3600) tbs ltac:(lia)).
           assert (0 <= nt) by (rewrite Hq; apply Z.div_pos; lia).
           rewrite <- Hq in Hdm. split; [assumption|]. split; [nia|nia].
Qed.

(** ** The trace header dictionary *)

Lemma schema_get_key (s : schema) (key : string) :
  has_key s key = existsb (fun kd => String.eqb (fst kd) key) s.
Proof.
  unfold has_key. induction s as [|[k f] s IH]; [reflexivity|].
  cbn [schema_get existsb fst]. destruct (String.eqb k key); [reflexivity|exact IH].
Qed.

Lemma keyed_lookup {V} (val : string -> V) (keys : schema) (init : gmap string V)
    (key : string) :
  keyed val keys init !! key
  = if has_key keys key then Some (val key) else init !! key.
Proof.
  rewrite schema_get_key. unfold keyed. revert init.
  induction keys as [|[k f] keys IH]; intros init; [reflexivity|].
  cbn [fold_left existsb fst]. rewrite IH.
  destruct (existsb _ keys) eqn:Hex.
  - rewrite orb_true_r. reflexivity.
  - rewrite orb_false_r. destruct (String.eqb_spec k key) as [->|Hne].
    + apply lookup_insert_eq.
    + apply lookup_insert_ne. exact Hne.
Qed.

(** The loop of [getSegyTraceHeaders] when every read succeeds. *)
Lemma getSegyTraceHeaders_loop_keyed SH data (TH_read : schema) (itrace : Z)
    (val : string -> pyobj) (keys : schema) :
  Forall (fun kd => getSegyTraceHeader SH data (fst kd) (Some TH_read) itrace
                    = Ok (val (fst kd))) keys ->
  forall acc,
    getSegyTraceHeaders_loop SH data TH_read itrace acc keys
    = Ok (keyed val keys acc).
Proof.
  induction 1 as [|[key d] keys Hkey _ IH]; intros acc; [reflexivity|].
  cbn [getSegyTraceHeaders_loop]. cbn [fst] in Hkey. rewrite Hkey. apply IH.
Qed.

(** The loop stops at the first read that fails. *)
Lemma getSegyTraceHeaders_loop_stops SH data (TH_read : schema) (itrace : Z)
    (before after : schema) (key : string) (d : field) (e : exn) :
  Forall (fun kd => is_ok (getSegyTraceHeader SH data (fst kd) (Some TH_read) itrace)
                    = true) before ->
  getSegyTraceHeader SH data key (Some TH_read) itrace = Err e ->
  forall acc,
    getSegyTraceHeaders_loop SH data TH_read itrace acc (before ++ (key, d) :: after)
    = Err e.
Proof.
  intros Hbefore Hkey. induction Hbefore as [|[k f] before Hk _ IH]; intros acc.
  - cbn [app getSegyTraceHeaders_loop]. rewrite Hkey. reflexivity.
  - cbn [app getSegyTraceHeaders_loop]. cbn [fst] in Hk.
    destruct (getSegyTraceHeader SH data k (Some TH_read) itrace);
      [apply IH|discriminate Hk].
Qed.

Lemma schema_closed_spec (s : schema) (kd : string * field) :
  schema_closed s = true -> In kd s ->
  schema_get s (fst kd) = Ok (schema_field s (fst kd)) /\
  field_within bytes_STH (schema_field s (fst kd)) = true.
Proof.
  intros Hc Hin. unfold schema_closed in Hc. rewrite forallb_forall in Hc.
  specialize (Hc kd Hin). unfold schema_field.
  destruct (schema_get s (fst kd)) as [d|]; [|discriminate]. split; [reflexivity|exact Hc].
Qed.

Lemma TH_schema_get (TH_dict : option schema) (key : string) :
  match TH_dict with
  | Some s => schema_get s key
  | None => schema_get STH_def key
  end = schema_get (TH_schema TH_dict) key.
Proof. destruct TH_dict; reflexivity. Qed.

Lemma TH_readable_closed (s : schema) :
  TH_readable s = true -> schema_closed s = true.
Proof. unfold TH_readable. intros H. apply andb_prop in H as [H _]. exact H. Qed.

Lemma STH_def_readable : TH_readable STH_def = true.
Proof. vm_compute. reflexivity. Qed.

(** The dictionary of the all-traces read. *)
Lemma getSegyTraceHeaders_keyed (SH : gmap string Z) (data : list byte)
    (nt ns bps dtv : Z) (TH_dict : option schema)
    (Hnt : SH !! "ntraces" = Some nt) (Hns : SH !! "ns" = Some ns)
    (Hbps : getBytePerSample SH = Ok bps) (Hdt : SH !! "dt" = Some dtv)
    (Hnt1 : 1 <= nt) (Hns0 : 0 <= ns)
    (Hlen : bytes_SFH + nt * (bytes_STH + ns * bps) <= Z.of_nat (length data))
    (Hclosed : schema_closed (TH_schema TH_dict) = true) :
  exists TH,
    getSegyTraceHeaders SH data TH_dict 0 = Ok TH /\
    forall key,
      TH !! key =
        match schema_get (TH_schema TH_dict) key with
        | Ok d => Some (trace_column data (bytes_STH + ns * bps) nt dtv key d)
        | Err _ => None
        end.
Proof.
  set (s := TH_schema TH_dict) in *.
  set (val := fun key => trace_column data (bytes_STH + ns * bps) nt dtv key
                           (schema_field s key)).
  exists (keyed val s ∅). split.
  - unfold getSegyTraceHeaders. fold (TH_schema TH_dict). fold s.
    apply getSegyTraceHeaders_loop_keyed.
    apply List.Forall_forall. intros kd Hin.
    destruct (schema_closed_spec s kd Hclosed Hin) as [Hd Hw].
    unfold val, trace_column.
    destruct (String.eqb_spec (fst kd) "dt") as [Hk|Hk]; cbn [andb].
    + apply (getSegyTraceHeader_dt_all SH data nt ns bps Hnt Hns Hbps
               ltac:(lia) Hns0 Hlen (Some s) (fst kd) _ Hd Hw dtv Hk Hnt1 Hdt).
    + apply (getSegyTraceHeader_all_traces SH data nt ns bps Hnt Hns Hbps
               ltac:(lia) Hns0 Hlen (Some s) (fst kd) _ Hd Hw Hk).
  - intros key. rewrite keyed_lookup. unfold has_key, val, schema_field.
    destruct (schema_get s key); reflexivity.
Qed.

(** X6.  [getSegyTraceHeaders] over all traces of a buffer that holds
    [nt >= 1] traces, for a file header with a 16-bit sample interval:
    the result has exactly the keys of the schema read ([STH_def], or the
    dictionary given), and the entry of a key is the array of the [nt]
    values of its field, with the [dt] fallback. *)
Theorem getSegyTraceHeaders_all_traces (SH : gmap string Z) (data : list byte)
    (nt ns bps dtv : Z) (TH_dict : option schema)
    (Hnt : SH !! "ntraces" = Some nt) (Hns : SH !! "ns" = Some ns)
    (Hbps : getBytePerSample SH = Ok bps) (Hdt : SH !! "dt" = Some dtv)
    (Hdtv : 0 <= dtv <= 65535)
    (Hnt1 : 1 <= nt) (Hns0 : 0 <= ns)
    (Hlen : bytes_SFH + nt * (bytes_STH + ns * bps) <= Z.of_nat (length data))
    (Hdict : TH_readable (TH_schema TH_dict) = true) :
  exists TH,
    getSegyTraceHeaders SH data TH_dict 0 = Ok TH /\
    (forall key,
       TH !! key =
         match schema_get (TH_schema TH_dict) key with
         | Ok d => Some (trace_column data (bytes_STH + ns * bps) nt dtv key d)
         | Err _ => None
         end) /\
    (forall key vs, TH !! key = Some (Array vs) -> Z.of_nat (length vs) = nt) /\
    (forall key v, TH !! key <> Some (Scalar v)).
Proof.
  destruct (getSegyTraceHeaders_keyed SH data nt ns bps dtv TH_dict
              Hnt Hns Hbps Hdt Hnt1 Hns0 Hlen (TH_readable_closed _ Hdict)) as (TH & HTH & Hkeys).
  exists TH. split; [exact HTH|]. split; [exact Hkeys|]. split.
  - intros key vs Hvs. rewrite Hkeys in Hvs.
    destruct (schema_get (TH_schema TH_dict) key) as [d|]; [|discriminate Hvs].
    unfold trace_column in Hvs. injection Hvs as <-.
    destruct (_ && _); rewrite length_map, length_py_range; lia.
  - intros key v Hv. rewrite Hkeys in Hv.
    destruct (schema_get (TH_schema TH_dict) key); discriminate Hv.
Qed.

Lemma getSegyTraceHeaders_all_traces_witness :
  exists TH,
    getSegyTraceHeaders SH_dt0 file_dt0 None 0 = Ok TH /\
    forall key,
      TH !! key =
        match schema_get STH_def key with
        | Ok d => Some (trace_column file_dt0 (bytes_STH + 2 * 4) 1 1000 key d)
        | Err _ => None
        end.
Proof.
  assert (Hnt : SH_dt0 !! "ntraces" = Some 1) by (vm_compute; reflexivity).
  assert (Hns : SH_dt0 !! "ns" = Some 2) by (vm_compute; reflexivity).
  assert (Hbps : getBytePerSample SH_dt0 = Ok 4) by (vm_compute; reflexivity).
  assert (Hdt : SH_dt0 !! "dt" = Some 1000) by (vm_compute; reflexivity).
  assert (Hlen : bytes_SFH + 1 * (bytes_STH + 2 * 4) <= Z.of_nat (length file_dt0))
    by (vm_compute; discriminate).
  destruct (getSegyTraceHeaders_all_traces SH_dt0 file_dt0 1 2 4 1000 None
              Hnt Hns Hbps Hdt ltac:(lia) ltac:(lia) ltac:(lia) Hlen
              STH_def_readable)
    as (TH & HTH & Hkeys & _).
  exists TH. split; [exact HTH|exact Hkeys].
Defined.

(** The header dictionary that [getSegyHeader] returns, looked up. *)
Lemma read_SH_entries (data : list byte) (nt bps : Z) :
  getBytePerSample (decoded_SH data) = Ok bps ->
  let SH := <["ntraces" := nt]> (decoded_SH data) in
  SH !! "ntraces" = Some nt /\ SH !! "ns" = Some (file_ns data) /\
  SH !! "dt" = Some (file_dt data) /\
  SH !! "DataSampleFormat" = Some (file_dsf data) /\
  getBytePerSample SH = Ok bps.
Proof.
  intros Hbps SH. subst SH.
  destruct (decoded_SH_entries data) as (Hdt & Hns & Hdsf & _).
  rewrite lookup_insert_eq, !lookup_insert_ne by discriminate.
  rewrite getBytePerSample_insert_ntraces. auto.
Qed.

(** The trace count of a buffer of at least 3600 bytes. *)
Lemma trace_count_bounds (len tbs : Z) :
  3600 <= len -> 240 <= tbs ->
  let nt := Z.quot (len - bytes_SFH) tbs in
  nt = (len - bytes_SFH) / tbs /\ 0 <= nt /\
  bytes_SFH + nt * tbs <= len < bytes_SFH + (nt + 1) * tbs.
Proof.
  intros Hlen Htbs nt. unfold bytes_SFH in *.
  assert (Hq : nt = (len - 3600) / tbs) by (subst nt; apply Z.quot_div_nonneg; lia).
  pose proof (Z.div_mod (len - 3600) tbs ltac:(lia)) as Hdm.
  pose proof (Z.mod_pos_bound (len - 3600) tbs ltac:(lia)).
  assert (0 <= nt) by (rewrite Hq; apply Z.div_pos; lia).
  rewrite <- Hq in Hdm. split; [exact Hq|]. split; [assumption|]. nia.
Qed.

Lemma bps_range (dsf bps : Z) :
  table_get DataSampleFormat_bps 1 dsf = Ok bps -> 1 <= bps <= 4.
Proof.
  intros H. destruct (table_bps_cases dsf) as [(_ & b & Hb & Hr)|[_ Hb]];
    rewrite Hb in H; [injection H as <-; exact Hr|discriminate].
Qed.

(** X7.  The headers-only read ([TH_only=True]) of every buffer that
    holds at least one whole trace, whatever follows the last whole trace:
    it returns no grid, the decoded file header with the trace count
    [(len - 3600) / traceByteSize], and the trace header arrays of the
    schema read. *)
Theorem readSegy_headers_only (data : list byte) (bps : Z) (TH_dict : option schema)
    (Hrev : In (file_revno data) [0; 100; 1; 256])
    (Hbps : table_get DataSampleFormat_bps 1 (file_dsf data) = Ok bps)
    (Hlen : bytes_SFH + (bytes_STH + file_ns data * bps) <= Z.of_nat (length data))
    (Hdict : TH_readable (TH_schema TH_dict) = true) :
  let tbs := bytes_STH + file_ns data * bps in
  let nt := (Z.of_nat (length data) - bytes_SFH) / tbs in
  exists TH,
    readSegy data TH_dict true
    = Ok (None, <["ntraces" := nt]> (decoded_SH data), TH) /\
    1 <= nt /\
    forall key,
      TH !! key =
        match schema_get (TH_schema TH_dict) key with
        | Ok d => Some (trace_column data tbs nt (file_dt data) key d)
        | Err _ => None
        end.
Proof.
  intros tbs nt.
  pose proof (file_ns_range data) as Hns. pose proof (bps_range _ _ Hbps) as Hb.
  assert (Htbs : 240 <= tbs) by (subst tbs; unfold bytes_STH; nia).
  assert (H3600 : 3600 <= Z.of_nat (length data))
    by (unfold bytes_SFH, bytes_STH in *; nia).
  destruct (getSegyHeader_known data bps ltac:(lia) Hrev Hbps) as [Hb0 Hget].
  fold tbs in Hget.
  destruct (trace_count_bounds (Z.of_nat (length data)) tbs H3600 Htbs)
    as (Hq & Hnt0 & Hlo & Hhi).
  fold nt in Hq. rewrite Hq in Hget, Hnt0, Hlo, Hhi.
  assert (Hnt1 : 1 <= nt) by (fold tbs in Hlen; nia).
  destruct (read_SH_entries data nt bps Hb0) as (Hn & Hs & Hd & _ & Hbp).
  destruct (getSegyTraceHeaders_keyed _ data nt (file_ns data) bps (file_dt data)
              TH_dict Hn Hs Hbp Hd Hnt1 ltac:(lia) Hlo (TH_readable_closed _ Hdict)) as (TH & HTH & Hkeys).
  exists TH. split; [|split; [exact Hnt1|exact Hkeys]].
  unfold readSegy. rewrite Hget. cbn iota beta. rewrite HTH. reflexivity.
Qed.

(** ** Buffers without traces, and single-trace reads *)

Lemma readSegy_headers_only_witness :
  exists TH,
    readSegy file_trailing None true
    = Ok (None,
          <["ntraces" := (Z.of_nat (length file_trailing) - bytes_SFH)
                         / (bytes_STH + file_ns file_trailing * 4)]>
            (decoded_SH file_trailing), TH) /\
    1 <= (Z.of_nat (length file_trailing) - bytes_SFH)
         / (bytes_STH + file_ns file_trailing * 4) /\
    forall key,
      TH !! key =
        match schema_get STH_def key with
        | Ok d =>
            Some (trace_column file_trailing (bytes_STH + file_ns file_trailing * 4)
                    ((Z.of_nat (length file_trailing) - bytes_SFH)
                     / (bytes_STH + file_ns file_trailing * 4))
                    (file_dt file_trailing) key d)
        | Err _ => None
        end.
Proof.
  assert (Hrev : In (file_revno file_trailing) [0; 100; 1; 256])
    by (left; vm_compute; reflexivity).
  assert (Hbps : table_get DataSampleFormat_bps 1 (file_dsf file_trailing) = Ok 4)
    by (vm_compute; reflexivity).
  assert (Hlen : bytes_SFH + (bytes_STH + file_ns file_trailing * 4)
                 <= Z.of_nat (length file_trailing))
    by (vm_compute; discriminate).
  exact (readSegy_headers_only file_trailing 4 None Hrev Hbps Hlen STH_def_readable).
Defined.

Lemma trace_count_zero (len tbs : Z) :
  3508 <= len < bytes_SFH + tbs -> 240 <= tbs -> Z.quot (len - bytes_SFH) tbs = 0.
Proof.
  unfold bytes_SFH. intros Hlen Htbs.
  destruct (Z.lt_ge_cases len 3600).
  - rewrite <- (Z.opp_involutive (len - 3600)).
    rewrite Z.quot_opp_l by lia. rewrite Z.quot_small by lia. reflexivity.
  - apply Z.quot_small. lia.
Qed.

(** The all-traces read of one field when the trace count is 0. *)
Lemma getSegyTraceHeader_no_traces SH data (ns bps : Z) (s : schema) (key : string)
    (d : field) :
  SH !! "ntraces" = Some 0 -> SH !! "ns" = Some ns ->
  getBytePerSample SH = Ok bps -> schema_get s key = Ok d ->
  np_dtype_known (f_type d) = true ->
  getSegyTraceHeader SH data key (Some s) 0
  = if String.eqb key "dt" then Err IndexError else Ok (Array []).
Proof.
  intros Hnt Hns Hbps Hd Hknown. unfold getSegyTraceHeader, dict_get.
  rewrite Hd, Hnt, Hns, Hbps, Hknown. cbn [negb Z.eqb Z.ltb Z.compare].
  change (py_range 0) with (@nil Z). change (Z.to_nat 0) with 0%nat.
  cbn [replicate getSegyTraceHeader_all].
  destruct (String.eqb key "dt"); reflexivity.
Qed.

Lemma STH_def_split_dt :
  STH_def = take 39 STH_def ++ ("dt", mkField 116 "uint16" None None) :: drop 40 STH_def.
Proof. reflexivity. Qed.

Lemma STH_def_before_dt (kd : string * field) :
  In kd (take 39 STH_def) ->
  fst kd <> "dt" /\
  schema_get STH_def (fst kd) = Ok (schema_field STH_def (fst kd)) /\
  field_within bytes_STH (schema_field STH_def (fst kd)) = true.
Proof.
  intros Hin.
  assert (Hall : forallb (fun kd => negb (String.eqb (fst kd) "dt")) (take 39 STH_def)
                 = true) by (vm_compute; reflexivity).
  rewrite forallb_forall in Hall. specialize (Hall kd Hin).
  split.
  - intros Heq. rewrite Heq in Hall. discriminate Hall.
  - apply (schema_closed_spec STH_def kd STH_def_closed).
    rewrite <- (take_drop 39 STH_def). apply in_or_app. left. exact Hin.
Qed.

(** X8.  A buffer that holds the file header but no whole trace (3600
    bytes, for one) has trace count 0, and [readSegy] with the default
    trace header schema raises [IndexError] on it, with or without
    [TH_only]: the [dt] fallback indexes the first element of an empty
    array.  With a dictionary that has no [dt] key the headers-only read
    returns an empty array for every key. *)
Theorem readSegy_no_traces (data : list byte) (bps : Z)
    (Hlen : 3508 <= Z.of_nat (length data))
    (Hrev : In (file_revno data) [0; 100; 1; 256])
    (Hbps : table_get DataSampleFormat_bps 1 (file_dsf data) = Ok bps)
    (Hshort : Z.of_nat (length data) < bytes_SFH + (bytes_STH + file_ns data * bps)) :
  getSegyHeader data = Ok (<["ntraces" := 0]> (decoded_SH data), data) /\
  (forall TH_only, readSegy data None TH_only = Err IndexError) /\
  (forall s, TH_readable s = true -> has_key s "dt" = false ->
     readSegy data (Some s) true
     = Ok (None, <["ntraces" := 0]> (decoded_SH data), keyed (fun _ => Array []) s ∅)).
Proof.
  pose proof (file_ns_range data) as Hns. pose proof (bps_range _ _ Hbps) as Hb.
  destruct (getSegyHeader_known data bps Hlen Hrev Hbps) as [Hb0 Hget].
  rewrite trace_count_zero in Hget by (unfold bytes_STH in *; nia).
  destruct (read_SH_entries data 0 bps Hb0) as (Hn & Hs & _ & _ & Hbp).
  split; [exact Hget|]. split.
  - intros TH_only. unfold readSegy. rewrite Hget. cbn iota beta.
    unfold getSegyTraceHeaders. rewrite STH_def_split_dt at 2.
    rewrite (getSegyTraceHeaders_loop_stops _ data STH_def 0 _ _ "dt" _ IndexError);
      [reflexivity| |].
    + apply List.Forall_forall. intros kd Hin.
      destruct (STH_def_before_dt kd Hin) as (Hne & Hd & Hw).
      rewrite (getSegyTraceHeader_no_traces _ data _ bps STH_def _ _ Hn Hs Hbp Hd
                 (field_within_known _ _ Hw)).
      destruct (String.eqb_spec (fst kd) "dt"); [contradiction|reflexivity].
    + apply (getSegyTraceHeader_no_traces _ data _ bps STH_def "dt" _ Hn Hs Hbp
               eq_refl eq_refl).
  - intros s Hread Hdt. unfold readSegy. rewrite Hget. cbn iota beta.
    unfold getSegyTraceHeaders.
    rewrite (getSegyTraceHeaders_loop_keyed _ data s 0 (fun _ => Array [])).
    + reflexivity.
    + apply List.Forall_forall. intros kd Hin.
      destruct (schema_closed_spec s kd (TH_readable_closed s Hread) Hin) as [Hd Hw].
      rewrite (getSegyTraceHeader_no_traces _ data _ bps s _ _ Hn Hs Hbp Hd
                 (field_within_known _ _ Hw)).
      destruct (String.eqb_spec (fst kd) "dt") as [Heq|_]; [|reflexivity].
      unfold has_key in Hdt. rewrite <- Heq, Hd in Hdt. discriminate Hdt.
Qed.

Lemma readSegy_no_traces_witness :
  getSegyHeader file_header_only
  = Ok (<["ntraces" := 0]> (decoded_SH file_header_only), file_header_only) /\
  (forall TH_only, readSegy file_header_only None TH_only = Err IndexError) /\
  (forall s, TH_readable s = true -> has_key s "dt" = false ->
     readSegy file_header_only (Some s) true
     = Ok (None, <["ntraces" := 0]> (decoded_SH file_header_only),
           keyed (fun _ => Array []) s ∅)).
Proof.
  assert (Hlen : 3508 <= Z.of_nat (length file_header_only))
    by (vm_compute; discriminate).
  assert (Hrev : In (file_revno file_header_only) [0; 100; 1; 256])
    by (left; vm_compute; reflexivity).
  assert (Hbps : table_get DataSampleFormat_bps 1 (file_dsf file_header_only) = Ok 4)
    by (vm_compute; reflexivity).
  assert (Hshort : Z.of_nat (length file_header_only)
                   < bytes_SFH + (bytes_STH + file_ns file_header_only * 4))
    by (vm_compute; reflexivity).
  exact (readSegy_no_traces file_header_only 4 Hlen Hrev Hbps Hshort).
Defined.

(** ** [readSegyTrace] *)

(** The header dictionary of a buffer in which trace [i] lies. *)
Lemma read_SH_trace (data : list byte) (bps i : Z) :
  In (file_revno data) [0; 100; 1; 256] ->
  table_get DataSampleFormat_bps 1 (file_dsf data) = Ok bps ->
  1 <= i ->
  bytes_SFH + i * (bytes_STH + file_ns data * bps) <= Z.of_nat (length data) ->
  exists nt,
    getSegyHeader data = Ok (<["ntraces" := nt]> (decoded_SH data), data) /\
    i <= nt /\
    bytes_SFH + nt * (bytes_STH + file_ns data * bps) <= Z.of_nat (length data) /\
    getBytePerSample (decoded_SH data) = Ok bps.
Proof.
  intros Hrev Hbps Hi Hlen.
  pose proof (file_ns_range data) as Hns. pose proof (bps_range _ _ Hbps) as Hb.
  set (tbs := bytes_STH + file_ns data * bps) in *.
  assert (Htbs : 240 <= tbs) by (subst tbs; unfold bytes_STH; nia).
  assert (H3600 : 3600 <= Z.of_nat (length data)) by (unfold bytes_SFH in *; nia).
  destruct (getSegyHeader_known data bps ltac:(lia) Hrev Hbps) as [Hb0 Hget].
  fold tbs in Hget.
  destruct (trace_count_bounds (Z.of_nat (length data)) tbs H3600 Htbs)
    as (_ & Hnt0 & Hlo & Hhi).
  eexists. split; [exact Hget|]. split; [nia|]. split; [exact Hlo|exact Hb0].
Qed.

(** X9.  [readSegyTrace] with the default trace header schema raises
    [IndexError] for every trace [i >= 1] that lies in the buffer: the
    schema has the key [dt], and the [dt] fallback indexes the scalar
    that a single-trace read returns. *)
Theorem readSegyTrace_default_schema_fails (data : list byte) (bps i : Z)
    (Hrev : In (file_revno data) [0; 100; 1; 256])
    (Hbps : table_get DataSampleFormat_bps 1 (file_dsf data) = Ok bps)
    (Hi : 1 <= i)
    (Hlen : bytes_SFH + i * (bytes_STH + file_ns data * bps)
            <= Z.of_nat (length data)) :
  readSegyTrace data None i = Err IndexError.
Proof.
  destruct (read_SH_trace data bps i Hrev Hbps Hi Hlen) as (nt & Hget & Hint & Hbuf & Hb0).
  pose proof (file_ns_range data) as Hns.
  destruct (read_SH_entries data nt bps Hb0) as (Hn & Hs & _ & _ & Hbp).
  unfold readSegyTrace. rewrite Hget. cbn iota beta.
  unfold getSegyTraceHeaders. rewrite STH_def_split_dt at 2.
  rewrite (getSegyTraceHeaders_loop_stops _ data STH_def i _ _ "dt" _ IndexError);
    [reflexivity| |].
  - apply List.Forall_forall. intros kd Hin.
    destruct (STH_def_before_dt kd Hin) as (Hne & Hd & Hw).
    rewrite (getSegyTraceHeader_one_trace _ data nt _ bps Hn Hs Hbp ltac:(lia)
               ltac:(lia) Hbuf (Some STH_def) (fst kd) _ Hd Hw i Hne ltac:(lia)).
    reflexivity.
  - apply (getSegyTraceHeader_dt_one _ data nt _ bps Hn Hs Hbp ltac:(lia)
             ltac:(lia) Hbuf (Some STH_def) "dt" _ eq_refl eq_refl i eq_refl
             ltac:(lia)).
Qed.

Lemma readSegyTrace_default_schema_fails_witness :
  readSegyTrace file_i32_2x1 None 1 = Err IndexError.
Proof.
  assert (Hrev : In (file_revno file_i32_2x1) [0; 100; 1; 256])
    by (left; vm_compute; reflexivity).
  assert (Hbps : table_get DataSampleFormat_bps 1 (file_dsf file_i32_2x1) = Ok 4)
    by (vm_compute; reflexivity).
  assert (Hlen : bytes_SFH + 1 * (bytes_STH + file_ns file_i32_2x1 * 4)
                 <= Z.of_nat (length file_i32_2x1))
    by (vm_compute; discriminate).
  exact (readSegyTrace_default_schema_fails file_i32_2x1 4 1 Hrev Hbps
           ltac:(lia) Hlen).
Defined.

(** The samples of a trace that lies in the buffer. *)
Lemma getValue_trace_samples (data : list byte) (bps dsf ns i : Z) (ct : ctype)
    (name : string) :
  dtype2ctype !! name = Some ct -> np_dtype_known name = true ->
  calcsize ct = bps -> 0 <= ns -> 1 <= i ->
  bytes_SFH + i * (bytes_STH + ns * bps) <= Z.of_nat (length data) ->
  getValue data (bytes_SFH + (i - 1) * (bytes_STH + ns * bps) + bytes_STH)
           name endian ns
  = Ok (if ns =? 1
        then Scalar (item_at data (bytes_SFH + (i - 1) * (bytes_STH + ns * bps)
                                   + bytes_STH) endian ct)
        else Array (trace_samples data (bytes_STH + ns * bps) ct ns (i - 1))).
Proof.
  intros Hct Hknown Hsz Hns Hi Hlen.
  pose proof (calcsize_pos ct) as Hpos.
  rewrite (getValue_ok _ _ name endian ct ns Hct Hknown);
    [|unfold bytes_SFH, bytes_STH in *; nia|lia
     |rewrite Hsz; unfold bytes_SFH, bytes_STH in *; nia].
  unfold trace_samples.
  replace (bytes_SFH + (bytes_STH + ns * bps) * (i - 1) + bytes_STH)
    with (bytes_SFH + (i - 1) * (bytes_STH + ns * bps) + bytes_STH) by ring.
  reflexivity.
Qed.

Lemma decoded_format (data : list byte) (bps : Z) (ct : ctype) :
  getBytePerSample (decoded_SH data) = Ok bps ->
  sample_ctype (file_dsf data) = Ok ct ->
  getRevisionNumber (decoded_SH data) = Ok 1 /\
  exists name,
    table_get DataSampleFormat_datatype 1 (file_dsf data) = Ok name /\
    dtype2ctype !! name = Some ct /\
    (file_dsf data <> 8 -> np_dtype_known name = true) /\
    calcsize ct = bps.
Proof.
  intros Hb0 Hct.
  destruct (getBytePerSample_cases _ _ Hb0) as (Hrev1 & dsf' & Hdsf' & Hcases).
  destruct (decoded_SH_entries data) as (_ & _ & Hdsf & _).
  assert (dsf' = file_dsf data) as -> by congruence.
  destruct (format_facts _ bps ct Hct Hcases)
    as (name & descr & _ & Hname & _ & Hctype & _ & Hsz & _).
  destruct (format_known _ bps ct name Hct Hcases Hname) as [Hknown _].
  split; [exact Hrev1|]. exists name. auto.
Qed.

(** [readSegyTrace] with a dictionary that has no [dt] key. *)
Lemma readSegyTrace_keyed (data : list byte) (bps i : Z) (ct : ctype) (s : schema) :
  In (file_revno data) [0; 100; 1; 256] ->
  table_get DataSampleFormat_bps 1 (file_dsf data) = Ok bps ->
  sample_ctype (file_dsf data) = Ok ct ->
  file_dsf data <> 8 ->
  1 <= i ->
  bytes_SFH + i * (bytes_STH + file_ns data * bps) <= Z.of_nat (length data) ->
  TH_readable s = true -> has_key s "dt" = false ->
  let tbs := bytes_STH + file_ns data * bps in
  readSegyTrace data (Some s) i
  = Ok (keyed (fun key => Scalar (trace_field data tbs (schema_field s key) (i - 1)))
              s ∅,
        if file_ns data =? 1
        then Scalar (item_at data (bytes_SFH + (i - 1) * tbs + bytes_STH) endian ct)
        else Array (trace_samples data tbs ct (file_ns data) (i - 1))).
Proof.
  intros Hrev Hbps Hct Hno8 Hi Hlen Hread Hnodt tbs.
  destruct (read_SH_trace data bps i Hrev Hbps Hi Hlen) as (nt & Hget & Hint & Hbuf & Hb0).
  pose proof (file_ns_range data) as Hns.
  destruct (read_SH_entries data nt bps Hb0) as (Hn & Hs & _ & Hd & Hbp).
  destruct (decoded_format data bps ct Hb0 Hct)
    as (Hrev1 & name & Hname & Hctype & Hknown & Hsz).
  specialize (Hknown Hno8).
  unfold readSegyTrace. rewrite Hget. cbn iota beta.
  unfold getSegyTraceHeaders.
  rewrite (getSegyTraceHeaders_loop_keyed _ data s i
             (fun key => Scalar (trace_field data tbs (schema_field s key) (i - 1)))).
  - rewrite Hbp. unfold dict_get. rewrite Hs, Hd.
    assert (Hr : getRevisionNumber (<["ntraces" := nt]> (decoded_SH data)) = Ok 1).
    { unfold getRevisionNumber, dict_get in *.
      rewrite lookup_insert_ne by discriminate. exact Hrev1. }
    rewrite Hr, Hname.
    rewrite (getValue_trace_samples data bps (file_dsf data) (file_ns data) i ct name
               Hctype Hknown Hsz ltac:(lia) Hi Hlen).
    reflexivity.
  - apply List.Forall_forall. intros kd Hin.
    destruct (schema_closed_spec s kd (TH_readable_closed s Hread) Hin) as [Hk Hw].
    assert (Hne : fst kd <> "dt").
    { intros Heq. unfold has_key in Hnodt. rewrite <- Heq, Hk in Hnodt.
      discriminate Hnodt. }
    apply (getSegyTraceHeader_one_trace _ data nt _ bps Hn Hs Hbp ltac:(lia)
             ltac:(lia) Hbuf (Some s) (fst kd) _ Hk Hw i Hne ltac:(lia)).
Qed.

(** X10.  [readSegyTrace] with a trace header dictionary that has no
    [dt] key, for a trace [i >= 1] that lies in the buffer and a format
    code of 2, 3 or 5: the header entry of every key is the scalar decoded
    at byte [3600 + (i - 1) * traceByteSize + pos], and the trace data are
    the [ns] samples decoded from byte
    [3600 + (i - 1) * traceByteSize + 240] on, as an array, or as a scalar
    when [ns] is 1.  A sample of format code 5 is the single of its four
    bytes after its way through a Python float ([item_at] decodes with
    [unpack_one]): a signalling NaN comes back quiet. *)
Theorem readSegyTrace_reads_trace (data : list byte) (bps i : Z) (ct : ctype)
    (s : schema)
    (Hrev : In (file_revno data) [0; 100; 1; 256])
    (Hbps : table_get DataSampleFormat_bps 1 (file_dsf data) = Ok bps)
    (Hct : sample_ctype (file_dsf data) = Ok ct)
    (Hdsf : In (file_dsf data) [2; 3; 5])
    (Hi : 1 <= i)
    (Hlen : bytes_SFH + i * (bytes_STH + file_ns data * bps)
            <= Z.of_nat (length data))
    (Hread : TH_readable s = true) (Hnodt : has_key s "dt" = false) :
  let tbs := bytes_STH + file_ns data * bps in
  exists TH samples,
    readSegyTrace data (Some s) i
    = Ok (TH, if file_ns data =? 1
              then Scalar (item_at data (bytes_SFH + (i - 1) * tbs + bytes_STH)
                                   endian ct)
              else Array samples) /\
    (forall key,
       TH !! key =
         match schema_get s key with
         | Ok d => Some (Scalar (decode_field data (3600 + (i - 1) * tbs + f_pos d) d))
         | Err _ => None
         end) /\
    length samples = Z.to_nat (file_ns data) /\
    forall k, (k < Z.to_nat (file_ns data))%nat ->
      samples !! k
      = Some (item_at data (3600 + (i - 1) * tbs + 240 + Z.of_nat k * bps) endian ct).
Proof.
  intros tbs.
  assert (Hno8 : file_dsf data <> 8) by (cbn [In] in Hdsf; lia).
  pose proof (readSegyTrace_keyed data bps i ct s Hrev Hbps Hct Hno8 Hi Hlen Hread
                Hnodt) as Hrt.
  cbn zeta in Hrt. fold tbs in Hrt.
  destruct (read_SH_trace data bps i Hrev Hbps Hi Hlen) as (nt & _ & _ & _ & Hb0).
  destruct (decoded_format data bps ct Hb0 Hct) as (_ & name & _ & _ & _ & Hsz).
  pose proof (file_ns_range data) as Hns. pose proof (bps_range _ _ Hbps) as Hb.
  eexists. exists (trace_samples data tbs ct (file_ns data) (i - 1)).
  split; [exact Hrt|]. split; [|split].
  - intros key. rewrite keyed_lookup. unfold has_key, schema_field.
    destruct (schema_get s key) as [d|]; [|reflexivity]. cbn [is_ok].
    rewrite trace_field_decode. reflexivity.
  - unfold trace_samples. apply length_items_at.
  - intros k Hk. unfold trace_samples.
    rewrite items_at_lookup by (unfold bytes_SFH, bytes_STH in *; nia || lia).
    do 2 f_equal. rewrite Hsz. unfold bytes_SFH, bytes_STH. ring.
Qed.

Lemma readSegyTrace_reads_trace_witness :
  let tbs := bytes_STH + file_ns file_i32_2x1 * 4 in
  exists TH samples,
    readSegyTrace file_i32_2x1 (Some TH_ns_only) 1
    = Ok (TH, if file_ns file_i32_2x1 =? 1
              then Scalar (item_at file_i32_2x1 (bytes_SFH + (1 - 1) * tbs + bytes_STH)
                                   endian c_l)
              else Array samples) /\
    (forall key,
       TH !! key =
         match schema_get TH_ns_only key with
         | Ok d => Some (Scalar (decode_field file_i32_2x1
                                   (3600 + (1 - 1) * tbs + f_pos d) d))
         | Err _ => None
         end) /\
    length samples = Z.to_nat (file_ns file_i32_2x1) /\
    forall k, (k < Z.to_nat (file_ns file_i32_2x1))%nat ->
      samples !! k
      = Some (item_at file_i32_2x1 (3600 + (1 - 1) * tbs + 240 + Z.of_nat k * 4)
                      endian c_l).
Proof.
  assert (Hrev : In (file_revno file_i32_2x1) [0; 100; 1; 256])
    by (left; vm_compute; reflexivity).
  assert (Hbps : table_get DataSampleFormat_bps 1 (file_dsf file_i32_2x1) = Ok 4)
    by (vm_compute; reflexivity).
  assert (Hct : sample_ctype (file_dsf file_i32_2x1) = Ok c_l)
    by (vm_compute; reflexivity).
  assert (Hdsf : In (file_dsf file_i32_2x1) [2; 3; 5])
    by (left; vm_compute; reflexivity).
  assert (Hlen : bytes_SFH + 1 * (bytes_STH + file_ns file_i32_2x1 * 4)
                 <= Z.of_nat (length file_i32_2x1))
    by (vm_compute; discriminate).
  exact (readSegyTrace_reads_trace file_i32_2x1 4 1 c_l TH_ns_only Hrev Hbps Hct Hdsf
           ltac:(lia) Hlen eq_refl eq_refl).
Defined.

(** X11.  The two readers agree: on a buffer made of the file header
    and [nt] whole traces (format code 2, 3 or 5, more than one sample per
    trace), the samples that [readSegyTrace] returns for trace [i] are row
    [i - 1] of the [nt] by [ns] grid that [readSegy] returns. *)
Theorem readSegyTrace_is_grid_row (data : list byte) (bps nt i : Z) (ct : ctype)
    (s : schema)
    (Hrev : In (file_revno data) [0; 100; 1; 256])
    (Hbps : table_get DataSampleFormat_bps 1 (file_dsf data) = Ok bps)
    (Hct : sample_ctype (file_dsf data) = Ok ct)
    (Hdsf : In (file_dsf data) [2; 3; 5])
    (Hi : 1 <= i <= nt) (Hns1 : file_ns data <> 1)
    (Hlen : Z.of_nat (length data)
            = bytes_SFH + nt * (bytes_STH + file_ns data * bps))
    (Hread : TH_readable s = true) (Hnodt : has_key s "dt" = false) :
  exists G SH TH TH1 row,
    readSegy data None false = Ok (Some G, SH, TH) /\
    readSegyTrace data (Some s) i = Ok (TH1, Array row) /\
    shape G = (nt, file_ns data) /\
    rows G !! Z.to_nat (i - 1) = Some row.
Proof.
  pose proof (file_ns_range data) as Hns. pose proof (bps_range _ _ Hbps) as Hb.
  assert (Hbuf : bytes_SFH + i * (bytes_STH + file_ns data * bps)
                 <= Z.of_nat (length data)) by (unfold bytes_STH in *; nia).
  assert (Hno8 : file_dsf data <> 8) by (cbn [In] in Hdsf; lia).
  pose proof (readSegyTrace_keyed data bps i ct s Hrev Hbps Hct Hno8 ltac:(lia) Hbuf
                Hread Hnodt) as Hrt.
  cbn zeta in Hrt.
  destruct (Z.eqb_spec (file_ns data) 1) as [|_]; [contradiction|].
  destruct (read_SH_trace data bps i Hrev Hbps ltac:(lia) Hbuf) as (_ & _ & _ & _ & Hb0).
  destruct (decoded_SH_entries data) as (_ & Hnsl & Hdsfl & _).
  destruct (proj1 (readSegy_samples data bps (file_ns data) (file_dsf data) nt 0 ct
                     Hb0 Hdsfl Hnsl Hct ltac:(lia) ltac:(lia) ltac:(lia)) Hno8)
    as (name & TH & _ & Hread_all).
  do 5 eexists. split; [exact Hread_all|]. split; [exact Hrt|].
  cbn [shape rows]. split; [reflexivity|].
  rewrite list_lookup_fmap. unfold py_range.
  rewrite list_lookup_fmap, lookup_seq_lt by lia.
  cbn [fmap option_fmap option_map Nat.add]. rewrite Z2Nat.id by lia.
  reflexivity.
Qed.

Lemma readSegyTrace_is_grid_row_witness :
  exists G SH TH TH1 row,
    readSegy file_i32_2x1 None false = Ok (Some G, SH, TH) /\
    readSegyTrace file_i32_2x1 (Some TH_ns_only) 1 = Ok (TH1, Array row) /\
    shape G = (1, file_ns file_i32_2x1) /\
    rows G !! Z.to_nat (1 - 1) = Some row.
Proof.
  assert (Hrev : In (file_revno file_i32_2x1) [0; 100; 1; 256])
    by (left; vm_compute; reflexivity).
  assert (Hbps : table_get DataSampleFormat_bps 1 (file_dsf file_i32_2x1) = Ok 4)
    by (vm_compute; reflexivity).
  assert (Hct : sample_ctype (file_dsf file_i32_2x1) = Ok c_l)
    by (vm_compute; reflexivity).
  assert (Hdsf : In (file_dsf file_i32_2x1) [2; 3; 5])
    by (left; vm_compute; reflexivity).
  assert (Hns1 : file_ns file_i32_2x1 <> 1) by (vm_compute; discriminate).
  assert (Hlen : Z.of_nat (length file_i32_2x1)
                 = bytes_SFH + 1 * (bytes_STH + file_ns file_i32_2x1 * 4))
    by (vm_compute; reflexivity).
  exact (readSegyTrace_is_grid_row file_i32_2x1 4 1 1 c_l TH_ns_only Hrev Hbps Hct
           Hdsf ltac:(lia) Hns1 Hlen eq_refl eq_refl).
Defined.

(** * Writing: the prepared headers *)

(** ** The trace header dictionary, cell by cell *)

Lemma insert_map_py_range {A} (f : Z -> A) (nt a : Z) (v : A) :
  0 <= a < nt ->
  <[Z.to_nat a := v]> (map f (py_range nt))
  = map (fun i => if i =? a then v else f i) (py_range nt).
Proof.
  intros Ha. apply list_eq. intros i. unfold py_range.
  rewrite !map_map.
  destruct (decide (i = Z.to_nat a)) as [->|Hne].
  - rewrite list_lookup_insert_eq by (rewrite length_map, length_seq; lia).
    rewrite list_lookup_fmap, lookup_seq_lt by lia.
    cbn [fmap option_fmap option_map Nat.add]. rewrite Z2Nat.id by lia.
    rewrite Z.eqb_refl. reflexivity.
  - rewrite list_lookup_insert_ne by congruence.
    rewrite !list_lookup_fmap.
    destruct (seq 0 (Z.to_nat nt) !! i) as [j|] eqn:Hj; [|reflexivity].
    apply lookup_seq in Hj as [-> _]. cbn [fmap option_fmap option_map Nat.add].
    destruct (Z.eqb_spec (Z.of_nat i) a); [lia|reflexivity].
Qed.

Lemma sth_holds_ext STH (nt : Z) (c1 c2 : string -> Z -> value) :
  (forall key i, 0 <= i < nt -> c1 key i = c2 key i) ->
  sth_holds STH nt c1 -> sth_holds STH nt c2.
Proof.
  intros Hext H key. rewrite (H key). destruct (has_key STH_def key); [|reflexivity].
  f_equal. apply map_ext_in. intros i Hi. apply elem_of_py_range in Hi.
  apply Hext. exact Hi.
Qed.

(** [STH[key][a] = v] on a dictionary described cell by cell. *)
Lemma sth_set_holds STH (nt : Z) cell (key : string) (a v : Z) :
  sth_holds STH nt cell -> has_key STH_def key = true -> 0 <= a < nt ->
  exists STH',
    sth_set STH key a v = Ok STH' /\
    sth_holds STH' nt (upd cell key a (np_store "int32" v)).
Proof.
  intros Hinv Hkey Ha. pose proof (Hinv key) as Harr. rewrite Hkey in Harr.
  unfold sth_set, dict_get. rewrite Harr.
  rewrite length_map, length_py_range.
  destruct (Z.ltb_spec a 0); [lia|].
  destruct (Z.leb_spec (Z.of_nat (Z.to_nat nt)) a); [lia|]. cbn [orb].
  eexists. split; [reflexivity|].
  intros k. destruct (String.eqb_spec k key) as [->|Hne].
  - rewrite lookup_insert_eq, Hkey. f_equal.
    rewrite insert_map_py_range by assumption.
    apply map_ext. intros i. unfold upd. rewrite String.eqb_refl. reflexivity.
  - rewrite lookup_insert_ne by congruence. rewrite (Hinv k).
    destruct (has_key STH_def k); [|reflexivity]. f_equal.
    apply map_ext. intros i. unfold upd.
    destruct (String.eqb_spec k key); [contradiction|reflexivity].
Qed.

Lemma sth_set_unknown STH (nt : Z) cell (key : string) (a v : Z) :
  sth_holds STH nt cell -> has_key STH_def key = false ->
  sth_set STH key a v = Err KeyError.
Proof.
  intros Hinv Hkey. pose proof (Hinv key) as Harr. rewrite Hkey in Harr.
  unfold sth_set, dict_get. rewrite Harr. reflexivity.
Qed.

(** The dictionary of zero arrays that [setSegyTraceHeaders] starts from. *)
Lemma sth_holds_init (nt : Z) :
  sth_holds
    (fold_left (fun STH '(key, _) => <[key := replicate (Z.to_nat nt) (VInt 0)]> STH)
               STH_def ∅) nt (fun _ _ => VInt 0).
Proof.
  intros key.
  assert (Hfold : forall (s : schema) (init : gmap string (list value)),
    fold_left (fun STH '(key, _) => <[key := replicate (Z.to_nat nt) (VInt 0)]> STH)
              s init
    = keyed (fun _ => replicate (Z.to_nat nt) (VInt 0)) s init).
  { induction s as [|[k f] s IH]; intros init; [reflexivity|].
    cbn [fold_left]. rewrite IH. reflexivity. }
  rewrite Hfold, keyed_lookup, lookup_empty.
  destruct (has_key STH_def key); [|reflexivity]. f_equal.
  unfold py_range. rewrite map_map. clear Hfold. generalize 0%nat.
  induction (Z.to_nat nt) as [|n IH]; intros a; [reflexivity|].
  cbn [replicate seq map]. f_equal. apply IH.
Qed.

(** One round of the default loop. *)
Lemma sth_defaults_step STH (nt ns dt k : Z) :
  sth_holds STH nt (default_cells ns dt k) -> 0 <= k < nt ->
  exists S6,
    (let! S1 := sth_set STH "TraceSequenceLine" k (k + 1) in
     let! S2 := sth_set S1 "TraceSequenceFile" k (k + 1) in
     let! S3 := sth_set S2 "FieldRecord" k 1000 in
     let! S4 := sth_set S3 "TraceNumber" k (k + 1) in
     let! S5 := sth_set S4 "ns" k ns in
     sth_set S5 "dt" k dt) = Ok S6 /\
    sth_holds S6 nt (default_cells ns dt (k + 1)).
Proof.
  intros Hinv Hk.
  destruct (sth_set_holds STH nt _ "TraceSequenceLine" k (k + 1) Hinv eq_refl Hk)
    as (S1 & -> & H1).
  destruct (sth_set_holds S1 nt _ "TraceSequenceFile" k (k + 1) H1 eq_refl Hk)
    as (S2 & -> & H2).
  destruct (sth_set_holds S2 nt _ "FieldRecord" k 1000 H2 eq_refl Hk)
    as (S3 & -> & H3).
  destruct (sth_set_holds S3 nt _ "TraceNumber" k (k + 1) H3 eq_refl Hk)
    as (S4 & -> & H4).
  destruct (sth_set_holds S4 nt _ "ns" k ns H4 eq_refl Hk) as (S5 & -> & H5).
  destruct (sth_set_holds S5 nt _ "dt" k dt H5 eq_refl Hk) as (S6 & -> & H6).
  exists S6. split; [reflexivity|].
  revert H6. apply sth_holds_ext. intros key i Hi.
  unfold upd, default_cells, default_cell.
  destruct (Z.eqb_spec i k) as [->|Hik].
  - destruct (Z.ltb_spec k (k + 1)); [|lia].
    destruct (Z.ltb_spec k k); [lia|]. rewrite !andb_true_r.
    destruct (String.eqb_spec key "TraceSequenceLine") as [->|?]; [reflexivity|].
    destruct (String.eqb_spec key "TraceSequenceFile") as [->|?]; [reflexivity|].
    destruct (String.eqb_spec key "FieldRecord") as [->|?]; [reflexivity|].
    destruct (String.eqb_spec key "TraceNumber") as [->|?]; [reflexivity|].
    destruct (String.eqb_spec key "ns") as [->|?]; [reflexivity|].
    destruct (String.eqb_spec key "dt") as [->|?]; reflexivity.
  - rewrite !andb_false_r.
    destruct (Z.ltb_spec i (k + 1)); destruct (Z.ltb_spec i k); try lia; reflexivity.
Qed.

Lemma sth_defaults_holds (nt ns dt : Z) (n : nat) :
  forall (k : Z) (STH : gmap string (list value)),
    0 <= k -> k + Z.of_nat n <= nt ->
    sth_holds STH nt (default_cells ns dt k) ->
    exists STH',
      sth_defaults STH ns dt (map Z.of_nat (seq (Z.to_nat k) n)) = Ok STH' /\
      sth_holds STH' nt (default_cells ns dt (k + Z.of_nat n)).
Proof.
  induction n as [|n IH]; intros k STH Hk Hn Hinv.
  - exists STH. split; [reflexivity|]. rewrite Z.add_0_r. exact Hinv.
  - cbn [seq map sth_defaults]. rewrite Z2Nat.id by lia.
    destruct (sth_defaults_step STH nt ns dt k Hinv ltac:(lia)) as (S6 & Hstep & H6).
    destruct (sth_set STH "TraceSequenceLine" k (k + 1)) as [S1|]; [|discriminate Hstep].
    destruct (sth_set S1 "TraceSequenceFile" k (k + 1)) as [S2|]; [|discriminate Hstep].
    destruct (sth_set S2 "FieldRecord" k 1000) as [S3|]; [|discriminate Hstep].
    destruct (sth_set S3 "TraceNumber" k (k + 1)) as [S4|]; [|discriminate Hstep].
    destruct (sth_set S4 "ns" k ns) as [S5|]; [|discriminate Hstep].
    cbn iota beta in Hstep |- *. rewrite Hstep.
    destruct (IH (k + 1) S6 ltac:(lia) ltac:(lia) H6) as (STH' & HS & Hfin).
    replace (S (Z.to_nat k)) with (Z.to_nat (k + 1)) by lia.
    exists STH'. split; [exact HS|].
    replace (k + Z.of_nat (S n)) with (k + 1 + Z.of_nat n) by lia. exact Hfin.
Qed.

(** The dictionary that [setSegyTraceHeaders] returns without
    user-supplied values. *)
Lemma setSegyTraceHeaders_holds (nt ns dt : Z) :
  0 <= nt ->
  exists STH,
    setSegyTraceHeaders None nt ns dt = Ok STH /\
    sth_holds STH nt (fun key a => np_store "int32" (default_cell ns dt key a)).
Proof.
  intros Hnt. unfold setSegyTraceHeaders.
  destruct (Z.ltb_spec nt 0); [lia|].
  destruct (sth_defaults_holds nt ns dt (Z.to_nat nt) 0
              (fold_left
                 (fun STH '(key, _) => <[key := replicate (Z.to_nat nt) (VInt 0)]> STH)
                 STH_def ∅) ltac:(lia) ltac:(lia))
    as (STH & HS & Hfin).
  - eapply sth_holds_ext; [|apply sth_holds_init].
    intros key i Hi. unfold default_cells.
    destruct (Z.ltb_spec i 0); [lia|reflexivity].
  - change (Z.to_nat 0) with 0%nat in HS. fold (py_range nt) in HS. rewrite HS.
    exists STH. split; [reflexivity|].
    revert Hfin. apply sth_holds_ext. intros key i Hi. unfold default_cells.
    destruct (Z.ltb_spec i (0 + Z.of_nat (Z.to_nat nt))); [reflexivity|lia].
Qed.

(** ** User-supplied trace header values *)

Lemma seq_get_src (src : list Z) (a : Z) :
  0 <= a < Z.of_nat (length src) -> seq_get src a = Ok (src_at src a).
Proof.
  intros Ha. unfold seq_get, src_at.
  destruct (Z.ltb_spec a 0); [lia|].
  destruct (src !! Z.to_nat a) eqn:Hl; [reflexivity|].
  apply lookup_ge_None in Hl. lia.
Qed.

Lemma seq_get_short {A} (src : list A) (a : Z) :
  Z.of_nat (length src) <= a -> seq_get src a = Err IndexError.
Proof.
  intros Ha. unfold seq_get. destruct (a <? 0); [reflexivity|].
  rewrite (proj2 (lookup_ge_None src (Z.to_nat a))) by lia. reflexivity.
Qed.

Lemma sth_copy_holds (nt : Z) (key : string) (src : list Z) cell (n : nat) :
  has_key STH_def key = true ->
  forall (k : Z) (STH : gmap string (list value)),
    0 <= k -> k + Z.of_nat n <= nt -> k + Z.of_nat n <= Z.of_nat (length src) ->
    sth_holds STH nt (copied_cells cell key src k) ->
    exists STH',
      sth_copy STH key src (map Z.of_nat (seq (Z.to_nat k) n)) = Ok STH' /\
      sth_holds STH' nt (copied_cells cell key src (k + Z.of_nat n)).
Proof.
  intros Hkey. induction n as [|n IH]; intros k STH Hk Hn Hsrc Hinv.
  - exists STH. split; [reflexivity|]. rewrite Z.add_0_r. exact Hinv.
  - cbn [seq map sth_copy]. rewrite Z2Nat.id by lia.
    rewrite seq_get_src by lia.
    destruct (sth_set_holds STH nt _ key k (src_at src k) Hinv Hkey ltac:(lia))
      as (S1 & -> & H1).
    destruct (IH (k + 1) S1 ltac:(lia) ltac:(lia) ltac:(lia)) as (STH' & HS & Hfin).
    + revert H1. apply sth_holds_ext. intros key' i Hi. unfold upd, copied_cells.
      destruct (String.eqb key' key); cbn [andb]; [|reflexivity].
      destruct (Z.eqb_spec i k) as [->|?].
      * destruct (Z.ltb_spec k (k + 1)); [reflexivity|lia].
      * destruct (Z.ltb_spec i (k + 1)); destruct (Z.ltb_spec i k); try lia; reflexivity.
    + replace (S (Z.to_nat k)) with (Z.to_nat (k + 1)) by lia.
      exists STH'. split; [exact HS|].
      replace (k + Z.of_nat (S n)) with (k + 1 + Z.of_nat n) by lia. exact Hfin.
Qed.

Lemma sth_copy_all (nt : Z) (key : string) (src : list Z) cell STH :
  has_key STH_def key = true -> 0 <= nt -> nt <= Z.of_nat (length src) ->
  sth_holds STH nt cell ->
  exists STH',
    sth_copy STH key src (py_range nt) = Ok STH' /\
    sth_holds STH' nt (copied_cells cell key src nt).
Proof.
  intros Hkey Hnt Hsrc Hinv.
  destruct (sth_copy_holds nt key src cell (Z.to_nat nt) Hkey 0 STH
              ltac:(lia) ltac:(lia) ltac:(lia)) as (STH' & HS & Hfin).
  - revert Hinv. apply sth_holds_ext. intros key' i Hi. unfold copied_cells.
    destruct (Z.ltb_spec i 0); [lia|]. rewrite andb_false_r. reflexivity.
  - exists STH'. split; [exact HS|].
    replace (0 + Z.of_nat (Z.to_nat nt)) with nt in Hfin by lia. exact Hfin.
Qed.

Lemma sth_overrides_holds (nt : Z) (mySTH : list (string * list Z)) :
  0 <= nt -> supplied_ok mySTH nt ->
  forall cell STH,
    sth_holds STH nt cell ->
    exists STH',
      sth_overrides STH mySTH nt = Ok STH' /\
      sth_holds STH' nt (overridden_cells cell mySTH nt).
Proof.
  intros Hnt Hok. induction Hok as [|[key src] rest (Hkey & Hlen & _) _ IH];
    intros cell STH Hinv.
  - exists STH. split; [reflexivity|exact Hinv].
  - cbn [sth_overrides overridden_cells]. cbn [fst snd] in Hkey, Hlen.
    destruct (sth_copy_all nt key src cell STH Hkey Hnt Hlen Hinv) as (S1 & -> & H1).
    apply IH. exact H1.
Qed.

(** With distinct keys the copies do not interfere. *)
Lemma overridden_cells_supplied (mySTH : list (string * list Z)) (nt : Z) :
  NoDup (map fst mySTH) ->
  forall cell key i, 0 <= i < nt ->
    overridden_cells cell mySTH nt key i
    = match supplied mySTH key with
      | Some src => np_store "int32" (src_at src i)
      | None => cell key i
      end.
Proof.
  induction mySTH as [|[k src] rest IH]; intros Hnd cell key i Hi; [reflexivity|].
  cbn [map fst] in Hnd. apply NoDup_cons in Hnd as [Hk Hnd].
  cbn [overridden_cells supplied]. rewrite IH by assumption.
  destruct (String.eqb_spec k key) as [->|Hne].
  - assert (Hnone : supplied rest key = None).
    { clear -Hk. induction rest as [|[k' s'] rest IH]; [reflexivity|].
      cbn [supplied]. destruct (String.eqb_spec k' key) as [->|?].
      - exfalso. apply Hk. cbn [map fst]. left.
      - apply IH. intros Hin. apply Hk. cbn [map fst]. right. exact Hin. }
    rewrite Hnone. unfold copied_cells. rewrite String.eqb_refl.
    destruct (Z.ltb_spec i nt); [reflexivity|lia].
  - destruct (supplied rest key); [reflexivity|].
    unfold copied_cells. destruct (String.eqb_spec key k); [congruence|reflexivity].
Qed.

Lemma supplied_In (mySTH : list (string * list Z)) (key : string) (src : list Z) :
  supplied mySTH key = Some src -> In (key, src) mySTH.
Proof.
  induction mySTH as [|[k s] rest IH]; [discriminate|].
  cbn [supplied]. destruct (String.eqb_spec k key) as [->|_].
  - intros [= ->]. left. reflexivity.
  - intros H. right. apply IH. exact H.
Qed.

Lemma default_cell_range (nt ns dt : Z) (key : string) (a : Z) :
  0 <= nt < 2 ^ 31 -> - 2 ^ 31 <= ns < 2 ^ 31 -> - 2 ^ 31 <= dt < 2 ^ 31 ->
  0 <= a < nt -> - 2 ^ 31 <= default_cell ns dt key a < 2 ^ 31.
Proof.
  intros Hnt Hns Hdt Ha. unfold default_cell.
  change (2 ^ 31) with 2147483648 in *.
  repeat (destruct (String.eqb key _); [lia|]). lia.
Qed.

Lemma src_at_range (src : list Z) (a : Z) :
  Forall (fun v => - 2 ^ 31 <= v < 2 ^ 31) src ->
  - 2 ^ 31 <= src_at src a < 2 ^ 31.
Proof.
  intros Hall. unfold src_at. change (2 ^ 31) with 2147483648 in *.
  destruct (src !! Z.to_nat a) as [v|] eqn:Hv; [|lia].
  rewrite List.Forall_forall in Hall. apply Hall.
  apply list_elem_of_In. eapply list_elem_of_lookup_2. exact Hv.
Qed.

(** The dictionary prepared by [setSegyTraceHeaders], with or without
    user-supplied values. *)
Lemma setSegyTraceHeaders_cells (mySTH : option (list (string * list Z)))
    (nt ns dt : Z) :
  0 <= nt -> supplied_ok (user_entries mySTH) nt ->
  exists STH,
    setSegyTraceHeaders mySTH nt ns dt = Ok STH /\
    sth_holds STH nt
      (overridden_cells (fun key a => np_store "int32" (default_cell ns dt key a))
                        (user_entries mySTH) nt).
Proof.
  intros Hnt Hok.
  destruct (setSegyTraceHeaders_holds nt ns dt Hnt) as (S0 & HS0 & H0).
  unfold setSegyTraceHeaders in *. destruct (Z.ltb_spec nt 0); [lia|].
  destruct (sth_defaults _ ns dt (py_range nt)) as [S0'|] eqn:Hdef; [|discriminate HS0].
  injection HS0 as ->.
  destruct mySTH as [m|]; cbn [user_entries] in *.
  - apply (sth_overrides_holds nt m Hnt Hok _ S0 H0).
  - exists S0. split; [reflexivity|exact H0].
Qed.

(** X12.  The trace header dictionary that [setSegyTraceHeaders]
    prepares: one array of [ntraces] values for every key of [STH_def] and
    no other key; entry [a] (0-based) holds the user-supplied value when
    the key has one, and otherwise the default: [a + 1] for the three
    trace numberings, 1000 for [FieldRecord], [ns], [dt], and 0 for every
    other key. *)
Theorem setSegyTraceHeaders_prepares (mySTH : option (list (string * list Z)))
    (nt ns dt : Z)
    (Hnt : 0 <= nt < 2 ^ 31)
    (Hns : - 2 ^ 31 <= ns < 2 ^ 31) (Hdt : - 2 ^ 31 <= dt < 2 ^ 31)
    (Hok : supplied_ok (user_entries mySTH) nt)
    (Hnd : NoDup (map fst (user_entries mySTH))) :
  exists STH,
    setSegyTraceHeaders mySTH nt ns dt = Ok STH /\
    forall key,
      STH !! key =
        if has_key STH_def key
        then Some (map (fun a => VInt (prepared_cell (user_entries mySTH) ns dt key a))
                       (py_range nt))
        else None.
Proof.
  destruct (setSegyTraceHeaders_cells mySTH nt ns dt ltac:(lia) Hok)
    as (STH & HS & Hinv).
  exists STH. split; [exact HS|]. intros key. rewrite (Hinv key).
  destruct (has_key STH_def key); [|reflexivity]. f_equal.
  apply map_ext_in. intros a Ha. apply elem_of_py_range in Ha.
  rewrite overridden_cells_supplied by assumption. unfold prepared_cell.
  destruct (supplied (user_entries mySTH) key) as [src|] eqn:Hsup.
  - apply np_store_int32_small. apply src_at_range.
    apply supplied_In in Hsup. unfold supplied_ok in Hok.
    rewrite List.Forall_forall in Hok. apply (Hok _ Hsup).
  - apply np_store_int32_small. apply (default_cell_range nt); assumption.
Qed.

Lemma setSegyTraceHeaders_prepares_witness :
  exists STH,
    setSegyTraceHeaders (Some mySTH_numbers) 2 3 1000 = Ok STH /\
    forall key,
      STH !! key =
        if has_key STH_def key
        then Some (map (fun a => VInt (prepared_cell mySTH_numbers 3 1000 key a))
                       (py_range 2))
        else None.
Proof.
  apply (setSegyTraceHeaders_prepares (Some mySTH_numbers) 2 3 1000).
  - lia.
  - lia.
  - lia.
  - repeat constructor; cbn; lia.
  - repeat constructor; cbn; set_solver.
Defined.

Lemma sth_copy_app STH (key : string) (src : list Z) (l1 l2 : list Z) :
  sth_copy STH key src (l1 ++ l2) =
    (let! S1 := sth_copy STH key src l1 in sth_copy S1 key src l2).
Proof.
  revert STH. induction l1 as [|a l1 IH]; intros STH.
  - cbn [app sth_copy]. reflexivity.
  - cbn [app sth_copy]. destruct (seq_get src a) as [v|]; [|reflexivity].
    destruct (sth_set STH key a v); [|reflexivity]. apply IH.
Qed.

Lemma py_range_split (n m : Z) :
  0 <= n <= m ->
  py_range m = py_range n ++ map Z.of_nat (seq (Z.to_nat n) (Z.to_nat (m - n))).
Proof.
  intros H. unfold py_range. rewrite <- map_app. f_equal.
  replace (Z.to_nat m) with (Z.to_nat n + Z.to_nat (m - n))%nat by lia.
  apply seq_app.
Qed.

(** Without traces the user-supplied values are not looked at. *)
Lemma setSegyTraceHeaders_no_traces (m : list (string * list Z)) (ns dt : Z) :
  setSegyTraceHeaders (Some m) 0 ns dt = setSegyTraceHeaders None 0 ns dt.
Proof.
  unfold setSegyTraceHeaders. cbn [Z.ltb Z.compare].
  change (py_range 0) with (@nil Z). cbn [sth_defaults].
  generalize (fold_left
                (fun (STH : gmap string (list value)) '(key0, _) =>
                   <[key0 := replicate (Z.to_nat 0) (VInt 0)]> STH) STH_def ∅).
  induction m as [|[k s] m IH]; intros STH; [reflexivity|].
  cbn [sth_overrides sth_copy]. apply IH.
Qed.

(** X13.  What [setSegyTraceHeaders] does with user-supplied values it
    cannot place.  Without traces the values are not looked at: any
    dictionary gives the result of no dictionary.  With at least one
    trace (and 32-bit values throughout), a first key that is not a key
    of [STH_def] is a [KeyError] (its array being non-empty), and a first
    array shorter than the number of traces is an [IndexError]. *)
Theorem setSegyTraceHeaders_rejects (key : string) (src : list Z)
    (rest : list (string * list Z)) (nt ns dt : Z) :
  (forall m, setSegyTraceHeaders (Some m) 0 ns dt = setSegyTraceHeaders None 0 ns dt) /\
  (1 <= nt < 2 ^ 31 -> - 2 ^ 31 <= ns < 2 ^ 31 -> - 2 ^ 31 <= dt < 2 ^ 31 ->
   has_key STH_def key = false -> src <> [] ->
   setSegyTraceHeaders (Some ((key, src) :: rest)) nt ns dt = Err KeyError) /\
  (1 <= nt < 2 ^ 31 -> - 2 ^ 31 <= ns < 2 ^ 31 -> - 2 ^ 31 <= dt < 2 ^ 31 ->
   Forall (fun v => - 2 ^ 31 <= v < 2 ^ 31) src ->
   Z.of_nat (length src) < nt ->
   has_key STH_def key = true \/ src = [] ->
   setSegyTraceHeaders (Some ((key, src) :: rest)) nt ns dt = Err IndexError).
Proof.
  split; [|split].
  - intros m. apply setSegyTraceHeaders_no_traces.
  - intros [Hnt _] _ _ Hkey Hsrc.
    destruct (setSegyTraceHeaders_holds nt ns dt ltac:(lia)) as (S0 & HS0 & H0).
    unfold setSegyTraceHeaders in *. destruct (Z.ltb_spec nt 0); [lia|].
    destruct (sth_defaults _ ns dt (py_range nt)) as [S0'|]; [|discriminate HS0].
    injection HS0 as ->. cbn [sth_overrides].
    destruct (py_range_pos_cons nt Hnt) as [tl ->]. cbn [sth_copy].
    destruct src as [|v src]; [contradiction|].
    change (seq_get (v :: src) 0) with (Ok v : result Z). cbn iota beta.
    rewrite (sth_set_unknown S0 nt _ key 0 v H0 Hkey). reflexivity.
  - intros [Hnt _] _ _ _ Hshort Hcase.
    destruct (setSegyTraceHeaders_holds nt ns dt ltac:(lia)) as (S0 & HS0 & H0).
    unfold setSegyTraceHeaders in *. destruct (Z.ltb_spec nt 0); [lia|].
    destruct (sth_defaults _ ns dt (py_range nt)) as [S0'|]; [|discriminate HS0].
    injection HS0 as ->. cbn [sth_overrides].
    destruct Hcase as [Hkey| ->].
    + set (len := Z.of_nat (length src)) in *.
      rewrite (py_range_split len nt) by lia. rewrite sth_copy_app.
      destruct (sth_copy_holds nt key src
                  (fun key a => np_store "int32" (default_cell ns dt key a))
                  (Z.to_nat len) Hkey 0 S0
                  ltac:(lia) ltac:(lia) ltac:(lia)) as (S1 & HS1 & _).
      * revert H0. apply sth_holds_ext. intros key' i Hi. unfold copied_cells.
        destruct (Z.ltb_spec i 0); [lia|]. rewrite andb_false_r. reflexivity.
      * change (Z.to_nat 0) with 0%nat in HS1. fold (py_range len) in HS1.
        rewrite HS1. cbn iota beta.
        replace (Z.to_nat (nt - len)) with (S (Z.to_nat (nt - len - 1))) by lia.
        cbn [seq map sth_copy]. rewrite seq_get_short by lia. reflexivity.
    + destruct (py_range_pos_cons nt Hnt) as [tl ->]. cbn [sth_copy].
      reflexivity.
Qed.

(** * Writing: the file *)

(** ** The file written with user-supplied trace header values *)

Lemma schema_get_unique (s : schema) (key : string) (d : field) :
  NoDup (map fst s) -> In (key, d) s -> schema_get s key = Ok d.
Proof.
  induction s as [|[k f] s IH]; intros Hnd Hin; [destruct Hin|].
  cbn [map fst] in Hnd. apply NoDup_cons in Hnd as [Hk Hnd].
  cbn [schema_get]. destruct Hin as [[= -> ->]|Hin].
  - rewrite String.eqb_refl. reflexivity.
  - destruct (String.eqb_spec k key) as [->|_]; [|apply IH; assumption].
    exfalso. apply Hk. apply list_elem_of_In. apply in_map_iff.
    exists (key, d). split; [reflexivity|exact Hin].
Qed.

Lemma STH_def_keys_distinct : NoDup (map fst STH_def).
Proof. apply (bool_decide_unpack _). vm_compute. exact I. Qed.

Lemma STH_def_get (key : string) (d : field) :
  In (key, d) STH_def ->
  schema_get STH_def key = Ok d /\ has_key STH_def key = true /\
  dtype2ctype !! f_type d = Some (field_ctype d) /\
  is_int_ctype (field_ctype d) = true.
Proof.
  intros Hin.
  pose proof (schema_get_unique STH_def key d STH_def_keys_distinct Hin) as Hget.
  split; [exact Hget|]. split; [unfold has_key; rewrite Hget; reflexivity|].
  pose proof (STH_def_field_within key d Hget) as Hw.
  apply field_within_spec in Hw as (Hct & Hint & _). auto.
Qed.

(** A dictionary described cell by cell whose cells can all be packed. *)
Lemma sth_holds_packable STH (nt : Z) (cell : string -> Z -> value) :
  0 <= nt -> sth_holds STH nt cell ->
  (forall key d i, In (key, d) STH_def -> 0 <= i < nt ->
     is_ok (pack_one endian (field_ctype d) (cell key i)) = true) ->
  sth_packable STH nt.
Proof.
  intros Hnt Hinv Hfit key d Hin.
  destruct (STH_def_get key d Hin) as (_ & Hkey & Hct & _).
  exists (map (cell key) (py_range nt)), (field_ctype d).
  pose proof (Hinv key) as Harr. rewrite Hkey in Harr.
  split; [exact Harr|]. split; [rewrite length_map, length_py_range; lia|].
  split; [exact Hct|]. apply List.Forall_forall. intros v Hv.
  apply in_map_iff in Hv as (i & <- & Hi). apply elem_of_py_range in Hi.
  apply (Hfit key d i Hin Hi).
Qed.

Lemma overridden_cells_cases (cell : string -> Z -> value)
    (m : list (string * list Z)) (nt : Z) (key : string) (i : Z) :
  overridden_cells cell m nt key i = cell key i \/
  exists src, In (key, src) m /\ i < nt /\
              overridden_cells cell m nt key i = np_store "int32" (src_at src i).
Proof.
  revert cell. induction m as [|[k src] m IH]; intros cell; [left; reflexivity|].
  cbn [overridden_cells].
  destruct (IH (copied_cells cell k src nt)) as [Heq|(s & Hin & Hi & Heq)].
  - rewrite Heq. unfold copied_cells.
    destruct (String.eqb_spec key k) as [->|_]; cbn [andb]; [|left; reflexivity].
    destruct (Z.ltb_spec i nt); [|left; reflexivity].
    right. exists src. split; [left; reflexivity|]. split; [assumption|reflexivity].
  - right. exists s. split; [right; exact Hin|]. split; assumption.
Qed.

Lemma STH_def_ctypes (key : string) (d : field) :
  In (key, d) STH_def ->
  field_ctype d = c_l \/ field_ctype d = c_h \/ field_ctype d = c_H.
Proof.
  intros Hin.
  assert (Hall : forallb (fun kd => match field_ctype (snd kd) with
                                    | c_l | c_h | c_H => true
                                    | _ => false
                                    end) STH_def = true) by (vm_compute; reflexivity).
  rewrite forallb_forall in Hall. specialize (Hall _ Hin). cbn [snd] in Hall.
  destruct (field_ctype d); try discriminate Hall; auto.
Qed.

Lemma pack_int_range_int32 (ct : ctype) (v : Z) :
  ct = c_l \/ ct = c_h \/ ct = c_H ->
  is_ok (pack_one endian ct (VInt v)) = true -> - 2 ^ 31 <= v < 2 ^ 31.
Proof.
  change (2 ^ 31) with 2147483648.
  intros [-> | [-> | ->]]; cbn [pack_one pack_int];
    change (2 ^ 31) with 2147483648; change (2 ^ 15) with 32768;
    change (2 ^ 16) with 65536;
    match goal with
    | |- context [(?a <=? v) && (v <=? ?b)] =>
        destruct (Z.leb_spec a v); destruct (Z.leb_spec v b)
    end; cbn [andb is_ok]; intros Hok; try discriminate Hok; lia.
Qed.

(** The prepared cells can all be packed. *)
Lemma prepared_cells_fit (m : list (string * list Z)) (nt ns dt : Z) :
  0 <= nt < 2 ^ 31 -> 0 <= ns <= 65535 -> 0 <= dt <= 65535 ->
  supplied_fits m nt ->
  forall key d i, In (key, d) STH_def -> 0 <= i < nt ->
    is_ok (pack_one endian (field_ctype d)
             (overridden_cells
                (fun key a => np_store "int32" (default_cell ns dt key a)) m nt key i))
    = true.
Proof.
  intros Hnt Hns Hdt Hfits key d i Hin Hi.
  destruct (STH_def_get key d Hin) as (Hget & _ & Hct & Hint).
  destruct (overridden_cells_cases
              (fun key a => np_store "int32" (default_cell ns dt key a)) m nt key i)
    as [->|(src & Hsrc & _ & ->)].
  - destruct STH_def_has_defaults as (I1 & I2 & I3 & I4 & I5 & I6).
    unfold default_cell.
    destruct (String.eqb_spec key "TraceSequenceLine") as [->|?].
    { apply fits_int32.
      apply (key_types_spec "TraceSequenceLine" any_int32 STH_def d _ eq_refl Hin Hct). }
    destruct (String.eqb_spec key "TraceSequenceFile") as [->|?].
    { apply fits_int32.
      apply (key_types_spec "TraceSequenceFile" any_int32 STH_def d _ eq_refl Hin Hct). }
    destruct (String.eqb_spec key "FieldRecord") as [->|?].
    { apply fits_int32.
      apply (key_types_spec "FieldRecord" any_int32 STH_def d _ eq_refl Hin Hct). }
    destruct (String.eqb_spec key "TraceNumber") as [->|?].
    { apply fits_int32.
      apply (key_types_spec "TraceNumber" any_int32 STH_def d _ eq_refl Hin Hct). }
    destruct (String.eqb_spec key "ns") as [->|?].
    { apply fits_uint16; [exact Hns|].
      apply (key_types_spec "ns" int32_or_uint16 STH_def d _ eq_refl Hin Hct). }
    destruct (String.eqb_spec key "dt") as [->|?].
    { apply fits_uint16; [exact Hdt|].
      apply (key_types_spec "dt" int32_or_uint16 STH_def d _ eq_refl Hin Hct). }
    change (np_store "int32" 0) with (VInt 0). apply pack_zero_ok. exact Hint.
  - unfold supplied_fits in Hfits. rewrite List.Forall_forall in Hfits.
    destruct (Hfits _ Hsrc) as (_ & Hlen & Hall). cbn [fst snd] in Hlen, Hall.
    assert (Hfit : cell_fits key (src_at src i) = true).
    { unfold src_at. destruct (src !! Z.to_nat i) as [v|] eqn:Hv.
      - rewrite List.Forall_forall in Hall. apply Hall.
        apply list_elem_of_In. eapply list_elem_of_lookup_2. exact Hv.
      - apply lookup_ge_None in Hv. lia. }
    unfold cell_fits in Hfit. rewrite Hget in Hfit.
    rewrite np_store_int32_small; [exact Hfit|].
    apply (pack_int_range_int32 (field_ctype d)); [|exact Hfit].
    apply (STH_def_ctypes key d Hin).
Qed.

Lemma supplied_fits_ok (m : list (string * list Z)) (nt : Z) :
  supplied_fits m nt -> supplied_ok m nt.
Proof.
  unfold supplied_fits, supplied_ok. intros Hfits.
  eapply Forall_impl; [exact Hfits|].
  intros [key src] (Hkey & Hlen & Hall). cbn [fst snd] in *.
  split; [exact Hkey|]. split; [exact Hlen|].
  eapply Forall_impl; [exact Hall|]. intros v Hv. cbn beta in Hv.
  unfold cell_fits in Hv.
  destruct (schema_get STH_def key) as [d|] eqn:Hget; [|discriminate Hv].
  apply (pack_int_range_int32 (field_ctype d)); [|exact Hv].
  apply (STH_def_ctypes key d). apply schema_get_In. exact Hget.
Qed.

(** The trace header dictionary that [writeSegy] prepares. *)
Lemma prepared_STH (mySTH : option (list (string * list Z))) (nt ns dt : Z) :
  0 <= nt < 2 ^ 31 -> 0 <= ns <= 65535 -> 0 <= dt <= 65535 ->
  supplied_fits (user_entries mySTH) nt ->
  exists STH,
    setSegyTraceHeaders mySTH nt ns dt = Ok STH /\
    sth_holds STH nt
      (overridden_cells (fun key a => np_store "int32" (default_cell ns dt key a))
                        (user_entries mySTH) nt) /\
    sth_packable STH nt.
Proof.
  intros Hnt Hns Hdt Hfits.
  destruct (setSegyTraceHeaders_cells mySTH nt ns dt ltac:(lia)
              (supplied_fits_ok _ _ Hfits)) as (STH & HS & Hinv).
  exists STH. split; [exact HS|]. split; [exact Hinv|].
  apply (sth_holds_packable STH nt _ ltac:(lia) Hinv).
  apply prepared_cells_fit; assumption.
Qed.

(** The file that [writeSegy] writes, with the prepared trace headers. *)
Lemma writeSegy_file_with (Data : ndarray) (dt : Z) (STFH : string) (dsf : Z)
    (ct : ctype) (text : list byte) (mySTH : option (list (string * list Z)))
    (STH : gmap string (list value)) :
  ndarray_wf Data -> ndarray_fits ct Data ->
  dtype_format (dtype Data) = Some (dsf, ct) ->
  1 <= snd (shape Data) -> fst (shape Data) <= 65535 -> 0 <= dt <= 65535 ->
  encode_ascii STFH = Ok text -> (length text <= 3200)%nat ->
  setSegyTraceHeaders mySTH (snd (shape Data)) (fst (shape Data)) dt = Ok STH ->
  sth_packable STH (snd (shape Data)) ->
  exists H1 H2 H3 H4,
    snd (writeSegy Data dt STFH mySTH)
    = Ok (written_file text
            (H1 ++ bytes_of_uint endian 2 dt ++ H2
                ++ bytes_of_uint endian 2 (fst (shape Data)) ++ H3
                ++ bytes_of_uint endian 2 (dsf mod 2 ^ 16) ++ H4)
            (map (written_block Data STH ct) (py_range (snd (shape Data))))) /\
    length H1 = 16%nat /\ length H2 = 2%nat /\ length H3 = 2%nat /\
    length H4 = 42%nat.
Proof.
  intros Hwf Hfits Hfmt Hnt Hns Hdt Htext Hlen HSTH Hsth.
  pose proof Hwf as (Hns0 & _ & _ & _).
  destruct (dtype_format_sample_ctype _ _ _ Hfmt) as [Hct Hcases].
  destruct (format_facts dsf (calcsize ct) ct Hct Hcases)
    as (name & descr & Hdescr & Hname & Hbpst & Hctype & _ & _ & _ & _).
  assert (Hdsf : - 32768 <= dsf <= 32767) by lia.
  destruct (pack_SH_written (snd (shape Data)) (fst (shape Data)) dt dsf
              ltac:(lia) Hdt Hdsf) as (H1 & H2 & H3 & H4 & HH & HL1 & HL2 & HL3 & HL4).
  exists H1, H2, H3, H4. split; [|tauto].
  cbn zeta in HH.
  destruct (written_SH_lookups (snd (shape Data)) (fst (shape Data)) dt dsf)
    as (Knt & Kns & Kdt & Kdsf & Krev).
  unfold writeSegy. destruct (shape Data) as [ns nt] eqn:Hshape. cbn [fst snd] in *.
  pose proof (getDSF_fromDataType_ok Data dsf ct Hfmt) as HDSF.
  destruct (getDSF_fromDataType Data) as [warned r]. cbn [snd] in HDSF |- *. subst r.
  rewrite HSTH.
  set (SH := setSegyHeaders getDefaultSegyHeader (Some nt) (Some ns) (Some dt) (Some dsf)) in *.
  unfold writeSegyStructure. rewrite Htext.
  unfold getRevisionNumber, dict_get. rewrite Krev, Kdsf, Knt, Kns.
  cbn [Z.eqb Pos.eqb]. rewrite Hdescr, HH, Hname, Hctype, Hbpst.
  set (Hdr := H1 ++ _) in *.
  assert (HlH : length Hdr = 68%nat).
  { unfold Hdr. rewrite !length_app, !length_bytes_of_uint. lia. }
  set (f2 := f_write (f_seek (f_write f_open_wb text) bytes_STFH) Hdr).
  assert (Hf2 : contents f2 = text ++ replicate (3200 - length text) Byte.x00 ++ Hdr).
  { unfold f2. rewrite f_write_append.
    - cbn [f_seek contents fpos]. rewrite f_write_open. reflexivity.
    - intros E. rewrite E in HlH. discriminate HlH.
    - cbn [f_seek fpos]. unfold bytes_STFH. lia.
    - cbn [f_seek contents fpos]. rewrite f_write_open. unfold bytes_STFH. lia. }
  assert (Hshape' : snd (shape Data) = nt /\ fst (shape Data) = ns)
    by (rewrite Hshape; split; reflexivity).
  destruct Hshape' as [Es En].
  pose proof (trace_blocks_ok Data STH ct Hwf Hfits) as Hblocks.
  rewrite Es, En in Hblocks. specialize (Hblocks Hsth). destruct Hblocks as [Hm Hu].
  destruct (write_traces_ok Data STH ns ct (bytes_STH + ns * calcsize ct) (py_range nt))
    with (blocks := map (written_block Data STH ct) (py_range nt)) (f := f2)
         (index := bytes_STFH + bytes_SBFH)
    as (f' & Hf' & Hc').
  - pose proof (calcsize_pos ct). unfold bytes_STH. nia.
  - exact Hm.
  - exact Hu.
  - rewrite Hf2, !length_app, length_replicate, HlH.
    unfold bytes_STFH, bytes_SBFH. lia.
  - rewrite Hf'. f_equal. rewrite Hc', Hf2.
    destruct (py_range_pos_cons nt Hnt) as [rest ->].
    unfold written_file. rewrite <- !app_assoc. do 3 f_equal.
    rewrite !length_app, length_replicate, HlH.
    replace (Z.to_nat (bytes_STFH + bytes_SBFH)
             - (length text + (3200 - length text + 68)))%nat with 332%nat
      by (unfold bytes_STFH, bytes_SBFH; lia).
    reflexivity.
Qed.

(** The header bytes of trace [j] in the written file. *)
Lemma written_header_bytes (Data : ndarray) (STH : gmap string (list value))
    (ct : ctype) (text Hdr : list byte) (j : Z) :
  ndarray_wf Data -> ndarray_fits ct Data ->
  sth_packable STH (snd (shape Data)) ->
  (length text <= 3200)%nat -> length Hdr = 68%nat ->
  0 <= j < snd (shape Data) ->
  let tbs := bytes_STH + fst (shape Data) * calcsize ct in
  let file := written_file text Hdr
                (map (written_block Data STH ct) (py_range (snd (shape Data)))) in
  take 240 (drop (Z.to_nat (bytes_SFH + tbs * j)) file) = header_of STH j.
Proof.
  intros Hwf Hfits Hsth Htext HlH Hj tbs file.
  destruct (trace_blocks_ok Data STH ct Hwf Hfits Hsth) as [_ Hu]. fold tbs in Hu.
  pose proof (calcsize_pos ct) as Hsz. pose proof Hwf as (Hns0 & _ & _ & _).
  assert (Htbs : 240 <= tbs) by (unfold tbs, bytes_STH; nia).
  destruct (pack_STH_ok STH _ j Hsth Hj) as [_ Hlh]. unfold bytes_STH in Hlh.
  unfold file, written_file.
  replace (text ++ _) with
    ((text ++ replicate (3200 - length text) Byte.x00 ++ Hdr
           ++ replicate 332 Byte.x00)
       ++ concat (map (written_block Data STH ct) (py_range (snd (shape Data)))))
    by (rewrite <- !app_assoc; reflexivity).
  replace (Z.to_nat (bytes_SFH + tbs * j))
    with (3600 + Z.to_nat j * Z.to_nat tbs)%nat by (unfold bytes_SFH; nia).
  rewrite <- drop_drop. rewrite drop_app_length'
    by (rewrite !length_app, !length_replicate, HlH; lia).
  rewrite (drop_concat_uniform (Z.to_nat tbs)).
  2:{ eapply Forall_impl; [exact Hu|]. intros b Hb. cbn beta in Hb. lia. }
  rewrite drop_map_py_range by lia. rewrite Z2Nat.id by lia.
  cbn [concat]. unfold written_block at 1. rewrite <- app_assoc.
  apply take_app_length'. lia.
Qed.

Lemma written_text (text Hdr : list byte) (blocks : list (list byte)) :
  (length text <= 3200)%nat ->
  take 3200 (written_file text Hdr blocks)
  = text ++ replicate (3200 - length text) Byte.x00.
Proof.
  intros Htext. unfold written_file. rewrite app_assoc.
  apply take_app_length'. rewrite length_app, length_replicate. lia.
Qed.

(** ** Trace header fields in the written file *)

Lemma packed_ok (ct : ctype) (v : value) :
  is_ok (pack_one endian ct v) = true ->
  pack_one endian ct v = Ok (packed ct v) /\
  Z.of_nat (length (packed ct v)) = calcsize ct.
Proof.
  intros Hok. unfold packed.
  destruct (pack_one endian ct v) as [bs|] eqn:Hbs; [|discriminate Hok].
  split; [reflexivity|]. apply (pack_one_length _ _ _ _ Hbs).
Qed.

(** The packed header of trace [j], field by field. *)
Lemma pack_STH_cells STH (nt j : Z) (cell : string -> Z -> value) (fields : schema) :
  sth_holds STH nt cell -> 0 <= j < nt ->
  (forall key d, In (key, d) fields -> In (key, d) STH_def) ->
  (forall key d i, In (key, d) STH_def -> 0 <= i < nt ->
     is_ok (pack_one endian (field_ctype d) (cell key i)) = true) ->
  pack_STH STH j fields
  = Ok (concat (map (fun kd => packed (field_ctype (snd kd)) (cell (fst kd) j))
                    fields)).
Proof.
  intros Hinv Hj Hsub Hfit. induction fields as [|[key d] fields IH]; [reflexivity|].
  assert (Hin : In (key, d) STH_def) by (apply Hsub; left; reflexivity).
  destruct (STH_def_get key d Hin) as (_ & Hkey & Hct & _).
  cbn [pack_STH map concat fst snd]. pose proof (Hinv key) as Harr.
  rewrite Hkey in Harr. unfold dict_get at 1. rewrite Harr.
  assert (Hv : seq_get (map (cell key) (py_range nt)) j = Ok (cell key j)).
  { unfold seq_get. destruct (Z.ltb_spec j 0); [lia|]. unfold py_range.
    rewrite map_map, list_lookup_fmap, lookup_seq_lt by lia.
    cbn [fmap option_fmap option_map Nat.add]. rewrite Z2Nat.id by lia. reflexivity. }
  rewrite Hv, packValue_1. unfold dict_get. rewrite Hct.
  destruct (packed_ok _ _ (Hfit key d j Hin Hj)) as [-> _].
  rewrite IH; [reflexivity|]. intros k0 d0 H0. apply Hsub. right. exact H0.
Qed.

Lemma field_offset_split (s : schema) (key : string) (o p : Z) :
  field_offset s key o = Some p ->
  exists pre d post,
    s = pre ++ (key, d) :: post /\ p = o + schema_size pre /\
    schema_get s key = Ok d.
Proof.
  revert o. induction s as [|[k f] s IH]; intros o; [discriminate|].
  cbn [field_offset schema_get].
  destruct (String.eqb_spec k key) as [->|Hne].
  - intros [= <-]. exists [], f, s. split; [reflexivity|].
    split; [cbn; lia|reflexivity].
  - intros H. destruct (IH _ H) as (pre & d & post & -> & -> & Hget).
    exists ((k, f) :: pre), d, post. split; [reflexivity|].
    split; [cbn [schema_size fold_right snd]; fold (schema_size pre); lia|exact Hget].
Qed.

Lemma length_packed_fields (nt j : Z) (cell : string -> Z -> value) (fields : schema) :
  0 <= j < nt ->
  (forall key d, In (key, d) fields -> In (key, d) STH_def) ->
  (forall key d i, In (key, d) STH_def -> 0 <= i < nt ->
     is_ok (pack_one endian (field_ctype d) (cell key i)) = true) ->
  Z.of_nat (length (concat (map (fun kd => packed (field_ctype (snd kd))
                                             (cell (fst kd) j)) fields)))
  = schema_size fields.
Proof.
  intros Hj Hsub Hfit. induction fields as [|[key d] fields IH]; [reflexivity|].
  cbn [map concat fst snd schema_size fold_right]. fold (schema_size fields).
  rewrite length_app, Nat2Z.inj_add.
  destruct (packed_ok _ _ (Hfit key d j (Hsub key d (or_introl eq_refl)) Hj)) as [_ ->].
  rewrite IH; [reflexivity|]. intros k0 d0 H0. apply Hsub. right. exact H0.
Qed.

Lemma take_drop_prefix {A} (n p sz : nat) (X : list A) :
  (p + sz <= n)%nat -> take sz (drop p (take n X)) = take sz (drop p X).
Proof.
  intros H. rewrite !take_drop_commute, take_take.
  replace (Nat.min (p + sz) n) with (p + sz)%nat by lia. reflexivity.
Qed.

(** A field packed at its declared offset reads back as the prepared
    cell. *)
Lemma header_field_readback (data : list byte) (STH : gmap string (list value))
    (nt j base : Z) (cell : string -> Z -> Z) (key : string) (d : field) :
  sth_holds STH nt (fun key a => VInt (cell key a)) -> 0 <= j < nt -> 0 <= base ->
  (forall key d i, In (key, d) STH_def -> 0 <= i < nt ->
     is_ok (pack_one endian (field_ctype d) (VInt (cell key i))) = true) ->
  take 240 (drop (Z.to_nat base) data) = header_of STH j ->
  schema_get STH_def key = Ok d -> aligned key = true ->
  VInt (int_value (field_at data base d)) = VInt (cell key j).
Proof.
  intros Hinv Hj Hbase Hfit Hhdr Hget Hal.
  unfold aligned in Hal. rewrite Hget in Hal.
  destruct (field_offset STH_def key 0) as [o|] eqn:Hoff; [|discriminate Hal].
  apply Z.eqb_eq in Hal.
  destruct (field_offset_split STH_def key 0 o Hoff) as (pre & d' & post & Hs & Ho & Hget').
  assert (d' = d) as -> by congruence.
  assert (Hin : In (key, d) STH_def) by (apply schema_get_In; exact Hget).
  destruct (STH_def_get key d Hin) as (_ & _ & Hct & Hint).
  pose proof (STH_def_field_within key d Hget) as Hw.
  apply field_within_spec in Hw as (_ & _ & Hp0 & Hp1). unfold bytes_STH in Hp1.
  assert (Hsub : forall k0 d0, In (k0, d0) STH_def -> In (k0, d0) STH_def) by auto.
  pose proof (pack_STH_cells STH nt j _ STH_def Hinv Hj Hsub Hfit) as Hpack.
  unfold header_of in Hhdr. rewrite Hpack in Hhdr.
  set (g := fun kd : string * field =>
              packed (field_ctype (snd kd)) (VInt (cell (fst kd) j))) in *.
  assert (Hpre : Z.of_nat (length (concat (map g pre))) = f_pos d).
  { unfold g. rewrite (length_packed_fields nt j (fun key a => VInt (cell key a)) pre Hj).
    - lia.
    - intros k0 d0 H0. rewrite Hs. apply in_or_app. left. exact H0.
    - exact Hfit. }
  destruct (packed_ok _ _ (Hfit key d j Hin Hj)) as [Hpk Hlk].
  rewrite Hs, map_app, concat_app in Hhdr. cbn [map concat] in Hhdr.
  change (g (key, d)) with (packed (field_ctype d) (VInt (cell key j))) in Hhdr.
  unfold field_at, item_at. f_equal.
  replace (Z.to_nat (base + f_pos d)) with (Z.to_nat base + Z.to_nat (f_pos d))%nat
    by lia.
  rewrite <- drop_drop.
  rewrite <- (take_drop_prefix 240) by lia. rewrite Hhdr.
  replace (Z.to_nat (f_pos d)) with (length (concat (map g pre))) by lia.
  rewrite drop_app_length. rewrite take_app_length' by lia.
  assert (Hrt : roundtrips (field_ctype d) (VInt (cell key j))).
  { destruct (field_ctype d); try discriminate Hint; exact I. }
  rewrite (unpack_pack_one endian _ _ _ Hpk Hrt).
  destruct (field_ctype d); reflexivity.
Qed.

(** The prepared dictionary holds the prepared values, as integers. *)
Lemma prepared_STH_int (mySTH : option (list (string * list Z))) (nt ns dt : Z) :
  0 <= nt < 2 ^ 31 -> 0 <= ns <= 65535 -> 0 <= dt <= 65535 ->
  supplied_fits (user_entries mySTH) nt -> NoDup (map fst (user_entries mySTH)) ->
  exists STH,
    setSegyTraceHeaders mySTH nt ns dt = Ok STH /\
    sth_holds STH nt (fun key a => VInt (prepared_cell (user_entries mySTH) ns dt key a)) /\
    sth_packable STH nt /\
    (forall key d i, In (key, d) STH_def -> 0 <= i < nt ->
       is_ok (pack_one endian (field_ctype d)
                (VInt (prepared_cell (user_entries mySTH) ns dt key i))) = true).
Proof.
  intros Hnt Hns Hdt Hfits Hnd.
  destruct (prepared_STH mySTH nt ns dt Hnt Hns Hdt Hfits) as (STH & HS & Hinv & Hpk).
  pose proof (supplied_fits_ok _ _ Hfits) as Hok.
  assert (Hcell : forall key i, 0 <= i < nt ->
    overridden_cells (fun key a => np_store "int32" (default_cell ns dt key a))
                     (user_entries mySTH) nt key i
    = VInt (prepared_cell (user_entries mySTH) ns dt key i)).
  { intros key i Hi. rewrite overridden_cells_supplied by assumption.
    unfold prepared_cell.
    destruct (supplied (user_entries mySTH) key) as [src|] eqn:Hsup.
    - apply np_store_int32_small. apply src_at_range.
      apply supplied_In in Hsup. unfold supplied_ok in Hok.
      rewrite List.Forall_forall in Hok. apply (Hok _ Hsup).
    - apply np_store_int32_small.
      apply (default_cell_range nt); change (2 ^ 31) with 2147483648 in *; lia. }
  exists STH. split; [exact HS|]. split; [|split; [exact Hpk|]].
  - revert Hinv. apply sth_holds_ext. exact Hcell.
  - intros key d i Hin Hi. rewrite <- Hcell by exact Hi.
    apply prepared_cells_fit; assumption.
Qed.

(** What [writeSegy] leaves on disk, and how it reads back. *)
Lemma writeSegy_facts (Data : ndarray) (dt : Z) (STFH : string)
    (mySTH : option (list (string * list Z))) (dsf : Z) (ct : ctype)
    (text : list byte) :
  ndarray_wf Data -> ndarray_fits ct Data ->
  dtype_format (dtype Data) = Some (dsf, ct) ->
  1 <= snd (shape Data) < 2 ^ 31 -> fst (shape Data) <= 65535 -> 0 <= dt <= 65535 ->
  encode_ascii STFH = Ok text -> (length text <= 3200)%nat ->
  supplied_fits (user_entries mySTH) (snd (shape Data)) ->
  NoDup (map fst (user_entries mySTH)) ->
  let ns := fst (shape Data) in
  let nt := snd (shape Data) in
  let tbs := bytes_STH + ns * calcsize ct in
  exists f,
    snd (writeSegy Data dt STFH mySTH) = Ok f /\
    Z.of_nat (length f) = bytes_SFH + nt * tbs /\
    take 3200 f = text ++ replicate (3200 - length text) Byte.x00 /\
    file_dt f = dt /\ file_ns f = ns /\ file_dsf f = dsf /\ file_revno f = 0 /\
    (forall j key d,
       0 <= j < nt -> schema_get STH_def key = Ok d -> aligned key = true ->
       trace_field f tbs d j = VInt (prepared_cell (user_entries mySTH) ns dt key j)) /\
    (forall j, 0 <= j < nt ->
       trace_samples f tbs ct ns j = map (repacked ct) (column Data j)).
Proof.
  intros Hwf Hfits Hfmt Hnt Hns Hdt Htext Hltext Hsup Hnd ns nt tbs.
  pose proof Hwf as (Hns0 & _ & _ & _). fold ns in Hns0.
  destruct (prepared_STH_int mySTH nt ns dt ltac:(lia) ltac:(fold ns in Hns; lia) Hdt
              Hsup Hnd) as (STH & HSTH & Hinv & Hsth & Hcfit).
  destruct (writeSegy_file_with Data dt STFH dsf ct text mySTH STH Hwf Hfits Hfmt
              ltac:(lia) Hns Hdt Htext Hltext HSTH Hsth)
    as (H1 & H2 & H3 & H4 & Hfile & HL1 & HL2 & HL3 & HL4).
  destruct (dtype_format_sample_ctype _ _ _ Hfmt) as [Hct Hcases].
  assert (Hdsf : - 32768 <= dsf <= 32767) by lia.
  assert (Hrange : 0 <= fst (shape Data) <= 65535) by (fold ns; fold ns in Hns; lia).
  set (Hdr := H1 ++ _) in Hfile.
  set (file := written_file text Hdr _) in Hfile.
  pose proof (written_dt Data STH ct text H1 H2 H3 H4 dt dsf Hwf Hfits Hsth Hltext
                HL1 HL2 HL3 HL4 Hrange Hdt Hdsf) as Wdt.
  pose proof (written_ns Data STH ct text H1 H2 H3 H4 dt dsf Hwf Hfits Hsth Hltext
                HL1 HL2 HL3 HL4 Hrange Hdt Hdsf) as Wns.
  pose proof (written_dsf Data STH ct text H1 H2 H3 H4 dt dsf Hwf Hfits Hsth Hltext
                HL1 HL2 HL3 HL4 Hrange Hdt Hdsf) as Wdsf.
  pose proof (written_revno Data STH ct text H1 H2 H3 H4 dt dsf Hwf Hfits Hsth Hltext
                HL1 HL2 HL3 HL4 Hrange Hdt Hdsf) as Wrev.
  pose proof (length_written_file Data STH ct text H1 H2 H3 H4 dt dsf Hwf Hfits Hsth
                Hltext HL1 HL2 HL3 HL4 Hrange Hdt Hdsf) as Wlen.
  pose proof (written_samples Data STH ct text H1 H2 H3 H4 dt dsf Hwf Hfits Hsth
                Hltext HL1 HL2 HL3 HL4 Hrange Hdt Hdsf) as Wsamples.
  cbn zeta in Wdt, Wns, Wdsf, Wrev, Wlen, Wsamples.
  fold Hdr in Wdt, Wns, Wdsf, Wrev, Wlen, Wsamples.
  fold file in Wdt, Wns, Wdsf, Wrev, Wlen, Wsamples.
  assert (HlH : length Hdr = 68%nat).
  { unfold Hdr. rewrite !length_app, !length_bytes_of_uint. lia. }
  exists file. split; [exact Hfile|]. split; [exact Wlen|].
  split; [apply written_text; exact Hltext|].
  split; [unfold file_dt; rewrite Wdt; reflexivity|].
  split; [unfold file_ns; rewrite Wns; reflexivity|].
  split; [unfold file_dsf; rewrite Wdsf; reflexivity|].
  split; [unfold file_revno; rewrite Wrev; reflexivity|].
  split; [|exact Wsamples].
  intros j key d Hj Hget Hal. unfold trace_field.
  pose proof (calcsize_pos ct) as Hsz.
  assert (Hbase : 0 <= bytes_SFH + tbs * j)
    by (unfold bytes_SFH, tbs, bytes_STH; nia).
  apply (header_field_readback file STH nt j (bytes_SFH + tbs * j) _ key d Hinv Hj
           Hbase Hcfit); [|exact Hget|exact Hal].
  apply (written_header_bytes Data STH ct text Hdr j Hwf Hfits Hsth Hltext HlH Hj).
Qed.

(** ** What [writeSegy] leaves on disk *)

Lemma encode_ascii_text (STFH : string) :
  is_ok (encode_ascii STFH) = true -> (String.length STFH <= 3200)%nat ->
  exists text,
    encode_ascii STFH = Ok text /\ text = list_byte_of_string STFH /\
    (length text <= 3200)%nat.
Proof.
  intros Hascii Hlen. unfold encode_ascii in *.
  destruct (forallb _ _); [|discriminate Hascii].
  eexists. split; [reflexivity|]. split; [reflexivity|].
  rewrite length_list_byte_of_string. exact Hlen.
Qed.

(** The header dictionary read back from a written file. *)
Lemma written_file_header (f : list byte) (nt ns dt dsf : Z) (ct : ctype) :
  sample_ctype dsf = Ok ct ->
  ((dsf = 1 /\ calcsize ct = 4) \/ (dsf = 2 /\ calcsize ct = 4) \/
   (dsf = 3 /\ calcsize ct = 2) \/ (dsf = 5 /\ calcsize ct = 4) \/
   (dsf = 8 /\ calcsize ct = 1)) ->
  0 <= nt -> 0 <= ns ->
  Z.of_nat (length f) = bytes_SFH + nt * (bytes_STH + ns * calcsize ct) ->
  file_ns f = ns -> file_dsf f = dsf -> file_revno f = 0 ->
  table_get DataSampleFormat_bps 1 (file_dsf f) = Ok (calcsize ct) /\
  getBytePerSample (decoded_SH f) = Ok (calcsize ct) /\
  getSegyHeader f = Ok (<["ntraces" := nt]> (decoded_SH f), f).
Proof.
  intros Hct Hcases Hnt Hns Hlen Kns Kdsf Krev.
  destruct (format_facts dsf (calcsize ct) ct Hct Hcases)
    as (_ & _ & _ & _ & Hbps & _ & _ & _ & _ & _).
  pose proof (calcsize_pos ct) as Hsz.
  assert (Hrev : In (file_revno f) [0; 100; 1; 256]) by (rewrite Krev; left; reflexivity).
  rewrite <- Kdsf in Hbps.
  destruct (getSegyHeader_known f (calcsize ct)
              ltac:(unfold bytes_SFH, bytes_STH in *; nia) Hrev Hbps) as [Hb0 Hget].
  split; [exact Hbps|]. split; [exact Hb0|]. rewrite Hget. do 3 f_equal.
  rewrite Kns, Hlen.
  replace (bytes_SFH + nt * (bytes_STH + ns * calcsize ct) - bytes_SFH)
    with (nt * (bytes_STH + ns * calcsize ct)) by ring.
  rewrite Z.quot_mul; [reflexivity|]. unfold bytes_STH. nia.
Qed.

(** X14.  The file that [writeSegy] leaves on disk, for every grid it
    can encode (element type int32, int16, float32, int8 or float64, at
    least one trace, at most 65535 samples per trace), a sample interval
    of 16 bits, an ASCII textual header of at most 3200 characters and
    user-supplied trace header values that fit their fields.  The file has
    [3600 + ntraces * (240 + ns * bytesPerSample)] bytes; its first 3200
    bytes are the text followed by zero bytes; and [getSegyHeader] reads
    back the sample interval, the samples per trace, the format code and
    the trace count that were written, with revision number 0. *)
Theorem writeSegy_file_layout (Data : ndarray) (dt : Z) (STFH : string)
    (mySTH : option (list (string * list Z)))
    (Hwf : ndarray_wf Data) (Htyped : ndarray_typed Data) (Henc : encodable Data)
    (Hdtype : In (dtype Data) ["int32"; "int16"; "float32"; "int8"; "float64"])
    (Hnt : 1 <= snd (shape Data) < 2 ^ 31) (Hns : fst (shape Data) <= 65535)
    (Hdt : 0 <= dt <= 65535)
    (Hascii : is_ok (encode_ascii STFH) = true)
    (Hlen : (String.length STFH <= 3200)%nat)
    (Hsup : supplied_fits (user_entries mySTH) (snd (shape Data)))
    (Hnd : NoDup (map fst (user_entries mySTH))) :
  exists f dsf ct SH,
    snd (writeSegy Data dt STFH mySTH) = Ok f /\
    dtype_format (dtype Data) = Some (dsf, ct) /\
    Z.of_nat (length f)
    = 3600 + snd (shape Data) * (240 + fst (shape Data) * calcsize ct) /\
    take 3200 f
    = list_byte_of_string STFH ++ replicate (3200 - String.length STFH) Byte.x00 /\
    getSegyHeader f = Ok (SH, f) /\
    SH !! "dt" = Some dt /\ SH !! "ns" = Some (fst (shape Data)) /\
    SH !! "DataSampleFormat" = Some dsf /\
    SH !! "ntraces" = Some (snd (shape Data)) /\
    SH !! "SegyFormatRevisionNumber" = Some 0 /\
    getBytePerSample SH = Ok (calcsize ct).
Proof.
  destruct (roundtrip_format Data Hdtype) as (dsf & ct & Hfmt).
  destruct (encode_ascii_text STFH Hascii Hlen) as (text & Htext & Etext & Hltext).
  destruct (typed_fits Data dsf ct Hfmt Htyped Henc) as [Hfits _].
  destruct (writeSegy_facts Data dt STFH mySTH dsf ct text Hwf Hfits Hfmt Hnt Hns Hdt
              Htext Hltext Hsup Hnd)
    as (f & Hfile & Wlen & Wtext & Wdt & Wns & Wdsf & Wrev & _ & _).
  destruct (dtype_format_sample_ctype _ _ _ Hfmt) as [Hct Hcases].
  pose proof Hwf as (Hns0 & _ & _ & _).
  destruct (written_file_header f (snd (shape Data)) (fst (shape Data)) dt dsf ct
              Hct Hcases ltac:(lia) Hns0 Wlen Wns Wdsf Wrev) as (_ & Hb0 & Hget).
  destruct (read_SH_entries f (snd (shape Data)) (calcsize ct) Hb0)
    as (Kn & Ks & Kd & Kf & Kb).
  exists f, dsf, ct. eexists.
  split; [exact Hfile|]. split; [exact Hfmt|].
  split; [rewrite Wlen; reflexivity|].
  split; [rewrite Wtext, Etext, length_list_byte_of_string; reflexivity|].
  split; [exact Hget|].
  rewrite Kd, Ks, Kf, Kn, Wdt, Wns, Wdsf. repeat split; try reflexivity.
  - rewrite lookup_insert_ne by discriminate.
    destruct (decoded_SH_entries f) as (_ & _ & _ & Hr & _). rewrite Hr, Wrev.
    reflexivity.
  - exact Kb.
Qed.

Lemma grid_i16_1x2_facts :
  ndarray_wf grid_i16_1x2 /\ ndarray_typed grid_i16_1x2 /\ encodable grid_i16_1x2 /\
  In (dtype grid_i16_1x2) ["int32"; "int16"; "float32"; "int8"; "float64"] /\
  supplied_fits (user_entries (Some mySTH_numbers)) (snd (shape grid_i16_1x2)) /\
  NoDup (map fst (user_entries (Some mySTH_numbers))).
Proof.
  split; [repeat split; try (vm_compute; discriminate); repeat constructor|].
  split.
  { constructor; [|constructor]. constructor; [|constructor; [|constructor]];
      right; left; (split; [reflexivity|change (2 ^ 15) with 32768; lia]). }
  split.
  { constructor; [|constructor]. constructor; [|constructor; [|constructor]];
      intros H; discriminate H. }
  split; [right; left; reflexivity|].
  split; [repeat constructor; cbn; lia|].
  repeat constructor; cbn; set_solver.
Qed.

Lemma writeSegy_file_layout_witness :
  exists f dsf ct SH,
    snd (writeSegy grid_i16_1x2 4000 "C 1 CLIENT" (Some mySTH_numbers)) = Ok f /\
    dtype_format (dtype grid_i16_1x2) = Some (dsf, ct) /\
    Z.of_nat (length f)
    = 3600 + snd (shape grid_i16_1x2) * (240 + fst (shape grid_i16_1x2) * calcsize ct) /\
    take 3200 f
    = list_byte_of_string "C 1 CLIENT"
        ++ replicate (3200 - String.length "C 1 CLIENT") Byte.x00 /\
    getSegyHeader f = Ok (SH, f) /\
    SH !! "dt" = Some 4000 /\ SH !! "ns" = Some (fst (shape grid_i16_1x2)) /\
    SH !! "DataSampleFormat" = Some dsf /\
    SH !! "ntraces" = Some (snd (shape grid_i16_1x2)) /\
    SH !! "SegyFormatRevisionNumber" = Some 0 /\
    getBytePerSample SH = Ok (calcsize ct).
Proof.
  destruct grid_i16_1x2_facts as (Hwf & Htyped & Henc & Hdtype & Hsup & Hnd).
  assert (Hnt : 1 <= snd (shape grid_i16_1x2) < 2 ^ 31) by (cbn; lia).
  assert (Hns : fst (shape grid_i16_1x2) <= 65535) by (cbn; lia).
  assert (Hlen : (String.length "C 1 CLIENT" <= 3200)%nat) by (cbn; lia).
  exact (writeSegy_file_layout grid_i16_1x2 4000 "C 1 CLIENT" (Some mySTH_numbers)
           Hwf Htyped Henc Hdtype Hnt Hns ltac:(lia) eq_refl Hlen Hsup Hnd).
Defined.

Lemma aligned_keys (kd : string * field) :
  In kd STH_def ->
  schema_get STH_def (fst kd) = Ok (snd kd) /\
  aligned (fst kd)
  = negb (String.eqb (fst kd) "GainType" || String.eqb (fst kd) "ShotPoint").
Proof.
  intros Hin. split.
  - destruct kd as [key d]. apply (STH_def_get key d Hin).
  - assert (Hall : forallb
                     (fun kd => Bool.eqb (aligned (fst kd))
                                  (negb (String.eqb (fst kd) "GainType"
                                         || String.eqb (fst kd) "ShotPoint")))
                     STH_def = true) by (vm_compute; reflexivity).
    rewrite forallb_forall in Hall. specialize (Hall kd Hin).
    apply Bool.eqb_prop in Hall. exact Hall.
Qed.

(** X15.  User-supplied and default trace header values survive the
    round trip through the file: for a grid, sample interval, text and
    values as in the layout property, the headers-only read of the written
    file returns, for every key of [STH_def] but [GainType] and
    [ShotPoint], the array of the values that [setSegyTraceHeaders]
    prepared (for [dt], when no [dt] values were supplied).  The two
    excepted keys are the fields whose declared position, 119 and 192, is
    not where the writer packs them. *)
Theorem trace_headers_roundtrip (Data : ndarray) (dt : Z) (STFH : string)
    (mySTH : option (list (string * list Z)))
    (Hwf : ndarray_wf Data) (Htyped : ndarray_typed Data) (Henc : encodable Data)
    (Hdtype : In (dtype Data) ["int32"; "int16"; "float32"; "int8"; "float64"])
    (Hnt : 1 <= snd (shape Data) < 2 ^ 31) (Hns : fst (shape Data) <= 65535)
    (Hdt : 0 <= dt <= 65535)
    (Hascii : is_ok (encode_ascii STFH) = true)
    (Hlen : (String.length STFH <= 3200)%nat)
    (Hsup : supplied_fits (user_entries mySTH) (snd (shape Data)))
    (Hnd : NoDup (map fst (user_entries mySTH))) :
  exists f SH TH,
    snd (writeSegy Data dt STFH mySTH) = Ok f /\
    readSegy f None true = Ok (None, SH, TH) /\
    (forall key d,
       schema_get STH_def key = Ok d -> key <> "GainType" -> key <> "ShotPoint" ->
       key <> "dt" \/ supplied (user_entries mySTH) "dt" = None ->
       TH !! key
       = Some (Array (map (fun a => VInt (prepared_cell (user_entries mySTH)
                                            (fst (shape Data)) dt key a))
                          (py_range (snd (shape Data)))))) /\
    (forall key, schema_get STH_def key = Err KeyError -> TH !! key = None).
Proof.
  destruct (roundtrip_format Data Hdtype) as (dsf & ct & Hfmt).
  destruct (encode_ascii_text STFH Hascii Hlen) as (text & Htext & Etext & Hltext).
  destruct (typed_fits Data dsf ct Hfmt Htyped Henc) as [Hfits _].
  destruct (writeSegy_facts Data dt STFH mySTH dsf ct text Hwf Hfits Hfmt Hnt Hns Hdt
              Htext Hltext Hsup Hnd)
    as (f & Hfile & Wlen & Wtext & Wdt & Wns & Wdsf & Wrev & Wfield & _).
  destruct (dtype_format_sample_ctype _ _ _ Hfmt) as [Hct Hcases].
  pose proof Hwf as (Hns0 & _ & _ & _).
  set (ns := fst (shape Data)) in *. set (nt := snd (shape Data)) in *.
  destruct (written_file_header f nt ns dt dsf ct Hct Hcases ltac:(lia) Hns0 Wlen
              Wns Wdsf Wrev) as (_ & Hb0 & Hget).
  destruct (read_SH_entries f nt (calcsize ct) Hb0) as (Kn & Ks & Kd & _ & Kb).
  rewrite Wns in Ks. rewrite Wdt in Kd.
  destruct (getSegyTraceHeaders_keyed _ f nt ns (calcsize ct) dt None Kn Ks Kb Kd
              ltac:(lia) Hns0 ltac:(rewrite Wlen; lia) STH_def_closed)
    as (TH & HTH & Hkeys).
  exists f. eexists. exists TH. split; [exact Hfile|]. split.
  { unfold readSegy. rewrite Hget. cbn iota beta. rewrite HTH. reflexivity. }
  cbn [TH_schema] in Hkeys. split.
  - intros key d Hget_d Hgain Hshot Hcase. rewrite Hkeys, Hget_d.
    assert (Hin : In (key, d) STH_def) by (apply schema_get_In; exact Hget_d).
    destruct (aligned_keys (key, d) Hin) as [_ Hal]. cbn [fst] in Hal.
    destruct (String.eqb_spec key "GainType"); [contradiction|].
    destruct (String.eqb_spec key "ShotPoint"); [contradiction|]. cbn in Hal.
    assert (Hback : forall j, 0 <= j < nt ->
              trace_field f (bytes_STH + ns * calcsize ct) d j
              = VInt (prepared_cell (user_entries mySTH) ns dt key j)).
    { intros j Hj. apply (Wfield j key d Hj Hget_d Hal). }
    unfold trace_column. do 2 f_equal.
    assert (Hmap : map (trace_field f (bytes_STH + ns * calcsize ct) d) (py_range nt)
                   = map (fun a => VInt (prepared_cell (user_entries mySTH) ns dt key a))
                         (py_range nt)).
    { apply map_ext_in. intros j Hj. apply elem_of_py_range in Hj. apply Hback. exact Hj. }
    destruct (String.eqb_spec key "dt") as [->|_]; cbn [andb]; [|exact Hmap].
    destruct Hcase as [Hne|Hnone]; [contradiction|].
    rewrite (Hback 0) by lia. unfold prepared_cell in *. rewrite Hnone in *.
    change (default_cell ns dt "dt" 0) with dt. cbn [value_is_zero].
    destruct (Z.eqb_spec dt 0) as [->|_]; [|exact Hmap].
    injection Hget_d as <-. reflexivity.
  - intros key Hnone. rewrite Hkeys, Hnone. reflexivity.
Qed.

Lemma trace_headers_roundtrip_witness :
  exists f SH TH,
    snd (writeSegy grid_i16_1x2 4000 "C 1 CLIENT" (Some mySTH_numbers)) = Ok f /\
    readSegy f None true = Ok (None, SH, TH) /\
    (forall key d,
       schema_get STH_def key = Ok d -> key <> "GainType" -> key <> "ShotPoint" ->
       key <> "dt" \/ supplied (user_entries (Some mySTH_numbers)) "dt" = None ->
       TH !! key
       = Some (Array (map (fun a => VInt (prepared_cell
                                            (user_entries (Some mySTH_numbers))
                                            (fst (shape grid_i16_1x2)) 4000 key a))
                          (py_range (snd (shape grid_i16_1x2)))))) /\
    (forall key, schema_get STH_def key = Err KeyError -> TH !! key = None).
Proof.
  destruct grid_i16_1x2_facts as (Hwf & Htyped & Henc & Hdtype & Hsup & Hnd).
  assert (Hnt : 1 <= snd (shape grid_i16_1x2) < 2 ^ 31) by (cbn; lia).
  assert (Hns : fst (shape grid_i16_1x2) <= 65535) by (cbn; lia).
  assert (Hlen : (String.length "C 1 CLIENT" <= 3200)%nat) by (cbn; lia).
  exact (trace_headers_roundtrip grid_i16_1x2 4000 "C 1 CLIENT" (Some mySTH_numbers)
           Hwf Htyped Henc Hdtype Hnt Hns ltac:(lia) eq_refl Hlen Hsup Hnd).
Defined.

(** ** What [writeSegy] rejects, and the file without traces *)

(** [writeSegy] up to the call of [writeSegyStructure]. *)
Lemma writeSegy_prepared (Data : ndarray) (dt : Z) (STFH : string)
    (mySTH : option (list (string * list Z))) (dsf : Z) (ct : ctype)
    (STH : gmap string (list value)) :
  dtype_format (dtype Data) = Some (dsf, ct) ->
  setSegyTraceHeaders mySTH (snd (shape Data)) (fst (shape Data)) dt = Ok STH ->
  snd (writeSegy Data dt STFH mySTH)
  = writeSegyStructure Data STFH
      (setSegyHeaders getDefaultSegyHeader (Some (snd (shape Data)))
         (Some (fst (shape Data))) (Some dt) (Some dsf)) STH.
Proof.
  intros Hfmt HSTH. unfold writeSegy.
  destruct (shape Data) as [ns nt]. cbn [fst snd] in *.
  pose proof (getDSF_fromDataType_ok Data dsf ct Hfmt) as HDSF.
  destruct (getDSF_fromDataType Data) as [warned r]. cbn [snd] in HDSF |- *. subst r.
  rewrite HSTH. reflexivity.
Qed.

(** [writeSegyStructure] up to the packing of the binary header. *)
Lemma writeSegyStructure_header (Data : ndarray) (STFH : string) (nt ns dt dsf : Z)
    (ct : ctype) (STH : gmap string (list value)) (text : list byte) :
  sample_ctype dsf = Ok ct ->
  ((dsf = 1 /\ calcsize ct = 4) \/ (dsf = 2 /\ calcsize ct = 4) \/
   (dsf = 3 /\ calcsize ct = 2) \/ (dsf = 5 /\ calcsize ct = 4) \/
   (dsf = 8 /\ calcsize ct = 1)) ->
  encode_ascii STFH = Ok text ->
  let SH := setSegyHeaders getDefaultSegyHeader (Some nt) (Some ns) (Some dt) (Some dsf) in
  writeSegyStructure Data STFH SH STH =
    (let! SH_ByteArray := pack_SH SH SH_def in
     let f := f_write (f_seek (f_write f_open_wb text) bytes_STFH) SH_ByteArray in
     let! f := write_traces f Data STH ns ct (bytes_STH + ns * calcsize ct)
                            (bytes_STFH + bytes_SBFH) (py_range nt) in
     Ok (contents f)).
Proof.
  intros Hct Hcases Htext SH.
  destruct (format_facts dsf (calcsize ct) ct Hct Hcases)
    as (name & descr & Hdescr & Hname & Hbpst & Hctype & _ & _ & _ & _).
  destruct (written_SH_lookups nt ns dt dsf) as (Knt & Kns & Kdt & Kdsf & Krev).
  fold SH in Knt, Kns, Kdt, Kdsf, Krev.
  unfold writeSegyStructure. rewrite Htext.
  unfold getRevisionNumber, dict_get. rewrite Krev, Kdsf, Knt, Kns.
  cbn [Z.eqb Pos.eqb]. rewrite Hdescr.
  destruct (pack_SH SH SH_def) as [H|]; [|reflexivity].
  cbn iota beta zeta. rewrite Hname, Hctype, Hbpst. reflexivity.
Qed.

(** The binary header cannot be packed when [dt] or [ns] is not an
    unsigned 16-bit number. *)
Lemma pack_SH_out_of_range (nt ns dt dsf : Z) :
  ~ 0 <= dt <= 65535 \/ ~ 0 <= ns <= 65535 ->
  pack_SH (setSegyHeaders getDefaultSegyHeader (Some nt) (Some ns) (Some dt) (Some dsf))
          SH_def = Err StructError.
Proof.
  intros Hout.
  set (SH := setSegyHeaders getDefaultSegyHeader (Some nt) (Some ns) (Some dt) (Some dsf)).
  destruct (pack_SH_ok SH (take 5 SH_def)) as (H1 & HP1 & _);
    [vm_compute; reflexivity|].
  destruct (pack_SH_ok SH [("dtOrig", mkField 3218 "uint16" None (Some 0))])
    as (H2 & HP2 & _); [vm_compute; reflexivity|].
  rewrite SH_def_split. rewrite !pack_SH_app. rewrite HP1, HP2.
  rewrite (pack_SH_single SH "dt" _ dt c_H) by reflexivity.
  rewrite (pack_SH_single SH "ns" _ ns c_H) by reflexivity.
  cbn [pack_one pack_int]. change (2 ^ 16 - 1) with 65535.
  destruct (Z.leb_spec 0 dt); [|reflexivity].
  destruct (Z.leb_spec dt 65535); [|reflexivity]. cbn [andb].
  destruct (Z.leb_spec 0 ns); [|reflexivity].
  destruct (Z.leb_spec ns 65535); [|reflexivity]. lia.
Qed.

(** X16.  The limits of the 16-bit header fields: [writeSegy] raises
    [struct.error] for every sample interval outside 0..65535 and for
    every grid of more than 65535 samples per trace (supported element
    type, ASCII text, placeable user-supplied values). *)
Theorem writeSegy_uint16_limits (Data : ndarray) (dt : Z) (STFH : string)
    (mySTH : option (list (string * list Z)))
    (Hdtype : In (dtype Data) ["int32"; "int16"; "float32"; "int8"; "float64"])
    (Hnt : 0 <= snd (shape Data) < 2 ^ 31)
    (Hns : 0 <= fst (shape Data) < 2 ^ 31)
    (Hdt : - 2 ^ 31 <= dt < 2 ^ 31)
    (Hascii : is_ok (encode_ascii STFH) = true)
    (Hsup : supplied_ok (user_entries mySTH) (snd (shape Data)))
    (Hout : dt < 0 \/ 65535 < dt \/ 65535 < fst (shape Data)) :
  snd (writeSegy Data dt STFH mySTH) = Err StructError.
Proof.
  destruct (roundtrip_format Data Hdtype) as (dsf & ct & Hfmt).
  destruct (dtype_format_sample_ctype _ _ _ Hfmt) as [Hct Hcases].
  destruct (setSegyTraceHeaders_cells mySTH (snd (shape Data)) (fst (shape Data)) dt
              ltac:(lia) Hsup) as (STH & HSTH & _).
  destruct (encode_ascii STFH) as [text|] eqn:Htext; [|discriminate Hascii].
  rewrite (writeSegy_prepared Data dt STFH mySTH dsf ct STH Hfmt HSTH).
  rewrite (writeSegyStructure_header Data STFH _ _ dt dsf ct STH text Hct Hcases Htext).
  rewrite pack_SH_out_of_range by lia. reflexivity.
Qed.

Lemma writeSegy_uint16_limits_witness :
  snd (writeSegy grid_i32_2x1 70000 "" None) = Err StructError.
Proof.
  apply (writeSegy_uint16_limits grid_i32_2x1 70000 "" None).
  - left; reflexivity.
  - cbn; lia.
  - cbn; lia.
  - lia.
  - reflexivity.
  - constructor.
  - right; left; lia.
Defined.

(** X17.  A textual header with a character outside ASCII makes
    [writeSegy] raise [UnicodeEncodeError], whatever the grid of a
    supported element type, after the float64 warning and before any
    header is packed (so also for a sample interval that does not fit). *)
Theorem writeSegy_non_ascii_text (Data : ndarray) (dt : Z) (STFH : string)
    (mySTH : option (list (string * list Z)))
    (Hdtype : In (dtype Data) ["int32"; "int16"; "float32"; "int8"; "float64"])
    (Hnt : 0 <= snd (shape Data) < 2 ^ 31)
    (Hns : 0 <= fst (shape Data) < 2 ^ 31)
    (Hdt : - 2 ^ 31 <= dt < 2 ^ 31)
    (Hsup : supplied_ok (user_entries mySTH) (snd (shape Data)))
    (Htext : existsb (fun b => 128 <=? byte_to_Z b) (list_byte_of_string STFH) = true) :
  writeSegy Data dt STFH mySTH
  = (if String.eqb (dtype Data) "float64"
     then ["Cast data type float64 to float32."] else [],
     Err UnicodeEncodeError).
Proof.
  destruct (roundtrip_format Data Hdtype) as (dsf & ct & Hfmt).
  destruct (setSegyTraceHeaders_cells mySTH (snd (shape Data)) (fst (shape Data)) dt
              ltac:(lia) Hsup) as (STH & HSTH & _).
  pose proof (writeSegy_prepared Data dt STFH mySTH dsf ct STH Hfmt HSTH) as Hsnd.
  assert (Hfst : fst (writeSegy Data dt STFH mySTH)
                 = if String.eqb (dtype Data) "float64"
                   then ["Cast data type float64 to float32."] else []).
  { unfold writeSegy. destruct (shape Data) as [ns nt].
    unfold getDSF_fromDataType. destruct (String.eqb (dtype Data) "float64"); reflexivity. }
  assert (Henc : encode_ascii STFH = Err UnicodeEncodeError).
  { unfold encode_ascii.
    destruct (forallb (fun b => byte_to_Z b <? 128) (list_byte_of_string STFH)) eqn:Hall;
      [|reflexivity].
    exfalso. apply existsb_exists in Htext as (b & Hb & Hge).
    rewrite forallb_forall in Hall. specialize (Hall b Hb).
    apply Z.leb_le in Hge. apply Z.ltb_lt in Hall. lia. }
  unfold writeSegyStructure in Hsnd. rewrite Henc in Hsnd.
  destruct (writeSegy Data dt STFH mySTH) as [w r]. cbn [fst snd] in *.
  subst. reflexivity.
Qed.

Lemma writeSegy_non_ascii_text_witness :
  writeSegy grid_f64_1x1 1000 (String (Ascii.ascii_of_nat 233) EmptyString) None
  = (["Cast data type float64 to float32."], Err UnicodeEncodeError).
Proof.
  apply (writeSegy_non_ascii_text grid_f64_1x1 1000
           (String (Ascii.ascii_of_nat 233) EmptyString) None).
  - do 4 right; left; reflexivity.
  - cbn; lia.
  - cbn; lia.
  - lia.
  - constructor.
  - reflexivity.
Defined.

(** X18.  A grid without traces (shape [(ns, 0)]) is written as a file
    of 3268 bytes: the text, zero bytes up to 3200 and the 68 packed bytes
    of the binary header, with nothing up to byte 3600.  None of the
    readers can read that file back: [getSegyHeader] raises
    [struct.error] on it. *)
Theorem writeSegy_no_traces (Data : ndarray) (dt : Z) (STFH : string)
    (mySTH : option (list (string * list Z)))
    (Hdtype : In (dtype Data) ["int32"; "int16"; "float32"; "int8"; "float64"])
    (Hnt : snd (shape Data) = 0)
    (Hns : 0 <= fst (shape Data) <= 65535) (Hdt : 0 <= dt <= 65535)
    (Hascii : is_ok (encode_ascii STFH) = true)
    (Hlen : (String.length STFH <= 3200)%nat) :
  exists f H,
    snd (writeSegy Data dt STFH mySTH) = Ok f /\
    f = list_byte_of_string STFH ++ replicate (3200 - String.length STFH) Byte.x00 ++ H /\
    length H = 68%nat /\ length f = 3268%nat /\
    getSegyHeader f = Err StructError /\
    (forall TH_dict TH_only, readSegy f TH_dict TH_only = Err StructError) /\
    (forall TH_dict itrace, readSegyTrace f TH_dict itrace = Err StructError).
Proof.
  destruct (roundtrip_format Data Hdtype) as (dsf & ct & Hfmt).
  destruct (dtype_format_sample_ctype _ _ _ Hfmt) as [Hct Hcases].
  destruct (encode_ascii_text STFH Hascii Hlen) as (text & Htext & Etext & Hltext).
  assert (HSTH : exists STH,
            setSegyTraceHeaders mySTH (snd (shape Data)) (fst (shape Data)) dt = Ok STH).
  { rewrite Hnt. destruct mySTH as [m|].
    - rewrite setSegyTraceHeaders_no_traces.
      destruct (setSegyTraceHeaders_holds 0 (fst (shape Data)) dt ltac:(lia))
        as (STH & HS & _). eauto.
    - destruct (setSegyTraceHeaders_holds 0 (fst (shape Data)) dt ltac:(lia))
        as (STH & HS & _). eauto. }
  destruct HSTH as [STH HSTH].
  destruct (pack_SH_written (snd (shape Data)) (fst (shape Data)) dt dsf
              Hns Hdt ltac:(lia))
    as (H1 & H2 & H3 & H4 & HH & HL1 & HL2 & HL3 & HL4).
  cbn zeta in HH. set (Hdr := H1 ++ _) in HH.
  assert (HlH : length Hdr = 68%nat).
  { unfold Hdr. rewrite !length_app, !length_bytes_of_uint. lia. }
  set (f := text ++ replicate (3200 - length text) Byte.x00 ++ Hdr).
  assert (Hfile : snd (writeSegy Data dt STFH mySTH) = Ok f).
  { rewrite (writeSegy_prepared Data dt STFH mySTH dsf ct STH Hfmt HSTH).
    rewrite (writeSegyStructure_header Data STFH _ _ dt dsf ct STH text Hct Hcases Htext).
    rewrite HH. cbn iota beta zeta. rewrite Hnt.
    change (py_range 0) with (@nil Z). cbn [write_traces]. f_equal.
    rewrite f_write_append.
    - cbn [f_seek contents fpos]. rewrite f_write_open. reflexivity.
    - intros E. rewrite E in HlH. discriminate HlH.
    - cbn [f_seek fpos]. unfold bytes_STFH. lia.
    - cbn [f_seek contents fpos]. rewrite f_write_open. unfold bytes_STFH. lia. }
  assert (Hlf : length f = 3268%nat).
  { unfold f. rewrite !length_app, length_replicate, HlH. lia. }
  assert (Hhdr : getSegyHeader f = Err StructError).
  { unfold getSegyHeader.
    rewrite (getSegyHeader_fields_short f 3508 SH_def SH_def_within); [reflexivity|].
    apply List.Exists_exists.
    exists ("Unassigned2", mkField 3506 "int16" (Some 47) (Some 0)).
    split; [vm_compute; auto 40|].
    cbn [snd f_pos]. change (calcsize (field_ctype _)) with 2. lia. }
  exists f, Hdr. split; [exact Hfile|].
  split; [unfold f; rewrite Etext, length_list_byte_of_string; reflexivity|].
  split; [exact HlH|]. split; [exact Hlf|]. split; [exact Hhdr|]. split.
  - intros TH_dict TH_only. unfold readSegy. rewrite Hhdr. reflexivity.
  - intros TH_dict itrace. unfold readSegyTrace. rewrite Hhdr. reflexivity.
Qed.

Lemma writeSegy_no_traces_witness :
  exists f H,
    snd (writeSegy grid_i16_2x0 1000 "" None) = Ok f /\
    f = list_byte_of_string "" ++ replicate (3200 - String.length "") Byte.x00 ++ H /\
    length H = 68%nat /\ length f = 3268%nat /\
    getSegyHeader f = Err StructError /\
    (forall TH_dict TH_only, readSegy f TH_dict TH_only = Err StructError) /\
    (forall TH_dict itrace, readSegyTrace f TH_dict itrace = Err StructError).
Proof.
  apply (writeSegy_no_traces grid_i16_2x0 1000 "" None).
  - right; left; reflexivity.
  - reflexivity.
  - cbn; lia.
  - lia.
  - reflexivity.
  - cbn; lia.
Defined.

(** ** Double-precision grids *)

Lemma mapM_map {A B C} (f : B -> result C) (g : A -> B) (l : list A) :
  mapM f (map g l) = mapM (fun x => f (g x)) l.
Proof.
  induction l as [|x l IH]; [reflexivity|]. cbn [map mapM]. rewrite IH. reflexivity.
Qed.

Lemma mapM_ext_in {A B} (f g : A -> result B) (l : list A) :
  (forall x, In x l -> f x = g x) -> mapM f l = mapM g l.
Proof.
  induction l as [|x l IH]; intros H; [reflexivity|].
  cbn [mapM]. rewrite (H x (or_introl eq_refl)), IH; [reflexivity|].
  intros y Hy. apply H. right. exact Hy.
Qed.

Lemma mapM_then_map {A B C} (f : A -> result B) (g : B -> C) (l : list A) :
  mapM (fun x => let! y := f x in Ok (g y)) l
  = (let! ys := mapM f l in Ok (map g ys)).
Proof.
  induction l as [|x l IH]; [reflexivity|]. cbn [mapM]. rewrite IH.
  destruct (f x); [|reflexivity]. destruct (mapM f l); reflexivity.
Qed.

Lemma seq_get_map {A B} (g : A -> B) (l : list A) (i : Z) :
  seq_get (map g l) i = (let! v := seq_get l i in Ok (g v)).
Proof.
  unfold seq_get. destruct (i <? 0); [reflexivity|].
  rewrite list_lookup_fmap. destruct (l !! Z.to_nat i); reflexivity.
Qed.

(** A column of the converted grid is the converted column. *)
Lemma ndarray_col_astype (Data : ndarray) (j : Z) :
  ndarray_col (ndarray_astype_float32 Data) j
  = (let! c := ndarray_col Data j in Ok (map astype_float32 c)).
Proof.
  unfold ndarray_col, ndarray_astype_float32. cbn [shape rows].
  destruct ((j <? 0) || (snd (shape Data) <=? j)); [reflexivity|].
  rewrite mapM_map. rewrite <- mapM_then_map.
  apply mapM_ext_in. intros row _. apply seq_get_map.
Qed.

Lemma mapM_length_eq {A B} (f : A -> result B) (l : list A) (r : list B) :
  mapM f l = Ok r -> length r = length l.
Proof. apply mapM_length. Qed.

(** Doubles in the single-precision range pack as their conversion. *)
Lemma struct_pack_astype (n : Z) (col : list value) :
  Forall (fun v => exists b, v = VF64 b /\ f64_overflows_f32 b = false) col ->
  struct_pack (fmt_counted endian n c_f) (map astype_float32 col)
  = struct_pack (fmt_counted endian n c_f) col.
Proof.
  intros Hall. unfold struct_pack.
  cbn [fmt_ok fmt_counted fmt_count fmt_order fmt_code]. rewrite length_map.
  destruct (negb (0 <=? n)); [reflexivity|].
  destruct (negb (Z.of_nat (length col) =? n)); [reflexivity|].
  rewrite mapM_map.
  rewrite (mapM_ext_in (fun x => pack_one endian c_f (astype_float32 x))
             (pack_one endian c_f) col); [reflexivity|].
  intros v Hv. rewrite List.Forall_forall in Hall.
  destruct (Hall v Hv) as (b & -> & Hno). cbn [astype_float32 pack_one].
  rewrite Hno, f64_to_f32_quiet. reflexivity.
Qed.

Lemma float64_typed_column (Data : ndarray) (j : Z) (c : list value) :
  dtype Data = "float64" -> ndarray_typed Data -> encodable Data ->
  ndarray_col Data j = Ok c ->
  Forall (fun v => exists b, v = VF64 b /\ f64_overflows_f32 b = false) c.
Proof.
  intros Hdt Htyped Henc. unfold ndarray_col.
  destruct ((j <? 0) || (snd (shape Data) <=? j)); [discriminate|].
  unfold ndarray_typed, encodable in *. rewrite Hdt in Htyped.
  revert c. induction (rows Data) as [|row rs IH]; intros c Hc.
  - injection Hc as <-. constructor.
  - cbn [mapM] in Hc. apply Forall_cons in Htyped as [Hrow Htyped].
    apply Forall_cons in Henc as [Erow Henc].
    destruct (seq_get row j) as [v|] eqn:Hv; [|discriminate Hc].
    destruct (mapM _ rs) as [c'|]; [|discriminate Hc].
    injection Hc as <-. constructor; [|apply IH; auto].
    unfold seq_get in Hv. destruct (j <? 0); [discriminate Hv|].
    destruct (row !! Z.to_nat j) as [v'|] eqn:Hl; [|discriminate Hv].
    injection Hv as ->. apply list_elem_of_lookup_2, list_elem_of_In in Hl.
    rewrite List.Forall_forall in Hrow, Erow.
    specialize (Hrow v Hl). specialize (Erow v Hl).
    destruct v as [z|b|b|ch]; cbn [dtype_has] in Hrow.
    + destruct Hrow as [[H _]|[[H _]|[[H _]|[H _]]]]; discriminate H.
    + destruct Hrow as [H _]. discriminate H.
    + exists b. split; [reflexivity|exact Erow].
    + destruct Hrow.
Qed.

Lemma write_traces_astype (Data : ndarray) (STH : gmap string (list value)) (ns tbs : Z)
    (todo : list Z) :
  dtype Data = "float64" -> ndarray_typed Data -> encodable Data ->
  forall (f : file) (index : Z),
    write_traces f (ndarray_astype_float32 Data) STH ns c_f tbs index todo
    = write_traces f Data STH ns c_f tbs index todo.
Proof.
  intros Hdt Htyped Henc. induction todo as [|j todo IH]; intros f index; [reflexivity|].
  cbn [write_traces]. destruct (pack_STH STH j STH_def) as [h|]; [|reflexivity].
  rewrite ndarray_col_astype.
  destruct (ndarray_col Data j) as [c|] eqn:Hc; [|reflexivity].
  cbn iota beta.
  rewrite (struct_pack_astype ns c (float64_typed_column Data j c Hdt Htyped Henc Hc)).
  destruct (struct_pack _ c); [|reflexivity]. apply IH.
Qed.

(** X19.  Writing a float64 grid whose values are all in the
    single-precision range gives, after the warning, byte for byte the
    file of the grid converted to float32 - and the same error when the
    write fails.  (The conversion that [getDSF_fromDataType] makes is
    not the one that reaches the file: [struct.pack] converts again.) *)
Theorem writeSegy_float64_as_float32 (Data : ndarray) (dt : Z) (STFH : string)
    (mySTH : option (list (string * list Z)))
    (Hdtype : dtype Data = "float64")
    (Htyped : ndarray_typed Data) (Henc : encodable Data) :
  writeSegy Data dt STFH mySTH
  = (["Cast data type float64 to float32."],
     snd (writeSegy (ndarray_astype_float32 Data) dt STFH mySTH)) /\
  fst (writeSegy (ndarray_astype_float32 Data) dt STFH mySTH) = [].
Proof.
  unfold writeSegy. cbn [ndarray_astype_float32 shape].
  destruct (shape Data) as [ns nt].
  unfold getDSF_fromDataType. rewrite Hdtype.
  cbn [dtype ndarray_astype_float32 String.eqb Ascii.eqb Bool.eqb fst snd].
  split; [|reflexivity]. f_equal.
  destruct (setSegyTraceHeaders mySTH nt ns dt) as [STH|]; [|reflexivity].
  destruct (encode_ascii STFH) as [text|] eqn:Htext.
  - assert (Hct : sample_ctype 5 = Ok c_f) by reflexivity.
    assert (Hcases : (5 = 1 /\ calcsize c_f = 4) \/ (5 = 2 /\ calcsize c_f = 4) \/
                     (5 = 3 /\ calcsize c_f = 2) \/ (5 = 5 /\ calcsize c_f = 4) \/
                     (5 = 8 /\ calcsize c_f = 1)) by (do 3 right; left; split; reflexivity).
    rewrite (writeSegyStructure_header Data STFH nt ns dt 5 c_f STH text Hct Hcases Htext).
    rewrite (writeSegyStructure_header _ STFH nt ns dt 5 c_f STH text Hct Hcases Htext).
    cbn zeta. destruct (pack_SH _ SH_def) as [H|]; [|reflexivity].
    cbn iota beta.
    rewrite (write_traces_astype Data STH ns _ (py_range nt) Hdtype Htyped Henc).
    reflexivity.
  - unfold writeSegyStructure. rewrite Htext. reflexivity.
Qed.

Lemma writeSegy_float64_as_float32_witness :
  writeSegy grid_f64_1x1 1000 "SEG-Y" None
  = (["Cast data type float64 to float32."],
     snd (writeSegy (ndarray_astype_float32 grid_f64_1x1) 1000 "SEG-Y" None)) /\
  fst (writeSegy (ndarray_astype_float32 grid_f64_1x1) 1000 "SEG-Y" None) = [].
Proof.
  apply (writeSegy_float64_as_float32 grid_f64_1x1 1000 "SEG-Y" None).
  - reflexivity.
  - repeat constructor; try (vm_compute; congruence).
  - repeat constructor; try (vm_compute; reflexivity).
Defined.

(** * IBM floats, the header tables and the prepared file header *)

(** ** The IBM branch of [getValue] *)

Lemma ibm2ieee_length (bs : list byte) :
  (length bs = 4%nat -> exists q, ibm2ieee bs = Ok q) /\
  (length bs <> 4%nat -> ibm2ieee bs = Err StructError).
Proof.
  split.
  - intros Hl. destruct bs as [|s [|a [|b [|c [|x bs]]]]]; try discriminate Hl.
    destruct (ibm2ieee_value s a b c) as (q & Hq & _). eauto.
  - intros Hl. unfold ibm2ieee, bytes_eq_int, struct_unpack.
    cbn [fmt_ok fmt_repeat fmt_count fmt_code fmt_order negb calcsize].
    destruct (Z.eqb_spec (Z.of_nat (length bs)) (Z.max 0 4 * 1)) as [Heq|_];
      [lia|reflexivity].
Qed.

(** One round of the IBM loop. *)
Lemma ibm_round (data : list byte) (index i : Z) :
  0 <= index -> 0 <= i ->
  (let! x := ibm2ieee (py_slice data (i * 4 + index) (i * 4 + index + 4)) in
   Ok (VF32 (f32_of_dyadic x)))
  = if index + 4 * (i + 1) <=? Z.of_nat (length data)
    then Ok (ibm_item data (index + 4 * i))
    else Err StructError.
Proof.
  intros Hindex Hi.
  destruct (Z.leb_spec (index + 4 * (i + 1)) (Z.of_nat (length data))) as [Hin|Hout].
  - rewrite py_slice_take_drop by lia.
    replace (i * 4 + index + 4 - (i * 4 + index)) with 4 by lia.
    change (Z.to_nat 4) with 4%nat.
    replace (i * 4 + index) with (index + 4 * i) by lia. unfold ibm_item.
    destruct (proj1 (ibm2ieee_length (take 4 (drop (Z.to_nat (index + 4 * i)) data))))
      as [q ->]; [|reflexivity].
    rewrite length_take, length_drop. lia.
  - rewrite (proj2 (ibm2ieee_length _)); [reflexivity|].
    intros Hl. apply (f_equal Z.of_nat) in Hl.
    rewrite length_py_slice_short in Hl by lia. lia.
Qed.

(** X20.  The IBM branch of [getValue]: within the buffer it returns
    [number] float32 items, the conversions of the four bytes at [index],
    [index + 4], ... (a scalar when [number] is 1), for blocks other than
    a zero with the sign bit set; the byte order argument plays no part; a
    request that ends past the end of the buffer is a [struct.error] and a
    negative [number] numpy's [ValueError]. *)
Theorem getValue_ibm (data : list byte) (index : Z) (e : byteorder) (number : Z) :
  (0 <= index -> 0 <= number -> index + 4 * number <= Z.of_nat (length data) ->
   (forall i, 0 <= i < number -> ibm_negative_zero data (index + 4 * i) = false) ->
   getValue data index "ibm" e number
   = Ok (if number =? 1 then Scalar (ibm_item data index)
         else Array (map (fun i => ibm_item data (index + 4 * i)) (py_range number)))) /\
  (0 <= index -> 1 <= number -> Z.of_nat (length data) < index + 4 * number ->
   getValue data index "ibm" e number = Err StructError) /\
  (number < 0 ->
   getValue data index "ibm" e number
   = Err (ValueError "negative dimensions are not allowed")).
Proof.
  unfold getValue. cbn [String.eqb Ascii.eqb Bool.eqb].
  split; [|split].
  - intros Hindex Hnumber Hlen _.
    destruct (Z.ltb_spec number 0); [lia|].
    rewrite (mapM_ok _ (fun i => ibm_item data (index + 4 * i))).
    + destruct (Z.eqb_spec number 1) as [->|_]; [|reflexivity].
      change (py_range 1) with [0]. cbn [map]. change (4 * 0) with 0.
      rewrite Z.add_0_r. reflexivity.
    + apply List.Forall_forall. intros i Hi. apply elem_of_py_range in Hi.
      cbn beta zeta. rewrite (ibm_round data index i) by lia.
      destruct (Z.leb_spec (index + 4 * (i + 1)) (Z.of_nat (length data)));
        [reflexivity|lia].
  - intros Hindex Hnumber Hshort.
    destruct (Z.ltb_spec number 0); [lia|].
    rewrite (mapM_err _ (py_range number) StructError); [reflexivity| |].
    + apply List.Forall_forall. intros i Hi. apply elem_of_py_range in Hi.
      cbn beta zeta. rewrite (ibm_round data index i) by lia.
      destruct (_ <=? _); eauto.
    + apply List.Exists_exists. exists (number - 1).
      split; [apply elem_of_py_range; lia|].
      cbn beta zeta. rewrite (ibm_round data index (number - 1)) by lia.
      destruct (Z.leb_spec (index + 4 * (number - 1 + 1)) (Z.of_nat (length data)));
        [lia|reflexivity].
  - intros Hneg. destruct (Z.ltb_spec number 0); [reflexivity|lia].
Qed.

(** ** The sample-format tables and the prepared file header *)

Lemma getRevisionNumber_cases (SH : gmap string Z) :
  getRevisionNumber SH = Ok 1 ->
  exists r, SH !! "SegyFormatRevisionNumber" = Some r /\ In r [0; 100; 1; 256].
Proof.
  unfold getRevisionNumber, dict_get.
  destruct (SH !! "SegyFormatRevisionNumber") as [r|]; [|discriminate].
  intros H. exists r. split; [reflexivity|]. cbn [In].
  destruct (Z.eqb_spec r 0) as [E|_]; [subst r; tauto|].
  destruct (Z.eqb_spec r 100) as [E|_]; [subst r; tauto|].
  destruct (Z.eqb_spec r 1) as [E|_]; [subst r; tauto|].
  destruct (Z.eqb_spec r 256) as [E|_]; [subst r; tauto|].
  discriminate H.
Qed.

Lemma getBytePerSample_errors (SH : gmap string Z) (e : exn) :
  getBytePerSample SH = Err e ->
  e = KeyError \/ e = ValueError "Unknown revno number:".
Proof.
  unfold getBytePerSample.
  destruct (getRevisionNumber SH) as [r|e0] eqn:Hr.
  - unfold table_get, dict_get.
    destruct (SH !! "DataSampleFormat"); [|intros [= <-]; left; reflexivity].
    destruct (DataSampleFormat_bps !! r); [|intros [= <-]; left; reflexivity].
    destruct (_ !! _); [discriminate|intros [= <-]; left; reflexivity].
  - intros [= <-]. unfold getRevisionNumber, dict_get in Hr.
    destruct (SH !! "SegyFormatRevisionNumber");
      [|injection Hr as <-; left; reflexivity].
    repeat (destruct (_ =? _); [discriminate Hr|]).
    injection Hr as <-. right. reflexivity.
Qed.

(** X21.  Whenever [getBytePerSample] accepts a header, the revision is
    one of 0, 100, 1, 256 and the format code one of 1, 2, 3, 5, 8; the
    type table has an entry for the code, the number of bytes returned is
    the item size of that type (4 for IBM floats) and it divides the 240
    bytes of a trace header.  Every other header is rejected with a
    [KeyError] or the [ValueError] of an unknown revision. *)
Theorem getBytePerSample_outcome (SH : gmap string Z) :
  match getBytePerSample SH with
  | Ok bps =>
      exists rev dsf name,
        SH !! "SegyFormatRevisionNumber" = Some rev /\ In rev [0; 100; 1; 256] /\
        SH !! "DataSampleFormat" = Some dsf /\ In dsf format_codes /\
        table_get DataSampleFormat_datatype 1 dsf = Ok name /\
        (if String.eqb name "ibm" then bps = 4
         else dtype2csize !! name = Some bps) /\
        Z.quot bytes_STH bps * bps = bytes_STH
  | Err e => e = KeyError \/ e = ValueError "Unknown revno number:"
  end.
Proof.
  destruct (getBytePerSample SH) as [bps|e] eqn:Hbps;
    [|exact (getBytePerSample_errors SH e Hbps)].
  destruct (getBytePerSample_cases SH bps Hbps) as (Hrev & dsf & Hdsf & Hc).
  destruct (getRevisionNumber_cases SH Hrev) as (rev & Hr & Hin).
  exists rev, dsf.
  destruct Hc as [[-> ->]|[[-> ->]|[[-> ->]|[[-> ->]|[-> ->]]]]];
    eexists; (split; [exact Hr|]); (split; [exact Hin|]); (split; [exact Hdsf|]);
    (split; [unfold format_codes; cbn; tauto|]); (split; [reflexivity|]);
    split; reflexivity.
Qed.

Lemma getDefaultSegyHeader_lookup (key : string) :
  getDefaultSegyHeader !! key
  = match schema_get SH_def key with
    | Ok d => Some (field_default d)
    | Err _ => None
    end.
Proof.
  change getDefaultSegyHeader with (schema_map field_default SH_def ∅).
  rewrite schema_map_lookup by apply SH_def_keys_distinct.
  destruct (schema_get SH_def key); reflexivity.
Qed.

Lemma setSegyHeaders_lookup (SH : gmap string Z) (ntraces ns dt dsf : option Z)
    (key : string) :
  setSegyHeaders SH ntraces ns dt dsf !! key
  = match header_override ntraces ns dt dsf key with
    | Some v => Some v
    | None => SH !! key
    end.
Proof.
  unfold setSegyHeaders, header_override.
  destruct (String.eqb_spec key "DataSampleFormat") as [->|H1].
  { destruct dsf; [apply lookup_insert_eq|].
    destruct dt, ns, ntraces; rewrite ?lookup_insert_ne by discriminate;
      reflexivity. }
  assert (E1 : forall m : gmap string Z,
    match dsf with Some v => <["DataSampleFormat" := v]> m | None => m end !! key
    = m !! key).
  { intros m. destruct dsf; [apply lookup_insert_ne; congruence|reflexivity]. }
  rewrite E1. clear E1.
  destruct (String.eqb_spec key "dt") as [->|H2].
  { destruct dt; [apply lookup_insert_eq|].
    destruct ns, ntraces; rewrite ?lookup_insert_ne by discriminate; reflexivity. }
  assert (E2 : forall m : gmap string Z,
    match dt with Some v => <["dt" := v]> m | None => m end !! key = m !! key).
  { intros m. destruct dt; [apply lookup_insert_ne; congruence|reflexivity]. }
  rewrite E2. clear E2.
  destruct (String.eqb_spec key "ns") as [->|H3].
  { destruct ns; [apply lookup_insert_eq|].
    destruct ntraces; rewrite ?lookup_insert_ne by discriminate; reflexivity. }
  assert (E3 : forall m : gmap string Z,
    match ns with Some v => <["ns" := v]> m | None => m end !! key = m !! key).
  { intros m. destruct ns; [apply lookup_insert_ne; congruence|reflexivity]. }
  rewrite E3. clear E3.
  destruct (String.eqb_spec key "ntraces") as [->|H4].
  { destruct ntraces; [apply lookup_insert_eq|reflexivity]. }
  destruct ntraces; [apply lookup_insert_ne; congruence|reflexivity].
Qed.

(** X22.  The file header that the writer prepares, [setSegyHeaders]
    applied to [getDefaultSegyHeader()]: a key holds the value passed for
    it when one is passed (ntraces, ns, dt, DataSampleFormat), otherwise
    the default of its [SH_def] entry, zero when the entry has none; no
    other key is present, and "ntraces" only when it is passed. *)
Theorem prepared_file_header (ntraces ns dt dsf : option Z) (key : string) :
  setSegyHeaders getDefaultSegyHeader ntraces ns dt dsf !! key
  = match header_override ntraces ns dt dsf key with
    | Some v => Some v
    | None =>
        match schema_get SH_def key with
        | Ok d => Some (field_default d)
        | Err _ => None
        end
    end.
Proof.
  rewrite setSegyHeaders_lookup, getDefaultSegyHeader_lookup. reflexivity.
Qed.
